(** * Document Operations MCP server: a shallow embedding of [server.py]

    The tool handlers of [claude_document_mcp/server.py] are embedded as
    state-passing functions over an explicit world (filesystem, trash, log).
    Python values that arrive as JSON are values of [pyval]; Python
    exceptions are values of [exn] and a computation either returns or
    raises ([result]).  Third-party behaviour that the repository does not
    contain (the JSON parser, pandas, the Word renderer behind docx2pdf,
    the treatment of dynamically ill-typed arguments) is taken as a
    parameter of the development. *)

From Stdlib Require Import ZArith String Ascii List Bool Lia.
From Stdlib Require Import DecimalString DecimalZ.
From stdpp Require Import base option list strings.

Set Warnings "-register-all,-notation-for-abbreviation".

Local Open Scope Z_scope.
Local Open Scope string_scope.

(** ** Python values and exceptions *)

(** JSON-shaped Python values.  Dictionaries keep insertion order, as
    Python's do. *)
Inductive pyval : Type :=
| PNone
| PBool (b : bool)
| PInt (z : Z)
| PStr (s : string)
| PList (l : list pyval)
| PDict (kv : list (string * pyval)).

(** The classes of [Exception] the handlers can meet. *)
Inductive exn_class : Type :=
| FileNotFoundError | FileExistsError | IsADirectoryError
| NotADirectoryError | PermissionError | OSError
| ValueError | TypeError | KeyError | IndexError | AttributeError
| JSONDecodeError | BadZipFile | ParseError | NotImplementedError
| LibraryError (name : string).

(** An exception instance: its class and [str(e)]. *)
Record exn : Type := Exn { exn_cls : exn_class; exn_str : string }.

Inductive result (A : Type) : Type :=
| Ok (a : A)
| Raise (e : exn).
Arguments Ok {A} a.
Arguments Raise {A} e.

Definition rbind {A B} (r : result A) (k : A -> result B) : result B :=
  match r with
  | Ok a => k a
  | Raise e => Raise e
  end.

Declare Scope py_scope.
Delimit Scope py_scope with py.
Notation "x <- r ;; k" := (rbind r (fun x => k))
  (at level 100, r at next level, right associativity) : py_scope.
Notation "r ;;; k" := (rbind r (fun _ => k))
  (at level 100, right associativity) : py_scope.
Local Open Scope py_scope.

Definition is_ok {A} (r : result A) : bool :=
  match r with Ok _ => true | Raise _ => false end.

(** [isinstance(e, PermissionError)] *)
Definition is_PermissionError (e : exn) : bool :=
  match exn_cls e with PermissionError => true | _ => false end.

(** ** Strings *)

Definition string_of_Z (z : Z) : string := NilZero.string_of_int (Z.to_int z).

Fixpoint assoc {A} (k : string) (l : list (string * A)) : option A :=
  match l with
  | [] => None
  | (k', v) :: l' => if String.eqb k k' then Some v else assoc k l'
  end.

(** [d.get(k)] and [d.get(k, default)] on a dictionary. *)
Definition dict_get (k : string) (d : list (string * pyval)) : option pyval :=
  assoc k d.

Definition dict_get_or (k : string) (default : pyval)
    (d : list (string * pyval)) : pyval :=
  match assoc k d with Some v => v | None => default end.

(** Python truthiness. *)
Definition py_truthy (v : pyval) : bool :=
  match v with
  | PNone => false
  | PBool b => b
  | PInt z => negb (Z.eqb z 0)
  | PStr s => negb (String.eqb s "")
  | PList l => match l with [] => false | _ => true end
  | PDict kv => match kv with [] => false | _ => true end
  end.

(** [v == s] for a string literal [s]. *)
Definition py_eq_str (v : pyval) (s : string) : bool :=
  match v with PStr t => String.eqb t s | _ => false end.

(** [s.split(sep)] for a one-character separator: never empty. *)
Fixpoint split_on (sep : ascii) (s : string) : list string :=
  match s with
  | EmptyString => [EmptyString]
  | String c s' =>
      if Ascii.eqb c sep then EmptyString :: split_on sep s'
      else match split_on sep s' with
           | [] => [String c EmptyString]
           | h :: t => String c h :: t
           end
  end.

(** The whitespace of ASCII.  On a text of ASCII characters these are
    the characters [str.strip()] removes; beyond ASCII Python also
    removes the other whitespace of Unicode, which the statements that
    depend on it leave out by their hypotheses. *)
Definition is_space (c : ascii) : bool :=
  let n := nat_of_ascii c in
  ((9 <=? n) && (n <=? 13) || (28 <=? n) && (n <=? 32))%nat.

Fixpoint lstrip (s : string) : string :=
  match s with
  | EmptyString => EmptyString
  | String c s' => if is_space c then lstrip s' else s
  end.

Fixpoint rstrip (s : string) : string :=
  match s with
  | EmptyString => EmptyString
  | String c s' =>
      match rstrip s' with
      | EmptyString => if is_space c then EmptyString else String c EmptyString
      | r => String c r
      end
  end.

Definition py_strip (s : string) : string := rstrip (lstrip s).

Fixpoint starts_with (p s : string) : bool :=
  match p, s with
  | EmptyString, _ => true
  | String a p', String b s' => Ascii.eqb a b && starts_with p' s'
  | String _ _, EmptyString => false
  end.

(** [needle in hay] on strings. *)
Fixpoint contains (needle hay : string) : bool :=
  starts_with needle hay ||
  match hay with
  | EmptyString => false
  | String _ hay' => contains needle hay'
  end.

Definition ends_with (suffix s : string) : bool :=
  let n := String.length s in
  let k := String.length suffix in
  (k <=? n)%nat && String.eqb (String.substring (n - k) k s) suffix.

(** ** Files and the filesystem *)

(** An element of an XML tree as [xml.etree] and [lxml] expose it: tag,
    attributes, text and children in document order.  Tags and attribute
    names are written with the [w:] prefix of the WordprocessingML
    namespace. *)
Inductive xml : Type :=
| Elem (tag : string) (attrs : list (string * string)) (text : string)
       (children : list xml).

(** A member of a zip archive: a well-formed XML document or other data. *)
Inductive part : Type :=
| PXml (root : xml)
| PRaw (data : string).

(** An openpyxl worksheet: the cells that hold a value, by (row, column). *)
Definition sheet : Type := list (Z * Z * pyval).
Definition workbook : Type := list (string * sheet).

(** A reportlab page: the strings drawn on it with their positions. *)
Definition pdf_page : Type := list (Z * Z * string).

(** What a regular file holds. *)
Inductive content : Type :=
| CText (s : string)
| CZip (parts : list (string * part))
| CXlsx (wb : workbook)
| CPdf (pages : list pdf_page)
| CBytes (data : string).

Inductive node : Type :=
| File (c : content)
| Dir (entries : list (string * node)).

(** The process environment the handlers run in.  [fs] lists the entries
    of the root directory; [trash] is the recycle bin of send2trash; [log]
    is what the module's logger has written.  The tree [fs] is the part
    of the file system the tools are asked to work on: the directory the
    platform keeps its recycle bin in and the file [logs/document_mcp.log]
    of the logger are kept apart from it, as [trash] and [log], and no
    path of the tree names them. *)
Record world : Type := World {
  fs : list (string * node);
  cwd : list string;
  trash : list (list string * node);
  log : list string
}.

Definition root (w : world) : node := Dir (fs w).

Definition set_fs (w : world) (es : list (string * node)) : world :=
  {| fs := es; cwd := cwd w; trash := trash w; log := log w |}.

Fixpoint set_entry {A} (k : string) (v : A) (l : list (string * A))
  : list (string * A) :=
  match l with
  | [] => [(k, v)]
  | (k', v') :: l' =>
      if String.eqb k k' then (k, v) :: l' else (k', v') :: set_entry k v l'
  end.

Definition remove_entry {A} (k : string) (l : list (string * A))
  : list (string * A) :=
  List.filter (fun kv => negb (String.eqb k (fst kv))) l.

Fixpoint lookup_node (n : node) (p : list string) {struct p} : option node :=
  match p with
  | [] => Some n
  | c :: p' =>
      match n with
      | Dir es =>
          match assoc c es with
          | Some n' => lookup_node n' p'
          | None => None
          end
      | File _ => None
      end
  end.

(** Bind the node [x] at path [p]; the parent must be a directory. *)
Fixpoint put_node (n : node) (p : list string) (x : node) {struct p}
  : option node :=
  match p with
  | [] => None
  | c :: p' =>
      match n with
      | Dir es =>
          match p' with
          | [] => Some (Dir (set_entry c x es))
          | _ :: _ =>
              match assoc c es with
              | Some n' =>
                  match put_node n' p' x with
                  | Some n'' => Some (Dir (set_entry c n'' es))
                  | None => None
                  end
              | None => None
              end
          end
      | File _ => None
      end
  end.

(** Unlink the entry at path [p]. *)
Fixpoint del_node (n : node) (p : list string) {struct p} : option node :=
  match p with
  | [] => None
  | c :: p' =>
      match n with
      | Dir es =>
          match p' with
          | [] =>
              match assoc c es with
              | Some _ => Some (Dir (remove_entry c es))
              | None => None
              end
          | _ :: _ =>
              match assoc c es with
              | Some n' =>
                  match del_node n' p' with
                  | Some n'' => Some (Dir (set_entry c n'' es))
                  | None => None
                  end
              | None => None
              end
          end
      | File _ => None
      end
  end.

(** Paths.  A path string is split on [/]; [.] and empty components are
    dropped and [..] goes to the parent, as [os.path.normpath] does.
    There are no symbolic links. *)
Definition norm_step (stack : list string) (c : string) : list string :=
  if String.eqb c "" || String.eqb c "." then stack
  else if String.eqb c ".." then tail stack
  else c :: stack.

(** [os.path.abspath(s)], as the list of its components. *)
Definition abspath (w : world) (s : string) : list string :=
  rev (fold_left norm_step (split_on "/" s)
         (if starts_with "/" s then [] else rev (cwd w))).

(** [os.path.dirname] of an absolute path. *)
Definition dirname (p : list string) : list string := removelast p.

(** [os.path.basename(s)] *)
Definition basename (s : string) : string := List.last (split_on "/" s) "".

(** The node a path string names for the operating system; the empty
    string names nothing. *)
Definition resolve (w : world) (s : string) : option node :=
  if String.eqb s "" then None else lookup_node (root w) (abspath w s).

Definition os_path_exists (w : world) (s : string) : bool :=
  match resolve w s with Some _ => true | None => false end.

Definition os_path_isdir (w : world) (s : string) : bool :=
  match resolve w s with Some (Dir _) => true | _ => false end.

Definition is_regular_file (w : world) (s : string) : bool :=
  match resolve w s with Some (File _) => true | _ => false end.

(** ** Computations on the world *)

(** A statement sequence that reads and writes the world and may raise.
    Effects done before an exception stay done. *)
Definition M (A : Type) : Type := world -> result A * world.

Definition ret {A} (a : A) : M A := fun w => (Ok a, w).
Definition throw {A} (e : exn) : M A := fun w => (Raise e, w).
Definition lift {A} (r : result A) : M A := fun w => (r, w).
Definition gets {A} (f : world -> A) : M A := fun w => (Ok (f w), w).

Definition wbind {A B} (m : M A) (k : A -> M B) : M B :=
  fun w =>
    match m w with
    | (Ok a, w') => k a w'
    | (Raise e, w') => (Raise e, w')
    end.

Notation "x <~ m ;; k" := (wbind m (fun x => k))
  (at level 100, m at next level, right associativity) : py_scope.
Notation "m ~;; k" := (wbind m (fun _ => k))
  (at level 100, right associativity) : py_scope.

(** [try: body except Exception as e: handler(e)] *)
Definition try_except {A} (body : M A) (handler : exn -> M A) : M A :=
  fun w =>
    match body w with
    | (Ok a, w') => (Ok a, w')
    | (Raise e, w') => handler e w'
    end.

(** [logger.info(msg)] and [logger.error(msg)]: a line for the handlers
    of the logger, the file [logs/document_mcp.log] and the console,
    kept in [log]. *)
Definition logger_info (msg : string) : M unit :=
  fun w => (Ok tt, {| fs := fs w; cwd := cwd w; trash := trash w;
                      log := log w ++ ["[INFO] " +:+ msg] |}).

Definition logger_error (msg : string) : M unit :=
  fun w => (Ok tt, {| fs := fs w; cwd := cwd w; trash := trash w;
                      log := log w ++ ["[ERROR] " +:+ msg] |}).

(** ** The tool handlers and the calls they make *)

Section Server.

(** *** Operating-system calls *)

(** [repr(s)] of a string: the form in which [str(e)] of an [OSError]
    shows the file name. *)
Variable repr_str : string -> string.

Definition os_error (c : exn_class) (what path : string) : exn :=
  Exn c (what +:+ ": " +:+ repr_str path).

(** The calls by which the handlers list or remove an entry. *)
Inductive os_call : Type :=
| CallRemove | CallRmdir | CallListdir | CallTrash.

(** What the operating system, or send2trash, raises when it refuses a
    call on the entry at an absolute path: a [PermissionError] on a
    protected entry, another [OSError] on a busy one.  [None] when the
    call is let through. *)
Variable os_refuses : os_call -> list string -> option exn.

(** Some proper prefix of the path [p] names a regular file. *)
Fixpoint below_file (n : node) (p : list string) {struct p} : bool :=
  match p with
  | [] => false
  | c :: p' =>
      match n with
      | File _ => true
      | Dir es =>
          match assoc c es with
          | Some n' => below_file n' p'
          | None => false
          end
      end
  end.

(** [os.makedirs(p, exist_ok=True)] on a tree. *)
Fixpoint mkdirs (n : node) (p : list string) {struct p} : option node :=
  match p with
  | [] => match n with Dir _ => Some n | File _ => None end
  | c :: p' =>
      match n with
      | Dir es =>
          match assoc c es with
          | Some n' =>
              match mkdirs n' p' with
              | Some n'' => Some (Dir (set_entry c n'' es))
              | None => None
              end
          | None =>
              match mkdirs (Dir []) p' with
              | Some n'' => Some (Dir (set_entry c n'' es))
              | None => None
              end
          end
      | File _ => None
      end
  end.

(** [os.makedirs(os.path.dirname(os.path.abspath(s)), exist_ok=True)] *)
Definition makedirs_parent (s : string) : M unit :=
  fun w =>
    match mkdirs (root w) (dirname (abspath w s)) with
    | Some (Dir es) => (Ok tt, set_fs w es)
    | _ => (Raise (os_error FileExistsError "[Errno 17] File exists" s), w)
    end.

(** Create or replace the regular file named [s]. *)
Definition write_file (s : string) (c : content) : M unit :=
  fun w =>
    if String.eqb s "" then
      (Raise (os_error FileNotFoundError "[Errno 2] No such file or directory" s), w)
    else
      match lookup_node (root w) (abspath w s) with
      | Some (Dir _) =>
          (Raise (os_error IsADirectoryError "[Errno 21] Is a directory" s), w)
      | _ =>
          match put_node (root w) (abspath w s) (File c) with
          | Some (Dir es) => (Ok tt, set_fs w es)
          | _ => (Raise (os_error FileNotFoundError
                           "[Errno 2] No such file or directory" s), w)
          end
      end.

(** Open the regular file named [s] for reading. *)
Definition read_file (s : string) : M content :=
  fun w =>
    match resolve w s with
    | Some (File c) => (Ok c, w)
    | Some (Dir _) =>
        (Raise (os_error IsADirectoryError "[Errno 21] Is a directory" s), w)
    | None =>
        if below_file (root w) (abspath w s) then
          (Raise (os_error NotADirectoryError "[Errno 20] Not a directory" s), w)
        else
          (Raise (os_error FileNotFoundError
                    "[Errno 2] No such file or directory" s), w)
    end.

(** [os.remove(s)] *)
Definition os_remove (s : string) : M unit :=
  fun w =>
    match resolve w s with
    | Some (File _) =>
        match os_refuses CallRemove (abspath w s) with
        | Some e => (Raise e, w)
        | None =>
            match del_node (root w) (abspath w s) with
            | Some (Dir es) => (Ok tt, set_fs w es)
            | _ => (Raise (os_error OSError
                             "[Errno 16] Device or resource busy" s), w)
            end
        end
    | Some (Dir _) =>
        (Raise (os_error IsADirectoryError "[Errno 21] Is a directory" s), w)
    | None =>
        (Raise (os_error FileNotFoundError
                  "[Errno 2] No such file or directory" s), w)
    end.

(** [os.rmdir(s)] *)
Definition os_rmdir (s : string) : M unit :=
  fun w =>
    match resolve w s with
    | Some (Dir []) =>
        match os_refuses CallRmdir (abspath w s) with
        | Some e => (Raise e, w)
        | None =>
            match del_node (root w) (abspath w s) with
            | Some (Dir es) => (Ok tt, set_fs w es)
            | _ => (Raise (os_error OSError
                             "[Errno 16] Device or resource busy" s), w)
            end
        end
    | Some (Dir (_ :: _)) =>
        (Raise (os_error OSError "[Errno 39] Directory not empty" s), w)
    | Some (File _) =>
        (Raise (os_error NotADirectoryError "[Errno 20] Not a directory" s), w)
    | None =>
        (Raise (os_error FileNotFoundError
                  "[Errno 2] No such file or directory" s), w)
    end.

(** [os.listdir(s)] *)
Definition os_listdir (s : string) : M (list string) :=
  fun w =>
    match resolve w s with
    | Some (Dir es) =>
        match os_refuses CallListdir (abspath w s) with
        | Some e => (Raise e, w)
        | None => (Ok (map fst es), w)
        end
    | Some (File _) =>
        (Raise (os_error NotADirectoryError "[Errno 20] Not a directory" s), w)
    | None =>
        (Raise (os_error FileNotFoundError
                  "[Errno 2] No such file or directory" s), w)
    end.

(** [send2trash(s)]: unless the call is refused, the node leaves the tree
    and enters the trash, from where it can be restored. *)
Definition send2trash (s : string) : M unit :=
  fun w =>
    match resolve w s with
    | Some n =>
        match os_refuses CallTrash (abspath w s) with
        | Some e => (Raise e, w)
        | None =>
            match del_node (root w) (abspath w s) with
            | Some (Dir es) =>
                (Ok tt, {| fs := es; cwd := cwd w;
                           trash := (abspath w s, n) :: trash w;
                           log := log w |})
            | _ => (Raise (Exn OSError ("Cannot trash: " +:+ s)), w)
            end
        end
    | None => (Raise (Exn OSError ("File not found: " +:+ s)), w)
    end.

(** *** The handlers *)

(** The size in bytes of a file with the given content, as
    [os.path.getsize] reports it. *)
Variable content_size : content -> Z.

(** [os.path.getsize(s)] *)
Definition os_path_getsize (s : string) : M Z :=
  fun w =>
    match resolve w s with
    | Some (File c) => (Ok (content_size c), w)
    | Some (Dir _) => (Ok 4096, w)
    | None =>
        (Raise (os_error FileNotFoundError
                  "[Errno 2] No such file or directory" s), w)
    end.

(** *** File management *)

(** [confirm in ["CORBEILLE", "SUPPRESSION DÉFINITIVE"]] *)
Definition confirm_ok (confirm : string) : bool :=
  String.eqb confirm "CORBEILLE" || String.eqb confirm "SUPPRESSION DÉFINITIVE".

Definition confirm_message : string :=
  "Suppression annulee. Le parametre 'confirm' doit etre: 'CORBEILLE' (recuperable) ou 'SUPPRESSION DÉFINITIVE' (permanent)".

Definition delete_file_body (filepath confirm : string) : M pyval :=
  if negb (confirm_ok confirm) then
    ret (PDict [("success", PBool false);
                ("message", PStr confirm_message);
                ("filepath", PStr filepath);
                ("deleted", PBool false)])
  else
    ex <~ gets (fun w => os_path_exists w filepath);;
    if negb ex then
      ret (PDict [("success", PBool false);
                  ("message", PStr ("File not found: " +:+ filepath));
                  ("filepath", PStr filepath);
                  ("deleted", PBool false)])
    else
      isd <~ gets (fun w => os_path_isdir w filepath);;
      if isd then
        ret (PDict [("success", PBool false);
                    ("message", PStr ("Cannot delete directory with this function: "
                                      +:+ filepath));
                    ("filepath", PStr filepath);
                    ("deleted", PBool false)])
      else
        file_size <~ os_path_getsize filepath;;
        let file_name := basename filepath in
        if String.eqb confirm "CORBEILLE" then
          send2trash filepath ~;;
          logger_info ("Sent to trash: " +:+ filepath +:+ " ("
                       +:+ string_of_Z file_size +:+ " bytes)") ~;;
          ret (PDict [("success", PBool true);
                      ("message", PStr ("Envoye a la corbeille: " +:+ file_name
                                        +:+ " (" +:+ string_of_Z file_size
                                        +:+ " bytes) - RECUPERABLE"));
                      ("filepath", PStr filepath);
                      ("deleted", PBool true);
                      ("method", PStr "trash")])
        else
          os_remove filepath ~;;
          logger_info ("Permanently deleted: " +:+ filepath +:+ " ("
                       +:+ string_of_Z file_size +:+ " bytes)") ~;;
          ret (PDict [("success", PBool true);
                      ("message", PStr ("Supprime definitivement: " +:+ file_name
                                        +:+ " (" +:+ string_of_Z file_size
                                        +:+ " bytes) - NON RECUPERABLE"));
                      ("filepath", PStr filepath);
                      ("deleted", PBool true);
                      ("method", PStr "permanent")]).

Definition delete_file_except (filepath : string) (e : exn) : M pyval :=
  if is_PermissionError e then
    ret (PDict [("success", PBool false);
                ("message", PStr ("Permission denied: " +:+ filepath));
                ("filepath", PStr filepath);
                ("deleted", PBool false)])
  else
    logger_error ("Error deleting file: " +:+ exn_str e) ~;;
    ret (PDict [("success", PBool false);
                ("message", PStr ("Error deleting file: " +:+ exn_str e));
                ("filepath", PStr filepath);
                ("deleted", PBool false)]).

Definition delete_file (filepath confirm : string) : M pyval :=
  try_except (delete_file_body filepath confirm) (delete_file_except filepath).

Definition delete_directory_body (dirpath confirm : string) : M pyval :=
  if negb (confirm_ok confirm) then
    ret (PDict [("success", PBool false);
                ("message", PStr confirm_message);
                ("dirpath", PStr dirpath);
                ("deleted", PBool false)])
  else
    ex <~ gets (fun w => os_path_exists w dirpath);;
    if negb ex then
      ret (PDict [("success", PBool false);
                  ("message", PStr ("Directory not found: " +:+ dirpath));
                  ("dirpath", PStr dirpath);
                  ("deleted", PBool false)])
    else
      isd <~ gets (fun w => os_path_isdir w dirpath);;
      if negb isd then
        ret (PDict [("success", PBool false);
                    ("message", PStr ("Not a directory: " +:+ dirpath));
                    ("dirpath", PStr dirpath);
                    ("deleted", PBool false)])
      else
        contents <~ os_listdir dirpath;;
        match contents with
        | _ :: _ =>
            ret (PDict [("success", PBool false);
                        ("message", PStr ("Directory not empty ("
                           +:+ string_of_Z (Z.of_nat (length contents))
                           +:+ " items). Delete contents first."));
                        ("dirpath", PStr dirpath);
                        ("contents", PList (map PStr (take 10 contents)));
                        ("deleted", PBool false)])
        | [] =>
            if String.eqb confirm "CORBEILLE" then
              send2trash dirpath ~;;
              logger_info ("Sent directory to trash: " +:+ dirpath) ~;;
              ret (PDict [("success", PBool true);
                          ("message", PStr ("Dossier envoye a la corbeille: "
                                            +:+ dirpath +:+ " - RECUPERABLE"));
                          ("dirpath", PStr dirpath);
                          ("deleted", PBool true);
                          ("method", PStr "trash")])
            else
              os_rmdir dirpath ~;;
              logger_info ("Permanently deleted directory: " +:+ dirpath) ~;;
              ret (PDict [("success", PBool true);
                          ("message", PStr ("Dossier supprime definitivement: "
                                            +:+ dirpath +:+ " - NON RECUPERABLE"));
                          ("dirpath", PStr dirpath);
                          ("deleted", PBool true);
                          ("method", PStr "permanent")])
        end.

Definition delete_directory_except (dirpath : string) (e : exn) : M pyval :=
  if is_PermissionError e then
    ret (PDict [("success", PBool false);
                ("message", PStr ("Permission denied: " +:+ dirpath));
                ("dirpath", PStr dirpath);
                ("deleted", PBool false)])
  else
    logger_error ("Error deleting directory: " +:+ exn_str e) ~;;
    ret (PDict [("success", PBool false);
                ("message", PStr ("Error deleting directory: " +:+ exn_str e));
                ("dirpath", PStr dirpath);
                ("deleted", PBool false)]).

Definition delete_directory (dirpath confirm : string) : M pyval :=
  try_except (delete_directory_body dirpath confirm)
             (delete_directory_except dirpath).

(** *** XML trees: the ElementTree and lxml calls the server makes *)

Definition tag_of (e : xml) : string := match e with Elem t _ _ _ => t end.
Definition attrs_of (e : xml) : list (string * string) :=
  match e with Elem _ a _ _ => a end.
Definition text_of (e : xml) : string := match e with Elem _ _ x _ => x end.
Definition children_of (e : xml) : list xml :=
  match e with Elem _ _ _ cs => cs end.

Definition with_children (e : xml) (cs : list xml) : xml :=
  match e with Elem t a x _ => Elem t a x cs end.

Definition has_tag (t : string) (e : xml) : bool := String.eqb (tag_of e) t.

(** [OxmlElement(tag)] *)
Definition OxmlElement (t : string) : xml := Elem t [] "" [].

(** [e.find(tag)]: the first child with that tag. *)
Definition find (t : string) (e : xml) : option xml :=
  List.find (has_tag t) (children_of e).

(** [e.findall(tag)]: the children with that tag, in document order. *)
Definition findall (t : string) (e : xml) : list xml :=
  List.filter (has_tag t) (children_of e).

(** The proper descendants of an element in document order. *)
Fixpoint descendants (e : xml) : list xml :=
  match e with
  | Elem _ _ _ cs => flat_map (fun c => c :: descendants c) cs
  end.

(** [e.findall('.//tag')] *)
Definition findall_desc (t : string) (e : xml) : list xml :=
  List.filter (has_tag t) (descendants e).

(** [e.get(name)] *)
Definition get_attr (k : string) (e : xml) : option string :=
  assoc k (attrs_of e).

(** [e.set(name, value)] *)
Definition set_attr (k v : string) (e : xml) : xml :=
  match e with Elem t a x cs => Elem t (set_entry k v a) x cs end.

(** [e.append(c)] *)
Definition append_child (c : xml) (e : xml) : xml :=
  with_children e (children_of e ++ [c]).

(** [e.insert(i, c)] *)
Definition insert_child (i : nat) (c : xml) (e : xml) : xml :=
  with_children e (take i (children_of e) ++ c :: drop i (children_of e)).

(** Rewrite the first element of a list that satisfies [p]. *)
Fixpoint alter_first (p : xml -> bool) (f : xml -> xml) (l : list xml)
  : list xml :=
  match l with
  | [] => []
  | x :: l' => if p x then f x :: l' else x :: alter_first p f l'
  end.

Fixpoint remove_first (p : xml -> bool) (l : list xml) : list xml :=
  match l with
  | [] => []
  | x :: l' => if p x then l' else x :: remove_first p l'
  end.

Fixpoint index_of (p : xml -> bool) (l : list xml) : option nat :=
  match l with
  | [] => None
  | x :: l' => if p x then Some O else option_map S (index_of p l')
  end.

(** Mutating the element that [e.find(t)] returned mutates that child of
    [e]: the update goes to the first child tagged [t]. *)
Definition alter_found (t : string) (f : xml -> xml) (e : xml) : xml :=
  with_children e (alter_first (has_tag t) f (children_of e)).

(** [e.remove(e.find(t))] when the child exists. *)
Definition remove_found (t : string) (e : xml) : xml :=
  with_children e (remove_first (has_tag t) (children_of e)).

(** Characters lxml accepts in text and attribute values: no control
    characters besides tab, line feed and carriage return. *)
Definition xml_char_ok (c : ascii) : bool :=
  let n := nat_of_ascii c in
  ((32 <=? n) || (n =? 9) || (n =? 10) || (n =? 13))%nat.

Fixpoint xml_compatible (s : string) : bool :=
  match s with
  | EmptyString => true
  | String c s' => xml_char_ok c && xml_compatible s'
  end.

Definition xml_value_error : exn :=
  Exn ValueError
    "All strings must be XML compatible: Unicode or ASCII, no NULL bytes or control characters".

(** [e.set(name, v)] for a value that came from JSON: lxml wants an
    XML-compatible string. *)
Definition lxml_set (k : string) (v : pyval) (e : xml) : result xml :=
  match v with
  | PStr s => if xml_compatible s then Ok (set_attr k s e) else Raise xml_value_error
  | _ => Raise (Exn TypeError "Argument must be bytes or unicode")
  end.

(** *** Python built-ins on dynamic values *)

(** [a == b].  Numbers compare by value, so [True == 1]; dictionaries
    compare by their key-value pairs. *)
Fixpoint py_eqb (a b : pyval) {struct a} : bool :=
  match a, b with
  | PNone, PNone => true
  | PBool x, PBool y => Bool.eqb x y
  | PInt x, PInt y => Z.eqb x y
  | PBool x, PInt y => Z.eqb (Z.b2z x) y
  | PInt x, PBool y => Z.eqb x (Z.b2z y)
  | PStr x, PStr y => String.eqb x y
  | PList x, PList y =>
      (fix go (l1 l2 : list pyval) {struct l1} : bool :=
         match l1, l2 with
         | [], [] => true
         | h1 :: t1, h2 :: t2 => py_eqb h1 h2 && go t1 t2
         | _, _ => false
         end) x y
  | PDict x, PDict y =>
      Nat.eqb (length x) (length y) &&
      (fix go (l1 : list (string * pyval)) {struct l1} : bool :=
         match l1 with
         | [] => true
         | (k, v) :: t =>
             match assoc k y with
             | Some v' => py_eqb v v'
             | None => false
             end && go t
         end) x
  | _, _ => false
  end.

(** [d[k]] *)
Definition py_item (d : pyval) (k : string) : result pyval :=
  match d with
  | PDict kv =>
      match assoc k kv with
      | Some v => Ok v
      | None => Raise (Exn KeyError ("'" +:+ k +:+ "'"))
      end
  | _ => Raise (Exn TypeError "object is not subscriptable")
  end.

(** [l[i]] for [i >= 0] *)
Definition py_nth (l : pyval) (i : nat) : result pyval :=
  match l with
  | PList xs =>
      match nth_error xs i with
      | Some v => Ok v
      | None => Raise (Exn IndexError "list index out of range")
      end
  | _ => Raise (Exn TypeError "object is not subscriptable")
  end.

(** [d.get(k)] on an object that should be a dictionary. *)
Definition py_get (d : pyval) (k : string) : result pyval :=
  match d with
  | PDict kv => Ok (dict_get_or k PNone kv)
  | _ => Raise (Exn AttributeError "object has no attribute 'get'")
  end.

(** [d.get(k, default)] *)
Definition py_get_or (d : pyval) (k : string) (default : pyval)
  : result pyval :=
  match d with
  | PDict kv => Ok (dict_get_or k default kv)
  | _ => Raise (Exn AttributeError "object has no attribute 'get'")
  end.

Fixpoint chars (s : string) : list string :=
  match s with
  | EmptyString => []
  | String c s' => String c EmptyString :: chars s'
  end.

(** The items a [for] loop draws from a value. *)
Definition py_iter (v : pyval) : result (list pyval) :=
  match v with
  | PList l => Ok l
  | PStr s => Ok (map PStr (chars s))
  | PDict kv => Ok (map (fun p => PStr (fst p)) kv)
  | _ => Raise (Exn TypeError "object is not iterable")
  end.

(** [len(v)] *)
Definition py_len (v : pyval) : result nat :=
  match v with
  | PList l => Ok (length l)
  | PStr s => Ok (String.length s)
  | PDict kv => Ok (length kv)
  | _ => Raise (Exn TypeError "object has no len()")
  end.

(** The integer literals [int()] accepts beyond an optional minus sign
    and decimal digits (surrounding whitespace, a plus sign, underscores
    between digits). *)
Variable int_lenient : string -> option Z.

(** [int(s)] *)
Definition py_int (s : string) : result Z :=
  match NilZero.int_of_string s with
  | Some d => Ok (Z.of_int d)
  | None =>
      match int_lenient s with
      | Some z => Ok z
      | None =>
          Raise (Exn ValueError
                   ("invalid literal for int() with base 10: '" +:+ s +:+ "'"))
      end
  end.

(** [str(v)] of a list or a dictionary. *)
Variable repr_container : pyval -> string.

(** [str(v)] *)
Definition py_str (v : pyval) : string :=
  match v with
  | PNone => "None"
  | PBool true => "True"
  | PBool false => "False"
  | PInt z => string_of_Z z
  | PStr s => s
  | PList _ | PDict _ => repr_container v
  end.

Fixpoint mapM {A B} (f : A -> result B) (l : list A) : result (list B) :=
  match l with
  | [] => Ok []
  | x :: l' => y <- f x;; ys <- mapM f l';; Ok (y :: ys)
  end.

(** *** Reading the structure of a Word document *)

Record row_info : Type := RowInfo {
  row_index : nat;
  height : option Z;
  height_rule : option string
}.

Record table_info : Type := TableInfo {
  table_index : nat;
  column_widths : list Z;
  column_widths_source : option string;
  row_count : nat;
  row_heights : list row_info;
  has_explicit_row_heights : bool;
  cell_widths : list (list (option Z))
}.

(** [int(e.get('{...}w', 0))] *)
Definition width_attr (e : xml) : result Z :=
  match get_attr "w:w" e with
  | Some s => py_int s
  | None => Ok 0
  end.

(** The entry of [cell_widths_row] for one cell. *)
Definition cell_width (cell : xml) : result (option Z) :=
  match find "w:tcPr" cell with
  | Some tcPr =>
      match find "w:tcW" tcPr with
      | Some tcW => z <- width_attr tcW;; Ok (Some z)
      | None => Ok None
      end
  | None => Ok None
  end.

(** One turn of the loop over the rows: the row's height entry, whether
    it carries [w:trHeight], and the widths of its cells. *)
Definition scan_row (j : nat) (row : xml)
  : result (row_info * bool * list (option Z)) :=
  hi <- match find "w:trPr" row with
        | Some trPr =>
            match find "w:trHeight" trPr with
            | Some trHeight =>
                h <- match get_attr "w:val" trHeight with
                     | Some val =>
                         if String.eqb val "" then Ok None
                         else z <- py_int val;; Ok (Some z)
                     | None => Ok None
                     end;;
                Ok (RowInfo j h (get_attr "w:hRule" trHeight), true)
            | None => Ok (RowInfo j None None, false)
            end
        | None => Ok (RowInfo j None None, false)
        end;;
  ws <- mapM cell_width (findall "w:tc" row);;
  Ok (fst hi, snd hi, ws).

Fixpoint scan_rows (j : nat) (rows : list xml)
  : result (list (row_info * bool * list (option Z))) :=
  match rows with
  | [] => Ok []
  | r :: rows' => x <- scan_row j r;; xs <- scan_rows (S j) rows';; Ok (x :: xs)
  end.

(** One turn of the loop over the tables: [i] counts from zero. *)
Definition scan_table (i : nat) (tbl : xml) : result table_info :=
  grid <- match find "w:tblGrid" tbl with
          | Some tblGrid =>
              ws <- mapM width_attr (findall "w:gridCol" tblGrid);;
              Ok (ws, Some "tblGrid")
          | None => Ok ([], None)
          end;;
  let rows := findall "w:tr" tbl in
  scanned <- scan_rows 0 rows;;
  Ok {| table_index := i + 1;
        column_widths := fst grid;
        column_widths_source := snd grid;
        row_count := length rows;
        row_heights := map (fun x => fst (fst x)) scanned;
        has_explicit_row_heights := existsb (fun x => snd (fst x)) scanned;
        cell_widths := map snd scanned |}.

Fixpoint scan_tables (i : nat) (tables : list xml) : result (list table_info) :=
  match tables with
  | [] => Ok []
  | t :: tables' =>
      x <- scan_table i t;; xs <- scan_tables (S i) tables';; Ok (x :: xs)
  end.

Definition py_opt_int (o : option Z) : pyval :=
  match o with Some z => PInt z | None => PNone end.

Definition py_opt_str (o : option string) : pyval :=
  match o with Some s => PStr s | None => PNone end.

Definition row_info_dict (r : row_info) : pyval :=
  PDict [("row_index", PInt (Z.of_nat (row_index r)));
         ("height", py_opt_int (height r));
         ("height_rule", py_opt_str (height_rule r))].

Definition table_info_dict (t : table_info) : pyval :=
  PDict [("table_index", PInt (Z.of_nat (table_index t)));
         ("column_widths", PList (map PInt (column_widths t)));
         ("column_widths_source", py_opt_str (column_widths_source t));
         ("row_count", PInt (Z.of_nat (row_count t)));
         ("row_heights", PList (map row_info_dict (row_heights t)));
         ("has_explicit_row_heights", PBool (has_explicit_row_heights t));
         ("cell_widths",
          PList (map (fun r => PList (map py_opt_int r)) (cell_widths t)))].

(** The members of the archive in a file, for [zipfile.ZipFile].  A
    workbook is an archive too, with no member under [word/]; its members
    are not listed here. *)
Definition zip_members (c : content) : result (list (string * part)) :=
  match c with
  | CZip parts => Ok parts
  | CXlsx _ => Ok []
  | _ => Raise (Exn BadZipFile "File is not a zip file")
  end.

(** [ET.parse(zf.open(name)).getroot()] *)
Definition zip_parse (name : string) (parts : list (string * part))
  : result xml :=
  match assoc name parts with
  | Some (PXml r) => Ok r
  | Some (PRaw _) => Raise (Exn ParseError "syntax error: line 1, column 0")
  | None =>
      Raise (Exn KeyError
               ("There is no item named '" +:+ name +:+ "' in the archive"))
  end.

Definition read_word_document_structure_body (filepath : string) : M pyval :=
  c <~ read_file filepath;;
  parts <~ lift (zip_members c);;
  root_elem <~ lift (zip_parse "word/document.xml" parts);;
  let has_header := existsb (contains "header") (map fst parts) in
  let has_footer := existsb (contains "footer") (map fst parts) in
  tables_info <~ lift (scan_tables 0 (findall_desc "w:tbl" root_elem));;
  let paragraphs := findall_desc "w:p" root_elem in
  ret (PDict [("success", PBool true);
              ("filepath", PStr filepath);
              ("tables_count", PInt (Z.of_nat (length tables_info)));
              ("tables", PList (map table_info_dict tables_info));
              ("paragraphs_count", PInt (Z.of_nat (length paragraphs)));
              ("has_header", PBool has_header);
              ("has_footer", PBool has_footer)]).

Definition read_word_document_structure_except (filepath : string) (e : exn)
  : M pyval :=
  logger_error ("Error analyzing Word document: " +:+ exn_str e) ~;;
  ret (PDict [("success", PBool false);
              ("message", PStr ("Error analyzing Word document: " +:+ exn_str e));
              ("filepath", PStr filepath)]).

Definition read_word_document_structure (filepath : string) : M pyval :=
  try_except (read_word_document_structure_body filepath)
             (read_word_document_structure_except filepath).

(** *** Comparing two Word documents *)

(** [min(a, b)] and [range] on table counts. *)
Definition py_min_nat (a b : pyval) : result nat :=
  match a, b with
  | PInt x, PInt y => Ok (Z.to_nat (Z.min x y))
  | _, _ => Raise (Exn TypeError "'<' not supported between these instances")
  end.

(** The body of the loop over table indices: the entry appended to
    [differences], if any. *)
Definition compare_table (doc1 doc2 : pyval) (i : nat)
  : result (option pyval) :=
  ts1 <- py_item doc1 "tables";; t1 <- py_nth ts1 i;;
  ts2 <- py_item doc2 "tables";; t2 <- py_nth ts2 i;;
  cw1 <- py_item t1 "column_widths";; cw2 <- py_item t2 "column_widths";;
  d1 <- (if negb (py_eqb cw1 cw2) then
           s1 <- py_item t1 "column_widths_source";;
           s2 <- py_item t2 "column_widths_source";;
           Ok [PDict [("property", PStr "column_widths");
                      ("doc1", cw1); ("doc2", cw2);
                      ("doc1_source", s1); ("doc2_source", s2)]]
         else Ok []);;
  rh1 <- py_item t1 "has_explicit_row_heights";;
  rh2 <- py_item t2 "has_explicit_row_heights";;
  let d2 := if negb (py_eqb rh1 rh2) then
              [PDict [("property", PStr "has_explicit_row_heights");
                      ("doc1", rh1); ("doc2", rh2)]]
            else [] in
  rc1 <- py_item t1 "row_count";; rc2 <- py_item t2 "row_count";;
  let d3 := if negb (py_eqb rc1 rc2) then
              [PDict [("property", PStr "row_count");
                      ("doc1", rc1); ("doc2", rc2)]]
            else [] in
  match (d1 ++ d2 ++ d3)%list with
  | [] => Ok None
  | ds => Ok (Some (PDict [("table_index", PInt (Z.of_nat i + 1));
                           ("differences", PList ds)]))
  end.

Fixpoint compare_tables (doc1 doc2 : pyval) (indices : list nat)
  : result (list pyval) :=
  match indices with
  | [] => Ok []
  | i :: rest =>
      d <- compare_table doc1 doc2 i;;
      ds <- compare_tables doc1 doc2 rest;;
      Ok (match d with Some x => x :: ds | None => ds end)
  end.

Definition compare_word_documents_body (filepath1 filepath2 : string)
  : M pyval :=
  doc1 <~ read_word_document_structure filepath1;;
  doc2 <~ read_word_document_structure filepath2;;
  s1 <~ lift (py_get doc1 "success");;
  s2 <~ lift (py_get doc2 "success");;
  if negb (py_truthy s1) || negb (py_truthy s2) then
    m1 <~ lift (py_get doc1 "message");;
    m2 <~ lift (py_get doc2 "message");;
    ret (PDict [("success", PBool false);
                ("message", PStr "Failed to read one or both documents");
                ("doc1_error", m1); ("doc2_error", m2)])
  else
    c1 <~ lift (py_item doc1 "tables_count");;
    c2 <~ lift (py_item doc2 "tables_count");;
    let count_diff :=
      if negb (py_eqb c1 c2) then
        [PDict [("type", PStr "tables_count"); ("doc1", c1); ("doc2", c2)]]
      else [] in
    min_tables <~ lift (py_min_nat c1 c2);;
    table_diffs <~ lift (compare_tables doc1 doc2 (seq 0 min_tables));;
    let differences := (count_diff ++ table_diffs)%list in
    let is_identical := Nat.eqb (length differences) 0 in
    ret (PDict [("success", PBool true);
                ("is_identical", PBool is_identical);
                ("filepath1", PStr filepath1);
                ("filepath2", PStr filepath2);
                ("differences", PList differences);
                ("summary",
                 PStr (if is_identical then "Documents are identical in structure"
                       else "Found "
                            +:+ string_of_Z (Z.of_nat (length differences))
                            +:+ " difference(s)"))]).

Definition compare_word_documents_except (e : exn) : M pyval :=
  logger_error ("Error comparing Word documents: " +:+ exn_str e) ~;;
  ret (PDict [("success", PBool false);
              ("message", PStr ("Error comparing Word documents: " +:+ exn_str e))]).

Definition compare_word_documents (filepath1 filepath2 : string) : M pyval :=
  try_except (compare_word_documents_body filepath1 filepath2)
             compare_word_documents_except.

(** *** The in-memory Word document of python-docx *)

(** A package opened by python-docx: the tree of [word/document.xml], the
    names of the styles it defines, and its other members. *)
Record document : Type := MkDocument {
  doc_root : xml;
  doc_styles : list string;
  doc_normal_font : option (string * Z);
  doc_parts : list (string * part)
}.

(** Rewrite every element of a list that satisfies [p]; the first
    exception stops the loop. *)
Fixpoint alterM_all (p : xml -> bool) (f : xml -> result xml) (l : list xml)
  : result (list xml) :=
  match l with
  | [] => Ok []
  | x :: l' =>
      x' <- (if p x then f x else Ok x);;
      l'' <- alterM_all p f l';;
      Ok (x' :: l'')
  end.

(** Rewrite the [n]-th element among those that satisfy [p]:
    [seq[n]] followed by a mutation of the proxy it returned. *)
Fixpoint alterM_nth (p : xml -> bool) (n : nat) (f : xml -> result xml)
    (l : list xml) : result (list xml) :=
  match l with
  | [] => Raise (Exn IndexError "list index out of range")
  | x :: l' =>
      if p x then
        match n with
        | O => x' <- f x;; Ok (x' :: l')
        | S n' => l'' <- alterM_nth p n' f l';; Ok (x :: l'')
        end
      else l'' <- alterM_nth p n f l';; Ok (x :: l'')
  end.

Definition on_children (f : list xml -> result (list xml)) (e : xml)
  : result xml :=
  cs <- f (children_of e);; Ok (with_children e cs).

(** [get_or_add_<t>()] followed by a mutation [f] of the child: the
    child is created as the first child when missing. *)
Definition get_or_add (t : string) (f : xml -> xml) (e : xml) : xml :=
  match find t e with
  | Some _ => alter_found t f e
  | None => insert_child 0 (f (OxmlElement t)) e
  end.

(** Put the property element [c] under [t], replacing one with the same
    tag. *)
Definition set_prop (t : string) (c : xml) (e : xml) : xml :=
  get_or_add t
    (fun pr => match find (tag_of c) pr with
               | Some _ => alter_found (tag_of c) (fun _ => c) pr
               | None => append_child c pr
               end) e.

(** [document._body]: the children of [w:body]. *)
Definition body_of (d : document) : result (list xml) :=
  match find "w:body" (doc_root d) with
  | Some b => Ok (children_of b)
  | None => Raise (Exn AttributeError "'NoneType' object has no attribute")
  end.

Definition set_body (d : document) (cs : list xml) : document :=
  {| doc_root := alter_found "w:body" (fun b => with_children b cs) (doc_root d);
     doc_styles := doc_styles d;
     doc_normal_font := doc_normal_font d;
     doc_parts := doc_parts d |}.

(** New block content goes before the section properties that end the
    body.  The position is the handle through which the caller mutates
    the new element. *)
Definition insert_block (x : xml) (cs : list xml) : list xml * nat :=
  match index_of (has_tag "w:sectPr") cs with
  | Some i => ((take i cs ++ x :: drop i cs)%list, i)
  | None => ((cs ++ [x])%list, length cs)
  end.

Definition add_block (x : xml) (d : document) : result (document * nat) :=
  cs <- body_of d;;
  let r := insert_block x cs in
  Ok (set_body d (fst r), snd r).

(** Mutate the block behind a handle. *)
Definition on_block (i : nat) (f : xml -> result xml) (d : document)
  : result document :=
  cs <- body_of d;;
  match nth_error cs i with
  | Some b => b' <- f b;; Ok (set_body d (<[i := b']> cs))
  | None => Raise (Exn IndexError "list index out of range")
  end.

(** What python-docx makes of a run text that is not a string. *)
Variable dyn_run_text : pyval -> result string.

(** The text a run receives from a JSON value. *)
Definition run_text (v : pyval) : result string :=
  match v with
  | PStr s => if xml_compatible s then Ok s else Raise xml_value_error
  | _ => dyn_run_text v
  end.

(** A run [w:r] holding [s]. *)
Definition new_run (s : string) : xml :=
  Elem "w:r" [] "" [Elem "w:t" [] s []].

(** The run [paragraph.add_run(text)] creates: it receives the text when
    [text] is truthy. *)
Definition make_run (v : pyval) : result xml :=
  if py_truthy v then s <- run_text v;; Ok (new_run s)
  else Ok (OxmlElement "w:r").

(** [paragraph.add_run(text)] *)
Definition add_run (v : pyval) (p : xml) : result xml :=
  r <- make_run v;; Ok (append_child r p).

(** The style named [name] must exist in the package. *)
Definition style_check (name : string) (d : document) : result unit :=
  if existsb (String.eqb name) (doc_styles d) then Ok tt
  else Raise (Exn KeyError ("no style with name '" +:+ name +:+ "'")).

(** [document.add_paragraph(text, style)]: the paragraph is inserted,
    then it receives a run when [text] is truthy, then its style. *)
Definition add_paragraph (text : pyval) (style : option string) (d : document)
  : result (document * nat) :=
  r <- add_block (OxmlElement "w:p") d;;
  d1 <- (if py_truthy text then on_block (snd r) (add_run text) (fst r)
         else Ok (fst r));;
  d2 <- match style with
        | Some name =>
            style_check name d1;;;
            on_block (snd r)
              (fun p => Ok (set_prop "w:pPr"
                              (Elem "w:pStyle" [("w:val", name)] "" []) p)) d1
        | None => Ok d1
        end;;
  Ok (d2, snd r).

(** ["Heading %d" % level] and the range check of [add_heading]. *)
Definition heading_style (level : pyval) : result string :=
  z <- match level with
       | PInt z => Ok z
       | PBool b => Ok (Z.b2z b)
       | _ => Raise (Exn TypeError "'<=' not supported between these instances")
       end;;
  if (0 <=? z)%Z && (z <=? 9)%Z then
    Ok (if Z.eqb z 0 then "Title" else "Heading " +:+ string_of_Z z)
  else Raise (Exn ValueError
                ("level must be in range 0-9, got " +:+ string_of_Z z)).

(** [document.add_heading(text, level)] *)
Definition add_heading (text level : pyval) (d : document)
  : result (document * nat) :=
  style <- heading_style level;;
  add_paragraph text (Some style) d.

(** [document.add_page_break()] *)
Definition add_page_break (d : document) : result (document * nat) :=
  add_block (Elem "w:p" [] ""
               [Elem "w:r" [] "" [Elem "w:br" [("w:type", "page")] "" []]]) d.

(** The usable width of the page in EMU once the four margins are 1.9 cm
    on US Letter paper, from which [add_table] derives its first column
    widths. *)
Definition block_width_emu : Z := 6404610.

(** The width in twentieths of a point that [add_table] gives each of
    [cols] columns. *)
Definition default_col_twips (cols : nat) : Z :=
  match cols with
  | O => 0
  | _ => (2 * (block_width_emu / Z.of_nat cols) + 635) / 1270
  end.

(** The cell [add_table] creates. *)
Definition new_tc (width : Z) : xml :=
  Elem "w:tc" [] ""
    [Elem "w:tcPr" [] ""
       [Elem "w:tcW" [("w:type", "dxa"); ("w:w", string_of_Z width)] "" []];
     Elem "w:p" [] "" []].

(** [CT_Tbl.new_tbl(rows, cols, width)] *)
Definition new_tbl (rows cols : nat) : xml :=
  let width := default_col_twips cols in
  Elem "w:tbl" [] ""
    ([Elem "w:tblPr" [] ""
        [Elem "w:tblW" [("w:type", "auto"); ("w:w", "0")] "" [];
         Elem "w:tblLook"
           [("w:firstColumn", "1"); ("w:firstRow", "1");
            ("w:lastColumn", "0"); ("w:lastRow", "0");
            ("w:noHBand", "0"); ("w:noVBand", "1"); ("w:val", "04A0")] "" []];
      Elem "w:tblGrid" [] ""
        (repeat (Elem "w:gridCol" [("w:w", string_of_Z width)] "" []) cols)]
     ++ repeat (Elem "w:tr" [] "" (repeat (new_tc width) cols)) rows)%list.

(** [document.add_table(rows, cols)] *)
Definition add_table (rows cols : nat) (d : document)
  : result (document * nat) :=
  add_block (new_tbl rows cols) d.

(** [table.rows[r]] followed by a mutation of that row. *)
Definition on_row (r : nat) (f : xml -> result xml) (tbl : xml) : result xml :=
  on_children (alterM_nth (has_tag "w:tr") r f) tbl.

(** [row.cells[c]] followed by a mutation of that cell.  The cells of a
    row are its [w:tc] children: the tables the server builds have no
    merged cells. *)
Definition on_cell (c : nat) (f : xml -> result xml) (tr : xml) : result xml :=
  on_children (alterM_nth (has_tag "w:tc") c f) tr.

(** [len(row.cells)] of the row [table.rows[r]]. *)
Definition row_cell_count (r : nat) (tbl : xml) : result nat :=
  match nth_error (findall "w:tr" tbl) r with
  | Some tr => Ok (length (findall "w:tc" tr))
  | None => Raise (Exn IndexError "list index out of range")
  end.

(** [cell.text = s]: the content of the cell, its properties apart, is
    replaced by one paragraph with one run. *)
Definition cell_set_text (s : string) (tc : xml) : result xml :=
  if xml_compatible s then
    Ok (with_children tc
          (List.filter (has_tag "w:tcPr") (children_of tc)
             ++ [Elem "w:p" [] "" [new_run s]])%list)
  else Raise xml_value_error.

(** *** Helper functions of the server *)

(** [_set_cell_shading(cell, color_hex)] *)
Definition _set_cell_shading (color_hex : pyval) (cell : xml) : result xml :=
  shading <- lxml_set "w:fill" color_hex (OxmlElement "w:shd");;
  Ok (get_or_add "w:tcPr" (append_child shading) cell).

(** Set one attribute of the [w:spacing] element of a paragraph. *)
Definition para_spacing (k v : string) (p : xml) : xml :=
  get_or_add "w:pPr" (get_or_add "w:spacing" (set_attr k v)) p.

(** [space_after = Pt(0)], [space_before = Pt(0)], [line_spacing = 1.0] *)
Definition para_spacing_zero (p : xml) : xml :=
  para_spacing "w:lineRule" "auto"
    (para_spacing "w:line" "240"
       (para_spacing "w:before" "0" (para_spacing "w:after" "0" p))).

(** [_fix_cell_paragraph_spacing(cell)] *)
Definition _fix_cell_paragraph_spacing (cell : xml) : result xml :=
  on_children (alterM_all (has_tag "w:p") (fun p => Ok (para_spacing_zero p)))
    cell.

Definition border_element (name color size : string) : xml :=
  Elem ("w:" +:+ name)
    [("w:val", "single"); ("w:sz", size); ("w:color", color)] "" [].

(** [_set_cell_borders(cell, color, size)], defaults ["CCCCCC"], ["4"]. *)
Definition _set_cell_borders (color size : string) (cell : xml) : result xml :=
  let tcBorders :=
    Elem "w:tcBorders" [] ""
      (map (fun n => border_element n color size)
           ["top"; "left"; "bottom"; "right"]) in
  Ok (get_or_add "w:tcPr" (append_child tcBorders) cell).

(** [_set_cell_width(cell, width_dxa)] *)
Definition _set_cell_width (width_dxa : Z) (cell : xml) : result xml :=
  let tcW := Elem "w:tcW" [("w:type", "dxa"); ("w:w", string_of_Z width_dxa)]
               "" [] in
  Ok (get_or_add "w:tcPr" (append_child tcW) cell).

Fixpoint string_repeat (n : nat) (s : string) : string :=
  match n with
  | O => ""
  | S n' => s +:+ string_repeat n' s
  end.

(** [int(v * k)] for a positive literal [k]: multiplication repeats a
    string. *)
Definition py_int_times (k : Z) (v : pyval) : result Z :=
  match v with
  | PInt z => Ok (z * k)
  | PBool b => Ok (Z.b2z b * k)
  | PStr s => py_int (string_repeat (Z.to_nat k) s)
  | PNone =>
      Raise (Exn TypeError "unsupported operand type(s) for *: 'NoneType' and 'int'")
  | PList _ =>
      Raise (Exn TypeError "int() argument must be a string, a bytes-like object or a real number, not 'list'")
  | PDict _ =>
      Raise (Exn TypeError "unsupported operand type(s) for *: 'dict' and 'int'")
  end.

(** [_set_row_height(row, height_pt, auto_fit)] *)
Definition _set_row_height (height_pt : pyval) (auto_fit : bool) (row : xml)
  : result xml :=
  if (match height_pt with PNone => true | _ => false end) && auto_fit then
    Ok row
  else
    val <- (if auto_fit then
              py_int_times 20 (if py_truthy height_pt then height_pt else PInt 0)
            else py_int_times 20 height_pt);;
    let trHeight :=
      Elem "w:trHeight"
        [("w:val", string_of_Z val);
         ("w:hRule", if auto_fit then "auto" else "exact")] "" [] in
    Ok (match find "w:tblPrEx" row with
        | Some _ =>
            match find "w:trPr" row with
            | Some _ => alter_found "w:trPr" (append_child trHeight) row
            | None =>
                insert_child 1 (append_child trHeight (OxmlElement "w:trPr")) row
            end
        | None => get_or_add "w:trPr" (append_child trHeight) row
        end).

(** [_set_table_grid(table, col_widths)] *)
Definition _set_table_grid (col_widths : pyval) (tbl : xml) : result xml :=
  let tbl1 :=
    alter_found "w:tblPr"
      (fun tblPr =>
         let tblPr1 :=
           alter_found "w:tblW"
             (fun tblW => set_attr "w:type" "auto" (set_attr "w:w" "100" tblW))
             tblPr in
         let tblPr2 := remove_found "w:tblLook" tblPr1 in
         match find "w:tblBorders" tblPr2 with
         | None => append_child (OxmlElement "w:tblBorders") tblPr2
         | Some _ => tblPr2
         end) tbl in
  let tbl2 :=
    with_children tbl1
      (List.filter (fun child => negb (ends_with "tblGrid" (tag_of child)))
                   (children_of tbl1)) in
  widths <- py_iter col_widths;;
  gridCols <- mapM (fun width =>
                      lxml_set "w:w" (PStr (py_str width))
                               (OxmlElement "w:gridCol")) widths;;
  let tblGrid := Elem "w:tblGrid" [] "" gridCols in
  let tbl3 :=
    match index_of (has_tag "w:tblPr") (children_of tbl2) with
    | Some tblPr_index => insert_child (tblPr_index + 1) tblGrid tbl2
    | None => insert_child 0 tblGrid tbl2
    end in
  on_children
    (alterM_all (has_tag "w:tr")
       (on_children
          (alterM_all (has_tag "w:tc")
             (fun tc => Ok (alter_found "w:tcPr" (remove_found "w:tcW") tc)))))
    tbl3.

(** *** Run and paragraph formatting *)

(** [int(s, 16)]; [None] stands for [ValueError]. *)
Variable int_base16 : string -> option Z.

Definition py_int16 (s : string) : result Z :=
  match int_base16 s with
  | Some z => Ok z
  | None =>
      Raise (Exn ValueError
               ("invalid literal for int() with base 16: '" +:+ s +:+ "'"))
  end.

Definition hex_digit (n : Z) : string :=
  String.substring (Z.to_nat n) 1 "0123456789ABCDEF".

Definition hex2 (z : Z) : string := hex_digit (z / 16) +:+ hex_digit (z mod 16).

(** [RGBColor(int(c[0:2], 16), int(c[2:4], 16), int(c[4:6], 16))], as
    the six hexadecimal digits python-docx writes. *)
Definition parse_rgb (color_hex : pyval) : result string :=
  match color_hex with
  | PStr c =>
      r <- py_int16 (String.substring 0 2 c);;
      g <- py_int16 (String.substring 2 2 c);;
      b <- py_int16 (String.substring 4 2 c);;
      if ((0 <=? r) && (r <=? 255) && (0 <=? g) && (g <=? 255)
          && (0 <=? b) && (b <=? 255))%Z
      then Ok (hex2 r +:+ hex2 g +:+ hex2 b)
      else Raise (Exn ValueError "RGBColor() takes three integer values 0-255")
  | _ => Raise (Exn TypeError "object is not subscriptable")
  end.

(** [run.font.color.rgb = RGBColor(...)] *)
Definition run_set_color (color_hex : pyval) (run : xml) : result xml :=
  rgb <- parse_rgb color_hex;;
  Ok (set_prop "w:rPr" (Elem "w:color" [("w:val", rgb)] "" []) run).

(** [run.font.name = name] *)
Definition run_set_font (name : string) (run : xml) : result xml :=
  Ok (set_prop "w:rPr"
        (Elem "w:rFonts" [("w:ascii", name); ("w:hAnsi", name)] "" []) run).

(** [run.bold = v] and [run.italic = v]: python-docx takes [True],
    [False] or [None]. *)
Definition run_set_onoff (t : string) (v : pyval) (run : xml) : result xml :=
  let on := Ok (set_prop "w:rPr" (Elem t [] "" []) run) in
  let off := Ok (set_prop "w:rPr" (Elem t [("w:val", "0")] "" []) run) in
  match v with
  | PBool true => on
  | PBool false => off
  | PInt 1 => on
  | PInt 0 => off
  | PNone => Ok (alter_found "w:rPr" (remove_found t) run)
  | _ => Raise (Exn TypeError
                  "only True or False (and possibly None) may be assigned")
  end.

(** [Pt(v)] in EMU *)
Definition Pt (v : pyval) : result Z := py_int_times 12700 v.

(** [run.font.size = Pt(v)], written in half-points. *)
Definition run_set_size (v : pyval) (run : xml) : result xml :=
  emu <- Pt v;;
  Ok (set_prop "w:rPr"
        (Elem "w:sz" [("w:val", string_of_Z (Z.quot (2 * emu) 12700))] "" [])
        run).

(** A length in EMU rounded to twentieths of a point. *)
Definition twips (emu : Z) : Z := (2 * emu + 635) / 1270.

(** [paragraph.alignment = a] *)
Definition para_set_alignment (a : string) (p : xml) : result xml :=
  Ok (set_prop "w:pPr" (Elem "w:jc" [("w:val", a)] "" []) p).

(** [paragraph.paragraph_format.space_after = Pt(v)] and [space_before]. *)
Definition para_set_space (k : string) (v : pyval) (p : xml) : result xml :=
  emu <- Pt v;; Ok (para_spacing k (string_of_Z (twips emu)) p).

(** [for run in paragraph.runs: f(run)] *)
Definition on_runs (f : xml -> result xml) (p : xml) : result xml :=
  on_children (alterM_all (has_tag "w:r") f) p.

(** [for para in cell.paragraphs: for run in para.runs: f(run)] *)
Definition on_cell_runs (f : xml -> result xml) (cell : xml) : result xml :=
  on_children (alterM_all (has_tag "w:p") (on_runs f)) cell.

(** Statements that mutate the same proxy one after the other. *)
Fixpoint seqM {A} (fs : list (A -> result A)) (x : A) : result A :=
  match fs with
  | [] => Ok x
  | f :: fs' => y <- f x;; seqM fs' y
  end.

Definition when {A} (b : bool) (f : A -> result A) (x : A) : result A :=
  if b then f x else Ok x.

(** *** Bold markers *)

Fixpoint string_drop (n : nat) (s : string) : string :=
  match n, s with
  | O, _ => s
  | S n', String _ s' => string_drop n' s'
  | S _, EmptyString => EmptyString
  end.

Definition is_newline (c : ascii) : bool := Ascii.eqb c "010".

(** The length of the shortest text without a line break that is
    followed by [**]. *)
Fixpoint find_close (s : string) : option nat :=
  match s with
  | EmptyString => None
  | String c s' =>
      if starts_with "**" s then Some O
      else if is_newline c then None
      else option_map S (find_close s')
  end.

(** [re.split] on the pattern that captures two stars, the shortest text
    without a line break, and two stars: the pieces between the matches
    and the matches themselves, in order.  [inside] counts the characters of
    the current match still to read and [cur] is the piece being read. *)
Fixpoint split_bold (s : string) (inside : nat) (cur : string) : list string :=
  match s with
  | EmptyString => [cur]
  | String c s' =>
      match inside with
      | S O => (cur +:+ String c EmptyString) :: split_bold s' O EmptyString
      | S n => split_bold s' n (cur +:+ String c EmptyString)
      | O =>
          if starts_with "**" s then
            match find_close (string_drop 2 s) with
            | Some k => cur :: split_bold s' (k + 3) (String c EmptyString)
            | None => split_bold s' O (cur +:+ String c EmptyString)
            end
          else split_bold s' O (cur +:+ String c EmptyString)
      end
  end.

(** ['**' in text] *)
Definition has_bold_marker (text : pyval) : result bool :=
  match text with
  | PStr s => Ok (contains "**" s)
  | PList l => Ok (existsb (py_eqb (PStr "**")) l)
  | PDict kv => Ok (existsb (fun p => String.eqb (fst p) "**") kv)
  | _ => Raise (Exn TypeError "argument is not iterable")
  end.

(** The run [_parse_rich_text] adds for one piece. *)
Definition rich_run (bold : bool) (s : string) (default_font : string)
    (default_size default_color default_italic : pyval) : result xml :=
  run <- make_run (PStr s);;
  seqM [when bold (run_set_onoff "w:b" (PBool true));
        run_set_font default_font;
        run_set_size default_size;
        when (py_truthy default_color) (run_set_color default_color);
        when (py_truthy default_italic) (run_set_onoff "w:i" (PBool true))]
       run.

Fixpoint rich_runs (parts : list string) (default_font : string)
    (default_size default_color default_italic : pyval) (p : xml)
  : result xml :=
  match parts with
  | [] => Ok p
  | part :: parts' =>
      p' <- (if starts_with "**" part && ends_with "**" part then
               run <- rich_run true
                        (String.substring 2 (String.length part - 4) part)
                        default_font default_size default_color default_italic;;
               Ok (append_child run p)
             else if negb (String.eqb part "") then
               run <- rich_run false part
                        default_font default_size default_color default_italic;;
               Ok (append_child run p)
             else Ok p);;
      rich_runs parts' default_font default_size default_color default_italic p'
  end.

(** [_parse_rich_text(paragraph, text, default_font, default_size,
    default_color, default_italic)] *)
Definition _parse_rich_text (text : pyval) (default_font : string)
    (default_size default_color default_italic : pyval) (paragraph : xml)
  : result xml :=
  match text with
  | PStr s =>
      rich_runs (split_bold s O EmptyString) default_font default_size
                default_color default_italic paragraph
  | _ => Raise (Exn TypeError "expected string or bytes-like object")
  end.

(** *** Opening and saving packages *)

(** The section properties of python-docx's default template. *)
Definition default_sectPr : xml :=
  Elem "w:sectPr" [] ""
    [Elem "w:pgSz" [("w:w", "12240"); ("w:h", "15840")] "" [];
     Elem "w:pgMar"
       [("w:top", "1440"); ("w:right", "1800"); ("w:bottom", "1440");
        ("w:left", "1800"); ("w:header", "720"); ("w:footer", "720");
        ("w:gutter", "0")] "" [];
     Elem "w:cols" [("w:space", "720")] "" [];
     Elem "w:docGrid" [("w:linePitch", "360")] "" []].

Definition default_styles : list string :=
  ["Normal"; "Header"; "Footer"; "Heading 1"; "Heading 2"; "Heading 3";
   "Heading 4"; "Heading 5"; "Heading 6"; "Heading 7"; "Heading 8";
   "Heading 9"; "Title"; "Subtitle"; "List Paragraph"; "List Bullet";
   "List Number"; "Table Grid"].

(** [Document()]: the default template, an empty body. *)
Definition new_document : document :=
  {| doc_root := Elem "w:document" [] "" [Elem "w:body" [] "" [default_sectPr]];
     doc_styles := default_styles;
     doc_normal_font := None;
     doc_parts := [("[Content_Types].xml", PRaw "");
                   ("_rels/.rels", PRaw "");
                   ("docProps/core.xml", PRaw "");
                   ("docProps/app.xml", PRaw "");
                   ("word/settings.xml", PRaw "");
                   ("word/_rels/document.xml.rels", PRaw "")] |}.

Definition styles_part (d : document) : part :=
  PXml (Elem "w:styles" [] ""
          (map (fun n =>
                  Elem "w:style" [("w:name", n)] ""
                    (if String.eqb n "Normal" then
                       match doc_normal_font d with
                       | Some (f, sz) =>
                           [Elem "w:rFonts" [("w:ascii", f)] "" [];
                            Elem "w:sz" [("w:val", string_of_Z sz)] "" []]
                       | None => []
                       end
                     else []))
               (doc_styles d))).

(** The archive [document.save] writes. *)
Definition package (d : document) : content :=
  CZip (("word/document.xml", PXml (doc_root d))
          :: ("word/styles.xml", styles_part d)
          :: doc_parts d).

(** [document.save(path)] *)
Definition doc_save (path : string) (d : document) : M unit :=
  write_file path (package d).

Definition style_names (p : option part) : list string :=
  match p with
  | Some (PXml r) =>
      flat_map (fun st => match get_attr "w:name" st with
                          | Some n => [n]
                          | None => []
                          end) (findall "w:style" r)
  | _ => []
  end.

(** [Document(path)] *)
Definition doc_open (path : string) : M document :=
  fun w =>
    match resolve w path with
    | Some (File (CZip parts)) =>
        match assoc "word/document.xml" parts with
        | Some (PXml r) =>
            (Ok {| doc_root := r;
                   doc_styles := style_names (assoc "word/styles.xml" parts);
                   doc_normal_font := None;
                   doc_parts :=
                     remove_entry "word/document.xml"
                       (remove_entry "word/styles.xml" parts) |}, w)
        | Some (PRaw _) =>
            (Raise (Exn (LibraryError "XMLSyntaxError") "Document is empty"), w)
        | None =>
            (Raise (Exn KeyError
                      "no relationship of type officeDocument in collection"), w)
        end
    | _ =>
        (Raise (Exn (LibraryError "PackageNotFoundError")
                  ("Package not found at '" +:+ path +:+ "'")), w)
    end.

(** *** create_word_document *)

Definition failure (what : string) (e : exn) : pyval :=
  PDict [("success", PBool false);
         ("message", PStr (what +:+ ": " +:+ exn_str e));
         ("filepath", PNone)].

Definition success (message filepath : string) : pyval :=
  PDict [("success", PBool true);
         ("message", PStr message);
         ("filepath", PStr filepath)].

Definition create_word_document_body (filepath content : string) : M pyval :=
  let doc := new_document in
  r <~ lift (add_paragraph (PStr content) None doc);;
  makedirs_parent filepath ~;;
  doc_save filepath (fst r) ~;;
  logger_info ("Created Word document: " +:+ filepath) ~;;
  ret (success "Successfully created Word document" filepath).

Definition create_word_document_except (e : exn) : M pyval :=
  logger_error ("Error creating Word document: " +:+ exn_str e) ~;;
  ret (failure "Error creating Word document" e).

Definition create_word_document (filepath content : string) : M pyval :=
  try_except (create_word_document_body filepath content)
             create_word_document_except.

(** *** create_formatted_word_document *)

(** [json.loads]; an invalid text raises [JSONDecodeError]. *)
Variable json_loads : string -> result pyval.

Definition is_JSONDecodeError (e : exn) : bool :=
  match exn_cls e with JSONDecodeError => true | _ => false end.

Definition lower_char (c : ascii) : ascii :=
  let n := nat_of_ascii c in
  if ((65 <=? n) && (n <=? 90))%nat then ascii_of_nat (n + 32) else c.

Fixpoint string_lower (s : string) : string :=
  match s with
  | EmptyString => EmptyString
  | String c s' => String (lower_char c) (string_lower s')
  end.

(** [v.lower()] *)
Definition py_lower (v : pyval) : result string :=
  match v with
  | PStr s => Ok (string_lower s)
  | _ => Raise (Exn AttributeError "object has no attribute 'lower'")
  end.

(** [for i, x in enumerate(l): s = f(i, x, s)], counting from [i]. *)
Fixpoint for_each_indexed {T A} (f : nat -> A -> T -> result T) (l : list A)
    (i : nat) (s : T) : result T :=
  match l with
  | [] => Ok s
  | x :: l' => s' <- f i x s;; for_each_indexed f l' (S i) s'
  end.

(** Apply [f] to every [w:sectPr] of the tree: [for s in doc.sections]. *)
Fixpoint map_sections (f : xml -> xml) (e : xml) : xml :=
  match e with
  | Elem t a x cs =>
      let e' := Elem t a x (map (map_sections f) cs) in
      if String.eqb t "w:sectPr" then f e' else e'
  end.

(** The four margins set to [Cm(1.9)], which is 684000 EMU. *)
Definition set_margins (sectPr : xml) : xml :=
  let m := string_of_Z (twips 684000) in
  get_or_add "w:pgMar"
    (fun pgMar =>
       set_attr "w:right" m
         (set_attr "w:left" m (set_attr "w:bottom" m (set_attr "w:top" m pgMar))))
    sectPr.

Definition with_root (f : xml -> xml) (d : document) : document :=
  {| doc_root := f (doc_root d);
     doc_styles := doc_styles d;
     doc_normal_font := doc_normal_font d;
     doc_parts := doc_parts d |}.

(** [style = doc.styles['Normal']; style.font.name = name;
    style.font.size = Pt(size)] *)
Definition set_normal_font (name : string) (size : Z) (d : document)
  : result document :=
  style_check "Normal" d;;;
  Ok {| doc_root := doc_root d;
        doc_styles := doc_styles d;
        doc_normal_font := Some (name, size);
        doc_parts := doc_parts d |}.

(** [run.font.color.rgb = RGBColor(r, g, b)] for literal components. *)
Definition run_set_rgb (hex : string) (run : xml) : result xml :=
  Ok (set_prop "w:rPr" (Elem "w:color" [("w:val", hex)] "" []) run).

(** The header or footer of the first section: its first paragraph
    receives [text], an alignment and run properties, and the part is
    added to the package. *)
Definition set_header_footer (kind root_tag : string) (text : pyval)
    (alignment : string) (italic : bool) (d : document) : result document :=
  match findall_desc "w:sectPr" (doc_root d) with
  | [] => Raise (Exn IndexError "list index out of range")
  | _ :: _ =>
      p <- seqM [add_run text;
                 para_set_alignment alignment;
                 on_runs (seqM [run_set_font "Arial";
                                run_set_size (PInt 9);
                                run_set_rgb "666666";
                                when italic (run_set_onoff "w:i" (PBool true))])]
             (OxmlElement "w:p");;
      Ok {| doc_root := doc_root d;
            doc_styles := doc_styles d;
            doc_normal_font := doc_normal_font d;
            doc_parts :=
              (doc_parts d
                 ++ [("word/" +:+ kind +:+ "1.xml",
                      PXml (Elem root_tag [] "" [p]))])%list |}
  end.

(** A paragraph is added and then mutated through its handle. *)
Definition add_paragraph_then (text : pyval) (style : option string)
    (f : xml -> result xml) (d : document) : result document :=
  r <- add_paragraph text style d;;
  on_block (snd r) f (fst r).

(** The run added to a centred title or subtitle paragraph. *)
Definition title_run (text : pyval) (fmt : list (xml -> result xml)) (p : xml)
  : result xml :=
  run <- make_run text;;
  run' <- seqM fmt run;;
  Ok (append_child run' p).

Definition heading_section (section : list (string * pyval)) (d : document)
  : result document :=
  let level := dict_get_or "level" (PInt 1) section in
  let text := dict_get_or "text" (PStr "") section in
  let color_hex := dict_get_or "color" (PStr "1F4E79") section in
  r <- add_heading text level d;;
  on_block (snd r)
    (seqM [on_runs (seqM [run_set_font "Arial"; run_set_color color_hex]);
           para_set_space "w:before" (PInt 15);
           para_set_space "w:after" (PInt 6)])
    (fst r).

Definition alignment_value (alignment : string) : string :=
  if String.eqb alignment "center" then "center"
  else if String.eqb alignment "right" then "right"
  else if String.eqb alignment "justify" then "both"
  else "left".

Definition paragraph_section (section : list (string * pyval)) (d : document)
  : result document :=
  let text := dict_get_or "text" (PStr "") section in
  r <- add_paragraph (PStr "") None d;;
  alignment <- py_lower (dict_get_or "alignment" (PStr "left") section);;
  let font_size := dict_get_or "font_size" (PInt 11) section in
  let color_hex := dict_get_or "color" PNone section in
  let is_italic := dict_get_or "italic" (PBool false) section in
  let is_bold := dict_get_or "bold" (PBool false) section in
  marked <- has_bold_marker text;;
  on_block (snd r)
    (seqM [para_set_alignment (alignment_value alignment);
           (if marked then
              _parse_rich_text text "Arial" font_size color_hex is_italic
            else
              title_run text
                [run_set_onoff "w:b" is_bold;
                 run_set_onoff "w:i" is_italic;
                 run_set_font "Arial";
                 run_set_size font_size;
                 when (py_truthy color_hex) (run_set_color color_hex)]);
           para_set_space "w:after" (dict_get_or "space_after" (PInt 6) section)])
    (fst r).

Definition list_section (style : string) (section : list (string * pyval))
    (d : document) : result document :=
  items <- py_iter (dict_get_or "items" (PList []) section);;
  for_each_indexed
    (fun _ item =>
       add_paragraph_then item (Some style) (on_runs (run_set_font "Arial")))
    items O d.

(** The statements on one header cell. *)
Definition header_cell (header_text_val header_bg header_text_color : pyval)
  : xml -> result xml :=
  seqM [cell_set_text (py_str header_text_val);
        _set_cell_shading header_bg;
        _set_cell_borders "CCCCCC" "4";
        _fix_cell_paragraph_spacing;
        on_cell_runs (seqM [run_set_onoff "w:b" (PBool true);
                            run_set_font "Arial";
                            run_set_color header_text_color])].

(** The statements on one cell of a data row. *)
Definition data_cell (row_idx : nat) (cell_value alt_row : pyval)
  : xml -> result xml :=
  seqM [cell_set_text (py_str cell_value);
        _set_cell_borders "CCCCCC" "4";
        _fix_cell_paragraph_spacing;
        on_cell_runs (run_set_font "Arial");
        when (Nat.eqb (row_idx mod 2) 1) (_set_cell_shading alt_row)].

(** The loop over the values of one row: a value beyond the last cell of
    the row is skipped. *)
Definition fill_row (r : nat) (cell : nat -> pyval -> xml -> result xml)
    (row_data : pyval) (table : xml) : result xml :=
  values <- py_iter row_data;;
  for_each_indexed
    (fun col_idx cell_value tbl =>
       n <- row_cell_count r tbl;;
       if (col_idx <? n)%nat then on_row r (on_cell col_idx (cell col_idx cell_value)) tbl
       else Ok tbl)
    values O table.

(** The statements of the [table] branch on the table just added. *)
Definition fill_table (headers rows header_bg header_text_color alt_row
    row_height col_widths : pyval) (table : xml) : result xml :=
  t1 <- when (py_truthy col_widths) (_set_table_grid col_widths) table;;
  t2 <- when (py_truthy row_height)
          (on_row 0 (_set_row_height row_height true)) t1;;
  hs <- py_iter headers;;
  t3 <- for_each_indexed
          (fun i header_text_val =>
             on_row 0 (on_cell i (header_cell header_text_val header_bg
                                    header_text_color)))
          hs O t2;;
  rs <- py_iter rows;;
  for_each_indexed
    (fun row_idx row_data tbl =>
       tbl1 <- when (py_truthy row_height)
                 (on_row (row_idx + 1) (_set_row_height row_height true)) tbl;;
       fill_row (row_idx + 1)
                (fun _ cell_value => data_cell row_idx cell_value alt_row)
                row_data tbl1)
    rs O t3.

Definition table_section (section : list (string * pyval)) (d : document)
  : result document :=
  let headers := dict_get_or "headers" (PList []) section in
  let rows := dict_get_or "rows" (PList []) section in
  let header_bg := dict_get_or "header_bg_color" (PStr "1F4E79") section in
  let header_text_color :=
    dict_get_or "header_text_color" (PStr "FFFFFF") section in
  let alt_row := dict_get_or "alt_row_color" (PStr "F2F2F2") section in
  let row_height := dict_get_or "row_height" PNone section in
  let col_widths := dict_get_or "col_widths" PNone section in
  if py_truthy headers then
    nrows <- py_len rows;;
    ncols <- py_len headers;;
    r <- add_table (1 + nrows) ncols d;;
    d1 <- on_block (snd r)
            (fill_table headers rows header_bg header_text_color alt_row
                        row_height col_widths) (fst r);;
    r2 <- add_paragraph (PStr "") None d1;;
    Ok (fst r2)
  else Ok d.

(** The statements on one cell of a key-value table. *)
Definition kv_cell (row_idx col_idx : nat)
    (cell_value first_col_bg first_cell_bg first_cell_text : pyval)
  : xml -> result xml :=
  seqM [cell_set_text (py_str cell_value);
        _set_cell_borders "CCCCCC" "4";
        _fix_cell_paragraph_spacing;
        (if Nat.eqb row_idx 0 && Nat.eqb col_idx 0 then
           seqM [_set_cell_shading first_cell_bg;
                 on_cell_runs (seqM [run_set_onoff "w:b" (PBool true);
                                     run_set_font "Arial";
                                     run_set_color first_cell_text])]
         else if Nat.eqb col_idx 0 then
           seqM [_set_cell_shading first_col_bg;
                 on_cell_runs (seqM [run_set_onoff "w:b" (PBool true);
                                     run_set_font "Arial"])]
         else
           on_cell_runs
             (seqM [run_set_font "Arial";
                    when (Nat.eqb row_idx 1 && Nat.eqb col_idx 1)
                         (run_set_onoff "w:b" (PBool true))]))].

(** [rows[0]] *)
Definition py_first (v : pyval) : result pyval :=
  match v with
  | PList (x :: _) => Ok x
  | PStr (String c _) => Ok (PStr (String c EmptyString))
  | PList [] | PStr EmptyString =>
      Raise (Exn IndexError "index out of range")
  | PDict _ => Raise (Exn KeyError "0")
  | _ => Raise (Exn TypeError "object is not subscriptable")
  end.

Definition fill_kv_table (rows first_col_bg first_cell_bg first_cell_text
    row_height col_widths : pyval) (table : xml) : result xml :=
  t1 <- when (py_truthy col_widths) (_set_table_grid col_widths) table;;
  rs <- py_iter rows;;
  for_each_indexed
    (fun row_idx row_data tbl =>
       tbl1 <- when (py_truthy row_height)
                 (on_row row_idx (_set_row_height row_height true)) tbl;;
       fill_row row_idx
                (fun col_idx cell_value =>
                   kv_cell row_idx col_idx cell_value first_col_bg
                           first_cell_bg first_cell_text)
                row_data tbl1)
    rs O t1.

Definition key_value_table_section (section : list (string * pyval))
    (d : document) : result document :=
  let rows := dict_get_or "rows" (PList []) section in
  let first_col_bg := dict_get_or "first_col_bg_color" (PStr "D6E3F0") section in
  let first_cell_bg := dict_get_or "first_cell_bg_color" (PStr "1F4E79") section in
  let first_cell_text :=
    dict_get_or "first_cell_text_color" (PStr "FFFFFF") section in
  let col_widths := dict_get_or "col_widths" PNone section in
  let row_height := dict_get_or "row_height" PNone section in
  if py_truthy rows then
    nrows <- py_len rows;;
    row0 <- py_first rows;;
    ncols <- py_len row0;;
    r <- add_table nrows ncols d;;
    d1 <- on_block (snd r)
            (fill_kv_table rows first_col_bg first_cell_bg first_cell_text
                           row_height col_widths) (fst r);;
    r2 <- add_paragraph (PStr "") None d1;;
    Ok (fst r2)
  else Ok d.

(** One turn of the loop over [data.get("sections", [])]. *)
Definition process_section (section : pyval) (d : document) : result document :=
  match section with
  | PDict kv =>
      let section_type := dict_get_or "type" PNone kv in
      if py_eq_str section_type "heading" then heading_section kv d
      else if py_eq_str section_type "paragraph" then paragraph_section kv d
      else if py_eq_str section_type "bullet_list" then
        list_section "List Bullet" kv d
      else if py_eq_str section_type "numbered_list" then
        list_section "List Number" kv d
      else if py_eq_str section_type "table" then table_section kv d
      else if py_eq_str section_type "key_value_table" then
        key_value_table_section kv d
      else if py_eq_str section_type "page_break" then
        r <- add_page_break d;; Ok (fst r)
      else if py_eq_str section_type "spacer" then
        r <- add_paragraph (PStr "") None d;; Ok (fst r)
      else Ok d
  | _ => Raise (Exn AttributeError "object has no attribute 'get'")
  end.

Fixpoint process_sections (sections : list pyval) (d : document)
  : result document :=
  match sections with
  | [] => Ok d
  | s :: rest => d' <- process_section s d;; process_sections rest d'
  end.

(** The document built from the parsed [document_data]. *)
Definition build_document (data : pyval) : result document :=
  let doc := with_root (map_sections set_margins) new_document in
  doc <- set_normal_font "Arial" 11 doc;;
  header <- py_get data "header";;
  doc <- when (py_truthy header)
           (set_header_footer "header" "w:hdr" header "right" true) doc;;
  footer <- py_get data "footer";;
  doc <- when (py_truthy footer)
           (set_header_footer "footer" "w:ftr" footer "center" false) doc;;
  title <- py_get data "title";;
  doc <- when (py_truthy title)
           (add_paragraph_then (PStr "") None
              (seqM [para_set_alignment "center";
                     title_run title
                       [run_set_onoff "w:b" (PBool true);
                        run_set_font "Arial";
                        run_set_size (PInt 24);
                        run_set_rgb "1F4E79"]])) doc;;
  subtitle <- py_get data "subtitle";;
  doc <- when (py_truthy subtitle)
           (add_paragraph_then (PStr "") None
              (seqM [para_set_alignment "center";
                     title_run subtitle
                       [run_set_onoff "w:i" (PBool true);
                        run_set_font "Arial";
                        run_set_size (PInt 12);
                        run_set_rgb "666666"];
                     para_set_space "w:after" (PInt 20)])) doc;;
  sections <- py_get_or data "sections" (PList []);;
  sections <- py_iter sections;;
  process_sections sections doc.

Definition create_formatted_word_document_body (filepath document_data : string)
  : M pyval :=
  match json_loads document_data with
  | Raise e =>
      if is_JSONDecodeError e then
        ret (PDict [("success", PBool false);
                    ("message", PStr ("Invalid JSON format: " +:+ exn_str e));
                    ("filepath", PNone)])
      else throw e
  | Ok data =>
      doc <~ lift (build_document data);;
      makedirs_parent filepath ~;;
      doc_save filepath doc ~;;
      logger_info ("Created formatted Word document: " +:+ filepath) ~;;
      ret (success "Successfully created formatted Word document" filepath)
  end.

Definition create_formatted_word_document_except (e : exn) : M pyval :=
  logger_error ("Error creating formatted Word document: " +:+ exn_str e) ~;;
  ret (failure "Error creating formatted Word document" e).

Definition create_formatted_word_document (filepath document_data : string)
  : M pyval :=
  try_except (create_formatted_word_document_body filepath document_data)
             create_formatted_word_document_except.

(** *** edit_word_document *)

Definition count_paragraphs (cs : list xml) : nat :=
  length (List.filter (has_tag "w:p") cs).

(** [0 <= idx < n], and the position when it holds. *)
Definition index_in_range (idx : pyval) (n : nat) : result (option nat) :=
  match idx with
  | PInt z =>
      Ok (if (0 <=? z)%Z && (z <? Z.of_nat n)%Z then Some (Z.to_nat z) else None)
  | PBool b =>
      Ok (if (Z.b2z b <? Z.of_nat n)%Z then Some (Z.to_nat (Z.b2z b)) else None)
  | _ => Raise (Exn TypeError "'<=' not supported between these instances")
  end.

(** [paragraph.text = v]: the runs are replaced by one run. *)
Definition para_set_text (v : pyval) (p : xml) : result xml :=
  add_run v (with_children p (List.filter (has_tag "w:pPr") (children_of p))).

(** Remove the [n]-th element among those that satisfy [p]. *)
Fixpoint remove_nth (p : xml -> bool) (n : nat) (l : list xml) : list xml :=
  match l with
  | [] => []
  | x :: l' =>
      if p x then
        match n with
        | O => l'
        | S n' => x :: remove_nth p n' l'
        end
      else x :: remove_nth p n l'
  end.

(** One turn of the loop over [operations]. *)
Definition apply_word_op (op : list (string * pyval)) (d : document)
  : result document :=
  let op_type := dict_get_or "type" PNone op in
  if py_eq_str op_type "add_paragraph" then
    r <- add_paragraph (dict_get_or "text" (PStr "") op) None d;; Ok (fst r)
  else if py_eq_str op_type "add_heading" then
    r <- add_heading (dict_get_or "text" (PStr "") op)
                     (dict_get_or "level" (PInt 1) op) d;;
    Ok (fst r)
  else if py_eq_str op_type "edit_paragraph" then
    let idx := dict_get_or "index" (PInt 0) op in
    cs <- body_of d;;
    i <- index_in_range idx (count_paragraphs cs);;
    match i with
    | Some n =>
        cs' <- alterM_nth (has_tag "w:p") n
                 (para_set_text (dict_get_or "text" (PStr "") op)) cs;;
        Ok (set_body d cs')
    | None => Ok d
    end
  else if py_eq_str op_type "delete_paragraph" then
    let idx := dict_get_or "index" (PInt 0) op in
    cs <- body_of d;;
    i <- index_in_range idx (count_paragraphs cs);;
    match i with
    | Some n => Ok (set_body d (remove_nth (has_tag "w:p") n cs))
    | None => Ok d
    end
  else Ok d.

Fixpoint apply_word_ops (ops : list (list (string * pyval))) (d : document)
  : result document :=
  match ops with
  | [] => Ok d
  | op :: rest => d' <- apply_word_op op d;; apply_word_ops rest d'
  end.

Definition edit_word_document_body (filepath : string)
    (operations : list (list (string * pyval))) : M pyval :=
  ex <~ gets (fun w => os_path_exists w filepath);;
  if negb ex then
    ret (PDict [("success", PBool false);
                ("message", PStr ("File not found: " +:+ filepath));
                ("filepath", PNone)])
  else
    doc <~ doc_open filepath;;
    doc' <~ lift (apply_word_ops operations doc);;
    doc_save filepath doc' ~;;
    ret (success "Successfully edited Word document" filepath).

Definition edit_word_document (filepath : string)
    (operations : list (list (string * pyval))) : M pyval :=
  try_except (edit_word_document_body filepath operations)
             (fun e => ret (failure "Error editing Word document" e)).

(** *** convert_txt_to_word *)

(** What reading in text mode makes of the line ends: a carriage return
    becomes a line feed, and a line feed that follows a carriage return
    is dropped. *)
Fixpoint universal_newlines (after_cr : bool) (s : string) : string :=
  match s with
  | EmptyString => EmptyString
  | String c s' =>
      if Ascii.eqb c "013" then String "010" (universal_newlines true s')
      else if Ascii.eqb c "010" then
        if after_cr then universal_newlines false s'
        else String "010" (universal_newlines false s')
      else String c (universal_newlines false s')
  end.

(** [open(path, 'r', encoding='utf-8').read()] *)
Definition read_text (path : string) : M string :=
  c <~ read_file path;;
  match c with
  | CText s => ret (universal_newlines false s)
  | _ => throw (Exn ValueError "'utf-8' codec can't decode byte")
  end.

Definition source_not_found (source_path : string) : pyval :=
  PDict [("success", PBool false);
         ("message", PStr ("Source file not found: " +:+ source_path));
         ("filepath", PNone)].

Fixpoint add_text_paragraphs (lines : list string) (d : document)
  : result document :=
  match lines with
  | [] => Ok d
  | paragraph :: rest =>
      d' <- (if negb (String.eqb (py_strip paragraph) "") then
               r <- add_paragraph (PStr paragraph) None d;; Ok (fst r)
             else Ok d);;
      add_text_paragraphs rest d'
  end.

Definition convert_txt_to_word_body (source_path target_path : string)
  : M pyval :=
  ex <~ gets (fun w => os_path_exists w source_path);;
  if negb ex then ret (source_not_found source_path)
  else
    text_content <~ read_text source_path;;
    doc <~ lift (add_text_paragraphs (split_on "010" text_content) new_document);;
    makedirs_parent target_path ~;;
    doc_save target_path doc ~;;
    ret (success "Successfully converted text to Word document" target_path).

Definition convert_txt_to_word (source_path target_path : string) : M pyval :=
  try_except (convert_txt_to_word_body source_path target_path)
             (fun e => ret (failure "Error converting text to Word" e)).

(** *** Excel *)

(** A pandas frame: column labels and rows of cells. *)
Record dataframe : Type := DataFrame {
  df_columns : list pyval;
  df_rows : list (list pyval)
}.

(** [pd.DataFrame(data)] for data other than a list of lists of strings. *)
Variable pd_DataFrame_dyn : pyval -> result dataframe.

(** The workbook pandas builds from a frame for [to_excel(path,
    index=False)]; the engine is chosen from the file name. *)
Variable df_to_workbook : string -> dataframe -> result workbook.

(** When building the workbook raises: the sheets pandas has filled by
    then and saves on its way out, if the exception comes after it has
    opened the target; [None] if it comes before. *)
Variable df_written_on_error : string -> dataframe -> option workbook.

(** [pd.read_csv] on the content of a file. *)
Variable pd_read_csv : content -> result dataframe.

Fixpoint as_strings (l : list pyval) : option (list string) :=
  match l with
  | [] => Some []
  | PStr s :: l' => option_map (cons s) (as_strings l')
  | _ :: _ => None
  end.

Fixpoint as_string_grid (l : list pyval) : option (list (list string)) :=
  match l with
  | [] => Some []
  | PList row :: l' =>
      match as_strings row, as_string_grid l' with
      | Some r, Some g => Some (r :: g)
      | _, _ => None
      end
  | _ :: _ => None
  end.

Definition grid_width (g : list (list string)) : nat :=
  fold_right (fun r m => Nat.max (length r) m) O g.

(** The frame of a list of rows of strings: columns are numbered from
    zero and short rows are filled with [None]. *)
Definition frame_of_grid (g : list (list string)) : dataframe :=
  let n := grid_width g in
  {| df_columns := map (fun i => PInt (Z.of_nat i)) (seq 0 n);
     df_rows := map (fun r => (map PStr r ++ repeat PNone (n - length r))%list) g |}.

(** [pd.DataFrame(data)] *)
Definition pd_DataFrame (data : pyval) : result dataframe :=
  match data with
  | PList l =>
      match as_string_grid l with
      | Some g => Ok (frame_of_grid g)
      | None => pd_DataFrame_dyn data
      end
  | _ => pd_DataFrame_dyn data
  end.

(** [df.to_excel(path, index=False)]: pandas opens the target when it
    makes the writer, fills the workbook, and saves what it has filled
    when it closes the writer, which it also does when filling raised.
    A target that cannot be opened raises before anything is filled;
    with the target open, the exception of the filling is the one that
    leaves the call, after the save. *)
Definition df_to_excel (path : string) (df : dataframe) : M unit :=
  match df_to_workbook path df with
  | Ok wb => write_file path (CXlsx wb)
  | Raise e =>
      match df_written_on_error path df with
      | Some wb => write_file path (CXlsx wb) ~;; throw e
      | None => throw e
      end
  end.

(** [[line.split(',') for line in content.strip().split('\n')]] *)
Definition csv_grid (content : string) : list (list string) :=
  map (split_on ",") (split_on "010" (py_strip content)).

Definition grid_value (g : list (list string)) : pyval :=
  PList (map (fun r => PList (map PStr r)) g).

(** The statements of [create_excel_file] after [data] is known. *)
Definition excel_from_data (filepath : string) (data : pyval) : M pyval :=
  df <~ lift (pd_DataFrame data);;
  makedirs_parent filepath ~;;
  df_to_excel filepath df ~;;
  ret (success "Successfully created Excel file" filepath).

Definition create_excel_file_body (filepath content : string) : M pyval :=
  data <~ (match json_loads content with
           | Ok data => ret data
           | Raise e =>
               if is_JSONDecodeError e then ret (grid_value (csv_grid content))
               else throw e
           end);;
  excel_from_data filepath data.

Definition create_excel_file (filepath content : string) : M pyval :=
  try_except (create_excel_file_body filepath content)
             (fun e => ret (failure "Error creating Excel file" e)).

(** What openpyxl accepts as the title of a new sheet. *)
Variable sheet_title_ok : string -> bool.

(** [sheet.delete_rows(idx)] and [sheet.delete_cols(idx)] *)
Variable ws_delete_rows : pyval -> sheet -> result sheet.
Variable ws_delete_cols : pyval -> sheet -> result sheet.

(** [openpyxl.load_workbook(path)] *)
Definition load_workbook (path : string) : M workbook :=
  c <~ read_file path;;
  match c with
  | CXlsx wb => ret wb
  | CZip _ =>
      throw (Exn KeyError "There is no item named 'xl/workbook.xml' in the archive")
  | _ => throw (Exn BadZipFile "File is not a zip file")
  end.

Definition sheetnames (wb : workbook) : list string := map fst wb.

(** [name in wb.sheetnames] *)
Definition in_sheetnames (name : pyval) (wb : workbook) : bool :=
  match name with
  | PStr s => existsb (String.eqb s) (sheetnames wb)
  | _ => false
  end.

(** [wb.create_sheet(name)] *)
Definition create_sheet (name : pyval) (wb : workbook) : result workbook :=
  match name with
  | PStr s =>
      if sheet_title_ok s then Ok (wb ++ [(s, [])])%list
      else Raise (Exn ValueError "Invalid character found in sheet title")
  | _ => Raise (Exn TypeError "expected string or bytes-like object")
  end.

Definition cell_key_eqb (r c : Z) (x : Z * Z * pyval) : bool :=
  Z.eqb r (fst (fst x)) && Z.eqb c (snd (fst x)).

(** What a cell can hold. *)
Definition cell_value_ok (v : pyval) : bool :=
  match v with
  | PList _ | PDict _ => false
  | PStr s => xml_compatible s
  | _ => true
  end.

(** [sheet.cell(row=r, column=c, value=v)] *)
Definition ws_cell (row col value : pyval) (sh : sheet) : result sheet :=
  match row, col with
  | PInt r, PInt c =>
      if (r <? 1)%Z || (c <? 1)%Z then
        Raise (Exn ValueError "Row or column values must be at least 1")
      else
        match value with
        | PNone =>
            Ok (if existsb (cell_key_eqb r c) sh then sh
                else (sh ++ [(r, c, PNone)])%list)
        | _ =>
            if cell_value_ok value then
              Ok (List.filter (fun x => negb (cell_key_eqb r c x)) sh
                    ++ [(r, c, value)])%list
            else Raise (Exn ValueError "Cannot convert value to Excel")
        end
  | _, _ => Raise (Exn TypeError "'<' not supported between these instances")
  end.

(** [start + i] for the row and column of a range. *)
Definition py_add_nat (v : pyval) (i : nat) : result pyval :=
  match v with
  | PInt z => Ok (PInt (z + Z.of_nat i))
  | PBool b => Ok (PInt (Z.b2z b + Z.of_nat i))
  | _ => Raise (Exn TypeError "unsupported operand type(s) for +")
  end.

(** Mutate the sheet [wb[name]]. *)
Definition on_sheet (name : string) (f : sheet -> result sheet) (wb : workbook)
  : result workbook :=
  match assoc name wb with
  | Some sh => sh' <- f sh;; Ok (set_entry name sh' wb)
  | None => Raise (Exn KeyError ("Worksheet " +:+ name +:+ " does not exist."))
  end.

(** One turn of the loop over [operations]. *)
Definition apply_excel_op (op : list (string * pyval)) (wb : workbook)
  : result workbook :=
  let op_type := dict_get_or "type" PNone op in
  first <- match sheetnames wb with
           | n :: _ => Ok (PStr n)
           | [] => Raise (Exn IndexError "list index out of range")
           end;;
  let sheet_name := dict_get_or "sheet" first op in
  wb1 <- (if negb (in_sheetnames sheet_name wb) then create_sheet sheet_name wb
          else Ok wb);;
  name <- match sheet_name with
          | PStr s => Ok s
          | _ => Raise (Exn KeyError "Worksheet does not exist.")
          end;;
  if py_eq_str op_type "update_cell" then
    on_sheet name (ws_cell (dict_get_or "row" (PInt 1) op)
                           (dict_get_or "col" (PInt 1) op)
                           (dict_get_or "value" (PStr "") op)) wb1
  else if py_eq_str op_type "update_range" then
    let start_row := dict_get_or "start_row" (PInt 1) op in
    let start_col := dict_get_or "start_col" (PInt 1) op in
    rows <- py_iter (dict_get_or "values" (PList []) op);;
    for_each_indexed
      (fun i row_values wb' =>
         values <- py_iter row_values;;
         for_each_indexed
           (fun j value wb'' =>
              r <- py_add_nat start_row i;;
              c <- py_add_nat start_col j;;
              on_sheet name (ws_cell r c value) wb'')
           values O wb')
      rows O wb1
  else if py_eq_str op_type "delete_row" then
    on_sheet name (ws_delete_rows (dict_get_or "row" (PInt 1) op)) wb1
  else if py_eq_str op_type "delete_column" then
    on_sheet name (ws_delete_cols (dict_get_or "col" (PInt 1) op)) wb1
  else if py_eq_str op_type "add_sheet" then
    let new_name := dict_get_or "name" (PStr "NewSheet") op in
    if negb (in_sheetnames new_name wb1) then create_sheet new_name wb1
    else Ok wb1
  else if py_eq_str op_type "delete_sheet" then
    if in_sheetnames sheet_name wb1 && (1 <? length (sheetnames wb1))%nat then
      Ok (remove_entry name wb1)
    else Ok wb1
  else Ok wb1.

Fixpoint apply_excel_ops (ops : list (list (string * pyval))) (wb : workbook)
  : result workbook :=
  match ops with
  | [] => Ok wb
  | op :: rest => wb' <- apply_excel_op op wb;; apply_excel_ops rest wb'
  end.

Definition edit_excel_file_body (filepath : string)
    (operations : list (list (string * pyval))) : M pyval :=
  ex <~ gets (fun w => os_path_exists w filepath);;
  if negb ex then
    ret (PDict [("success", PBool false);
                ("message", PStr ("File not found: " +:+ filepath));
                ("filepath", PNone)])
  else
    wb <~ load_workbook filepath;;
    wb' <~ lift (apply_excel_ops operations wb);;
    write_file filepath (CXlsx wb') ~;;
    ret (success "Successfully edited Excel file" filepath).

Definition edit_excel_file (filepath : string)
    (operations : list (list (string * pyval))) : M pyval :=
  try_except (edit_excel_file_body filepath operations)
             (fun e => ret (failure "Error editing Excel file" e)).

Definition convert_csv_to_excel_body (source_path target_path : string)
  : M pyval :=
  ex <~ gets (fun w => os_path_exists w source_path);;
  if negb ex then ret (source_not_found source_path)
  else
    c <~ read_file source_path;;
    df <~ lift (pd_read_csv c);;
    makedirs_parent target_path ~;;
    df_to_excel target_path df ~;;
    ret (success "Successfully converted CSV to Excel" target_path).

Definition convert_csv_to_excel (source_path target_path : string) : M pyval :=
  try_except (convert_csv_to_excel_body source_path target_path)
             (fun e => ret (failure "Error converting CSV to Excel" e)).

(** *** PDF *)

(** A reportlab canvas: the pages shown so far and the page being drawn. *)
Record canvas : Type := Canvas {
  shown : list pdf_page;
  current : pdf_page
}.

Definition showPage (c : canvas) : canvas :=
  {| shown := (shown c ++ [current c])%list; current := [] |}.

Definition drawString (x y : Z) (text : string) (c : canvas) : canvas :=
  {| shown := shown c; current := (current c ++ [(x, y, text)])%list |}.

(** The height of the [letter] page size in points. *)
Definition letter_height : Z := 792.

(** The loop over the lines, at vertical position [y_position]. *)
Fixpoint draw_lines (lines : list string) (y_position : Z) (c : canvas)
  : canvas :=
  match lines with
  | [] => c
  | line :: rest =>
      let c1 := if (y_position <? 40)%Z then showPage c else c in
      let y1 := if (y_position <? 40)%Z then letter_height - 40 else y_position in
      draw_lines rest (y1 - 15) (drawString 40 y1 line c1)
  end.

(** [c.save()]: the page being drawn is shown when it has content, and
    the document is written. *)
Definition canvas_save (path : string) (c : canvas) : M unit :=
  let c' := match current c with [] => c | _ :: _ => showPage c end in
  write_file path (CPdf (shown c')).

Definition create_pdf_file_body (filepath content : string) : M pyval :=
  makedirs_parent filepath ~;;
  let c := {| shown := []; current := [] |} in
  let lines := split_on "010" content in
  let c' := draw_lines lines (letter_height - 40) c in
  canvas_save filepath c' ~;;
  ret (success "Successfully created PDF file" filepath).

Definition create_pdf_file (filepath content : string) : M pyval :=
  try_except (create_pdf_file_body filepath content)
             (fun e => ret (failure "Error creating PDF file" e)).

(** What Microsoft Word renders a document to, for docx2pdf. *)
Variable word_render : content -> result content.

(** [docx2pdf.convert(source, target)] *)
Definition docx2pdf_convert (source_path target_path : string) : M unit :=
  c <~ read_file source_path;;
  pdf <~ lift (word_render c);;
  write_file target_path pdf.

Definition convert_word_to_pdf_body (source_path target_path : string)
  : M pyval :=
  ex <~ gets (fun w => os_path_exists w source_path);;
  if negb ex then ret (source_not_found source_path)
  else
    makedirs_parent target_path ~;;
    docx2pdf_convert source_path target_path ~;;
    ret (success "Successfully converted Word to PDF" target_path).

Definition convert_word_to_pdf (source_path target_path : string) : M pyval :=
  try_except (convert_word_to_pdf_body source_path target_path)
             (fun e => ret (failure "Error converting Word to PDF" e)).

(** ** The tool surface *)

(** A call of one of the thirteen tools with its arguments. *)
Inductive tool_call : Type :=
| CreateWordDocument (filepath content : string)
| CreateFormattedWordDocument (filepath document_data : string)
| EditWordDocument (filepath : string)
                   (operations : list (list (string * pyval)))
| ConvertTxtToWord (source_path target_path : string)
| CreateExcelFile (filepath content : string)
| EditExcelFile (filepath : string)
                (operations : list (list (string * pyval)))
| ConvertCsvToExcel (source_path target_path : string)
| CreatePdfFile (filepath content : string)
| ConvertWordToPdf (source_path target_path : string)
| ReadWordDocumentStructure (filepath : string)
| CompareWordDocuments (filepath1 filepath2 : string)
| DeleteFile (filepath confirm : string)
| DeleteDirectory (dirpath confirm : string).

(** The handler the server runs for a call. *)
Definition run_tool (c : tool_call) : M pyval :=
  match c with
  | CreateWordDocument f x => create_word_document f x
  | CreateFormattedWordDocument f x => create_formatted_word_document f x
  | EditWordDocument f ops => edit_word_document f ops
  | ConvertTxtToWord s t => convert_txt_to_word s t
  | CreateExcelFile f x => create_excel_file f x
  | EditExcelFile f ops => edit_excel_file f ops
  | ConvertCsvToExcel s t => convert_csv_to_excel s t
  | CreatePdfFile f x => create_pdf_file f x
  | ConvertWordToPdf s t => convert_word_to_pdf s t
  | ReadWordDocumentStructure f => read_word_document_structure f
  | CompareWordDocuments f1 f2 => compare_word_documents f1 f2
  | DeleteFile f c => delete_file f c
  | DeleteDirectory f c => delete_directory f c
  end.

(** The statements inside the outer [try] of a handler. *)
Definition tool_body (c : tool_call) : M pyval :=
  match c with
  | CreateWordDocument f x => create_word_document_body f x
  | CreateFormattedWordDocument f x => create_formatted_word_document_body f x
  | EditWordDocument f ops => edit_word_document_body f ops
  | ConvertTxtToWord s t => convert_txt_to_word_body s t
  | CreateExcelFile f x => create_excel_file_body f x
  | EditExcelFile f ops => edit_excel_file_body f ops
  | ConvertCsvToExcel s t => convert_csv_to_excel_body s t
  | CreatePdfFile f x => create_pdf_file_body f x
  | ConvertWordToPdf s t => convert_word_to_pdf_body s t
  | ReadWordDocumentStructure f => read_word_document_structure_body f
  | CompareWordDocuments f1 f2 => compare_word_documents_body f1 f2
  | DeleteFile f c => delete_file_body f c
  | DeleteDirectory f c => delete_directory_body f c
  end.

(** The five tools that create a file from content or from a source
    file, with the path of the file they are to create. *)
Inductive creation_call : Type :=
| NewWord (filepath content : string)
| TxtToWord (source_path target_path : string)
| NewExcel (filepath content : string)
| CsvToExcel (source_path target_path : string)
| NewPdf (filepath content : string).

Definition creation_tool (c : creation_call) : tool_call :=
  match c with
  | NewWord f x => CreateWordDocument f x
  | TxtToWord s t => ConvertTxtToWord s t
  | NewExcel f x => CreateExcelFile f x
  | CsvToExcel s t => ConvertCsvToExcel s t
  | NewPdf f x => CreatePdfFile f x
  end.

Definition target_of (c : creation_call) : string :=
  match c with
  | NewWord f _ | NewExcel f _ | NewPdf f _ => f
  | TxtToWord _ t | CsvToExcel _ t => t
  end.

(** The source file of a conversion. *)
Definition source_of (c : creation_call) : option string :=
  match c with
  | TxtToWord s _ | CsvToExcel s _ => Some s
  | _ => None
  end.

(** ** Notions used to state the properties *)

(** The field [k] of a result dictionary. *)
Definition field (k : string) (d : pyval) : option pyval :=
  match d with
  | PDict kv => dict_get k kv
  | _ => None
  end.

(** Two worlds with the same files: they may differ in what the logger
    has written. *)
Definition same_files (w1 w2 : world) : Prop :=
  fs w1 = fs w2 /\ cwd w1 = cwd w2 /\ trash w1 = trash w2.

(** The table entries the structure reader computes for the file named
    [filepath]. *)
Definition document_tables (w : world) (filepath : string)
  : result (list table_info) :=
  match resolve w filepath with
  | Some (File c) =>
      parts <- zip_members c;;
      root_elem <- zip_parse "word/document.xml" parts;;
      scan_tables 0 (findall_desc "w:tbl" root_elem)
  | _ => Raise (Exn FileNotFoundError filepath)
  end.

(** The tree of [word/document.xml] in the file named [filepath]. *)
Definition document_xml (w : world) (filepath : string) : option xml :=
  match resolve w filepath with
  | Some (File c) =>
      match zip_members c with
      | Ok parts =>
          match zip_parse "word/document.xml" parts with
          | Ok r => Some r
          | Raise _ => None
          end
      | Raise _ => None
      end
  | _ => None
  end.

(** The [w:w] attribute values of the [w:gridCol] children of the
    [w:tblGrid] element of a table, in document order. *)
Definition grid_attribute_values (tbl : xml) : option (list (option string)) :=
  match find "w:tblGrid" tbl with
  | Some g => Some (map (get_attr "w:w") (findall "w:gridCol" g))
  | None => None
  end.

(** Some row of the table has a [w:trHeight] element in its [w:trPr]. *)
Definition some_row_has_height (tbl : xml) : Prop :=
  exists row trPr trHeight,
    In row (findall "w:tr" tbl) /\
    find "w:trPr" row = Some trPr /\
    find "w:trHeight" trPr = Some trHeight.

(** The reported width agrees with the attribute: the integer the
    attribute spells, and zero for a column without the attribute. *)
Definition width_reads (o : option string) (z : Z) : Prop :=
  match o with
  | Some s => py_int s = Ok z
  | None => z = 0
  end.

(** What the entry [t] reports is what the element [tbl] holds: the
    column widths are the attribute values of the grid columns, read as
    integers, the row count is the number of [w:tr] children, and the flag
    says whether some row has a height element. *)
Definition grid_reads (tbl : xml) (t : table_info) : Prop :=
  match grid_attribute_values tbl with
  | Some values =>
      Forall2 width_reads values (column_widths t) /\
      column_widths_source t = Some "tblGrid"
  | None => column_widths t = [] /\ column_widths_source t = None
  end.

Definition table_reads (tbl : xml) (t : table_info) : Prop :=
  grid_reads tbl t /\
  row_count t = length (findall "w:tr" tbl) /\
  (has_explicit_row_heights t = true <-> some_row_has_height tbl).

(** Two lists of table entries with the same geometry, as far as the
    comparison looks. *)
Definition same_geometry (ts1 ts2 : list table_info) : Prop :=
  length ts1 = length ts2 /\
  forall i t1 t2,
    nth_error ts1 i = Some t1 -> nth_error ts2 i = Some t2 ->
    column_widths t1 = column_widths t2 /\
    has_explicit_row_heights t1 = has_explicit_row_heights t2 /\
    row_count t1 = row_count t2.

(** A section that puts a table into the document. *)
Definition emits_table (section : pyval) : bool :=
  match section with
  | PDict kv =>
      (py_eq_str (dict_get_or "type" PNone kv) "table"
       && py_truthy (dict_get_or "headers" (PList []) kv))
      || (py_eq_str (dict_get_or "type" PNone kv) "key_value_table"
          && py_truthy (dict_get_or "rows" (PList []) kv))
  | _ => false
  end.

Definition tables_emitted (sections : list pyval) : nat :=
  length (List.filter emits_table sections).

(** An out-of-range paragraph operation: its type is [edit_paragraph] or
    [delete_paragraph] and its index is negative or at least [n]. *)
Definition out_of_range_op (op : list (string * pyval)) (n : nat) : Prop :=
  (py_eq_str (dict_get_or "type" PNone op) "edit_paragraph" = true \/
   py_eq_str (dict_get_or "type" PNone op) "delete_paragraph" = true) /\
  exists z, dict_get_or "index" (PInt 0) op = PInt z /\
            (z < 0 \/ Z.of_nat n <= z).

(** The number of paragraphs of a document, [len(doc.paragraphs)]. *)
Definition paragraph_count (d : document) : result nat :=
  cs <- body_of d;; Ok (count_paragraphs cs).

(** What the reader returns on a file whose tables it can scan. *)
Definition structure_dict (filepath : string) (parts : list (string * part))
    (root_elem : xml) (ts : list table_info) : pyval :=
  PDict [("success", PBool true);
         ("filepath", PStr filepath);
         ("tables_count", PInt (Z.of_nat (length ts)));
         ("tables", PList (map table_info_dict ts));
         ("paragraphs_count",
          PInt (Z.of_nat (length (findall_desc "w:p" root_elem))));
         ("has_header", PBool (existsb (contains "header") (map fst parts)));
         ("has_footer", PBool (existsb (contains "footer") (map fst parts)))].


(** The three properties the comparison looks at, for one pair of
    entries. *)
Definition geometry_agrees (t1 t2 : table_info) : Prop :=
  column_widths t1 = column_widths t2 /\
  has_explicit_row_heights t1 = has_explicit_row_heights t2 /\
  row_count t1 = row_count t2.

(** The path [s] names the same thing in [w'] as in [w]. *)
Definition target_untouched (s : string) (w w' : world) : Prop :=
  cwd w' = cwd w /\ resolve w' s = resolve w s.

(** The two tools that write a spreadsheet. *)
Definition excel_call (c : creation_call) : bool :=
  match c with
  | NewExcel _ _ | CsvToExcel _ _ => true
  | _ => false
  end.

(** The target holds what pandas saved of a frame whose workbook it
    could not finish. *)
Definition left_on_error (target : string) (w' : world) : Prop :=
  exists df e wb,
    df_to_workbook target df = Raise e /\
    df_written_on_error target df = Some wb /\
    resolve w' target = Some (File (CXlsx wb)).

(** How the body of a creation tool can end: with the success answer,
    after the write returned; with an exception, having touched nothing
    that the target names or, for a spreadsheet ([xl]), having left
    there what pandas saved; or with the answer for a missing source,
    the world being as it was. *)
Definition creation_outcome (xl : bool) (target : string) (w w' : world)
    (r : result pyval) : Prop :=
  (exists msg, r = Ok (success msg target) /\ is_regular_file w' target = true)
  \/ ((exists e, r = Raise e) /\
      (target_untouched target w w' \/
       (xl = true /\ cwd w' = cwd w /\ left_on_error target w')))
  \/ (exists source, r = Ok (source_not_found source) /\ w' = w).

(** [paragraph.strip()] is truthy. *)
Definition nonblank (s : string) : bool := negb (String.eqb (py_strip s) "").

(** The target can be written: it is not the empty path, the
    directories above it exist or can be made, and it names a regular
    file or nothing. *)
Definition writable (w : world) (target : string) : bool :=
  negb (String.eqb target "") &&
  match abspath w target with
  | [] => false
  | _ :: _ =>
      match mkdirs (root w) (dirname (abspath w target)) with
      | Some (Dir es) =>
          match lookup_node (Dir es) (abspath w target) with
          | Some (Dir _) => false
          | _ => true
          end
      | _ => false
      end
  end.

(** The value [create_excel_file] builds the frame from: what the
    content decodes to or, for content that is not JSON, its
    comma-separated grid. *)
Definition excel_input (content : string) (data : pyval) : Prop :=
  json_loads content = Ok data \/
  (exists e, json_loads content = Raise e /\ is_JSONDecodeError e = true /\
             data = grid_value (csv_grid content)).

(** The valid inputs of a creation tool: the target can be written, the
    text is one a document can hold, the source is a file of the kind
    the tool reads, and pandas can build the frame and its workbook. *)
Definition creation_ready (c : creation_call) (w : world) : Prop :=
  writable w (target_of c) = true /\
  match c with
  | NewWord _ x => xml_compatible x = true
  | TxtToWord s _ =>
      exists text,
        resolve w s = Some (File (CText text)) /\ xml_compatible text = true
  | NewExcel f x =>
      exists data df wb,
        excel_input x data /\ pd_DataFrame data = Ok df /\
        df_to_workbook f df = Ok wb
  | CsvToExcel s t =>
      exists c df wb,
        resolve w s = Some (File c) /\ pd_read_csv c = Ok df /\
        df_to_workbook t df = Ok wb
  | NewPdf _ _ => True
  end.


(** The [except Exception] clause of a handler ([delete_file] and
    [delete_directory] try [except PermissionError] first). *)
Definition tool_except (c : tool_call) : exn -> M pyval :=
  match c with
  | CreateWordDocument _ _ => create_word_document_except
  | CreateFormattedWordDocument _ _ => create_formatted_word_document_except
  | EditWordDocument _ _ =>
      fun e => ret (failure "Error editing Word document" e)
  | ConvertTxtToWord _ _ =>
      fun e => ret (failure "Error converting text to Word" e)
  | CreateExcelFile _ _ => fun e => ret (failure "Error creating Excel file" e)
  | EditExcelFile _ _ => fun e => ret (failure "Error editing Excel file" e)
  | ConvertCsvToExcel _ _ =>
      fun e => ret (failure "Error converting CSV to Excel" e)
  | CreatePdfFile _ _ => fun e => ret (failure "Error creating PDF file" e)
  | ConvertWordToPdf _ _ =>
      fun e => ret (failure "Error converting Word to PDF" e)
  | ReadWordDocumentStructure f => read_word_document_structure_except f
  | CompareWordDocuments _ _ => compare_word_documents_except
  | DeleteFile f _ => delete_file_except f
  | DeleteDirectory f _ => delete_directory_except f
  end.

(** A computation whose result and whose effect on the files do not
    depend on what the logger has written. *)
Definition log_independent {A} (m : M A) : Prop :=
  forall w1 w2,
    same_files w1 w2 ->
    fst (m w1) = fst (m w2) /\ same_files (snd (m w1)) (snd (m w2)).

(** ** Notions for the grid round trip *)

(** No element of the tree, the root included, is a table or a section
    property element. *)
Fixpoint plain (e : xml) : bool :=
  match e with
  | Elem t _ _ cs =>
      negb (String.eqb t "w:tbl") && negb (String.eqb t "w:sectPr")
      && forallb plain cs
  end.

(** [f] keeps the property [P] of the element it mutates. *)
Definition keeps (P : xml -> Prop) (f : xml -> result xml) : Prop :=
  forall x y, P x -> f x = Ok y -> P y.

(** The element [y] is [x], or what [f] made of an [x] that satisfies
    [p]. *)
Definition altered (p : xml -> bool) (f : xml -> result xml) (x y : xml)
  : Prop :=
  y = x \/ (p x = true /\ f x = Ok y).

(** A table element whose children hold no table. *)
Definition table_block (t : xml) : Prop :=
  tag_of t = "w:tbl" /\ forallb plain (children_of t) = true.

(** The grid [_set_table_grid] writes for integer widths. *)
Definition grid_element (ws : list Z) : xml :=
  Elem "w:tblGrid" [] ""
    (map (fun z => Elem "w:gridCol" [("w:w", string_of_Z z)] "" []) ws).

(** A cell without a width of its own. *)
Definition widthless (tc : xml) : Prop := cell_width tc = Ok None.

(** A row whose cells have no width of their own. *)
Definition row_widthless (tr : xml) : Prop :=
  tag_of tr = "w:tr" /\ Forall widthless (findall "w:tc" tr).

(** A table that carries the grid for [ws] and no cell width. *)
Definition has_grid (ws : list Z) (tbl : xml) : Prop :=
  find "w:tblGrid" tbl = Some (grid_element ws) /\
  Forall row_widthless (findall "w:tr" tbl).

(** A block of the body: not the section properties, and with no table
    below it. *)
Definition block_ok (b : xml) : Prop :=
  has_tag "w:sectPr" b = false /\ forallb plain (children_of b) = true.

(** The body of the document is the blocks [B] followed by the section
    properties. *)
Definition body_is (d : document) (B : list xml) : Prop :=
  exists S,
    doc_root d = Elem "w:document" [] "" [Elem "w:body" [] "" (B ++ [S])] /\
    has_tag "w:sectPr" S = true /\
    forallb plain (children_of S) = true /\
    Forall block_ok B.

(** [f] returns an element with the tag of the one it received. *)
Definition keeps_tag (f : xml -> result xml) : Prop :=
  forall x y, f x = Ok y -> tag_of y = tag_of x.

(** The property of being free of tables. *)
Definition is_plain (e : xml) : Prop := plain e = true.

(** ** Notions for the further properties *)

(** A string drawn at the left margin, between the bottom margin and the
    first line of a [letter] page. *)
Definition well_placed (s : Z * Z * string) : Prop :=
  fst (fst s) = 40 /\ 40 <= snd (fst s) <= 752.

(** The strings of a list of pages, in drawing order. *)
Definition drawn_strings (pages : list pdf_page) : list string :=
  flat_map (map snd) pages.

(** The body of [d] holds the blocks [B] followed by the section
    properties [S]. *)
Definition body_ends (d : document) (B : list xml) (S : xml) : Prop :=
  doc_root d = Elem "w:document" [] "" [Elem "w:body" [] "" (B ++ [S])] /\
  has_tag "w:sectPr" S = true /\
  Forall (fun b => has_tag "w:sectPr" b = false) B.

(** A paragraph with one run that holds [s]; for the empty string
    [add_paragraph] adds no run. *)
Definition text_paragraph (s : string) : xml :=
  match s with
  | EmptyString => Elem "w:p" [] "" []
  | _ => Elem "w:p" [] "" [new_run s]
  end.

(** A text of ASCII characters. *)
Definition ascii_text (s : string) : bool :=
  forallb (fun c => (nat_of_ascii c <? 128)%nat) (list_ascii_of_string s).

(** A step on the document that leaves its parts other than the body
    alone. *)
Definition keeps_parts (f : document -> result document) : Prop :=
  forall d d', f d = Ok d' -> doc_parts d' = doc_parts d.

(** The members of the archive a formatted document is saved with:
    those of the template, then the header and the footer parts that
    were asked for. *)
Definition formatted_members (header footer : pyval) : list string :=
  ("word/document.xml" :: "word/styles.xml" :: map fst (doc_parts new_document))
  ++ (if py_truthy header then ["word/header1.xml"] else [])
  ++ (if py_truthy footer then ["word/footer1.xml"] else []).

(** A table element with [n] rows. *)
Definition has_rows (n : nat) (t : xml) : Prop :=
  length (findall "w:tr" t) = n.
(** ** Sample worlds and library behaviours *)

(** A small tree: [/docs] holds a text file and a CSV file, [/empty] is an
    empty directory, and [/reports.xlsx] is a directory. *)
Definition sample_world : world :=
  {| fs := [("docs", Dir [("notes.txt", File (CText "first line"));
                          ("table.csv", File (CText "a,b"))]);
            ("empty", Dir []);
            ("reports.xlsx", Dir [])];
     cwd := [];
     trash := [];
     log := [] |}.

(** The same files after the logger has written a line. *)
Definition sample_world_logged : world :=
  {| fs := fs sample_world;
     cwd := cwd sample_world;
     trash := trash sample_world;
     log := ["[INFO] Created Word document: /docs/x.docx"] |}.

(** A document with a paragraph holding [text], a table of two rows and
    two columns as [add_table] makes it, and a closing paragraph. *)
Definition sample_doc (text : string) : document :=
  {| doc_root :=
       Elem "w:document" [] ""
         [Elem "w:body" [] ""
            [Elem "w:p" [] "" [new_run text];
             new_tbl 2 2;
             Elem "w:p" [] "" [new_run "end"];
             default_sectPr]];
     doc_styles := default_styles;
     doc_normal_font := None;
     doc_parts := doc_parts new_document |}.

(** Two Word files that differ in the text of their first paragraph. *)
Definition sample_office : world :=
  {| fs := [("docs", Dir [("a.docx", File (package (sample_doc "Hello")));
                          ("b.docx", File (package (sample_doc "Other")))])];
     cwd := [];
     trash := [];
     log := [] |}.

(** The document [Document("/docs/a.docx")] opens. *)
Definition sample_opened : document :=
  match fst (doc_open "/docs/a.docx" sample_office) with
  | Ok d => d
  | Raise _ => new_document
  end.

(** One behaviour of each library, for running the handlers. *)

(** [repr] of a string without quotes or backslashes. *)
Definition sample_repr_str (s : string) : string := "'" +:+ s +:+ "'".

(** An operating system that lets every call through. *)
Definition sample_os_permits (call : os_call) (p : list string)
  : option exn := None.

(** One on which [/docs] and what it holds are protected: nothing there
    can be listed, removed or sent to the trash. *)
Definition sample_os_protects (call : os_call) (p : list string)
  : option exn :=
  match p with
  | "docs" :: _ => Some (Exn PermissionError "[Errno 13] Permission denied")
  | _ => None
  end.

Definition sample_content_size (c : content) : Z := 10.

(** [int] of a string other than a plain decimal numeral: rejected. *)
Definition sample_int_lenient (s : string) : option Z := None.

Definition sample_repr_container (v : pyval) : string := "[...]".

Definition sample_dyn_run_text (v : pyval) : result string :=
  Raise (Exn TypeError "Argument must be bytes or unicode").

Definition base16_digit (c : ascii) : option Z :=
  let n := Z.of_nat (nat_of_ascii c) in
  if ((48 <=? n) && (n <=? 57))%Z then Some (n - 48)
  else if ((65 <=? n) && (n <=? 70))%Z then Some (n - 55)
  else if ((97 <=? n) && (n <=? 102))%Z then Some (n - 87)
  else None.

Fixpoint base16_value (acc : Z) (s : string) : option Z :=
  match s with
  | EmptyString => Some acc
  | String c s' =>
      match base16_digit c with
      | Some d => base16_value (16 * acc + d) s'
      | None => None
      end
  end.

(** [int(s, 16)] on strings of hexadecimal digits. *)
Definition sample_int_base16 (s : string) : option Z :=
  match s with
  | EmptyString => None
  | _ => base16_value 0 s
  end.

(** JSON texts are written with [quoted] around their strings. *)
Definition quoted (s : string) : string :=
  String (ascii_of_nat 34) s +:+ String (ascii_of_nat 34) EmptyString.

(** A document description with a paragraph and a table section whose
    [col_widths] is [widths], as a JSON text and as the value [json.loads]
    makes of it. *)
Definition sample_table_text (widths : string) : string :=
  "{" +:+ quoted "sections" +:+ ": [{" +:+ quoted "type" +:+ ": "
  +:+ quoted "paragraph" +:+ ", " +:+ quoted "text" +:+ ": "
  +:+ quoted "Intro" +:+ "}, {" +:+ quoted "type" +:+ ": "
  +:+ quoted "table" +:+ ", " +:+ quoted "headers" +:+ ": ["
  +:+ quoted "A" +:+ ", " +:+ quoted "B" +:+ "], " +:+ quoted "rows"
  +:+ ": [[" +:+ quoted "1" +:+ ", " +:+ quoted "2" +:+ "]], "
  +:+ quoted "col_widths" +:+ ": " +:+ widths +:+ "}]}".

Definition sample_paragraph_section : list (string * pyval) :=
  [("type", PStr "paragraph"); ("text", PStr "Intro")].

Definition sample_table_section (widths : list pyval)
  : list (string * pyval) :=
  [("type", PStr "table");
   ("headers", PList [PStr "A"; PStr "B"]);
   ("rows", PList [PList [PStr "1"; PStr "2"]]);
   ("col_widths", PList widths)].

Definition sample_table_data (widths : list pyval) : list (string * pyval) :=
  [("sections", PList [PDict sample_paragraph_section;
                       PDict (sample_table_section widths)])].

(** Two widths that are strings, as a JSON text. *)
Definition sample_wide_text : string :=
  "[" +:+ quoted "wide" +:+ ", " +:+ quoted "narrow" +:+ "]".

(** [json.loads] on the three sample texts; any other text used below is
    not JSON. *)
Definition sample_json_loads (s : string) : result pyval :=
  if String.eqb s (sample_table_text "[3000, 5000]") then
    Ok (PDict (sample_table_data [PInt 3000; PInt 5000]))
  else if String.eqb s (sample_table_text "[]") then
    Ok (PDict (sample_table_data []))
  else if String.eqb s (sample_table_text sample_wide_text) then
    Ok (PDict (sample_table_data [PStr "wide"; PStr "narrow"]))
  else Raise (Exn JSONDecodeError "Expecting value: line 1 column 1 (char 0)").

Definition sample_pd_DataFrame_dyn (v : pyval) : result dataframe :=
  Raise (Exn ValueError "DataFrame constructor not properly called!").

Fixpoint row_cells (r c : Z) (vs : list pyval) : sheet :=
  match vs with
  | [] => []
  | v :: vs' => (r, c, v) :: row_cells r (c + 1) vs'
  end.

Fixpoint grid_cells (r : Z) (rows : list (list pyval)) : sheet :=
  match rows with
  | [] => []
  | row :: rows' => (row_cells r 1 row ++ grid_cells (r + 1) rows')%list
  end.

(** The workbook of a frame: one sheet, the column labels in row 1. *)
Definition sample_df_to_workbook (path : string) (df : dataframe)
  : result workbook :=
  Ok [("Sheet1", grid_cells 1 (df_columns df :: df_rows df))].

(** Nothing is saved when the workbook cannot be built. *)
Definition sample_df_written_on_error (path : string) (df : dataframe)
  : option workbook := None.

(** openpyxl refuses a cell with a control character; pandas has written
    the column labels by then, and saves them. *)
Definition cell_legal (v : pyval) : bool :=
  match v with
  | PStr s => xml_compatible s
  | _ => true
  end.

Definition strict_df_to_workbook (path : string) (df : dataframe)
  : result workbook :=
  if forallb (forallb cell_legal) (df_rows df) then
    Ok [("Sheet1", grid_cells 1 (df_columns df :: df_rows df))]
  else
    Raise (Exn (LibraryError "IllegalCharacterError")
               "cannot be used in worksheets.").

Definition strict_df_written_on_error (path : string) (df : dataframe)
  : option workbook :=
  if forallb (forallb cell_legal) (df_rows df) then None
  else Some [("Sheet1", row_cells 1 1 (df_columns df))].

(** A line with a control character, which is no JSON text. *)
Definition sample_control_text : string := String "a" (String "001" "").

Definition sample_pd_read_csv (c : content) : result dataframe :=
  match c with
  | CText s => Ok (frame_of_grid (csv_grid s))
  | _ => Raise (Exn (LibraryError "ParserError") "Error tokenizing data")
  end.

Definition sample_sheet_title_ok (s : string) : bool := true.

Definition sample_ws_delete (idx : pyval) (sh : sheet) : result sheet := Ok sh.

(** No Word application is installed. *)
Definition sample_word_render (c : content) : result content :=
  Raise (Exn NotImplementedError
           "docx2pdf is not implemented for linux as it requires Microsoft Word").

(** The dictionary a run returned. *)
Definition answer_of (x : result pyval * world) : pyval :=
  match fst x with
  | Ok d => d
  | Raise _ => PNone
  end.

(** The blocks of the opened sample document. *)
Definition sample_blocks : list xml :=
  match body_of sample_opened with
  | Ok cs => cs
  | Raise _ => []
  end.

(** The entry of a table of two rows and two columns that still has the
    widths [add_table] gave it. *)
Definition sample_tables : list table_info :=
  [{| table_index := 1;
      column_widths := [5043; 5043];
      column_widths_source := Some "tblGrid";
      row_count := 2;
      row_heights := [RowInfo 0 None None; RowInfo 1 None None];
      has_explicit_row_heights := false;
      cell_widths := [[Some 5043; Some 5043]; [Some 5043; Some 5043]] |}].

(** ** Further samples *)

(** A workbook file with one sheet. *)
Definition sample_sheets : world :=
  {| fs := [("docs", Dir [("book.xlsx",
                           File (CXlsx [("Sheet1", [(1, 1, PStr "a")])]))])];
     cwd := [];
     trash := [];
     log := [] |}.

(** A description with a header and its text under a key the handler
    does not read, as a JSON text and as the value [json.loads] makes of
    it. *)
Definition sample_header_text : string :=
  "{" +:+ quoted "header" +:+ ": " +:+ quoted "Top" +:+ ", "
  +:+ quoted "content" +:+ ": " +:+ quoted "text" +:+ "}".

Definition sample_header_data : list (string * pyval) :=
  [("header", PStr "Top"); ("content", PStr "text")].

(** [json.loads] on two more texts. *)
Definition sample_json_loads_more (s : string) : result pyval :=
  if String.eqb s "[]" then Ok (PList [])
  else if String.eqb s sample_header_text then Ok (PDict sample_header_data)
  else sample_json_loads s.

(** A row of two cells as [add_table] makes it, and a row that has a
    height already. *)
Definition sample_row : xml :=
  Elem "w:tr" [] "" [new_tc 5043; new_tc 5043].

Definition sample_trHeight : xml :=
  Elem "w:trHeight" [("w:val", "300"); ("w:hRule", "exact")] "" [].

Definition sample_trPr : xml := Elem "w:trPr" [] "" [sample_trHeight].

Definition sample_row_high : xml :=
  Elem "w:tr" [] "" [sample_trPr; new_tc 5043].

(** A cell without properties. *)
Definition sample_bare_cell : xml := Elem "w:tc" [] "" [Elem "w:p" [] "" []].

(** Two lines of text. *)
Definition sample_two_lines : string := "one" +:+ String "010"%char "two".
Set Default Proof Using "Type".

(** The behaviours of the libraries are not hypotheses of a proof that
    does not mention them: they leave the context before a decision
    procedure looks at it. *)
Ltac forget_libraries :=
  repeat match goal with
         | f : ?A -> ?B |- _ =>
             lazymatch type of (A -> B) with
             | Prop => fail
             | _ => clear f
             end
         end.

(** ** Facts about the filesystem *)

Lemma assoc_set_entry_eq {A} (k : string) (v : A) (l : list (string * A)) :
  assoc k (set_entry k v l) = Some v.
Proof.
  induction l as [|[k' v'] l IH]; simpl.
  - now rewrite String.eqb_refl.
  - destruct (String.eqb k k') eqn:E; simpl.
    + now rewrite String.eqb_refl.
    + now rewrite E.
Qed.

Lemma assoc_set_entry_ne {A} (k k' : string) (v : A) (l : list (string * A)) :
  k <> k' -> assoc k' (set_entry k v l) = assoc k' l.
Proof.
  intros Hne. induction l as [|[k0 v0] l IH]; simpl.
  - destruct (String.eqb k' k) eqn:E; [|reflexivity].
    apply String.eqb_eq in E. congruence.
  - destruct (String.eqb k k0) eqn:E; simpl.
    + apply String.eqb_eq in E. subst k0.
      destruct (String.eqb k' k) eqn:E'; [|reflexivity].
      apply String.eqb_eq in E'. congruence.
    + destruct (String.eqb k' k0); [reflexivity|exact IH].
Qed.

Lemma assoc_remove_entry_eq {A} (k : string) (l : list (string * A)) :
  assoc k (remove_entry k l) = None.
Proof.
  unfold remove_entry. induction l as [|[k' v'] l IH]; simpl; [reflexivity|].
  destruct (String.eqb k k') eqn:E; simpl; [exact IH|].
  now rewrite E.
Qed.

Lemma del_node_is_dir (n : node) (p : list string) (n' : node) :
  del_node n p = Some n' -> exists es, n' = Dir es.
Proof.
  destruct p as [|c p]; simpl; [discriminate|].
  destruct n as [?|es]; [discriminate|].
  destruct p.
  - destruct (assoc c es); [|discriminate]. intros [= <-]. eauto.
  - destruct (assoc c es); [|discriminate].
    destruct (del_node _ _); [|discriminate]. intros [= <-]. eauto.
Qed.

Lemma lookup_del_node (p : list string) :
  forall n n', del_node n p = Some n' -> lookup_node n' p = None.
Proof.
  induction p as [|c p IH]; intros n n'; simpl; [discriminate|].
  destruct n as [?|es]; [discriminate|].
  destruct p as [|c' p].
  - destruct (assoc c es); [|discriminate]. intros [= <-].
    simpl. now rewrite assoc_remove_entry_eq.
  - destruct (assoc c es) as [x|]; [|discriminate].
    destruct (del_node x (c' :: p)) as [x'|] eqn:E; [|discriminate].
    intros [= <-]. cbn [lookup_node]. rewrite assoc_set_entry_eq.
    apply (IH _ _ E).
Qed.

Lemma del_node_some (p : list string) :
  forall n x, p <> [] -> lookup_node n p = Some x ->
              exists n', del_node n p = Some n'.
Proof.
  induction p as [|c p IH]; intros n x Hp; [congruence|].
  simpl. destruct n as [?|es]; [discriminate|].
  destruct (assoc c es) as [y|] eqn:E; [|discriminate].
  destruct p as [|c' p].
  - intros _. eauto.
  - intros H. destruct (IH y x ltac:(discriminate) H) as [n' Hn'].
    rewrite Hn'. eauto.
Qed.

Lemma put_node_is_dir (n : node) (p : list string) (x n' : node) :
  put_node n p x = Some n' -> exists es, n' = Dir es.
Proof.
  destruct p as [|c p]; simpl; [discriminate|].
  destruct n as [?|es]; [discriminate|].
  destruct p.
  - intros [= <-]. eauto.
  - destruct (assoc c es); [|discriminate].
    destruct (put_node _ _ _); [|discriminate]. intros [= <-]. eauto.
Qed.

Lemma lookup_put_node (p : list string) :
  forall n x n', put_node n p x = Some n' -> lookup_node n' p = Some x.
Proof.
  induction p as [|c p IH]; intros n x n'; simpl; [discriminate|].
  destruct n as [?|es]; [discriminate|].
  destruct p as [|c' p].
  - intros [= <-]. simpl. now rewrite assoc_set_entry_eq.
  - destruct (assoc c es) as [y|]; [|discriminate].
    destruct (put_node y (c' :: p) x) as [y'|] eqn:E; [|discriminate].
    intros [= <-]. cbn [lookup_node]. rewrite assoc_set_entry_eq.
    apply (IH _ _ _ E).
Qed.

(** A regular file is never the root directory. *)
Lemma file_path_nonempty (w : world) (p : list string) (c : content) :
  lookup_node (root w) p = Some (File c) -> p <> [].
Proof. destruct p; [discriminate|discriminate]. Qed.

Lemma resolve_some (w : world) (s : string) (n : node) :
  resolve w s = Some n ->
  String.eqb s "" = false /\ lookup_node (root w) (abspath w s) = Some n.
Proof.
  unfold resolve. destruct (String.eqb s ""); [discriminate|]. auto.
Qed.

Lemma resolve_set_fs (w : world) (es : list (string * node)) (s : string) :
  resolve (set_fs w es) s =
  if String.eqb s "" then None else lookup_node (Dir es) (abspath w s).
Proof. reflexivity. Qed.

(** ** Running statement sequences *)

Lemma wbind_Ok {A B} (m : M A) (k : A -> M B) (w w' : world) (a : A) :
  m w = (Ok a, w') -> wbind m k w = k a w'.
Proof. intros H. unfold wbind. now rewrite H. Qed.

Lemma wbind_Raise {A B} (m : M A) (k : A -> M B) (w w' : world) (e : exn) :
  m w = (Raise e, w') -> wbind m k w = (Raise e, w').
Proof. intros H. unfold wbind. now rewrite H. Qed.

Lemma try_except_Ok {A} (body : M A) (h : exn -> M A) (w w' : world) (a : A) :
  body w = (Ok a, w') -> try_except body h w = (Ok a, w').
Proof. intros H. unfold try_except. now rewrite H. Qed.

Lemma try_except_Raise {A} (body : M A) (h : exn -> M A) (w w' : world)
    (e : exn) :
  body w = (Raise e, w') -> try_except body h w = h e w'.
Proof. intros H. unfold try_except. now rewrite H. Qed.

Lemma os_path_getsize_file (w : world) (s : string) (c : content) :
  resolve w s = Some (File c) -> os_path_getsize s w = (Ok (content_size c), w).
Proof. intros H. unfold os_path_getsize. now rewrite H. Qed.

Lemma send2trash_Ok (w : world) (s : string) (n : node)
    (es : list (string * node)) :
  resolve w s = Some n ->
  os_refuses CallTrash (abspath w s) = None ->
  del_node (root w) (abspath w s) = Some (Dir es) ->
  send2trash s w =
  (Ok tt, {| fs := es; cwd := cwd w;
             trash := (abspath w s, n) :: trash w; log := log w |}).
Proof. intros H1 H0 H2. unfold send2trash. now rewrite H1, H0, H2. Qed.

Lemma send2trash_refused (w : world) (s : string) (n : node) (e : exn) :
  resolve w s = Some n ->
  os_refuses CallTrash (abspath w s) = Some e ->
  send2trash s w = (Raise e, w).
Proof. intros H1 H0. unfold send2trash. now rewrite H1, H0. Qed.

Lemma os_remove_Ok (w : world) (s : string) (c : content)
    (es : list (string * node)) :
  resolve w s = Some (File c) ->
  os_refuses CallRemove (abspath w s) = None ->
  del_node (root w) (abspath w s) = Some (Dir es) ->
  os_remove s w = (Ok tt, set_fs w es).
Proof. intros H1 H0 H2. unfold os_remove. now rewrite H1, H0, H2. Qed.

Lemma os_remove_refused (w : world) (s : string) (c : content) (e : exn) :
  resolve w s = Some (File c) ->
  os_refuses CallRemove (abspath w s) = Some e ->
  os_remove s w = (Raise e, w).
Proof. intros H1 H0. unfold os_remove. now rewrite H1, H0. Qed.

Lemma gone_after (w w' : world) (s : string) :
  cwd w' = cwd w ->
  lookup_node (Dir (fs w')) (abspath w s) = None ->
  os_path_exists w' s = false.
Proof.
  intros Hc H. unfold os_path_exists, resolve.
  destruct (String.eqb s ""); [reflexivity|].
  unfold abspath, root in *. rewrite Hc. now rewrite H.
Qed.

(** ** delete_file *)

Lemma confirm_ok_trash : confirm_ok "CORBEILLE" = true.
Proof. reflexivity. Qed.

Lemma confirm_ok_permanent : confirm_ok "SUPPRESSION DÉFINITIVE" = true.
Proof. reflexivity. Qed.

Lemma delete_file_cancelled (filepath confirm : string) (w : world) :
  confirm_ok confirm = false ->
  delete_file filepath confirm w =
  (Ok (PDict [("success", PBool false);
              ("message", PStr confirm_message);
              ("filepath", PStr filepath);
              ("deleted", PBool false)]), w).
Proof.
  intros H. unfold delete_file, try_except, delete_file_body.
  rewrite H. reflexivity.
Qed.

(** The first three tests of [delete_file] and [delete_directory] read
    the world without changing it. *)
Lemma gets_run {A} (f : world -> A) (w : world) : gets f w = (Ok (f w), w).
Proof. reflexivity. Qed.

(** What [delete_file] answers when the call that deletes raises [e]. *)
Lemma delete_file_except_answer (filepath : string) (e : exn) (w : world) :
  exists d w',
    delete_file_except filepath e w = (Ok d, w') /\
    field "success" d = Some (PBool false) /\
    field "deleted" d = Some (PBool false) /\
    same_files w w' /\
    (is_PermissionError e = true ->
     w' = w /\
     field "message" d = Some (PStr ("Permission denied: " +:+ filepath))).
Proof.
  unfold delete_file_except. destruct (is_PermissionError e).
  - eexists _, _. split; [reflexivity|]. repeat split.
  - eexists _, _. split; [reflexivity|]. repeat split; discriminate.
Qed.

(** C3, as amended: [delete_file] on an existing regular file.  With
    ["CORBEILLE"], when send2trash raises nothing the file leaves the
    tree and its node enters the trash, and the result has [success] and
    [deleted] true and [method] ["trash"]; with ["SUPPRESSION
    DÉFINITIVE"], when [os.remove] raises nothing the file is removed
    for good ([method] ["permanent"], the trash is as before).  When the
    deleting call raises, the files are as they were and the answer has
    [success] false and [deleted] false, with the "Permission denied"
    message for a [PermissionError].  For any other [confirm] the world
    is as it was and the answer has [success] false and [deleted]
    false. *)
Theorem delete_file_trash_aware (w : world) (filepath confirm : string)
    (c : content) :
  resolve w filepath = Some (File c) ->
  (confirm = "CORBEILLE" ->
   (os_refuses CallTrash (abspath w filepath) = None ->
    exists d w',
      delete_file filepath confirm w = (Ok d, w') /\
      field "success" d = Some (PBool true) /\
      field "deleted" d = Some (PBool true) /\
      field "method" d = Some (PStr "trash") /\
      os_path_exists w' filepath = false /\
      trash w' = (abspath w filepath, File c) :: trash w) /\
   (forall e,
      os_refuses CallTrash (abspath w filepath) = Some e ->
      exists d w',
        delete_file filepath confirm w = (Ok d, w') /\
        field "success" d = Some (PBool false) /\
        field "deleted" d = Some (PBool false) /\
        same_files w w' /\
        (is_PermissionError e = true ->
         w' = w /\
         field "message" d
         = Some (PStr ("Permission denied: " +:+ filepath))))) /\
  (confirm = "SUPPRESSION DÉFINITIVE" ->
   (os_refuses CallRemove (abspath w filepath) = None ->
    exists d w',
      delete_file filepath confirm w = (Ok d, w') /\
      field "success" d = Some (PBool true) /\
      field "deleted" d = Some (PBool true) /\
      field "method" d = Some (PStr "permanent") /\
      os_path_exists w' filepath = false /\
      trash w' = trash w) /\
   (forall e,
      os_refuses CallRemove (abspath w filepath) = Some e ->
      exists d w',
        delete_file filepath confirm w = (Ok d, w') /\
        field "success" d = Some (PBool false) /\
        field "deleted" d = Some (PBool false) /\
        same_files w w' /\
        (is_PermissionError e = true ->
         w' = w /\
         field "message" d
         = Some (PStr ("Permission denied: " +:+ filepath))))) /\
  (confirm_ok confirm = false ->
   exists d,
     delete_file filepath confirm w = (Ok d, w) /\
     field "success" d = Some (PBool false) /\
     field "deleted" d = Some (PBool false)).
Proof.
  intros Hres.
  destruct (resolve_some _ _ _ Hres) as [Hne Hlook].
  pose proof (file_path_nonempty _ _ _ Hlook) as Hp.
  destruct (del_node_some _ _ _ Hp Hlook) as [n' Hdel].
  destruct (del_node_is_dir _ _ _ Hdel) as [es ->].
  pose proof (lookup_del_node _ _ _ Hdel) as Hgone.
  assert (Hex : os_path_exists w filepath = true)
    by (unfold os_path_exists; now rewrite Hres).
  assert (Hdir : os_path_isdir w filepath = false)
    by (unfold os_path_isdir; now rewrite Hres).
  split; [|split].
  - intros ->. split.
    + intros Hperm.
      unfold delete_file, delete_file_body.
      rewrite confirm_ok_trash. cbn [negb].
      eexists _, _. split.
      * apply try_except_Ok.
        erewrite wbind_Ok by apply gets_run. rewrite Hex. cbn [negb].
        erewrite wbind_Ok by apply gets_run. rewrite Hdir.
        erewrite wbind_Ok by (apply os_path_getsize_file; exact Hres).
        change (String.eqb "CORBEILLE" "CORBEILLE") with true. cbv iota.
        erewrite wbind_Ok by (eapply send2trash_Ok; eassumption).
        erewrite wbind_Ok by reflexivity.
        reflexivity.
      * repeat split. now apply (gone_after w).
    + intros e Hperm.
      destruct (delete_file_except_answer filepath e w)
        as (d & w' & Hd & Hs & Hdl & Hsame & Hmsg).
      exists d, w'. split; [|auto].
      unfold delete_file. erewrite try_except_Raise; [exact Hd|].
      unfold delete_file_body. rewrite confirm_ok_trash. cbn [negb].
      erewrite wbind_Ok by apply gets_run. rewrite Hex. cbn [negb].
      erewrite wbind_Ok by apply gets_run. rewrite Hdir.
      erewrite wbind_Ok by (apply os_path_getsize_file; exact Hres).
      change (String.eqb "CORBEILLE" "CORBEILLE") with true. cbv iota.
      apply wbind_Raise. eapply send2trash_refused; eassumption.
  - intros ->. split.
    + intros Hperm.
      unfold delete_file, delete_file_body.
      rewrite confirm_ok_permanent. cbn [negb].
      eexists _, _. split.
      * apply try_except_Ok.
        erewrite wbind_Ok by apply gets_run. rewrite Hex. cbn [negb].
        erewrite wbind_Ok by apply gets_run. rewrite Hdir.
        erewrite wbind_Ok by (apply os_path_getsize_file; exact Hres).
        change (String.eqb "SUPPRESSION DÉFINITIVE" "CORBEILLE") with false.
        cbv iota.
        erewrite wbind_Ok by (eapply os_remove_Ok; eassumption).
        erewrite wbind_Ok by reflexivity.
        reflexivity.
      * repeat split. now apply (gone_after w).
    + intros e Hperm.
      destruct (delete_file_except_answer filepath e w)
        as (d & w' & Hd & Hs & Hdl & Hsame & Hmsg).
      exists d, w'. split; [|auto].
      unfold delete_file. erewrite try_except_Raise; [exact Hd|].
      unfold delete_file_body. rewrite confirm_ok_permanent. cbn [negb].
      erewrite wbind_Ok by apply gets_run. rewrite Hex. cbn [negb].
      erewrite wbind_Ok by apply gets_run. rewrite Hdir.
      erewrite wbind_Ok by (apply os_path_getsize_file; exact Hres).
      change (String.eqb "SUPPRESSION DÉFINITIVE" "CORBEILLE") with false.
      cbv iota.
      apply wbind_Raise. eapply os_remove_refused; eassumption.
  - intros H. rewrite (delete_file_cancelled _ _ _ H).
    eexists. split; [reflexivity|]. split; reflexivity.
Qed.

(** ** delete_directory *)

Lemma os_listdir_dir (w : world) (s : string) (es : list (string * node)) :
  resolve w s = Some (Dir es) ->
  os_refuses CallListdir (abspath w s) = None ->
  os_listdir s w = (Ok (map fst es), w).
Proof. intros H H0. unfold os_listdir. now rewrite H, H0. Qed.

Lemma os_listdir_refused (w : world) (s : string) (es : list (string * node))
    (e : exn) :
  resolve w s = Some (Dir es) ->
  os_refuses CallListdir (abspath w s) = Some e ->
  os_listdir s w = (Raise e, w).
Proof. intros H H0. unfold os_listdir. now rewrite H, H0. Qed.

Lemma length_take_le {A} (n : nat) (l : list A) : (length (take n l) <= n)%nat.
Proof. rewrite length_take. lia. Qed.

(** C10, as amended: on an existing directory with at least one entry
    [delete_directory] answers [success] false and [deleted] false and
    leaves the files as they were, whatever [confirm] is.  With one of
    the two accepted values of [confirm], when the directory can be
    listed the message is the "Directory not empty" one and [contents]
    lists the first entries, at most ten; when [os.listdir] raises there
    is no [contents], and the message is "Permission denied" for a
    [PermissionError].  With any other value of [confirm] the message is
    the cancellation message and there is no [contents]. *)
Theorem delete_directory_nonempty (w : world) (dirpath confirm : string)
    (es : list (string * node)) :
  resolve w dirpath = Some (Dir es) ->
  es <> [] ->
  exists d w',
    delete_directory dirpath confirm w = (Ok d, w') /\
    same_files w w' /\
    field "success" d = Some (PBool false) /\
    field "deleted" d = Some (PBool false) /\
    (confirm_ok confirm = true ->
     os_refuses CallListdir (abspath w dirpath) = None ->
     w' = w /\
     field "message" d =
       Some (PStr ("Directory not empty ("
                   +:+ string_of_Z (Z.of_nat (length es))
                   +:+ " items). Delete contents first.")) /\
     field "contents" d = Some (PList (map PStr (take 10 (map fst es)))) /\
     (length (take 10 (map fst es)) <= 10)%nat) /\
    (confirm_ok confirm = true ->
     forall e,
       os_refuses CallListdir (abspath w dirpath) = Some e ->
       field "contents" d = None /\
       (is_PermissionError e = true ->
        w' = w /\
        field "message" d
        = Some (PStr ("Permission denied: " +:+ dirpath)))) /\
    (confirm_ok confirm = false ->
     w' = w /\
     field "message" d = Some (PStr confirm_message) /\
     field "contents" d = None).
Proof.
  intros Hres Hes.
  unfold delete_directory, delete_directory_body.
  destruct (confirm_ok confirm) eqn:Hc; cbn [negb].
  - assert (Hex : os_path_exists w dirpath = true)
      by (unfold os_path_exists; now rewrite Hres).
    assert (Hdir : os_path_isdir w dirpath = true)
      by (unfold os_path_isdir; now rewrite Hres).
    destruct es as [|x es']; [congruence|].
    destruct (os_refuses CallListdir (abspath w dirpath)) as [e|] eqn:Hl.
    + assert (Hb : forall k : list string -> M pyval,
                (ex <~ gets (fun w0 => os_path_exists w0 dirpath);;
                 if negb ex then
                   ret (PDict [("success", PBool false);
                               ("message",
                                PStr ("Directory not found: " +:+ dirpath));
                               ("dirpath", PStr dirpath);
                               ("deleted", PBool false)])
                 else
                   isd <~ gets (fun w0 => os_path_isdir w0 dirpath);;
                   if negb isd then
                     ret (PDict [("success", PBool false);
                                 ("message",
                                  PStr ("Not a directory: " +:+ dirpath));
                                 ("dirpath", PStr dirpath);
                                 ("deleted", PBool false)])
                   else contents <~ os_listdir dirpath;; k contents) w
                = (Raise e, w)).
      { intros k.
        erewrite wbind_Ok by apply gets_run. rewrite Hex. cbn [negb].
        erewrite wbind_Ok by apply gets_run. rewrite Hdir. cbn [negb].
        apply wbind_Raise. eapply os_listdir_refused; eassumption. }
      unfold try_except. rewrite Hb.
      unfold delete_directory_except.
      destruct (is_PermissionError e) eqn:Hp.
      * eexists _, _. split; [reflexivity|].
        split; [repeat split|]. split; [reflexivity|]. split; [reflexivity|].
        split; [discriminate|]. split; [|discriminate].
        intros _ e' [= <-]. split; [reflexivity|]. intros _. split; reflexivity.
      * eexists _, _. split; [reflexivity|].
        split; [repeat split|]. split; [reflexivity|]. split; [reflexivity|].
        split; [discriminate|]. split; [|discriminate].
        intros _ e' [= <-]. split; [reflexivity|]. rewrite Hp. discriminate.
    + exists (PDict [("success", PBool false);
                     ("message",
                      PStr ("Directory not empty ("
                            +:+ string_of_Z
                                  (Z.of_nat (length (map fst (x :: es'))))
                            +:+ " items). Delete contents first."));
                     ("dirpath", PStr dirpath);
                     ("contents",
                      PList (map PStr (take 10 (map fst (x :: es')))));
                     ("deleted", PBool false)]), w.
      split.
      * apply try_except_Ok.
        erewrite wbind_Ok by apply gets_run. rewrite Hex. cbn [negb].
        erewrite wbind_Ok by apply gets_run. rewrite Hdir. cbn [negb].
        erewrite wbind_Ok by (apply os_listdir_dir; [exact Hres|exact Hl]).
        reflexivity.
      * split; [repeat split|]. split; [reflexivity|]. split; [reflexivity|].
        split; [|split; [|discriminate]].
        -- intros _ _. split; [reflexivity|]. split; [|split].
           ++ cbn [field dict_get assoc]. simpl String.eqb. cbv iota.
              now rewrite length_map.
           ++ reflexivity.
           ++ apply length_take_le.
        -- intros _ e [=].
  - eexists _, _. split; [reflexivity|].
    split; [repeat split|]. split; [reflexivity|]. split; [reflexivity|].
    split; [discriminate|]. split; [discriminate|].
    intros _. split; [reflexivity|]. split; reflexivity.
Qed.

(** ** edit_word_document *)

Lemma put_node_some (p : list string) :
  forall n x y, p <> [] -> lookup_node n p = Some x ->
                exists n', put_node n p y = Some n'.
Proof.
  induction p as [|c p IH]; intros n x y Hp; [congruence|].
  simpl. destruct n as [?|es]; [discriminate|].
  destruct (assoc c es) as [z|] eqn:E; [|discriminate].
  destruct p as [|c' p].
  - intros _. eauto.
  - intros H. destruct (IH z x y ltac:(discriminate) H) as [n' Hn'].
    rewrite Hn'. eauto.
Qed.

(** Saving over an existing regular file succeeds and the file then holds
    what was saved. *)
Lemma write_file_over (w : world) (s : string) (c0 c : content) :
  resolve w s = Some (File c0) ->
  exists w', write_file s c w = (Ok tt, w') /\
             resolve w' s = Some (File c) /\
             same_files w' (set_fs w (fs w')) /\ log w' = log w.
Proof.
  intros Hres. destruct (resolve_some _ _ _ Hres) as [Hne Hlook].
  pose proof (file_path_nonempty _ _ _ Hlook) as Hp.
  destruct (put_node_some _ _ _ (File c) Hp Hlook) as [n' Hput].
  destruct (put_node_is_dir _ _ _ _ Hput) as [es ->].
  exists (set_fs w es). unfold write_file. rewrite Hne, Hlook, Hput.
  split; [reflexivity|]. split.
  - rewrite resolve_set_fs, Hne. apply (lookup_put_node _ _ _ _ Hput).
  - split; [|reflexivity]. repeat split.
Qed.

Lemma apply_word_ops_app (ops1 ops2 : list (list (string * pyval)))
    (d : document) :
  apply_word_ops (ops1 ++ ops2) d =
  (d' <- apply_word_ops ops1 d;; apply_word_ops ops2 d').
Proof.
  revert d. induction ops1 as [|op ops1 IH]; intros d; simpl; [reflexivity|].
  destruct (apply_word_op op d); simpl; [apply IH|reflexivity].
Qed.

Lemma py_eq_str_true (v : pyval) (s : string) :
  py_eq_str v s = true -> v = PStr s.
Proof.
  destruct v; simpl; try discriminate.
  intros H. apply String.eqb_eq in H. now subst.
Qed.

Lemma index_out_of_range (z : Z) (n : nat) :
  z < 0 \/ Z.of_nat n <= z -> index_in_range (PInt z) n = Ok None.
Proof.
  intros H. unfold index_in_range.
  destruct (0 <=? z)%Z eqn:E1; [|reflexivity].
  destruct (z <? Z.of_nat n)%Z eqn:E2; [|reflexivity].
  apply Z.leb_le in E1. apply Z.ltb_lt in E2. lia.
Qed.

(** An out-of-range paragraph operation changes nothing and raises
    nothing. *)
Lemma out_of_range_op_skipped (op : list (string * pyval)) (d : document)
    (cs : list xml) :
  body_of d = Ok cs ->
  out_of_range_op op (count_paragraphs cs) ->
  apply_word_op op d = Ok d.
Proof.
  intros Hb [Ht (z & Hz & Hr)].
  unfold apply_word_op. rewrite Hz, Hb. cbn [rbind].
  rewrite (index_out_of_range _ _ Hr). cbn [rbind].
  destruct Ht as [Ht|Ht]; apply py_eq_str_true in Ht; rewrite Ht; reflexivity.
Qed.


(** ** Writing files *)

(** A write that returns has put the file in place. *)
Lemma write_file_Ok (w w' : world) (s : string) (c : content) :
  write_file s c w = (Ok tt, w') ->
  resolve w' s = Some (File c) /\
  cwd w' = cwd w /\ trash w' = trash w /\ log w' = log w.
Proof.
  unfold write_file.
  destruct (String.eqb s "") eqn:Hne; [discriminate|].
  assert (Hput : forall r,
    match put_node (root w) (abspath w s) (File c) with
    | Some (Dir es) => (Ok tt, set_fs w es)
    | _ => r
    end = (Ok tt, w') -> r = (Ok tt, w') \/
    exists es, put_node (root w) (abspath w s) (File c) = Some (Dir es)
               /\ w' = set_fs w es).
  { intros r. destruct (put_node _ _ _) as [[?|es]|]; auto.
    intros [= <-]. right. eauto. }
  destruct (lookup_node (root w) (abspath w s)) as [[?|?]|];
    try discriminate;
    intros H; apply Hput in H; destruct H as [H|(es & Hp & ->)];
    try discriminate;
    (split; [rewrite resolve_set_fs, Hne; apply (lookup_put_node _ _ _ _ Hp)
            |repeat split]).
Qed.

(** A write that raises leaves the world as it was. *)
Lemma write_file_Raise (w w' : world) (s : string) (c : content) (e : exn) :
  write_file s c w = (Raise e, w') -> w' = w.
Proof.
  unfold write_file.
  destruct (String.eqb s ""); [now intros [= _ <-]|].
  destruct (lookup_node (root w) (abspath w s)) as [[?|?]|];
    try (now intros [= _ <-]);
    destruct (put_node _ _ _) as [[?|?]|]; try discriminate;
    now intros [= _ <-].
Qed.

(** ** create_excel_file *)

Lemma as_strings_map (r : list string) : as_strings (map PStr r) = Some r.
Proof. induction r; simpl; [reflexivity|]. now rewrite IHr. Qed.

Lemma as_string_grid_map (g : list (list string)) :
  as_string_grid (map (fun r => PList (map PStr r)) g) = Some g.
Proof.
  induction g; simpl; [reflexivity|]. now rewrite as_strings_map, IHg.
Qed.

Lemma pd_DataFrame_grid (g : list (list string)) :
  pd_DataFrame (grid_value g) = Ok (frame_of_grid g).
Proof. unfold pd_DataFrame, grid_value. now rewrite as_string_grid_map. Qed.

(** With content that is not JSON the handler runs the remaining
    statements on the comma-separated grid. *)
Lemma create_excel_file_fallback (filepath content : string) (e : exn)
    (w : world) :
  json_loads content = Raise e ->
  is_JSONDecodeError e = true ->
  create_excel_file filepath content w =
  try_except (excel_from_data filepath (grid_value (csv_grid content)))
             (fun e => ret (failure "Error creating Excel file" e)) w.
Proof.
  intros Hj He. unfold create_excel_file, try_except, create_excel_file_body.
  rewrite Hj, He. reflexivity.
Qed.

Lemma excel_from_grid_run (filepath : string) (g : list (list string))
    (w : world) :
  excel_from_data filepath (grid_value g) w =
  (makedirs_parent filepath ~;;
   df_to_excel filepath (frame_of_grid g) ~;;
   ret (success "Successfully created Excel file" filepath)) w.
Proof.
  unfold excel_from_data.
  erewrite wbind_Ok by (unfold lift; rewrite pd_DataFrame_grid; reflexivity).
  reflexivity.
Qed.

(** C9, as amended: for content that [json.loads] rejects,
    [create_excel_file] takes the stripped content split on line feeds and
    each line split on commas, turns that grid into a frame without
    raising, and runs the statements that write the spreadsheet on it:
    when creating the parent directory, converting the frame and writing
    the file raise nothing the answer has [success] true and the file
    holds the workbook of that frame, and an answer with [success] false
    reports the exception of one of these three steps, never the decoding
    error; the write that raised is that of the workbook or, when the
    conversion was to raise after the target was opened, of the part of
    it pandas would have saved. *)
Theorem create_excel_file_csv_fallback (w : world) (filepath content : string)
    (e : exn) :
  json_loads content = Raise e ->
  is_JSONDecodeError e = true ->
  pd_DataFrame (grid_value (csv_grid content))
    = Ok (frame_of_grid (csv_grid content)) /\
  (forall wb w1 w2,
     makedirs_parent filepath w = (Ok tt, w1) ->
     df_to_workbook filepath (frame_of_grid (csv_grid content)) = Ok wb ->
     write_file filepath (CXlsx wb) w1 = (Ok tt, w2) ->
     create_excel_file filepath content w
       = (Ok (success "Successfully created Excel file" filepath), w2) /\
     resolve w2 filepath = Some (File (CXlsx wb))) /\
  (forall d w',
     create_excel_file filepath content w = (Ok d, w') ->
     field "success" d <> Some (PBool true) ->
     exists e',
       d = failure "Error creating Excel file" e' /\
       (fst (makedirs_parent filepath w) = Raise e' \/
        df_to_workbook filepath (frame_of_grid (csv_grid content)) = Raise e' \/
        exists wb w1,
          (df_to_workbook filepath (frame_of_grid (csv_grid content)) = Ok wb \/
           df_written_on_error filepath (frame_of_grid (csv_grid content))
           = Some wb) /\
          write_file filepath (CXlsx wb) w1 = (Raise e', w'))).
Proof.
  intros Hj He. split; [apply pd_DataFrame_grid|].
  rewrite (create_excel_file_fallback _ _ _ _ Hj He).
  unfold try_except. rewrite excel_from_grid_run.
  split.
  - intros wb w1 w2 Hm Hc Hw.
    erewrite wbind_Ok by exact Hm.
    unfold df_to_excel. rewrite Hc.
    erewrite wbind_Ok by exact Hw.
    split; [reflexivity|]. apply (write_file_Ok _ _ _ _ Hw).
  - intros d w'.
    destruct (makedirs_parent filepath w) as [[[]|e1] w1] eqn:Hm.
    + erewrite wbind_Ok by exact Hm. unfold df_to_excel.
      destruct (df_to_workbook filepath (frame_of_grid (csv_grid content)))
        as [wb|e2] eqn:Hc.
      * destruct (write_file filepath (CXlsx wb) w1) as [[[]|e3] w2] eqn:Hw.
        -- erewrite wbind_Ok by exact Hw.
           intros [= <- <-] Hs. now elim Hs.
        -- erewrite wbind_Raise by exact Hw.
           intros [= <- <-] _. exists e3. split; [reflexivity|].
           right. right. exists wb, w1. split; [now left|exact Hw].
      * destruct (df_written_on_error filepath
                    (frame_of_grid (csv_grid content))) as [wb'|] eqn:Hp.
        -- destruct (write_file filepath (CXlsx wb') w1) as [[[]|e3] w2] eqn:Hw.
           ++ erewrite wbind_Raise
                by (erewrite wbind_Ok by exact Hw; reflexivity).
              intros [= <- <-] _. exists e2. split; [reflexivity|].
              now right; left.
           ++ erewrite wbind_Raise by (erewrite wbind_Raise by exact Hw;
                                       reflexivity).
              intros [= <- <-] _. exists e3. split; [reflexivity|].
              right. right. exists wb', w1. split; [now right|exact Hw].
        -- erewrite wbind_Raise by reflexivity.
           intros [= <- <-] _. exists e2. split; [reflexivity|].
           now right; left.
    + erewrite wbind_Raise by exact Hm.
      intros [= <- <-] _. exists e1. split; [reflexivity|]. now left.
Qed.

(** ** read_word_document_structure *)

Lemma mapM_Forall2 {A B} (f : A -> result B) (l : list A) (ys : list B) :
  mapM f l = Ok ys -> Forall2 (fun x y => f x = Ok y) l ys.
Proof.
  revert ys. induction l as [|x l IH]; intros ys; simpl.
  - intros [= <-]. constructor.
  - destruct (f x) as [y|] eqn:E; [|discriminate]. cbn [rbind].
    destruct (mapM f l) as [ys'|]; [|discriminate]. cbn [rbind].
    intros [= <-]. constructor; auto.
Qed.

Lemma grid_widths_read (gcs : list xml) (ws : list Z) :
  mapM width_attr gcs = Ok ws ->
  Forall2 width_reads (map (get_attr "w:w") gcs) ws.
Proof.
  intros H. apply mapM_Forall2 in H.
  induction H as [|gc z gcs ws Hgc _ IH]; simpl; constructor; [|exact IH].
  unfold width_attr in Hgc. unfold width_reads.
  destruct (get_attr "w:w" gc); [exact Hgc|]. now injection Hgc.
Qed.

(** The flag of a scanned row is set exactly when the row has a height
    element in its properties. *)
Lemma scan_row_flag (j : nat) (row : xml)
    (x : row_info * bool * list (option Z)) :
  scan_row j row = Ok x ->
  (snd (fst x) = true <->
   exists trPr trHeight,
     find "w:trPr" row = Some trPr /\ find "w:trHeight" trPr = Some trHeight).
Proof.
  unfold scan_row.
  destruct (find "w:trPr" row) as [trPr|] eqn:Hp.
  - destruct (find "w:trHeight" trPr) as [trHeight|] eqn:Hh.
    + destruct (match get_attr "w:val" trHeight with
                | Some val => _ | None => _ end) as [h|]; [|discriminate].
      cbn [rbind fst snd].
      destruct (mapM cell_width _); [|discriminate]. cbn [rbind].
      intros [= <-]. cbn [fst snd]. split; [|reflexivity].
      intros _. exists trPr, trHeight. auto.
    + cbn [rbind fst snd].
      destruct (mapM cell_width _); [|discriminate]. cbn [rbind].
      intros [= <-]. cbn [fst snd]. split; [discriminate|].
      intros (p & h & [= <-] & Hh'). congruence.
  - cbn [rbind fst snd].
    destruct (mapM cell_width _); [|discriminate]. cbn [rbind].
    intros [= <-]. cbn [fst snd]. split; [discriminate|].
    intros (? & ? & ? & ?). discriminate.
Qed.

Lemma scan_rows_spec (rows : list xml) :
  forall j scanned,
    scan_rows j rows = Ok scanned ->
    length scanned = length rows /\
    (existsb (fun x => snd (fst x)) scanned = true <->
     exists row trPr trHeight,
       In row rows /\ find "w:trPr" row = Some trPr /\
       find "w:trHeight" trPr = Some trHeight).
Proof.
  induction rows as [|r rows IH]; intros j scanned; simpl.
  - intros [= <-]. split; [reflexivity|]. simpl. split; [discriminate|].
    intros (? & ? & ? & [] & _).
  - destruct (scan_row j r) as [x|] eqn:Hx; [|discriminate]. cbn [rbind].
    destruct (scan_rows (S j) rows) as [xs|] eqn:Hxs; [|discriminate].
    cbn [rbind]. intros [= <-].
    destruct (IH _ _ Hxs) as [Hlen Hflag].
    pose proof (scan_row_flag _ _ _ Hx) as Hrow.
    split; [simpl; now rewrite Hlen|].
    simpl. rewrite orb_true_iff, Hrow, Hflag. split.
    + intros [(p & h & H1 & H2)|(row & p & h & Hin & H1 & H2)].
      * exists r, p, h. auto.
      * exists row, p, h. auto.
    + intros (row & p & h & [<-|Hin] & H1 & H2).
      * left. eauto.
      * right. exists row, p, h. auto.
Qed.

Lemma scan_table_reads (i : nat) (tbl : xml) (t : table_info) :
  scan_table i tbl = Ok t -> table_reads tbl t /\ table_index t = (i + 1)%nat.
Proof.
  unfold scan_table, table_reads, grid_reads, grid_attribute_values,
    some_row_has_height.
  destruct (find "w:tblGrid" tbl) as [g|].
  - destruct (mapM width_attr (findall "w:gridCol" g)) as [ws|] eqn:Hws;
      [|discriminate].
    cbn [rbind].
    destruct (scan_rows 0 (findall "w:tr" tbl)) as [scanned|] eqn:Hs;
      [|discriminate].
    cbn [rbind]. intros [= <-]. cbn.
    destruct (scan_rows_spec _ _ _ Hs) as [_ Hflag].
    split; [|reflexivity]. split; [|split; [reflexivity|exact Hflag]].
    split; [now apply grid_widths_read|reflexivity].
  - cbn [rbind].
    destruct (scan_rows 0 (findall "w:tr" tbl)) as [scanned|] eqn:Hs;
      [|discriminate].
    cbn [rbind]. intros [= <-]. cbn.
    destruct (scan_rows_spec _ _ _ Hs) as [_ Hflag].
    split; [|reflexivity]. split; [|split; [reflexivity|exact Hflag]].
    split; reflexivity.
Qed.

Lemma scan_tables_reads (tables : list xml) :
  forall i ts, scan_tables i tables = Ok ts -> Forall2 table_reads tables ts.
Proof.
  induction tables as [|tbl tables IH]; intros i ts; simpl.
  - intros [= <-]. constructor.
  - destruct (scan_table i tbl) as [t|] eqn:Ht; [|discriminate]. cbn [rbind].
    destruct (scan_tables (S i) tables) as [ts'|] eqn:Hts; [|discriminate].
    cbn [rbind]. intros [= <-]. constructor.
    + apply (scan_table_reads _ _ _ Ht).
    + apply (IH _ _ Hts).
Qed.

(** An answer with [success] true comes from the body of the reader, run
    to its end: the file is an archive, its document part parses, and
    every table scans. *)
Lemma read_structure_success (w w' : world) (filepath : string) (d : pyval) :
  read_word_document_structure filepath w = (Ok d, w') ->
  field "success" d = Some (PBool true) ->
  exists c parts root_elem ts,
    resolve w filepath = Some (File c) /\
    zip_members c = Ok parts /\
    zip_parse "word/document.xml" parts = Ok root_elem /\
    scan_tables 0 (findall_desc "w:tbl" root_elem) = Ok ts /\
    d = structure_dict filepath parts root_elem ts /\
    w' = w.
Proof.
  unfold read_word_document_structure, try_except,
    read_word_document_structure_body.
  unfold wbind at 1. unfold read_file.
  destruct (resolve w filepath) as [[c|?]|] eqn:Hres;
    [|intros [= <- <-]; discriminate
     |destruct (below_file _ _); intros [= <- <-]; discriminate].
  unfold wbind at 1. unfold lift.
  destruct (zip_members c) as [parts|] eqn:Hz;
    [|intros [= <- <-]; discriminate].
  unfold wbind at 1.
  destruct (zip_parse "word/document.xml" parts) as [r|] eqn:Hp;
    [|intros [= <- <-]; discriminate].
  unfold wbind at 1.
  destruct (scan_tables 0 (findall_desc "w:tbl" r)) as [ts|] eqn:Hs;
    [|intros [= <- <-]; discriminate].
  intros [= <- <-] _. exists c, parts, r, ts. repeat split; assumption.
Qed.


(** ** compare_word_documents *)

Lemma py_eqb_int_lists (a b : list Z) :
  py_eqb (PList (map PInt a)) (PList (map PInt b)) = true <-> a = b.
Proof.
  cbn [py_eqb]. revert b. induction a as [|x a IH]; intros [|y b]; simpl;
    try (split; [discriminate|discriminate]); [split; reflexivity|].
  rewrite andb_true_iff, IH, Z.eqb_eq. split.
  - intros [-> ->]. reflexivity.
  - intros [= -> ->]. auto.
Qed.

Lemma py_eqb_bools (a b : bool) : py_eqb (PBool a) (PBool b) = true <-> a = b.
Proof. destruct a, b; simpl; split; congruence. Qed.

Lemma py_eqb_nats (a b : nat) :
  py_eqb (PInt (Z.of_nat a)) (PInt (Z.of_nat b)) = true <-> a = b.
Proof. simpl. rewrite Z.eqb_eq. lia. Qed.

(** The reader on a file whose tables it can scan. *)
Lemma read_structure_readable (w : world) (filepath : string)
    (ts : list table_info) :
  document_tables w filepath = Ok ts ->
  exists parts root_elem,
    read_word_document_structure filepath w
      = (Ok (structure_dict filepath parts root_elem ts), w).
Proof.
  unfold document_tables.
  destruct (resolve w filepath) as [[c|?]|] eqn:Hres; try discriminate.
  destruct (zip_members c) as [parts|] eqn:Hz; [|discriminate]. cbn [rbind].
  destruct (zip_parse "word/document.xml" parts) as [r|] eqn:Hp;
    [|discriminate].
  cbn [rbind]. intros Hs. exists parts, r.
  unfold read_word_document_structure. apply try_except_Ok.
  unfold read_word_document_structure_body.
  erewrite wbind_Ok by (unfold read_file; rewrite Hres; reflexivity).
  erewrite wbind_Ok by (unfold lift; rewrite Hz; reflexivity).
  erewrite wbind_Ok by (unfold lift; rewrite Hp; reflexivity).
  erewrite wbind_Ok by (unfold lift; rewrite Hs; reflexivity).
  reflexivity.
Qed.

Lemma compare_table_agrees (f1 f2 : string) (p1 p2 : list (string * part))
    (r1 r2 : xml) (ts1 ts2 : list table_info) (i : nat) (t1 t2 : table_info) :
  nth_error ts1 i = Some t1 ->
  nth_error ts2 i = Some t2 ->
  exists o,
    compare_table (structure_dict f1 p1 r1 ts1) (structure_dict f2 p2 r2 ts2) i
      = Ok o /\
    (o = None <-> geometry_agrees t1 t2).
Proof.
  intros H1 H2. unfold compare_table.
  change (py_item (structure_dict f1 p1 r1 ts1) "tables")
    with (Ok (PList (map table_info_dict ts1))).
  change (py_item (structure_dict f2 p2 r2 ts2) "tables")
    with (Ok (PList (map table_info_dict ts2))).
  cbn [rbind py_nth]. rewrite !nth_error_map, H1, H2. cbn [option_map rbind].
  change (py_item (table_info_dict t1) "column_widths")
    with (Ok (PList (map PInt (column_widths t1)))).
  change (py_item (table_info_dict t2) "column_widths")
    with (Ok (PList (map PInt (column_widths t2)))).
  change (py_item (table_info_dict t1) "column_widths_source")
    with (Ok (py_opt_str (column_widths_source t1))).
  change (py_item (table_info_dict t2) "column_widths_source")
    with (Ok (py_opt_str (column_widths_source t2))).
  change (py_item (table_info_dict t1) "has_explicit_row_heights")
    with (Ok (PBool (has_explicit_row_heights t1))).
  change (py_item (table_info_dict t2) "has_explicit_row_heights")
    with (Ok (PBool (has_explicit_row_heights t2))).
  change (py_item (table_info_dict t1) "row_count")
    with (Ok (PInt (Z.of_nat (row_count t1)))).
  change (py_item (table_info_dict t2) "row_count")
    with (Ok (PInt (Z.of_nat (row_count t2)))).
  cbn [rbind].
  pose proof (py_eqb_int_lists (column_widths t1) (column_widths t2)) as Hc.
  pose proof (py_eqb_bools (has_explicit_row_heights t1)
                (has_explicit_row_heights t2)) as Hh.
  pose proof (py_eqb_nats (row_count t1) (row_count t2)) as Hr.
  unfold geometry_agrees.
  destruct (py_eqb (PList (map PInt (column_widths t1))) _) eqn:Ec;
  destruct (py_eqb (PBool (has_explicit_row_heights t1)) _) eqn:Eh;
  destruct (py_eqb (PInt (Z.of_nat (row_count t1))) _) eqn:Er;
  cbn [negb rbind app]; eexists; (split; [reflexivity|]);
  (split; [try discriminate; intros _; repeat split; forget_libraries; tauto
          |intros (A & B & C); try reflexivity;
           try (apply Hc in A; discriminate);
           try (apply Hh in B; discriminate);
           try (apply Hr in C; discriminate)]).
Qed.

Lemma compare_tables_agree (f1 f2 : string) (p1 p2 : list (string * part))
    (r1 r2 : xml) (ts1 ts2 : list table_info) (indices : list nat) :
  (forall i, In i indices ->
             (i < length ts1)%nat /\ (i < length ts2)%nat) ->
  exists ds,
    compare_tables (structure_dict f1 p1 r1 ts1) (structure_dict f2 p2 r2 ts2)
                   indices = Ok ds /\
    (ds = [] <->
     forall i t1 t2, In i indices -> nth_error ts1 i = Some t1 ->
                     nth_error ts2 i = Some t2 -> geometry_agrees t1 t2).
Proof.
  induction indices as [|i rest IH]; intros Hin.
  - exists []. split; [reflexivity|]. split; [intros _ ? ? ? []|reflexivity].
  - destruct (Hin i (or_introl eq_refl)) as [L1 L2].
    destruct (nth_error ts1 i) as [t1|] eqn:E1;
      [|apply nth_error_None in E1; lia].
    destruct (nth_error ts2 i) as [t2|] eqn:E2;
      [|apply nth_error_None in E2; lia].
    destruct (compare_table_agrees f1 f2 p1 p2 r1 r2 _ _ _ _ _ E1 E2)
      as (o & Ho & Hoiff).
    destruct (IH (fun j Hj => Hin j (or_intror Hj))) as (ds & Hds & Hdsiff).
    simpl. rewrite Ho. cbn [rbind]. rewrite Hds. cbn [rbind].
    eexists. split; [reflexivity|].
    destruct o as [x|].
    + split; [discriminate|].
      intros H. exfalso.
      assert (G : geometry_agrees t1 t2)
        by (apply (H i); [now left|assumption|assumption]).
      apply Hoiff in G. discriminate.
    + rewrite Hdsiff. split.
      * intros H j u1 u2 [<-|Hj] Hu1 Hu2.
        -- rewrite E1 in Hu1. rewrite E2 in Hu2.
           injection Hu1 as <-. injection Hu2 as <-. now apply Hoiff.
        -- eauto.
      * intros H j u1 u2 Hj. apply H. now right.
Qed.

(** C5: for two files the structure reader can read,
    [compare_word_documents] answers with [success] true and
    [is_identical] is true exactly when the two documents have the same
    number of tables and, at every index below that number, equal
    [column_widths], equal [has_explicit_row_heights] and equal
    [row_count].  Nothing else of the documents enters the answer. *)
Theorem compare_reports_table_geometry (w : world) (filepath1 filepath2 : string)
    (ts1 ts2 : list table_info) :
  document_tables w filepath1 = Ok ts1 ->
  document_tables w filepath2 = Ok ts2 ->
  exists d b,
    compare_word_documents filepath1 filepath2 w = (Ok d, w) /\
    field "success" d = Some (PBool true) /\
    field "is_identical" d = Some (PBool b) /\
    (b = true <-> same_geometry ts1 ts2).
Proof.
  intros H1 H2.
  destruct (read_structure_readable _ _ _ H1) as (p1 & r1 & R1).
  destruct (read_structure_readable _ _ _ H2) as (p2 & r2 & R2).
  destruct (compare_tables_agree filepath1 filepath2 p1 p2 r1 r2 ts1 ts2
              (seq 0 (Z.to_nat (Z.min (Z.of_nat (length ts1))
                                      (Z.of_nat (length ts2))))))
    as (ds & Hds & Hiff).
  { intros i Hi. apply in_seq in Hi. lia. }
  eexists _, _. split; [|split; [|split]].
  - unfold compare_word_documents. apply try_except_Ok.
    unfold compare_word_documents_body.
    erewrite wbind_Ok by exact R1.
    erewrite wbind_Ok by exact R2.
    erewrite wbind_Ok by reflexivity.
    erewrite wbind_Ok by reflexivity.
    change (py_truthy (dict_get_or "success" PNone _)) with true.
    cbn [negb orb].
    erewrite wbind_Ok by reflexivity.
    erewrite wbind_Ok by reflexivity.
    erewrite wbind_Ok by reflexivity.
    erewrite wbind_Ok by (unfold lift; rewrite Hds; reflexivity).
    reflexivity.
  - reflexivity.
  - reflexivity.
  - rewrite Nat.eqb_eq, length_zero_iff_nil.
    unfold same_geometry. split.
    + intros Happ. apply app_eq_nil in Happ. destruct Happ as [Hc Ht].
      assert (Hlen : length ts1 = length ts2).
      { pose proof (py_eqb_nats (length ts1) (length ts2)) as Hn.
        destruct (py_eqb (PInt (Z.of_nat (length ts1))) _) eqn:E;
          [now apply Hn|discriminate]. }
      split; [exact Hlen|].
      intros i t1 t2 Hi1 Hi2. apply (proj1 Hiff Ht i t1 t2); auto.
      apply in_seq.
      assert (L1 : (i < length ts1)%nat)
        by (apply nth_error_Some; congruence).
      assert (L2 : (i < length ts2)%nat)
        by (apply nth_error_Some; congruence).
      lia.
    + intros [Hlen Hall].
      replace ds with (@nil pyval)
        by (symmetry; apply Hiff; intros i t1 t2 _ A B;
            exact (Hall i t1 t2 A B)).
      rewrite app_nil_r.
      pose proof (py_eqb_nats (length ts1) (length ts2)) as Hn.
      destruct (py_eqb (PInt (Z.of_nat (length ts1))) _) eqn:E;
        [reflexivity|].
      apply Hn in Hlen. congruence.
Qed.

(** ** The creation and conversion tools *)

Lemma target_untouched_refl (s : string) (w : world) : target_untouched s w w.
Proof. split; reflexivity. Qed.

Lemma target_untouched_trans (s : string) (w1 w2 w3 : world) :
  target_untouched s w1 w2 -> target_untouched s w2 w3 ->
  target_untouched s w1 w3.
Proof. intros [A B] [C D]. split; congruence. Qed.

Lemma lookup_mkdirs_child (p : list string) (c : string) :
  forall n n', mkdirs n p = Some n' ->
               lookup_node n' (p ++ [c]) = lookup_node n (p ++ [c]).
Proof.
  induction p as [|a p IH]; intros n n'; simpl.
  - destruct n; [discriminate|]. now intros [= <-].
  - destruct n as [?|es]; [discriminate|].
    destruct (assoc a es) as [x|] eqn:E.
    + destruct (mkdirs x p) as [x'|] eqn:Hx; [|discriminate].
      intros [= <-]. cbn [lookup_node]. rewrite assoc_set_entry_eq.
      apply (IH _ _ Hx).
    + destruct (mkdirs (Dir []) p) as [x'|] eqn:Hx; [|discriminate].
      intros [= <-]. cbn [lookup_node]. rewrite assoc_set_entry_eq.
      rewrite (IH _ _ Hx). destruct p; reflexivity.
Qed.

Lemma mkdirs_nil (n n' : node) : mkdirs n [] = Some n' -> n' = n.
Proof. simpl. destruct n; [discriminate|]. now intros [= <-]. Qed.

(** Creating the parent directories of a path does not change what the
    path names. *)
Lemma makedirs_parent_target (s : string) (w w' : world) (r : result unit) :
  makedirs_parent s w = (r, w') -> target_untouched s w w'.
Proof.
  unfold makedirs_parent.
  destruct (mkdirs (root w) (dirname (abspath w s))) as [[?|es]|] eqn:Hm;
    try (intros [= _ <-]; apply target_untouched_refl).
  intros [= _ <-]. split; [reflexivity|].
  rewrite resolve_set_fs. unfold resolve.
  destruct (String.eqb s ""); [reflexivity|].
  destruct (abspath w s) as [|a q] eqn:Hq using rev_ind.
  - apply mkdirs_nil in Hm. unfold root in Hm. injection Hm as ->.
    reflexivity.
  - unfold dirname in Hm. rewrite removelast_last in Hm.
    apply (lookup_mkdirs_child _ _ _ _ Hm).
Qed.

Lemma write_file_target (s : string) (c : content) (w w' : world) (u : unit) :
  write_file s c w = (Ok u, w') -> is_regular_file w' s = true.
Proof.
  destruct u. intros H. apply write_file_Ok in H. destruct H as [H _].
  unfold is_regular_file. now rewrite H.
Qed.

Lemma logger_info_target (msg s : string) (w : world) :
  target_untouched s w (snd (logger_info msg w)).
Proof. split; reflexivity. Qed.

Lemma logger_error_target (msg s : string) (w : world) :
  target_untouched s w (snd (logger_error msg w)).
Proof. split; reflexivity. Qed.

Lemma read_file_world (s : string) (w w' : world) (r : result content) :
  read_file s w = (r, w') -> w' = w.
Proof.
  unfold read_file. destruct (resolve w s) as [[?|?]|];
    [| |destruct (below_file _ _)]; now intros [= _ <-].
Qed.

Lemma read_text_world (s : string) (w w' : world) (r : result string) :
  read_text s w = (r, w') -> w' = w.
Proof.
  unfold read_text, wbind. destruct (read_file s w) as [[c|e] w1] eqn:H.
  - apply read_file_world in H. subst w1.
    destruct c; unfold ret, throw; now intros [= _ <-].
  - apply read_file_world in H. subst w1. now intros [= _ <-].
Qed.

Lemma wbind_inv {A B} (m : M A) (k : A -> M B) (w w' : world) (r : result B) :
  wbind m k w = (r, w') ->
  (exists a w1, m w = (Ok a, w1) /\ k a w1 = (r, w')) \/
  (exists e, m w = (Raise e, w') /\ r = Raise e).
Proof.
  unfold wbind. destruct (m w) as [[a|e] w1].
  - intros H. left. eauto.
  - intros [= <- <-]. right. eauto.
Qed.

Lemma try_except_inv {A} (body : M A) (h : exn -> M A) (w w' : world)
    (r : result A) :
  try_except body h w = (r, w') ->
  (exists a, body w = (Ok a, w') /\ r = Ok a) \/
  (exists e w1, body w = (Raise e, w1) /\ h e w1 = (r, w')).
Proof.
  unfold try_except. destruct (body w) as [[a|e] w1].
  - intros [= <- <-]. left. eauto.
  - intros H. right. eauto.
Qed.

(** The success and failure dictionaries. *)
Lemma success_fields (msg s : string) :
  field "success" (success msg s) = Some (PBool true) /\
  field "filepath" (success msg s) = Some (PStr s).
Proof. split; reflexivity. Qed.

Lemma failure_fields (what : string) (e : exn) :
  field "success" (failure what e) = Some (PBool false) /\
  field "filepath" (failure what e) = Some PNone /\
  exists m, field "message" (failure what e) = Some (PStr m).
Proof. split; [reflexivity|]. split; [reflexivity|]. eexists. reflexivity. Qed.

Lemma source_not_found_fields (s : string) :
  field "success" (source_not_found s) = Some (PBool false) /\
  field "filepath" (source_not_found s) = Some PNone.
Proof. split; reflexivity. Qed.

Ltac bind_inv H :=
  let a := fresh "a" in
  let w1 := fresh "w1" in
  let e := fresh "e" in
  let Hm := fresh "Hm" in
  apply wbind_inv in H;
  destruct H as [(a & w1 & Hm & H)|(e & Hm & H)].

Lemma lift_inv {A} (r0 : result A) (w w' : world) (r : result A) :
  lift r0 w = (r, w') -> r = r0 /\ w' = w.
Proof. unfold lift. now intros [= <- <-]. Qed.

Lemma df_to_excel_outcome (s : string) (df : dataframe) (w w' : world)
    (r : result unit) :
  df_to_excel s df w = (r, w') ->
  (r = Ok tt /\ is_regular_file w' s = true) \/
  ((exists e, r = Raise e) /\
   (w' = w \/ (cwd w' = cwd w /\ left_on_error s w'))).
Proof.
  unfold df_to_excel.
  destruct (df_to_workbook s df) as [wb|e] eqn:Hc.
  - intros H. destruct r as [[]|e].
    + left. split; [reflexivity|]. apply (write_file_target _ _ _ _ _ H).
    + right. split; [eauto|]. left. apply (write_file_Raise _ _ _ _ _ H).
  - destruct (df_written_on_error s df) as [wb|] eqn:Hp.
    + intros H. bind_inv H.
      * injection H as <- <-. right. split; [eauto|]. destruct a.
        right. apply write_file_Ok in Hm as (R & C & _).
        split; [exact C|]. exists df, e, wb. auto.
      * subst r. right. split; [eauto|].
        left. apply (write_file_Raise _ _ _ _ _ Hm).
    + intros [= <- <-]. right. split; [eauto|]. now left.
Qed.

Lemma doc_save_outcome (s : string) (d : document) (w w' : world)
    (r : result unit) :
  doc_save s d w = (r, w') ->
  (r = Ok tt /\ is_regular_file w' s = true) \/
  ((exists e, r = Raise e) /\ w' = w).
Proof.
  unfold doc_save. intros H. destruct r as [[]|e].
  - left. split; [reflexivity|]. apply (write_file_target _ _ _ _ _ H).
  - right. split; [eauto|]. apply (write_file_Raise _ _ _ _ _ H).
Qed.

Lemma is_regular_file_ext (s : string) (w w' : world) :
  fs w' = fs w -> cwd w' = cwd w ->
  is_regular_file w' s = is_regular_file w s.
Proof.
  intros Hf Hc. unfold is_regular_file, resolve, root, abspath.
  now rewrite Hf, Hc.
Qed.

Lemma create_word_document_body_outcome (f x : string) (w w' : world)
    (r : result pyval) :
  create_word_document_body f x w = (r, w') -> creation_outcome false f w w' r.
Proof.
  unfold create_word_document_body. intros H. bind_inv H.
  - apply lift_inv in Hm. destruct Hm as [_ ->]. bind_inv H.
    + pose proof (makedirs_parent_target _ _ _ _ Hm) as T1. bind_inv H.
      * destruct (doc_save_outcome _ _ _ _ _ Hm0) as [[_ F]|[[? ?] _]];
          [|discriminate].
        bind_inv H.
        -- injection H as <- <-. injection Hm1 as _ <-.
           left. eexists. split; [reflexivity|].
           rewrite <- F. now apply is_regular_file_ext.
        -- discriminate.
      * destruct (doc_save_outcome _ _ _ _ _ Hm0) as [[? _]|[_ ->]];
          [discriminate|].
        right. left. subst. split; [eauto|left; exact T1].
    + right. left. subst. split; [eauto|]. left.
      apply (makedirs_parent_target _ _ _ _ Hm).
  - apply lift_inv in Hm. destruct Hm as [_ ->]. right. left. subst.
    split; [eauto|left; apply target_untouched_refl].
Qed.

Lemma convert_txt_to_word_body_outcome (s t : string) (w w' : world)
    (r : result pyval) :
  convert_txt_to_word_body s t w = (r, w') -> creation_outcome false t w w' r.
Proof.
  unfold convert_txt_to_word_body. intros H.
  erewrite wbind_Ok in H by apply gets_run.
  destruct (os_path_exists w s); cbn [negb] in H.
  2:{ injection H as <- <-. right. right. eauto. }
  bind_inv H.
  - apply read_text_world in Hm. subst w1. bind_inv H.
    + apply lift_inv in Hm. destruct Hm as [_ ->]. bind_inv H.
      * pose proof (makedirs_parent_target _ _ _ _ Hm) as T1. bind_inv H.
        -- destruct (doc_save_outcome _ _ _ _ _ Hm0) as [[_ F]|[[? ?] _]];
             [|discriminate].
           injection H as <- <-. left. eauto.
        -- destruct (doc_save_outcome _ _ _ _ _ Hm0) as [[? _]|[_ ->]];
             [discriminate|].
           right. left. subst. split; [eauto|left; exact T1].
      * right. left. subst. split; [eauto|]. left.
        apply (makedirs_parent_target _ _ _ _ Hm).
    + apply lift_inv in Hm. destruct Hm as [_ ->]. right. left. subst.
      split; [eauto|left; apply target_untouched_refl].
  - apply read_text_world in Hm. subst w'. right. left. subst.
    split; [eauto|left; apply target_untouched_refl].
Qed.

(** The statements that make the directories and write the
    spreadsheet. *)
Lemma excel_write_outcome (f msg : string) (df : dataframe) (w w' : world)
    (r : result pyval) :
  (makedirs_parent f ~;; df_to_excel f df ~;; ret (success msg f)) w = (r, w') ->
  creation_outcome true f w w' r.
Proof.
  intros H. bind_inv H.
  - pose proof (makedirs_parent_target _ _ _ _ Hm) as T1. bind_inv H.
    + destruct (df_to_excel_outcome _ _ _ _ _ Hm0) as [[_ F]|[[? ?] _]];
        [|discriminate].
      injection H as <- <-. left. eauto.
    + destruct (df_to_excel_outcome _ _ _ _ _ Hm0) as [[? _]|[_ [->|[C L]]]];
        [discriminate| |].
      * right. left. subst. split; [eauto|left; exact T1].
      * right. left. subst. split; [eauto|]. right.
        split; [reflexivity|]. split; [|exact L].
        destruct T1 as [C1 _]. congruence.
  - right. left. subst. split; [eauto|]. left.
    apply (makedirs_parent_target _ _ _ _ Hm).
Qed.

Lemma excel_from_data_outcome (f : string) (data : pyval) (w w' : world)
    (r : result pyval) :
  excel_from_data f data w = (r, w') -> creation_outcome true f w w' r.
Proof.
  unfold excel_from_data. intros H. bind_inv H.
  - apply lift_inv in Hm. destruct Hm as [_ ->].
    apply (excel_write_outcome _ _ _ _ _ _ H).
  - apply lift_inv in Hm. destruct Hm as [_ ->]. right. left. subst.
    split; [eauto|left; apply target_untouched_refl].
Qed.

Lemma create_excel_file_body_outcome (f x : string) (w w' : world)
    (r : result pyval) :
  create_excel_file_body f x w = (r, w') -> creation_outcome true f w w' r.
Proof.
  unfold create_excel_file_body. intros H. bind_inv H.
  - assert (w1 = w) as ->.
    { destruct (json_loads x) as [v|e0].
      - now injection Hm as _ <-.
      - destruct (is_JSONDecodeError e0); now injection Hm as _ <-. }
    apply (excel_from_data_outcome _ _ _ _ _ H).
  - assert (w' = w) as ->.
    { destruct (json_loads x) as [v|e0].
      - now injection Hm as _ <-.
      - destruct (is_JSONDecodeError e0); now injection Hm as _ <-. }
    right. left. subst. split; [eauto|left; apply target_untouched_refl].
Qed.

Lemma convert_csv_to_excel_body_outcome (s t : string) (w w' : world)
    (r : result pyval) :
  convert_csv_to_excel_body s t w = (r, w') -> creation_outcome true t w w' r.
Proof.
  unfold convert_csv_to_excel_body. intros H.
  erewrite wbind_Ok in H by apply gets_run.
  destruct (os_path_exists w s); cbn [negb] in H.
  2:{ injection H as <- <-. right. right. eauto. }
  bind_inv H.
  - apply read_file_world in Hm. subst w1. bind_inv H.
    + apply lift_inv in Hm. destruct Hm as [_ ->].
      apply (excel_write_outcome _ _ _ _ _ _ H).
    + apply lift_inv in Hm. destruct Hm as [_ ->]. right. left. subst.
      split; [eauto|left; apply target_untouched_refl].
  - apply read_file_world in Hm. subst w'. right. left. subst.
    split; [eauto|left; apply target_untouched_refl].
Qed.

Lemma create_pdf_file_body_outcome (f x : string) (w w' : world)
    (r : result pyval) :
  create_pdf_file_body f x w = (r, w') -> creation_outcome false f w w' r.
Proof.
  unfold create_pdf_file_body. intros H. bind_inv H.
  - pose proof (makedirs_parent_target _ _ _ _ Hm) as T1.
    unfold canvas_save in H. bind_inv H.
    + injection H as <- <-. left. eexists. split; [reflexivity|].
      apply (write_file_target _ _ _ _ _ Hm0).
    + apply write_file_Raise in Hm0. subst. right. left.
      split; [eauto|left; exact T1].
  - right. left. subst. split; [eauto|]. left.
    apply (makedirs_parent_target _ _ _ _ Hm).
Qed.

Lemma creation_body_outcome (c : creation_call) (w w' : world)
    (r : result pyval) :
  tool_body (creation_tool c) w = (r, w') ->
  creation_outcome (excel_call c) (target_of c) w w' r.
Proof.
  destruct c; cbn [tool_body creation_tool target_of excel_call].
  - apply create_word_document_body_outcome.
  - apply convert_txt_to_word_body_outcome.
  - apply create_excel_file_body_outcome.
  - apply convert_csv_to_excel_body_outcome.
  - apply create_pdf_file_body_outcome.
Qed.

(** ** Every handler is a guarded body *)

Lemma run_tool_guarded (c : tool_call) :
  run_tool c = try_except (tool_body c) (tool_except c).
Proof. destruct c; reflexivity. Qed.

(** The [except] clause of every handler returns a dictionary with
    [success] false and a message, and touches only the log. *)
Lemma tool_except_returns (c : tool_call) (e : exn) (w : world) :
  exists d w',
    tool_except c e w = (Ok d, w') /\
    field "success" d = Some (PBool false) /\
    (exists m, field "message" d = Some (PStr m)) /\
    same_files w w'.
Proof.
  destruct c; cbn [tool_except];
    unfold create_word_document_except, create_formatted_word_document_except,
      read_word_document_structure_except, compare_word_documents_except,
      delete_file_except, delete_directory_except, failure;
    try destruct (is_PermissionError e);
    (eexists _, _; split; [reflexivity|];
     split; [reflexivity|]; split; [eexists; reflexivity|repeat split]).
Qed.

Lemma failure_filepath (c : creation_call) (e : exn) (w : world) :
  exists d w',
    tool_except (creation_tool c) e w = (Ok d, w') /\
    field "success" d = Some (PBool false) /\
    field "filepath" d = Some PNone /\
    same_files w w'.
Proof.
  destruct c; cbn [tool_except creation_tool];
    unfold create_word_document_except;
    eexists _, _; (split; [reflexivity|]); repeat split.
Qed.

(** C1, as amended: every handler returns a dictionary and never
    propagates an exception; whenever an exception leaves the statements
    inside the handler's outer [try], the dictionary has [success] false
    and a message string.  (The decoding error that [create_excel_file]
    catches inside its body does not leave the body: the body goes on
    with the comma-separated reading of the content.) *)
Theorem handlers_never_propagate (c : tool_call) (w : world) :
  exists d w',
    run_tool c w = (Ok d, w') /\
    (forall e w1,
       tool_body c w = (Raise e, w1) ->
       field "success" d = Some (PBool false) /\
       exists m, field "message" d = Some (PStr m)).
Proof.
  rewrite run_tool_guarded. unfold try_except.
  destruct (tool_body c w) as [[d|e] w1] eqn:Hb.
  - exists d, w1. split; [reflexivity|]. intros ? ? [=].
  - destruct (tool_except_returns c e w1) as (d & w' & Hd & Hs & Hm & _).
    exists d, w'. split; [exact Hd|]. intros _ _ _. auto.
Qed.

Lemma same_files_resolve (s : string) (w w' : world) :
  same_files w w' -> resolve w' s = resolve w s.
Proof.
  intros (Hf & Hc & _). unfold resolve, root, abspath. now rewrite Hf, Hc.
Qed.

(** ** The handlers keep no state of their own *)

Create HintDb stateless.

Lemma same_files_log (w1 w2 : world) :
  same_files w1 w2 ->
  w2 = {| fs := fs w1; cwd := cwd w1; trash := trash w1; log := log w2 |}.
Proof. destruct w2. intros (A & B & C). cbn in *. now subst. Qed.

Ltac primitive_independent :=
  let w1 := fresh "w1" in
  let w2 := fresh "w2" in
  let H := fresh "H" in
  intros w1 w2 H; rewrite (same_files_log w1 w2 H); clear H;
  destruct w1 as [f1 c1 t1 l1];
  cbv [fs cwd trash log resolve root abspath set_fs];
  repeat match goal with
         | |- context [match ?x with _ => _ end] => destruct x
         end;
  split; try reflexivity; repeat split.

Lemma ret_independent {A} (a : A) : log_independent (ret a).
Proof. intros w1 w2 H. split; [reflexivity|exact H]. Qed.

Lemma throw_independent {A} (e : exn) : log_independent (@throw A e).
Proof. intros w1 w2 H. split; [reflexivity|exact H]. Qed.

Lemma lift_independent {A} (r : result A) : log_independent (lift r).
Proof. intros w1 w2 H. split; [reflexivity|exact H]. Qed.

Lemma wbind_independent {A B} (m : M A) (k : A -> M B) :
  log_independent m -> (forall a, log_independent (k a)) ->
  log_independent (wbind m k).
Proof.
  intros Hm Hk w1 w2 H. unfold wbind.
  destruct (Hm w1 w2 H) as [E S].
  destruct (m w1) as [[a|e] u1], (m w2) as [[b|e'] u2]; cbn in *;
    try discriminate.
  - injection E as <-. apply (Hk a u1 u2 S).
  - injection E as <-. split; [reflexivity|exact S].
Qed.

Lemma try_except_independent {A} (body : M A) (h : exn -> M A) :
  log_independent body -> (forall e, log_independent (h e)) ->
  log_independent (try_except body h).
Proof.
  intros Hm Hk w1 w2 H. unfold try_except.
  destruct (Hm w1 w2 H) as [E S].
  destruct (body w1) as [[a|e] u1], (body w2) as [[b|e'] u2]; cbn in *;
    try discriminate.
  - split; [exact E|exact S].
  - injection E as <-. apply (Hk e u1 u2 S).
Qed.

Lemma exists_independent (s : string) :
  log_independent (gets (fun w => os_path_exists w s)).
Proof. unfold gets, os_path_exists. primitive_independent. Qed.

Lemma isdir_independent (s : string) :
  log_independent (gets (fun w => os_path_isdir w s)).
Proof. unfold gets, os_path_isdir. primitive_independent. Qed.

Lemma logger_info_independent (msg : string) :
  log_independent (logger_info msg).
Proof. intros w1 w2 (A & B & C). split; [reflexivity|]. repeat split; auto. Qed.

Lemma logger_error_independent (msg : string) :
  log_independent (logger_error msg).
Proof. intros w1 w2 (A & B & C). split; [reflexivity|]. repeat split; auto. Qed.

Lemma makedirs_parent_independent (s : string) :
  log_independent (makedirs_parent s).
Proof. unfold makedirs_parent. primitive_independent. Qed.

Lemma write_file_independent (s : string) (c : content) :
  log_independent (write_file s c).
Proof. unfold write_file. primitive_independent. Qed.

Lemma read_file_independent (s : string) : log_independent (read_file s).
Proof. unfold read_file. primitive_independent. Qed.

Lemma os_remove_independent (s : string) : log_independent (os_remove s).
Proof. unfold os_remove. primitive_independent. Qed.

Lemma os_rmdir_independent (s : string) : log_independent (os_rmdir s).
Proof. unfold os_rmdir. primitive_independent. Qed.

Lemma os_listdir_independent (s : string) : log_independent (os_listdir s).
Proof. unfold os_listdir. primitive_independent. Qed.

Lemma send2trash_independent (s : string) : log_independent (send2trash s).
Proof. unfold send2trash. primitive_independent. Qed.

Lemma os_path_getsize_independent (s : string) :
  log_independent (os_path_getsize s).
Proof. unfold os_path_getsize. primitive_independent. Qed.

Lemma doc_open_independent (s : string) : log_independent (doc_open s).
Proof. unfold doc_open. primitive_independent. Qed.

#[local] Hint Resolve ret_independent throw_independent lift_independent
  exists_independent isdir_independent logger_info_independent
  logger_error_independent makedirs_parent_independent
  write_file_independent read_file_independent os_remove_independent
  os_rmdir_independent os_listdir_independent send2trash_independent
  os_path_getsize_independent doc_open_independent : stateless.

(** Statement sequences built from independent statements. *)
Ltac independent :=
  repeat first
    [ apply wbind_independent; [|intros ?]
    | apply try_except_independent; [|intros ?]
    | solve [auto with stateless]
    | match goal with
      | |- log_independent (if ?b then _ else _) => destruct b
      | |- log_independent (match ?x with _ => _ end) => destruct x
      end ].

Lemma read_text_independent (s : string) : log_independent (read_text s).
Proof. unfold read_text. independent. Qed.

Lemma load_workbook_independent (s : string) :
  log_independent (load_workbook s).
Proof. unfold load_workbook. independent. Qed.

Lemma doc_save_independent (s : string) (d : document) :
  log_independent (doc_save s d).
Proof. unfold doc_save. independent. Qed.

Lemma df_to_excel_independent (s : string) (df : dataframe) :
  log_independent (df_to_excel s df).
Proof. unfold df_to_excel. independent. Qed.

Lemma canvas_save_independent (s : string) (c : canvas) :
  log_independent (canvas_save s c).
Proof. unfold canvas_save. independent. Qed.

Lemma docx2pdf_convert_independent (s t : string) :
  log_independent (docx2pdf_convert s t).
Proof. unfold docx2pdf_convert. independent. Qed.

#[local] Hint Resolve read_text_independent load_workbook_independent
  doc_save_independent df_to_excel_independent canvas_save_independent
  docx2pdf_convert_independent : stateless.

Lemma read_word_document_structure_independent (s : string) :
  log_independent (read_word_document_structure s).
Proof.
  unfold read_word_document_structure, read_word_document_structure_body,
    read_word_document_structure_except.
  independent.
Qed.

#[local] Hint Resolve read_word_document_structure_independent : stateless.

Lemma run_tool_independent (c : tool_call) : log_independent (run_tool c).
Proof.
  destruct c; cbn [run_tool];
    unfold create_word_document, create_word_document_body,
      create_word_document_except,
      create_formatted_word_document, create_formatted_word_document_body,
      create_formatted_word_document_except,
      edit_word_document, edit_word_document_body,
      convert_txt_to_word, convert_txt_to_word_body,
      create_excel_file, create_excel_file_body, excel_from_data,
      edit_excel_file, edit_excel_file_body,
      convert_csv_to_excel, convert_csv_to_excel_body,
      create_pdf_file, create_pdf_file_body,
      convert_word_to_pdf, convert_word_to_pdf_body,
      compare_word_documents, compare_word_documents_body,
      compare_word_documents_except,
      delete_file, delete_file_body, delete_file_except,
      delete_directory, delete_directory_body, delete_directory_except;
    independent.
Qed.

(** C7: the answer of a tool and what it does to the files are a
    function of its arguments and of the files alone.  Run in two worlds
    that hold the same files (and differ in what earlier calls have
    logged), a call returns the same result and leaves the same files. *)
Theorem handlers_are_stateless (c : tool_call) (w1 w2 : world) :
  same_files w1 w2 ->
  fst (run_tool c w1) = fst (run_tool c w2) /\
  same_files (snd (run_tool c w1)) (snd (run_tool c w2)).
Proof. apply run_tool_independent. Qed.

(** ** Decimal strings *)

Lemma py_int_string_of_Z (z : Z) : py_int (string_of_Z z) = Ok z.
Proof.
  unfold py_int, string_of_Z.
  rewrite NilZero.isi.
  - now rewrite DecimalZ.of_to.
  - destruct z; simpl; try discriminate.
    intros [= H]. now apply DecimalPos.Unsigned.to_uint_nonnil in H.
  - destruct z; simpl; try discriminate.
    intros [= H]. now apply DecimalPos.Unsigned.to_uint_nonnil in H.
Qed.

Lemma xml_compatible_uint (d : Decimal.uint) :
  xml_compatible (NilEmpty.string_of_uint d) = true.
Proof. induction d; simpl; auto. Qed.

Lemma xml_compatible_string_of_Z (z : Z) :
  xml_compatible (string_of_Z z) = true.
Proof.
  unfold string_of_Z, NilZero.string_of_int, NilZero.string_of_uint.
  destruct (Z.to_int z) as [d|d]; destruct d; simpl;
    try reflexivity; apply xml_compatible_uint.
Qed.

(** ** Trees without tables *)

Lemma plain_Elem (t : string) (a : list (string * string)) (x : string)
    (cs : list xml) :
  plain (Elem t a x cs) = true <->
  String.eqb t "w:tbl" = false /\ String.eqb t "w:sectPr" = false /\
  forallb plain cs = true.
Proof.
  cbn [plain]. rewrite !andb_true_iff, !negb_true_iff. forget_libraries; tauto.
Qed.

Lemma plain_children (e : xml) :
  plain e = true -> forallb plain (children_of e) = true.
Proof. destruct e. rewrite plain_Elem. cbn. forget_libraries; tauto. Qed.

Lemma plain_with_children (e : xml) (cs : list xml) :
  plain e = true -> forallb plain cs = true ->
  plain (with_children e cs) = true.
Proof. destruct e. cbn [with_children]. rewrite !plain_Elem. forget_libraries; tauto. Qed.

Lemma plain_set_attr (k v : string) (e : xml) :
  plain e = true -> plain (set_attr k v e) = true.
Proof. destruct e. cbn [set_attr]. rewrite !plain_Elem. forget_libraries; tauto. Qed.

Lemma forallb_app_true {A} (p : A -> bool) (l1 l2 : list A) :
  forallb p l1 = true -> forallb p l2 = true -> forallb p (l1 ++ l2) = true.
Proof. intros H1 H2. rewrite forallb_app. now rewrite H1, H2. Qed.

Lemma forallb_take {A} (p : A -> bool) (n : nat) (l : list A) :
  forallb p l = true -> forallb p (take n l) = true.
Proof.
  revert n. induction l as [|x l IH]; intros [|n]; simpl; auto.
  rewrite !andb_true_iff. intros [? ?]. auto.
Qed.

Lemma forallb_drop {A} (p : A -> bool) (n : nat) (l : list A) :
  forallb p l = true -> forallb p (drop n l) = true.
Proof.
  revert n. induction l as [|x l IH]; intros [|n]; simpl; auto.
  rewrite !andb_true_iff. intros [? ?]. auto.
Qed.

Lemma forallb_filter {A} (p q : A -> bool) (l : list A) :
  forallb p l = true -> forallb p (List.filter q l) = true.
Proof.
  induction l as [|x l IH]; simpl; auto.
  rewrite andb_true_iff. intros [? ?].
  destruct (q x); simpl; auto. rewrite andb_true_iff. auto.
Qed.

Lemma plain_append_child (c e : xml) :
  plain c = true -> plain e = true -> plain (append_child c e) = true.
Proof.
  intros Hc He. unfold append_child. apply plain_with_children; [exact He|].
  apply forallb_app_true; [now apply plain_children|].
  simpl. now rewrite Hc.
Qed.

Lemma plain_insert_child (i : nat) (c e : xml) :
  plain c = true -> plain e = true -> plain (insert_child i c e) = true.
Proof.
  intros Hc He. unfold insert_child. apply plain_with_children; [exact He|].
  pose proof (plain_children _ He) as H.
  apply forallb_app_true; [now apply forallb_take|].
  simpl. rewrite Hc. now apply forallb_drop.
Qed.

Lemma forallb_alter_first (p : xml -> bool) (f : xml -> xml) (l : list xml) :
  (forall x, plain x = true -> plain (f x) = true) ->
  forallb plain l = true -> forallb plain (alter_first p f l) = true.
Proof.
  intros Hf. induction l as [|x l IH]; simpl; auto.
  rewrite andb_true_iff. intros [Hx Hl].
  destruct (p x); simpl; rewrite andb_true_iff; auto.
Qed.

Lemma forallb_remove_first (p : xml -> bool) (l : list xml) :
  forallb plain l = true -> forallb plain (remove_first p l) = true.
Proof.
  induction l as [|x l IH]; simpl; auto.
  rewrite andb_true_iff. intros [Hx Hl].
  destruct (p x); simpl; [exact Hl|]. rewrite andb_true_iff; auto.
Qed.

Lemma plain_alter_found (t : string) (f : xml -> xml) (e : xml) :
  (forall x, plain x = true -> plain (f x) = true) ->
  plain e = true -> plain (alter_found t f e) = true.
Proof.
  intros Hf He. unfold alter_found. apply plain_with_children; [exact He|].
  apply forallb_alter_first; [exact Hf|now apply plain_children].
Qed.

Lemma plain_remove_found (t : string) (e : xml) :
  plain e = true -> plain (remove_found t e) = true.
Proof.
  intros He. unfold remove_found. apply plain_with_children; [exact He|].
  apply forallb_remove_first. now apply plain_children.
Qed.

Lemma plain_get_or_add (t : string) (f : xml -> xml) (e : xml) :
  plain (OxmlElement t) = true ->
  (forall x, plain x = true -> plain (f x) = true) ->
  plain e = true -> plain (get_or_add t f e) = true.
Proof.
  intros Ht Hf He. unfold get_or_add. destruct (find t e).
  - now apply plain_alter_found.
  - apply plain_insert_child; auto.
Qed.

Lemma plain_set_prop (t : string) (c e : xml) :
  plain (OxmlElement t) = true -> plain c = true ->
  plain e = true -> plain (set_prop t c e) = true.
Proof.
  intros Ht Hc He. unfold set_prop. apply plain_get_or_add; auto.
  intros x Hx. destruct (find (tag_of c) x).
  - apply plain_alter_found; auto.
  - now apply plain_append_child.
Qed.

(** ** Lists rewritten element by element *)

Lemma alterM_all_altered (p : xml -> bool) (f : xml -> result xml)
    (l l' : list xml) :
  alterM_all p f l = Ok l' -> Forall2 (altered p f) l l'.
Proof.
  revert l'. induction l as [|x l IH]; intros l'; simpl.
  - intros [= <-]. constructor.
  - destruct (p x) eqn:Hp.
    + destruct (f x) as [y|] eqn:Hy; [|discriminate]. cbn [rbind].
      destruct (alterM_all p f l) as [l1|]; [|discriminate]. cbn [rbind].
      intros [= <-]. constructor; [right; auto|auto].
    + cbn [rbind].
      destruct (alterM_all p f l) as [l1|]; [|discriminate]. cbn [rbind].
      intros [= <-]. constructor; [left; auto|auto].
Qed.

Lemma Forall2_altered_refl (p : xml -> bool) (f : xml -> result xml)
    (l : list xml) :
  Forall2 (altered p f) l l.
Proof. induction l; constructor; [now left|auto]. Qed.

Lemma alterM_nth_altered (p : xml -> bool) (f : xml -> result xml)
    (l : list xml) :
  forall n l', alterM_nth p n f l = Ok l' -> Forall2 (altered p f) l l'.
Proof.
  induction l as [|x l IH]; intros n l'; simpl; [discriminate|].
  destruct (p x) eqn:Hp.
  - destruct n as [|n].
    + destruct (f x) as [y|] eqn:Hy; [|discriminate]. cbn [rbind].
      intros [= <-]. constructor; [right; auto|apply Forall2_altered_refl].
    + destruct (alterM_nth p n f l) as [l1|] eqn:E; [|discriminate].
      cbn [rbind]. intros [= <-]. constructor; [now left|eauto].
  - destruct (alterM_nth p n f l) as [l1|] eqn:E; [|discriminate].
    cbn [rbind]. intros [= <-]. constructor; [now left|eauto].
Qed.

Section Altered.

Variables (p : xml -> bool) (f : xml -> result xml).
Hypothesis f_tag : forall x y, p x = true -> f x = Ok y -> tag_of y = tag_of x.

Lemma altered_tag (x y : xml) : altered p f x y -> tag_of y = tag_of x.
Proof using f_tag. intros [->|[Hp Hf]]; [reflexivity|eauto]. Qed.

Lemma altered_filter (t : string) (l l' : list xml) :
  Forall2 (altered p f) l l' ->
  Forall2 (altered p f) (List.filter (has_tag t) l)
          (List.filter (has_tag t) l').
Proof using f_tag.
  induction 1 as [|x y l l' Hxy _ IH]; simpl; [constructor|].
  assert (E : has_tag t y = has_tag t x)
    by (unfold has_tag; now rewrite (altered_tag _ _ Hxy)).
  rewrite E. destruct (has_tag t x); [constructor; auto|auto].
Qed.

Lemma altered_filter_other (t : string) (l l' : list xml) :
  (forall x, p x = true -> has_tag t x = false) ->
  Forall2 (altered p f) l l' ->
  List.filter (has_tag t) l' = List.filter (has_tag t) l.
Proof using f_tag.
  intros Hother. induction 1 as [|x y l l' Hxy _ IH]; simpl; [reflexivity|].
  destruct Hxy as [->|[Hp Hf]].
  - now rewrite IH.
  - assert (Hy : has_tag t y = false).
    { unfold has_tag. rewrite (f_tag _ _ Hp Hf). apply (Hother _ Hp). }
    now rewrite Hy, (Hother _ Hp).
Qed.

Lemma altered_find_other (t : string) (l l' : list xml) :
  (forall x, p x = true -> has_tag t x = false) ->
  Forall2 (altered p f) l l' ->
  List.find (has_tag t) l' = List.find (has_tag t) l.
Proof using f_tag.
  intros Hother. induction 1 as [|x y l l' Hxy _ IH]; simpl; [reflexivity|].
  destruct Hxy as [->|[Hp Hf]].
  - now rewrite IH.
  - assert (Hy : has_tag t y = false).
    { unfold has_tag. rewrite (f_tag _ _ Hp Hf). apply (Hother _ Hp). }
    now rewrite Hy, (Hother _ Hp).
Qed.

Lemma altered_Forall (P : xml -> Prop) (l l' : list xml) :
  (forall x y, p x = true -> P x -> f x = Ok y -> P y) ->
  Forall2 (altered p f) l l' -> Forall P l -> Forall P l'.
Proof.
  intros HP. induction 1 as [|x y l l' Hxy _ IH]; intros HF; [constructor|].
  inversion HF as [|? ? Hx Hl]; subst. constructor; [|auto].
  destruct Hxy as [->|[Hp Hf]]; eauto.
Qed.

Lemma altered_forallb (q : xml -> bool) (l l' : list xml) :
  (forall x y, p x = true -> q x = true -> f x = Ok y -> q y = true) ->
  Forall2 (altered p f) l l' -> forallb q l = true -> forallb q l' = true.
Proof.
  intros HP. induction 1 as [|x y l l' Hxy _ IH]; simpl; [auto|].
  rewrite !andb_true_iff. intros [Hx Hl]. split; [|auto].
  destruct Hxy as [->|[Hp Hf]]; eauto.
Qed.

End Altered.

(** ** Tags are stable under the mutations *)

Lemma tag_with_children (e : xml) (cs : list xml) :
  tag_of (with_children e cs) = tag_of e.
Proof. now destruct e. Qed.

Lemma tag_set_attr (k v : string) (e : xml) : tag_of (set_attr k v e) = tag_of e.
Proof. now destruct e. Qed.

Lemma tag_append_child (c e : xml) : tag_of (append_child c e) = tag_of e.
Proof. apply tag_with_children. Qed.

Lemma tag_insert_child (i : nat) (c e : xml) :
  tag_of (insert_child i c e) = tag_of e.
Proof. apply tag_with_children. Qed.

Lemma tag_alter_found (t : string) (f : xml -> xml) (e : xml) :
  tag_of (alter_found t f e) = tag_of e.
Proof. apply tag_with_children. Qed.

Lemma tag_get_or_add (t : string) (f : xml -> xml) (e : xml) :
  tag_of (get_or_add t f e) = tag_of e.
Proof.
  unfold get_or_add. destruct (find t e);
    [apply tag_alter_found|apply tag_insert_child].
Qed.

Lemma tag_set_prop (t : string) (c e : xml) : tag_of (set_prop t c e) = tag_of e.
Proof. apply tag_get_or_add. Qed.

Lemma keeps_tag_on_children (g : list xml -> result (list xml)) :
  keeps_tag (on_children g).
Proof.
  intros x y. unfold on_children. destruct (g (children_of x)); [|discriminate].
  cbn [rbind]. intros [= <-]. apply tag_with_children.
Qed.

Lemma keeps_tag_seqM (fs : list (xml -> result xml)) :
  Forall keeps_tag fs -> keeps_tag (seqM fs).
Proof.
  induction 1 as [|f fs Hf _ IH]; intros x y; simpl.
  - now intros [= <-].
  - destruct (f x) as [z|] eqn:E; [|discriminate]. cbn [rbind].
    intros H. rewrite (IH _ _ H). apply (Hf _ _ E).
Qed.

Lemma keeps_tag_when (b : bool) (f : xml -> result xml) :
  keeps_tag f -> keeps_tag (when b f).
Proof.
  intros Hf x y. unfold when. destruct b; [apply Hf|now intros [= <-]].
Qed.

Lemma keeps_seqM (P : xml -> Prop) (fs : list (xml -> result xml)) :
  Forall (keeps P) fs -> keeps P (seqM fs).
Proof.
  induction 1 as [|f fs Hf _ IH]; intros x y Hx; simpl.
  - now intros [= <-].
  - destruct (f x) as [z|] eqn:E; [|discriminate]. cbn [rbind].
    apply IH. apply (Hf _ _ Hx E).
Qed.

Lemma keeps_when (P : xml -> Prop) (b : bool) (f : xml -> result xml) :
  keeps P f -> keeps P (when b f).
Proof.
  intros Hf x y Hx. unfold when. destruct b; [now apply Hf|now intros [= <-]].
Qed.

Lemma keeps_for_each {A} (P : xml -> Prop) (f : nat -> A -> xml -> result xml)
    (l : list A) :
  (forall i a, keeps P (f i a)) -> forall i, keeps P (for_each_indexed f l i).
Proof.
  intros Hf. induction l as [|a l IH]; intros i x y Hx; simpl.
  - now intros [= <-].
  - destruct (f i a x) as [z|] eqn:E; [|discriminate]. cbn [rbind].
    apply IH. apply (Hf _ _ _ _ Hx E).
Qed.

(** ** Runs and paragraphs hold no table *)

Lemma keeps_plain_all (q : xml -> bool) (f : xml -> result xml) :
  keeps is_plain f -> keeps is_plain (on_children (alterM_all q f)).
Proof.
  intros Hf x y Hx. unfold on_children.
  destruct (alterM_all q f (children_of x)) as [cs|] eqn:E; [|discriminate].
  cbn [rbind]. intros [= <-]. apply plain_with_children; [exact Hx|].
  apply alterM_all_altered in E.
  apply (altered_forallb q f plain _ _ (fun a b _ Ha Hb => Hf a b Ha Hb) E).
  now apply plain_children.
Qed.

Lemma keeps_plain_nth (q : xml -> bool) (n : nat) (f : xml -> result xml) :
  keeps is_plain f -> keeps is_plain (on_children (alterM_nth q n f)).
Proof.
  intros Hf x y Hx. unfold on_children.
  destruct (alterM_nth q n f (children_of x)) as [cs|] eqn:E; [|discriminate].
  cbn [rbind]. intros [= <-]. apply plain_with_children; [exact Hx|].
  apply alterM_nth_altered in E.
  apply (altered_forallb q f plain _ _ (fun a b _ Ha Hb => Hf a b Ha Hb) E).
  now apply plain_children.
Qed.

Lemma keeps_plain_run_set_font (name : string) :
  keeps is_plain (run_set_font name).
Proof.
  intros x y Hx [= <-]. now apply plain_set_prop.
Qed.

Lemma keeps_plain_run_set_rgb (hex : string) : keeps is_plain (run_set_rgb hex).
Proof.
  intros x y Hx [= <-]. now apply plain_set_prop.
Qed.

Lemma keeps_plain_run_set_color (v : pyval) : keeps is_plain (run_set_color v).
Proof.
  intros x y Hx. unfold run_set_color. destruct (parse_rgb v); [|discriminate].
  cbn [rbind]. intros [= <-]. now apply plain_set_prop.
Qed.

Lemma keeps_plain_run_set_size (v : pyval) : keeps is_plain (run_set_size v).
Proof.
  intros x y Hx. unfold run_set_size. destruct (Pt v); [|discriminate].
  cbn [rbind]. intros [= <-]. now apply plain_set_prop.
Qed.

Lemma keeps_plain_run_set_onoff (t : string) (v : pyval) :
  plain (OxmlElement t) = true -> keeps is_plain (run_set_onoff t v).
Proof.
  intros Ht x y Hx. unfold run_set_onoff.
  assert (Hon : is_plain (set_prop "w:rPr" (Elem t [] "" []) x))
    by now apply plain_set_prop.
  assert (Hoff : is_plain (set_prop "w:rPr" (Elem t [("w:val", "0")] "" []) x))
    by now apply plain_set_prop.
  assert (Hnone : is_plain (alter_found "w:rPr" (remove_found t) x)).
  { apply plain_alter_found; [|exact Hx]. intros. now apply plain_remove_found. }
  destruct v as [|b|z|s|l|kv]; cbv zeta; try discriminate.
  - intros [= <-]. exact Hnone.
  - destruct b; intros [= <-]; assumption.
  - destruct z as [|q|q]; try discriminate.
    + intros [= <-]. exact Hoff.
    + destruct q; try discriminate. intros [= <-]. exact Hon.
Qed.

Lemma make_run_plain (v : pyval) (r : xml) : make_run v = Ok r -> is_plain r.
Proof.
  unfold make_run. destruct (py_truthy v).
  - destruct (run_text v); [|discriminate]. cbn [rbind]. now intros [= <-].
  - now intros [= <-].
Qed.

Lemma keeps_plain_add_run (v : pyval) : keeps is_plain (add_run v).
Proof.
  intros x y Hx. unfold add_run. destruct (make_run v) as [r|] eqn:E;
    [|discriminate].
  cbn [rbind]. intros [= <-]. apply plain_append_child; [|exact Hx].
  apply (make_run_plain _ _ E).
Qed.

Lemma keeps_plain_title_run (v : pyval) (fmt : list (xml -> result xml)) :
  Forall (keeps is_plain) fmt -> keeps is_plain (title_run v fmt).
Proof.
  intros Hfmt x y Hx. unfold title_run.
  destruct (make_run v) as [r|] eqn:E; [|discriminate]. cbn [rbind].
  destruct (seqM fmt r) as [r'|] eqn:E'; [|discriminate]. cbn [rbind].
  intros [= <-]. apply plain_append_child; [|exact Hx].
  apply (keeps_seqM _ _ Hfmt _ _ (make_run_plain _ _ E) E').
Qed.

Lemma keeps_plain_para_set_alignment (a : string) :
  keeps is_plain (para_set_alignment a).
Proof. intros x y Hx [= <-]. now apply plain_set_prop. Qed.

Lemma plain_para_spacing (k v : string) (p : xml) :
  is_plain p -> is_plain (para_spacing k v p).
Proof.
  intros Hp. unfold para_spacing. apply plain_get_or_add; [reflexivity| |exact Hp].
  intros x Hx. apply plain_get_or_add; [reflexivity| |exact Hx].
  intros z Hz. now apply plain_set_attr.
Qed.

Lemma keeps_plain_para_set_space (k : string) (v : pyval) :
  keeps is_plain (para_set_space k v).
Proof.
  intros x y Hx. unfold para_set_space. destruct (Pt v); [|discriminate].
  cbn [rbind]. intros [= <-]. now apply plain_para_spacing.
Qed.

Lemma rich_run_plain (b : bool) (s font : string) (size color italic : pyval)
    (r : xml) :
  rich_run b s font size color italic = Ok r -> is_plain r.
Proof.
  unfold rich_run. destruct (make_run (PStr s)) as [r0|] eqn:E; [|discriminate].
  cbn [rbind]. apply keeps_seqM; [|apply (make_run_plain _ _ E)].
  repeat constructor.
  - apply keeps_when. now apply keeps_plain_run_set_onoff.
  - apply keeps_plain_run_set_font.
  - apply keeps_plain_run_set_size.
  - apply keeps_when. apply keeps_plain_run_set_color.
  - apply keeps_when. now apply keeps_plain_run_set_onoff.
Qed.

Lemma keeps_plain_rich_runs (parts : list string) (font : string)
    (size color italic : pyval) :
  keeps is_plain (rich_runs parts font size color italic).
Proof.
  induction parts as [|part parts IH]; intros x y Hx; cbn [rich_runs].
  - now intros [= <-].
  - destruct (starts_with "**" part && ends_with "**" part).
    + destruct (rich_run true _ font size color italic) as [r|] eqn:E;
        cbn [rbind]; [|discriminate].
      apply IH. apply plain_append_child; [|exact Hx].
      apply (rich_run_plain _ _ _ _ _ _ _ E).
    + destruct (negb (String.eqb part "")).
      * destruct (rich_run false _ font size color italic) as [r|] eqn:E;
          cbn [rbind]; [|discriminate].
        apply IH. apply plain_append_child; [|exact Hx].
        apply (rich_run_plain _ _ _ _ _ _ _ E).
      * cbn [rbind]. now apply IH.
Qed.

Lemma keeps_plain_parse_rich_text (text : pyval) (font : string)
    (size color italic : pyval) :
  keeps is_plain (_parse_rich_text text font size color italic).
Proof.
  intros x y Hx. unfold _parse_rich_text. destruct text; try discriminate.
  now apply keeps_plain_rich_runs.
Qed.

(** ** Blocks of the body *)

Lemma plain_block_ok (p : xml) : is_plain p -> block_ok p.
Proof.
  intros H. split; [|now apply plain_children].
  destruct p as [t a x cs]. apply plain_Elem in H. unfold has_tag. cbn. forget_libraries; tauto.
Qed.

Lemma table_block_ok (t : xml) : table_block t -> block_ok t.
Proof.
  intros [Ht Hc]. split; [|exact Hc]. unfold has_tag. now rewrite Ht.
Qed.

Lemma index_of_sectPr (B : list xml) (S : xml) (rest : list xml) :
  Forall block_ok B -> has_tag "w:sectPr" S = true ->
  index_of (has_tag "w:sectPr") (B ++ S :: rest) = Some (length B).
Proof.
  intros HB HS. induction HB as [|b B [Hb _] _ IH]; simpl.
  - now rewrite HS.
  - now rewrite Hb, IH.
Qed.

Lemma take_drop_insert (B : list xml) (x : xml) (rest : list xml) :
  (take (length B) (B ++ rest) ++ x :: drop (length B) (B ++ rest))%list
  = (B ++ x :: rest)%list.
Proof. now rewrite take_app_length, drop_app_length. Qed.

Lemma body_is_body_of (d : document) (B : list xml) :
  body_is d B -> exists S, body_of d = Ok (B ++ [S])%list.
Proof.
  intros (S & Hr & _). exists S. unfold body_of. now rewrite Hr.
Qed.

Lemma set_body_root (d : document) (cs cs' : list xml) :
  doc_root d = Elem "w:document" [] "" [Elem "w:body" [] "" cs] ->
  doc_root (set_body d cs')
  = Elem "w:document" [] "" [Elem "w:body" [] "" cs'].
Proof. intros H. unfold set_body. cbn [doc_root]. now rewrite H. Qed.

(** A new block goes to the end of the blocks, and its handle is its
    position. *)
Lemma add_block_spec (d : document) (B : list xml) (x : xml) :
  body_is d B -> block_ok x ->
  exists d', add_block x d = Ok (d', length B) /\ body_is d' (B ++ [x]).
Proof.
  intros (S & Hr & HS & HSc & HB) Hx.
  unfold add_block, body_of. rewrite Hr. cbn [find children_of List.find].
  change (has_tag "w:body" (Elem "w:body" [] "" (B ++ [S]))) with true.
  cbn [rbind children_of]. unfold insert_block.
  rewrite (index_of_sectPr B S [] HB HS). cbn [fst snd].
  rewrite take_drop_insert.
  eexists. split; [reflexivity|].
  exists S. split; [|split; [exact HS|split; [exact HSc|]]].
  - rewrite (set_body_root _ _ _ Hr). now rewrite <- app_assoc.
  - apply Forall_app. split; [exact HB|]. now constructor.
Qed.

Lemma nth_error_middle (B : list xml) (x : xml) (rest : list xml) :
  nth_error (B ++ x :: rest) (length B) = Some x.
Proof. induction B; simpl; auto. Qed.

Lemma insert_middle (B : list xml) (x y : xml) (rest : list xml) :
  <[length B := y]> (B ++ x :: rest)%list = (B ++ y :: rest)%list.
Proof. induction B; simpl; [reflexivity|]. now rewrite IHB. Qed.

(** A mutation through the handle of the last block touches that block
    only. *)
Lemma on_block_last (d d' : document) (B : list xml) (x : xml)
    (f : xml -> result xml) :
  body_is d (B ++ [x]) ->
  on_block (length B) f d = Ok d' ->
  exists y, f x = Ok y /\ (block_ok y -> body_is d' (B ++ [y])).
Proof.
  intros (S & Hr & HS & HSc & HB).
  unfold on_block, body_of. rewrite Hr. cbn [find children_of List.find].
  change (has_tag "w:body" (Elem "w:body" [] "" ((B ++ [x]) ++ [S]))) with true.
  cbn [rbind children_of]. rewrite <- app_assoc. cbn [app].
  rewrite nth_error_middle.
  destruct (f x) as [y|] eqn:E; [|discriminate]. cbn [rbind].
  intros [= <-]. exists y. split; [reflexivity|]. intros Hy.
  exists S. split; [|split; [exact HS|split; [exact HSc|]]].
  - rewrite <- app_assoc in Hr. cbn [app] in Hr.
    rewrite (set_body_root _ _ _ Hr), insert_middle.
    now rewrite <- app_assoc.
  - apply Forall_app in HB. destruct HB as [HB _].
    apply Forall_app. split; [exact HB|]. now constructor.
Qed.

(** The same, for a mutation that keeps the block free of tables. *)
Lemma on_block_last_plain (d d' : document) (B : list xml) (x : xml)
    (f : xml -> result xml) :
  body_is d (B ++ [x]) -> is_plain x -> keeps is_plain f ->
  on_block (length B) f d = Ok d' ->
  exists y, is_plain y /\ body_is d' (B ++ [y]).
Proof.
  intros Hd Hx Hf H.
  destruct (on_block_last _ _ _ _ _ Hd H) as (y & Hy & Hb).
  exists y. pose proof (Hf _ _ Hx Hy) as Py.
  split; [exact Py|]. apply Hb. now apply plain_block_ok.
Qed.

Lemma add_paragraph_spec (d d' : document) (B : list xml) (text : pyval)
    (style : option string) (i : nat) :
  body_is d B ->
  add_paragraph text style d = Ok (d', i) ->
  i = length B /\ exists p, is_plain p /\ body_is d' (B ++ [p]).
Proof.
  intros Hd. unfold add_paragraph.
  destruct (add_block_spec d B (OxmlElement "w:p") Hd
              (plain_block_ok (OxmlElement "w:p") eq_refl)) as (d0 & Hadd & Hd0).
  rewrite Hadd. cbn [rbind fst snd].
  assert (H1 : forall d1,
            (if py_truthy text then on_block (length B) (add_run text) d0
             else Ok d0) = Ok d1 ->
            exists p, is_plain p /\ body_is d1 (B ++ [p])).
  { intros d1. destruct (py_truthy text).
    - intros E.
      apply (on_block_last_plain _ _ _ _ _ Hd0 eq_refl
               (keeps_plain_add_run text) E).
    - intros [= <-]. exists (OxmlElement "w:p"). split; [reflexivity|exact Hd0]. }
  destruct (if py_truthy text then _ else _) as [d1|]; [|discriminate].
  cbn [rbind]. destruct (H1 d1 eq_refl) as (p & Pp & Hd1).
  destruct style as [name|].
  - destruct (style_check name d1); [|discriminate]. cbn [rbind].
    destruct (on_block (length B) _ d1) as [d2|] eqn:E; [|discriminate].
    cbn [rbind]. intros [= <- <-]. split; [reflexivity|].
    apply (on_block_last_plain _ _ _ _ _ Hd1 Pp) in E; [exact E|].
    intros x y Hx [= <-]. now apply plain_set_prop.
  - cbn [rbind]. intros [= <- <-]. split; [reflexivity|]. eauto.
Qed.

(** A paragraph added and then mutated through its handle. *)
Lemma add_paragraph_on_block (d d' : document) (B : list xml) (text : pyval)
    (style : option string) (f : xml -> result xml) :
  body_is d B -> keeps is_plain f ->
  (r <- add_paragraph text style d;; on_block (snd r) f (fst r)) = Ok d' ->
  exists p, is_plain p /\ body_is d' (B ++ [p]).
Proof.
  intros Hd Hf. destruct (add_paragraph text style d) as [[d1 i]|] eqn:E;
    [|discriminate].
  cbn [rbind fst snd].
  destruct (add_paragraph_spec _ _ _ _ _ _ Hd E) as (-> & p & Pp & Hd1).
  intros H. apply (on_block_last_plain _ _ _ _ _ Hd1 Pp Hf H).
Qed.

(** ** Cells *)

Lemma has_tag_eq (t : string) (e : xml) : has_tag t e = true -> tag_of e = t.
Proof. unfold has_tag. apply String.eqb_eq. Qed.

Lemma has_tag_other (t t' : string) (e : xml) :
  t <> t' -> has_tag t e = true -> has_tag t' e = false.
Proof.
  intros Hne H. apply has_tag_eq in H. unfold has_tag. rewrite H.
  now apply String.eqb_neq.
Qed.

Lemma find_filter_same (t : string) (l : list xml) (c : xml) :
  has_tag t c = false ->
  List.find (has_tag t) (List.filter (has_tag t) l ++ [c]) = List.find (has_tag t) l.
Proof.
  intros Hc. induction l as [|x l IH]; simpl; [now rewrite Hc|].
  destruct (has_tag t x) eqn:E; simpl; [now rewrite E|exact IH].
Qed.

Lemma find_alter_first (t : string) (f : xml -> xml) (l : list xml) :
  (forall x, tag_of (f x) = tag_of x) ->
  List.find (has_tag t) (alter_first (has_tag t) f l)
  = option_map f (List.find (has_tag t) l).
Proof.
  intros Hf. induction l as [|x l IH]; simpl; [reflexivity|].
  destruct (has_tag t x) eqn:E; simpl.
  - unfold has_tag in *. now rewrite Hf, E.
  - now rewrite E.
Qed.

Lemma find_app_other (t : string) (l : list xml) (c : xml) :
  has_tag t c = false ->
  List.find (has_tag t) (l ++ [c]) = List.find (has_tag t) l.
Proof.
  intros Hc. induction l as [|x l IH]; simpl; [now rewrite Hc|].
  destruct (has_tag t x); auto.
Qed.

Lemma widthless_iff (tc : xml) :
  widthless tc <->
  (forall pr, find "w:tcPr" tc = Some pr -> find "w:tcW" pr = None).
Proof.
  unfold widthless, cell_width. destruct (find "w:tcPr" tc) as [pr|].
  - destruct (find "w:tcW" pr) as [x|] eqn:E.
    + split.
      * destruct (width_attr x); discriminate.
      * intros H. specialize (H pr eq_refl). congruence.
    + split; [intros _ ? [= <-]; exact E|reflexivity].
  - split; [discriminate|reflexivity].
Qed.

(** Appending a property other than the width to the cell properties. *)
Lemma widthless_get_or_add (c tc : xml) :
  has_tag "w:tcW" c = false ->
  widthless tc -> widthless (get_or_add "w:tcPr" (append_child c) tc).
Proof.
  intros Hc Hw. rewrite widthless_iff in *. unfold get_or_add.
  destruct (find "w:tcPr" tc) as [pr|] eqn:E.
  - unfold find, alter_found. destruct tc as [t a x cs]. cbn [with_children children_of].
    rewrite find_alter_first by (intros; apply tag_append_child).
    unfold find in E. cbn [children_of] in E. rewrite E. cbn [option_map].
    intros pr' [= <-]. unfold append_child. destruct pr as [t' a' x' cs'].
    cbn [with_children children_of]. rewrite (find_app_other _ _ _ Hc).
    apply (Hw _ eq_refl).
  - unfold find, insert_child. destruct tc as [t a x cs].
    cbn [with_children children_of take app List.find].
    change (has_tag "w:tcPr" (append_child c (OxmlElement "w:tcPr"))) with true.
    cbv iota. intros pr' [= <-]. cbn. now rewrite Hc.
Qed.

Lemma widthless_same_tcPr (tc tc' : xml) :
  find "w:tcPr" tc' = find "w:tcPr" tc -> widthless tc -> widthless tc'.
Proof. intros E. rewrite !widthless_iff, E. auto. Qed.

Lemma keeps_widthless_cell_set_text (s : string) :
  keeps widthless (cell_set_text s).
Proof.
  intros x y Hx. unfold cell_set_text. destruct (xml_compatible s);
    [|discriminate].
  intros [= <-]. apply (widthless_same_tcPr x); [|exact Hx].
  unfold find. destruct x as [t a v cs]. cbn [with_children children_of].
  now apply find_filter_same.
Qed.

Lemma keeps_widthless_shading (v : pyval) :
  keeps widthless (_set_cell_shading v).
Proof.
  intros x y Hx. unfold _set_cell_shading.
  destruct (lxml_set "w:fill" v (OxmlElement "w:shd")) as [shd|] eqn:E;
    [|discriminate].
  cbn [rbind]. intros [= <-]. apply widthless_get_or_add; [|exact Hx].
  unfold lxml_set in E. destruct v; try discriminate.
  destruct (xml_compatible s); [|discriminate]. now injection E as <-.
Qed.

Lemma keeps_widthless_borders (color size : string) :
  keeps widthless (_set_cell_borders color size).
Proof.
  intros x y Hx [= <-]. now apply widthless_get_or_add.
Qed.

(** A loop over the paragraphs of a cell leaves the cell properties. *)
Lemma keeps_widthless_paragraphs (f : xml -> result xml) :
  keeps_tag f ->
  keeps widthless (on_children (alterM_all (has_tag "w:p") f)).
Proof.
  intros Hf x y Hx. unfold on_children.
  destruct (alterM_all _ f (children_of x)) as [cs|] eqn:E; [|discriminate].
  cbn [rbind]. intros [= <-]. apply (widthless_same_tcPr x); [|exact Hx].
  unfold find. destruct x as [t a v cs0]. cbn [with_children children_of] in *.
  apply alterM_all_altered in E.
  apply (altered_find_other (has_tag "w:p") f (fun a b _ H => Hf a b H)
           "w:tcPr" _ _); [|exact E].
  intros z. now apply has_tag_other.
Qed.

Lemma keeps_tag_Ok (g : xml -> xml) :
  (forall x, tag_of (g x) = tag_of x) -> keeps_tag (fun x => Ok (g x)).
Proof. intros Hg x y [= <-]. apply Hg. Qed.

Lemma tag_para_spacing (k v : string) (p : xml) :
  tag_of (para_spacing k v p) = tag_of p.
Proof. apply tag_get_or_add. Qed.

Lemma keeps_widthless_fix_spacing :
  keeps widthless _fix_cell_paragraph_spacing.
Proof.
  apply keeps_widthless_paragraphs. apply keeps_tag_Ok.
  intros x. unfold para_spacing_zero. now rewrite !tag_para_spacing.
Qed.

Lemma keeps_widthless_cell_runs (f : xml -> result xml) :
  keeps widthless (on_cell_runs f).
Proof.
  apply keeps_widthless_paragraphs. apply keeps_tag_on_children.
Qed.

Lemma keeps_plain_cell_set_text (s : string) : keeps is_plain (cell_set_text s).
Proof.
  intros x y Hx. unfold cell_set_text. destruct (xml_compatible s);
    [|discriminate].
  intros [= <-]. apply plain_with_children; [exact Hx|].
  apply forallb_app_true; [|reflexivity].
  apply forallb_filter. now apply plain_children.
Qed.

Lemma keeps_plain_shading (v : pyval) : keeps is_plain (_set_cell_shading v).
Proof.
  intros x y Hx. unfold _set_cell_shading.
  destruct (lxml_set "w:fill" v (OxmlElement "w:shd")) as [shd|] eqn:E;
    [|discriminate].
  cbn [rbind]. intros [= <-].
  assert (Hs : is_plain shd).
  { unfold lxml_set in E. destruct v; try discriminate.
    destruct (xml_compatible s); [|discriminate]. now injection E as <-. }
  apply plain_get_or_add; [reflexivity| |exact Hx].
  intros z Hz. now apply plain_append_child.
Qed.

Lemma keeps_plain_borders (color size : string) :
  keeps is_plain (_set_cell_borders color size).
Proof.
  intros x y Hx [= <-]. apply plain_get_or_add; [reflexivity| |exact Hx].
  intros z Hz. now apply plain_append_child.
Qed.

Lemma keeps_plain_fix_spacing : keeps is_plain _fix_cell_paragraph_spacing.
Proof.
  apply keeps_plain_all. intros x y Hx [= <-]. unfold para_spacing_zero.
  now repeat apply plain_para_spacing.
Qed.

Lemma keeps_plain_cell_runs (f : xml -> result xml) :
  keeps is_plain f -> keeps is_plain (on_cell_runs f).
Proof. intros Hf. apply keeps_plain_all. now apply keeps_plain_all. Qed.

Lemma keeps_tag_cell_set_text (s : string) : keeps_tag (cell_set_text s).
Proof.
  intros x y. unfold cell_set_text. destruct (xml_compatible s);
    [|discriminate].
  intros [= <-]. apply tag_with_children.
Qed.

Lemma keeps_tag_shading (v : pyval) : keeps_tag (_set_cell_shading v).
Proof.
  intros x y. unfold _set_cell_shading. destruct (lxml_set _ _ _);
    [|discriminate].
  cbn [rbind]. intros [= <-]. apply tag_get_or_add.
Qed.

Lemma keeps_tag_borders (color size : string) :
  keeps_tag (_set_cell_borders color size).
Proof. intros x y [= <-]. apply tag_get_or_add. Qed.


Lemma keeps_tag_fix_spacing : keeps_tag _fix_cell_paragraph_spacing.
Proof. apply keeps_tag_on_children. Qed.

Lemma keeps_tag_cell_runs (f : xml -> result xml) : keeps_tag (on_cell_runs f).
Proof. apply keeps_tag_on_children. Qed.

(** What the statements on a cell keep: no table below the cell, the tag
    and the absence of a width. *)
Lemma cell_statements_keep (P : xml -> Prop) :
  (forall s, keeps P (cell_set_text s)) ->
  (forall v, keeps P (_set_cell_shading v)) ->
  (forall c s, keeps P (_set_cell_borders c s)) ->
  keeps P _fix_cell_paragraph_spacing ->
  (forall f, keeps is_plain f -> keeps P (on_cell_runs f)) ->
  (forall a b c, keeps P (header_cell a b c)) /\
  (forall i a b, keeps P (data_cell i a b)) /\
  (forall i j a b c d, keeps P (kv_cell i j a b c d)).
Proof.
  intros Ht Hs Hb Hf Hr.
  assert (R1 : keeps is_plain (seqM [run_set_onoff "w:b" (PBool true);
                                     run_set_font "Arial"])).
  { apply keeps_seqM. repeat constructor;
      [now apply keeps_plain_run_set_onoff|apply keeps_plain_run_set_font]. }
  assert (R2 : forall c, keeps is_plain
                 (seqM [run_set_onoff "w:b" (PBool true);
                        run_set_font "Arial"; run_set_color c])).
  { intros c. apply keeps_seqM. repeat constructor;
      [now apply keeps_plain_run_set_onoff|apply keeps_plain_run_set_font
      |apply keeps_plain_run_set_color]. }
  split; [|split].
  - intros a b c. apply keeps_seqM. repeat constructor; auto.
  - intros i a b. apply keeps_seqM. repeat constructor; auto.
    + apply Hr, keeps_plain_run_set_font.
    + now apply keeps_when.
  - intros i j a b c d. apply keeps_seqM. repeat constructor; auto.
    destruct (Nat.eqb i 0 && Nat.eqb j 0); [|destruct (Nat.eqb j 0)].
    + apply keeps_seqM. repeat constructor; auto.
    + apply keeps_seqM. repeat constructor; auto.
    + apply Hr. apply keeps_seqM. repeat constructor;
        [apply keeps_plain_run_set_font
        |now apply keeps_when, keeps_plain_run_set_onoff].
Qed.

Lemma cell_statements_plain :
  (forall a b c, keeps is_plain (header_cell a b c)) /\
  (forall i a b, keeps is_plain (data_cell i a b)) /\
  (forall i j a b c d, keeps is_plain (kv_cell i j a b c d)).
Proof.
  apply cell_statements_keep.
  - apply keeps_plain_cell_set_text.
  - apply keeps_plain_shading.
  - apply keeps_plain_borders.
  - apply keeps_plain_fix_spacing.
  - apply keeps_plain_cell_runs.
Qed.

Lemma cell_statements_widthless :
  (forall a b c, keeps widthless (header_cell a b c)) /\
  (forall i a b, keeps widthless (data_cell i a b)) /\
  (forall i j a b c d, keeps widthless (kv_cell i j a b c d)).
Proof.
  apply cell_statements_keep.
  - apply keeps_widthless_cell_set_text.
  - apply keeps_widthless_shading.
  - apply keeps_widthless_borders.
  - apply keeps_widthless_fix_spacing.
  - intros f _. apply keeps_widthless_cell_runs.
Qed.

Lemma keeps_tag_keeps (f : xml -> result xml) (t : string) :
  keeps_tag f -> keeps (fun x => tag_of x = t) f.
Proof. intros Hf x y Hx E. now rewrite (Hf _ _ E). Qed.

Lemma cell_statements_tag :
  (forall a b c, keeps_tag (header_cell a b c)) /\
  (forall i a b, keeps_tag (data_cell i a b)) /\
  (forall i j a b c d, keeps_tag (kv_cell i j a b c d)).
Proof.
  assert (R : forall f, keeps_tag (on_cell_runs f))
    by exact keeps_tag_cell_runs.
  split; [|split].
  - intros a b c. apply keeps_tag_seqM. repeat constructor;
      auto using keeps_tag_cell_set_text, keeps_tag_shading, keeps_tag_borders,
                 keeps_tag_fix_spacing.
  - intros i a b. apply keeps_tag_seqM. repeat constructor;
      auto using keeps_tag_cell_set_text, keeps_tag_shading, keeps_tag_borders,
                 keeps_tag_fix_spacing, keeps_tag_when.
  - intros i j a b c d. apply keeps_tag_seqM. repeat constructor;
      auto using keeps_tag_cell_set_text, keeps_tag_shading, keeps_tag_borders,
                 keeps_tag_fix_spacing.
    destruct (Nat.eqb i 0 && Nat.eqb j 0); [|destruct (Nat.eqb j 0)]; auto;
      apply keeps_tag_seqM; repeat constructor;
      auto using keeps_tag_shading.
Qed.

(** ** Rows *)

Lemma filter_alter_first_other (t t' : string) (f : xml -> xml) (l : list xml) :
  t <> t' -> (forall x, tag_of (f x) = tag_of x) ->
  List.filter (has_tag t) (alter_first (has_tag t') f l)
  = List.filter (has_tag t) l.
Proof.
  intros Hne Hf. induction l as [|x l IH]; simpl; [reflexivity|].
  destruct (has_tag t' x) eqn:E; simpl.
  - assert (Hx : has_tag t x = false)
      by (apply (has_tag_other t' t); [congruence|exact E]).
    assert (Hy : has_tag t (f x) = false)
      by (unfold has_tag in *; now rewrite Hf).
    now rewrite Hx, Hy.
  - now rewrite IH.
Qed.

Lemma filter_insert_other (t : string) (i : nat) (c : xml) (l : list xml) :
  has_tag t c = false ->
  List.filter (has_tag t) (take i l ++ c :: drop i l) = List.filter (has_tag t) l.
Proof.
  intros Hc. rewrite List.filter_app. simpl. rewrite Hc.
  rewrite <- List.filter_app. now rewrite take_drop.
Qed.

Lemma findall_alter_found_other (t t' : string) (f : xml -> xml) (e : xml) :
  t <> t' -> (forall x, tag_of (f x) = tag_of x) ->
  findall t (alter_found t' f e) = findall t e.
Proof.
  intros Hne Hf. unfold findall, alter_found. destruct e as [a b c cs].
  cbn [with_children children_of]. now apply filter_alter_first_other.
Qed.

Lemma findall_insert_other (t : string) (i : nat) (c e : xml) :
  has_tag t c = false -> findall t (insert_child i c e) = findall t e.
Proof.
  intros Hc. unfold findall, insert_child. destruct e as [a b x cs].
  cbn [with_children children_of]. now apply filter_insert_other.
Qed.

Lemma findall_get_or_add_other (t t' : string) (f : xml -> xml) (e : xml) :
  t <> t' -> (forall x, tag_of (f x) = tag_of x) ->
  findall t (get_or_add t' f e) = findall t e.
Proof.
  intros Hne Hf. unfold get_or_add. destruct (find t' e).
  - now apply findall_alter_found_other.
  - apply findall_insert_other. unfold has_tag. rewrite Hf. cbn.
    apply String.eqb_neq. congruence.
Qed.

Lemma set_row_height_cells (h : pyval) (a : bool) (x y : xml) :
  _set_row_height h a x = Ok y ->
  tag_of y = tag_of x /\ findall "w:tc" y = findall "w:tc" x.
Proof.
  unfold _set_row_height.
  destruct ((match h with PNone => true | _ => false end) && a).
  { now intros [= <-]. }
  match goal with |- context [rbind ?r _] => destruct r as [v|] end;
    [|discriminate].
  cbn [rbind]. cbv zeta. intros [= <-].
  destruct (find "w:tblPrEx" x); [destruct (find "w:trPr" x)|].
  - split; [apply tag_alter_found|].
    apply findall_alter_found_other; [discriminate|apply tag_append_child].
  - split; [apply tag_insert_child|]. now apply findall_insert_other.
  - split; [apply tag_get_or_add|].
    apply findall_get_or_add_other; [discriminate|apply tag_append_child].
Qed.

Lemma keeps_row_widthless_height (h : pyval) (a : bool) :
  keeps row_widthless (_set_row_height h a).
Proof.
  intros x y [Ht Hc] E. apply set_row_height_cells in E as [E1 E2].
  split; congruence.
Qed.

Lemma keeps_tag_row_height (h : pyval) (a : bool) :
  keeps_tag (_set_row_height h a).
Proof. intros x y E. now apply set_row_height_cells in E. Qed.

Lemma keeps_plain_row_height (h : pyval) (a : bool) :
  keeps is_plain (_set_row_height h a).
Proof.
  intros x y Hx. unfold _set_row_height.
  destruct ((match h with PNone => true | _ => false end) && a).
  { now intros [= <-]. }
  match goal with |- context [rbind ?r _] => destruct r as [v|] end;
    [|discriminate].
  cbn [rbind]. cbv zeta. intros [= <-].
  destruct (find "w:tblPrEx" x); [destruct (find "w:trPr" x)|].
  - apply plain_alter_found; [|exact Hx]. intros z Hz.
    now apply plain_append_child.
  - apply plain_insert_child; [|exact Hx]. reflexivity.
  - apply plain_get_or_add; [reflexivity| |exact Hx]. intros z Hz.
    now apply plain_append_child.
Qed.

Lemma keeps_row_widthless_on_cell (c : nat) (g : xml -> result xml) :
  keeps_tag g -> keeps widthless g -> keeps row_widthless (on_cell c g).
Proof.
  intros Hg Hw x y [Ht Hc]. unfold on_cell, on_children.
  destruct (alterM_nth _ c g (children_of x)) as [cs|] eqn:E; [|discriminate].
  cbn [rbind]. intros [= <-]. split; [now rewrite tag_with_children|].
  apply alterM_nth_altered in E.
  unfold findall in *. destruct x as [t a v cs0].
  cbn [with_children children_of] in *.
  apply (altered_filter _ g (fun a b _ H => Hg a b H) "w:tc") in E.
  apply (altered_Forall _ g widthless _ _ (fun a b _ Ha Hb => Hw a b Ha Hb) E Hc).
Qed.

(** ** Tables *)

Lemma table_block_children (t : xml) (cs : list xml) :
  tag_of t = "w:tbl" -> forallb plain cs = true ->
  table_block (with_children t cs).
Proof.
  intros Ht Hcs. split; [now rewrite tag_with_children|].
  now destruct t.
Qed.

Lemma keeps_table_block_on_row (r : nat) (f : xml -> result xml) :
  keeps is_plain f -> keeps table_block (on_row r f).
Proof.
  intros Hf x y [Ht Hc]. unfold on_row, on_children.
  destruct (alterM_nth _ r f (children_of x)) as [cs|] eqn:E; [|discriminate].
  cbn [rbind]. intros [= <-]. apply table_block_children; [exact Ht|].
  apply alterM_nth_altered in E.
  apply (altered_forallb _ f plain _ _ (fun a b _ Ha Hb => Hf a b Ha Hb) E Hc).
Qed.

Lemma keeps_has_grid_on_row (ws : list Z) (r : nat) (f : xml -> result xml) :
  keeps_tag f -> keeps row_widthless f -> keeps (has_grid ws) (on_row r f).
Proof.
  intros Hf Hw x y [Hg Hr]. unfold on_row, on_children.
  destruct (alterM_nth _ r f (children_of x)) as [cs|] eqn:E; [|discriminate].
  cbn [rbind]. intros [= <-]. apply alterM_nth_altered in E.
  unfold has_grid, find, findall in *. destruct x as [t a v cs0].
  cbn [with_children children_of] in *. split.
  - rewrite <- Hg.
    apply (altered_find_other (has_tag "w:tr") f (fun a b _ H => Hf a b H)
             "w:tblGrid"); [|exact E].
    intros z. now apply has_tag_other.
  - apply (altered_filter _ f (fun a b _ H => Hf a b H) "w:tr") in E.
    apply (altered_Forall _ f row_widthless _ _
             (fun a b _ Ha Hb => Hw a b Ha Hb) E Hr).
Qed.

Lemma keeps_fill_row (P : xml -> Prop) (r : nat)
    (cell : nat -> pyval -> xml -> result xml) (row_data : pyval) :
  (forall i v, keeps P (on_row r (on_cell i (cell i v)))) ->
  keeps P (fill_row r cell row_data).
Proof.
  intros H x y Hx. unfold fill_row.
  destruct (py_iter row_data) as [values|]; [|discriminate]. cbn [rbind].
  apply keeps_for_each; [|exact Hx].
  intros i v a b Ha. destruct (row_cell_count r a) as [n|]; [|discriminate].
  cbn [rbind]. destruct (i <? n)%nat; [now apply H|now intros [= <-]].
Qed.

Lemma keeps_bind (P : xml -> Prop) (f g : xml -> result xml) :
  keeps P f -> keeps P g -> keeps P (fun x => y <- f x;; g y).
Proof.
  intros Hf Hg x z Hx. destruct (f x) as [y|] eqn:E; [|discriminate].
  cbn [rbind]. apply Hg. now apply (Hf x).
Qed.

(** What filling a table keeps, once the grid is settled. *)
Lemma keeps_fill_rows (P : xml -> Prop) :
  (forall r h a, keeps P (on_row r (_set_row_height h a))) ->
  (forall r i a b c, keeps P (on_row r (on_cell i (header_cell a b c)))) ->
  (forall r i j a b, keeps P (on_row r (on_cell i (data_cell j a b)))) ->
  (forall r i k j a b c d, keeps P (on_row r (on_cell i (kv_cell k j a b c d)))) ->
  (forall headers rows header_bg header_text_color alt_row row_height t t',
      P t ->
      fill_table headers rows header_bg header_text_color alt_row row_height
                 PNone t = Ok t' -> P t') /\
  (forall rows first_col_bg first_cell_bg first_cell_text row_height t t',
      P t ->
      fill_kv_table rows first_col_bg first_cell_bg first_cell_text row_height
                    PNone t = Ok t' -> P t').
Proof.
  intros Hh Hc Hd Hk. split.
  - intros headers rows header_bg header_text_color alt_row row_height t t' Pt.
    unfold fill_table. cbn [py_truthy when rbind].
    destruct (when _ _ t) as [t2|] eqn:E2; [|discriminate]. cbn [rbind].
    apply (keeps_when P _ _ (Hh _ _ _)) in E2; [|exact Pt].
    destruct (py_iter headers) as [hs|]; [|discriminate]. cbn [rbind].
    destruct (for_each_indexed _ hs 0%nat t2) as [t3|] eqn:E3; [|discriminate].
    cbn [rbind].
    pose proof (keeps_for_each P _ hs (fun i a => Hc 0%nat i a _ _)
                               0%nat t2 t3 E2 E3) as P3.
    destruct (py_iter rows) as [rs|]; [|discriminate]. cbn [rbind].
    apply keeps_for_each; [|exact P3].
    intros i a. apply keeps_bind; [apply keeps_when, Hh|].
    apply keeps_fill_row. intros; apply Hd.
  - intros rows first_col_bg first_cell_bg first_cell_text row_height t t' Pt.
    unfold fill_kv_table. cbn [py_truthy when rbind].
    destruct (py_iter rows) as [rs|]; [|discriminate]. cbn [rbind].
    apply keeps_for_each; [|exact Pt].
    intros i a. apply keeps_bind; [apply keeps_when, Hh|].
    apply keeps_fill_row. intros; apply Hk.
Qed.

Lemma fill_table_split (headers rows header_bg header_text_color alt_row
    row_height col_widths : pyval) (t : xml) :
  fill_table headers rows header_bg header_text_color alt_row row_height
             col_widths t
  = (t1 <- when (py_truthy col_widths) (_set_table_grid col_widths) t;;
     fill_table headers rows header_bg header_text_color alt_row row_height
                PNone t1).
Proof. reflexivity. Qed.

Lemma fill_kv_table_split (rows first_col_bg first_cell_bg first_cell_text
    row_height col_widths : pyval) (t : xml) :
  fill_kv_table rows first_col_bg first_cell_bg first_cell_text row_height
                col_widths t
  = (t1 <- when (py_truthy col_widths) (_set_table_grid col_widths) t;;
     fill_kv_table rows first_col_bg first_cell_bg first_cell_text row_height
                   PNone t1).
Proof. reflexivity. Qed.

Lemma forallb_repeat {A} (p : A -> bool) (x : A) (n : nat) :
  p x = true -> forallb p (repeat x n) = true.
Proof. intros H. induction n; simpl; [reflexivity|now rewrite H]. Qed.

Lemma new_tbl_table_block (rows cols : nat) : table_block (new_tbl rows cols).
Proof.
  split; [reflexivity|]. unfold new_tbl. cbn [children_of].
  apply forallb_app_true.
  - cbn. rewrite forallb_repeat; reflexivity.
  - apply forallb_repeat. cbn. rewrite forallb_repeat; reflexivity.
Qed.

Lemma mapM_plain {A} (f : A -> result xml) (l : list A) (ys : list xml) :
  (forall a y, f a = Ok y -> plain y = true) ->
  mapM f l = Ok ys -> forallb plain ys = true.
Proof.
  intros Hf. revert ys. induction l as [|a l IH]; intros ys; simpl.
  - now intros [= <-].
  - destruct (f a) as [y|] eqn:E; [|discriminate]. cbn [rbind].
    destruct (mapM f l) as [ys'|]; [|discriminate]. cbn [rbind].
    intros [= <-]. simpl. now rewrite (Hf _ _ E), IH.
Qed.

Lemma keeps_table_block_set_table_grid (col_widths : pyval) :
  keeps table_block (_set_table_grid col_widths).
Proof.
  intros x y [Ht Hc]. unfold _set_table_grid. cbv zeta.
  match goal with
  | |- context [alter_found "w:tblPr" ?F x] =>
      set (tbl1 := alter_found "w:tblPr" F x)
  end.
  assert (H1 : table_block tbl1).
  { apply table_block_children; [exact Ht|].
    apply forallb_alter_first; [|exact Hc]. intros z Hz.
    assert (H : plain (remove_found "w:tblLook"
                 (alter_found "w:tblW"
                    (fun tblW => set_attr "w:type" "auto"
                                   (set_attr "w:w" "100" tblW)) z)) = true).
    { apply plain_remove_found, plain_alter_found; [|exact Hz].
      intros u Hu. now repeat apply plain_set_attr. }
    destruct (find "w:tblBorders" _); [exact H|].
    now apply plain_append_child. }
  match goal with
  | |- context [with_children tbl1 ?cs] => set (tbl2 := with_children tbl1 cs)
  end.
  assert (H2 : table_block tbl2).
  { apply table_block_children; [apply H1|].
    apply forallb_filter, H1. }
  destruct (py_iter col_widths) as [widths|]; [|discriminate]. cbn [rbind].
  destruct (mapM _ widths) as [gridCols|] eqn:Eg; [|discriminate].
  cbn [rbind].
  assert (Hg : plain (Elem "w:tblGrid" [] "" gridCols) = true).
  { apply plain_Elem. repeat split.
    refine (mapM_plain _ _ _ _ Eg). intros a u. cbn beta. unfold lxml_set.
    destruct (xml_compatible _); [|discriminate]. now intros [= <-]. }
  match goal with
  | |- context [on_children _ ?t] => set (tbl3 := t)
  end.
  assert (H3 : table_block tbl3).
  { assert (Hi : forall i, table_block
                   (insert_child i (Elem "w:tblGrid" [] "" gridCols) tbl2)).
    { intros i. unfold insert_child.
      apply table_block_children; [apply H2|].
      destruct H2 as [_ H2].
      apply forallb_app_true; [now apply forallb_take|].
      cbn [forallb]. rewrite Hg. now apply forallb_drop. }
    unfold tbl3. destruct (index_of _ _); apply Hi. }
  clearbody tbl3. clear tbl1 tbl2 H1 H2 Hg Eg.
  unfold on_children.
  destruct (alterM_all _ _ (children_of tbl3)) as [cs|] eqn:E; [|discriminate].
  cbn [rbind]. intros [= <-]. apply table_block_children; [apply H3|].
  apply alterM_all_altered in E. destruct H3 as [_ H3].
  refine (altered_forallb _ _ plain _ _ _ E H3).
  intros a b _ Ha Hb. revert Hb. apply keeps_plain_all; [|exact Ha].
  intros u v Hu [= <-]. apply plain_alter_found; [|exact Hu].
  intros; now apply plain_remove_found.
Qed.

Lemma filter_repeat {A} (p : A -> bool) (x : A) (n : nat) :
  p x = true -> List.filter p (repeat x n) = repeat x n.
Proof. intros H. induction n; simpl; [reflexivity|now rewrite H, IHn]. Qed.

Lemma alterM_all_repeat (p : xml -> bool) (f : xml -> result xml) (x y : xml)
    (n : nat) :
  p x = true -> f x = Ok y -> alterM_all p f (repeat x n) = Ok (repeat y n).
Proof.
  intros Hp Hf. induction n; simpl; [reflexivity|].
  now rewrite Hp, Hf, IHn.
Qed.

Lemma grid_columns (ws : list Z) :
  mapM (fun width => lxml_set "w:w" (PStr (py_str width)) (OxmlElement "w:gridCol"))
       (map PInt ws)
  = Ok (children_of (grid_element ws)).
Proof.
  induction ws as [|z ws IH]; [reflexivity|].
  cbn [map mapM]. rewrite IH. unfold lxml_set at 1. cbn [py_str].
  now rewrite xml_compatible_string_of_Z.
Qed.

(** The grid setter on a table as [add_table] makes them: table
    properties, a grid, then the rows. *)
Lemma set_table_grid_rows (ws : list Z) (w : string) (gs trs trs' : list xml) :
  List.filter (fun child => negb (ends_with "tblGrid" (tag_of child))) trs = trs ->
  alterM_all (has_tag "w:tr")
    (on_children
       (alterM_all (has_tag "w:tc")
          (fun tc => Ok (alter_found "w:tcPr" (remove_found "w:tcW") tc))))
    trs = Ok trs' ->
  exists tblPr,
    has_tag "w:tblPr" tblPr = true /\
    _set_table_grid (PList (map PInt ws))
      (Elem "w:tbl" [] ""
         (Elem "w:tblPr" [] ""
            [Elem "w:tblW" [("w:type", "auto"); ("w:w", "0")] "" [];
             Elem "w:tblLook"
               [("w:firstColumn", "1"); ("w:firstRow", "1");
                ("w:lastColumn", "0"); ("w:lastRow", "0");
                ("w:noHBand", "0"); ("w:noVBand", "1"); ("w:val", "04A0")] "" []]
          :: Elem "w:tblGrid" [] "" gs :: trs))
    = Ok (Elem "w:tbl" [] "" (tblPr :: grid_element ws :: trs')).
Proof.
  intros H1 H2. eexists. split.
  2:{ unfold _set_table_grid. cbv zeta. revert H2.
      generalize (on_children
                    (alterM_all (has_tag "w:tc")
                       (fun tc => Ok (alter_found "w:tcPr"
                                        (remove_found "w:tcW") tc)))).
      intros F H2.
      cbn [py_iter rbind]. rewrite grid_columns. cbn [rbind].
      cbn. rewrite H1. cbn. rewrite take_0, drop_0.
      unfold on_children. cbn. rewrite H2. cbn.
      reflexivity. }
  reflexivity.
Qed.

Lemma Forall_filter_repeat (P : xml -> Prop) (q : xml -> bool) (x : xml)
    (n : nat) :
  P x -> Forall P (List.filter q (repeat x n)).
Proof.
  intros Hx. apply List.Forall_forall. intros y Hy.
  apply List.filter_In in Hy as [Hy _]. apply repeat_spec in Hy. now subst.
Qed.

(** The grid setter on the table [add_table] has just made: the grid holds
    the requested widths and no cell keeps a width. *)
Lemma set_table_grid_new_tbl (ws : list Z) (rows cols : nat) :
  exists t1,
    _set_table_grid (PList (map PInt ws)) (new_tbl rows cols) = Ok t1 /\
    has_grid ws t1.
Proof.
  set (tc' := Elem "w:tc" [] "" [Elem "w:tcPr" [] "" []; Elem "w:p" [] "" []]).
  set (tr' := Elem "w:tr" [] "" (repeat tc' cols)).
  destruct (set_table_grid_rows ws
              (string_of_Z (default_col_twips cols))
              (repeat (Elem "w:gridCol"
                         [("w:w", string_of_Z (default_col_twips cols))] "" [])
                      cols)
              (repeat (Elem "w:tr" [] ""
                         (repeat (new_tc (default_col_twips cols)) cols)) rows)
              (repeat tr' rows))
    as (tblPr & Hpr & Hset).
  - now apply filter_repeat.
  - apply alterM_all_repeat; [reflexivity|].
    unfold on_children. cbn [children_of].
    rewrite (alterM_all_repeat _ _ (new_tc (default_col_twips cols)) tc' cols
               eq_refl eq_refl).
    reflexivity.
  - eexists. split; [exact Hset|]. split.
    + unfold find. cbn [children_of List.find].
      rewrite (has_tag_other "w:tblPr" "w:tblGrid" tblPr) by (discriminate || exact Hpr).
      reflexivity.
    + unfold findall. cbn [children_of List.filter].
      rewrite (has_tag_other "w:tblPr" "w:tr" tblPr) by (discriminate || exact Hpr).
      change (has_tag "w:tr" (grid_element ws)) with false. cbv iota.
      apply Forall_filter_repeat. split; [reflexivity|].
      unfold findall, tr'. cbn [children_of].
      now apply Forall_filter_repeat.
Qed.

Lemma fill_keeps_table_block :
  (forall headers rows header_bg header_text_color alt_row row_height t t',
      table_block t ->
      fill_table headers rows header_bg header_text_color alt_row row_height
                 PNone t = Ok t' -> table_block t') /\
  (forall rows first_col_bg first_cell_bg first_cell_text row_height t t',
      table_block t ->
      fill_kv_table rows first_col_bg first_cell_bg first_cell_text row_height
                    PNone t = Ok t' -> table_block t').
Proof.
  destruct cell_statements_plain as (Hh & Hd & Hk).
  apply keeps_fill_rows; intros; apply keeps_table_block_on_row;
    try apply keeps_plain_row_height; unfold on_cell; apply keeps_plain_nth;
    auto.
Qed.

Lemma fill_keeps_has_grid (ws : list Z) :
  forall headers rows header_bg header_text_color alt_row row_height t t',
    has_grid ws t ->
    fill_table headers rows header_bg header_text_color alt_row row_height
               PNone t = Ok t' -> has_grid ws t'.
Proof.
  destruct cell_statements_tag as (Th & Td & Tk).
  destruct cell_statements_widthless as (Wh & Wd & Wk).
  apply keeps_fill_rows; intros; apply keeps_has_grid_on_row;
    try apply keeps_tag_row_height; try apply keeps_row_widthless_height;
    try apply keeps_tag_on_children;
    apply keeps_row_widthless_on_cell; auto.
Qed.

Lemma keeps_table_block_fill_table (headers rows header_bg header_text_color
    alt_row row_height col_widths : pyval) :
  keeps table_block
    (fill_table headers rows header_bg header_text_color alt_row row_height
                col_widths).
Proof.
  intros t t' Ht. rewrite fill_table_split.
  destruct (when _ _ t) as [t1|] eqn:E; [|discriminate]. cbn [rbind].
  apply fill_keeps_table_block.
  exact (keeps_when _ _ _ (keeps_table_block_set_table_grid _) _ _ Ht E).
Qed.

Lemma keeps_table_block_fill_kv_table (rows first_col_bg first_cell_bg
    first_cell_text row_height col_widths : pyval) :
  keeps table_block
    (fill_kv_table rows first_col_bg first_cell_bg first_cell_text row_height
                   col_widths).
Proof.
  intros t t' Ht. rewrite fill_kv_table_split.
  destruct (when _ _ t) as [t1|] eqn:E; [|discriminate]. cbn [rbind].
  apply fill_keeps_table_block.
  exact (keeps_when _ _ _ (keeps_table_block_set_table_grid _) _ _ Ht E).
Qed.

(** A table filled with a non-empty list of integer widths carries exactly
    these widths in its grid, and none on its cells. *)
Lemma fill_table_has_grid (ws : list Z) (headers rows header_bg
    header_text_color alt_row row_height : pyval) (nrows ncols : nat) (t : xml) :
  ws <> [] ->
  fill_table headers rows header_bg header_text_color alt_row row_height
             (PList (map PInt ws)) (new_tbl nrows ncols) = Ok t ->
  has_grid ws t.
Proof.
  intros Hws. rewrite fill_table_split.
  assert (Ht : py_truthy (PList (map PInt ws)) = true)
    by (destruct ws; [congruence|reflexivity]).
  rewrite Ht. unfold when.
  destruct (set_table_grid_new_tbl ws nrows ncols) as (t1 & -> & Hg).
  cbn [rbind]. now apply fill_keeps_has_grid.
Qed.

(** ** What one section adds to the body *)

Lemma plain_not_table (p : xml) : is_plain p -> has_tag "w:tbl" p = false.
Proof.
  destruct p as [t a x cs]. unfold is_plain. rewrite plain_Elem.
  intros (H & _). exact H.
Qed.

Lemma table_block_is_table (t : xml) : table_block t -> has_tag "w:tbl" t = true.
Proof. intros [H _]. unfold has_tag. now rewrite H. Qed.

Lemma filter_plain (new : list xml) :
  Forall is_plain new -> List.filter (has_tag "w:tbl") new = [].
Proof.
  induction 1 as [|p new Hp _ IH]; [reflexivity|].
  cbn [List.filter]. now rewrite (plain_not_table _ Hp).
Qed.

Lemma keeps_plain_on_runs (f : xml -> result xml) :
  keeps is_plain f -> keeps is_plain (on_runs f).
Proof. apply keeps_plain_all. Qed.

Lemma heading_section_blocks (kv : list (string * pyval)) (d d' : document)
    (B : list xml) :
  body_is d B -> heading_section kv d = Ok d' ->
  exists p, is_plain p /\ body_is d' (B ++ [p]).
Proof.
  intros HB. unfold heading_section, add_heading. cbv zeta.
  destruct (heading_style _) as [style|]; [|discriminate]. cbn [rbind].
  apply add_paragraph_on_block; [exact HB|].
  apply keeps_seqM. repeat constructor.
  - apply keeps_plain_on_runs, keeps_seqM. repeat constructor;
      [apply keeps_plain_run_set_font|apply keeps_plain_run_set_color].
  - apply keeps_plain_para_set_space.
  - apply keeps_plain_para_set_space.
Qed.

Lemma paragraph_section_blocks (kv : list (string * pyval)) (d d' : document)
    (B : list xml) :
  body_is d B -> paragraph_section kv d = Ok d' ->
  exists p, is_plain p /\ body_is d' (B ++ [p]).
Proof.
  intros HB. unfold paragraph_section. cbv zeta.
  destruct (add_paragraph _ _ d) as [[d1 i]|] eqn:E; [|discriminate].
  cbn [rbind fst snd].
  destruct (add_paragraph_spec _ _ _ _ _ _ HB E) as (-> & p & Hp & H1).
  destruct (py_lower _) as [alignment|]; [|discriminate]. cbn [rbind].
  destruct (has_bold_marker _) as [marked|]; [|discriminate]. cbn [rbind].
  apply (on_block_last_plain _ _ _ _ _ H1 Hp).
  apply keeps_seqM. repeat constructor.
  - apply keeps_plain_para_set_alignment.
  - destruct marked; [apply keeps_plain_parse_rich_text|].
    apply keeps_plain_title_run. repeat constructor;
      auto using keeps_plain_run_set_font, keeps_plain_run_set_size,
                 keeps_plain_run_set_color, keeps_when;
      now apply keeps_plain_run_set_onoff.
  - apply keeps_plain_para_set_space.
Qed.

Lemma list_section_blocks (style : string) (kv : list (string * pyval))
    (d d' : document) (B : list xml) :
  body_is d B -> list_section style kv d = Ok d' ->
  exists new, Forall is_plain new /\ body_is d' (B ++ new).
Proof.
  unfold list_section.
  destruct (py_iter _) as [items|]; [|discriminate]. cbn [rbind].
  generalize 0%nat as i. revert d B.
  induction items as [|item items IH]; intros d B i HB; cbn [for_each_indexed].
  - intros [= <-]. exists []. rewrite app_nil_r. now split.
  - destruct (add_paragraph_then _ _ _ d) as [d1|] eqn:E; [|discriminate].
    cbn [rbind]. intros H.
    apply (add_paragraph_on_block _ _ _ _ _ _ HB
             (keeps_plain_on_runs _ (keeps_plain_run_set_font "Arial"))) in E
      as (p & Hp & H1).
    destruct (IH _ _ _ H1 H) as (new & Hnew & H2).
    exists (p :: new). split; [now constructor|].
    now rewrite <- app_assoc in H2.
Qed.

Lemma table_section_blocks (kv : list (string * pyval)) (d d' : document)
    (B : list xml) :
  body_is d B -> table_section kv d = Ok d' ->
  if py_truthy (dict_get_or "headers" (PList []) kv) then
    exists nrows ncols t p,
      fill_table (dict_get_or "headers" (PList []) kv)
                 (dict_get_or "rows" (PList []) kv)
                 (dict_get_or "header_bg_color" (PStr "1F4E79") kv)
                 (dict_get_or "header_text_color" (PStr "FFFFFF") kv)
                 (dict_get_or "alt_row_color" (PStr "F2F2F2") kv)
                 (dict_get_or "row_height" PNone kv)
                 (dict_get_or "col_widths" PNone kv)
                 (new_tbl nrows ncols) = Ok t /\
      table_block t /\ is_plain p /\ body_is d' (B ++ [t; p])
  else d' = d.
Proof.
  intros HB. unfold table_section. cbv zeta.
  destruct (py_truthy (dict_get_or "headers" _ kv)); [|now intros [= <-]].
  destruct (py_len (dict_get_or "rows" _ kv)) as [nrows|]; [|discriminate].
  cbn [rbind].
  destruct (py_len (dict_get_or "headers" _ kv)) as [ncols|]; [|discriminate].
  cbn [rbind]. unfold add_table.
  destruct (add_block_spec d B (new_tbl (1 + nrows) ncols) HB
              (table_block_ok _ (new_tbl_table_block _ _))) as (d0 & -> & H0).
  cbn [rbind fst snd].
  destruct (on_block _ _ d0) as [d1|] eqn:E1; [|discriminate]. cbn [rbind].
  destruct (on_block_last _ _ _ _ _ H0 E1) as (t & Ht & H1).
  pose proof (keeps_table_block_fill_table _ _ _ _ _ _ _ _ _
                (new_tbl_table_block _ _) Ht) as Tt.
  specialize (H1 (table_block_ok _ Tt)).
  destruct (add_paragraph _ _ d1) as [[d2 i]|] eqn:E2; [|discriminate].
  cbn [rbind fst]. intros [= <-].
  destruct (add_paragraph_spec _ _ _ _ _ _ H1 E2) as (_ & p & Hp & H2).
  exists (1 + nrows)%nat, ncols, t, p. repeat split; try assumption.
  - apply Tt.
  - apply Tt.
  - now rewrite <- app_assoc in H2.
Qed.

Lemma key_value_table_section_blocks (kv : list (string * pyval))
    (d d' : document) (B : list xml) :
  body_is d B -> key_value_table_section kv d = Ok d' ->
  if py_truthy (dict_get_or "rows" (PList []) kv) then
    exists t p, table_block t /\ is_plain p /\ body_is d' (B ++ [t; p])
  else d' = d.
Proof.
  intros HB. unfold key_value_table_section. cbv zeta.
  destruct (py_truthy (dict_get_or "rows" _ kv)); [|now intros [= <-]].
  destruct (py_len (dict_get_or "rows" _ kv)) as [nrows|]; [|discriminate].
  cbn [rbind].
  destruct (py_first _) as [row0|]; [|discriminate]. cbn [rbind].
  destruct (py_len row0) as [ncols|]; [|discriminate].
  cbn [rbind]. unfold add_table.
  destruct (add_block_spec d B (new_tbl nrows ncols) HB
              (table_block_ok _ (new_tbl_table_block _ _))) as (d0 & -> & H0).
  cbn [rbind fst snd].
  destruct (on_block _ _ d0) as [d1|] eqn:E1; [|discriminate]. cbn [rbind].
  destruct (on_block_last _ _ _ _ _ H0 E1) as (t & Ht & H1).
  pose proof (keeps_table_block_fill_kv_table _ _ _ _ _ _ _ _
                (new_tbl_table_block _ _) Ht) as Tt.
  specialize (H1 (table_block_ok _ Tt)).
  destruct (add_paragraph _ _ d1) as [[d2 i]|] eqn:E2; [|discriminate].
  cbn [rbind fst]. intros [= <-].
  destruct (add_paragraph_spec _ _ _ _ _ _ H1 E2) as (_ & p & Hp & H2).
  exists t, p. repeat split; try assumption.
  - apply Tt.
  - apply Tt.
  - now rewrite <- app_assoc in H2.
Qed.

Lemma process_section_blocks (s : pyval) (d d' : document) (B : list xml) :
  body_is d B -> process_section s d = Ok d' ->
  exists new,
    body_is d' (B ++ new) /\
    length (List.filter (has_tag "w:tbl") new)
    = (if emits_table s then 1 else 0)%nat.
Proof.
  intros HB. destruct s as [| | | |?|kv]; try discriminate.
  unfold process_section, emits_table. cbv zeta.
  assert (Hnone : Ok d = Ok d' ->
            exists new, body_is d' (B ++ new) /\
              length (List.filter (has_tag "w:tbl") new) = 0%nat).
  { intros [= <-]. exists []. rewrite app_nil_r. now split. }
  assert (Hone : forall p, is_plain p -> body_is d' (B ++ [p]) ->
            exists new, body_is d' (B ++ new) /\
              length (List.filter (has_tag "w:tbl") new) = 0%nat).
  { intros p Hp H. exists [p]. split; [exact H|].
    now rewrite filter_plain by (repeat constructor; exact Hp). }
  assert (Htab : forall t p, table_block t -> is_plain p ->
            body_is d' (B ++ [t; p]) ->
            exists new, body_is d' (B ++ new) /\
              length (List.filter (has_tag "w:tbl") new) = 1%nat).
  { intros t p Ht Hp H. exists [t; p]. split; [exact H|].
    cbn [List.filter]. now rewrite (table_block_is_table _ Ht),
                             (plain_not_table _ Hp). }
  destruct (dict_get_or "type" PNone kv) as [| | |ty| |];
    cbn [py_eq_str andb orb]; try exact Hnone.
  destruct (String.eqb_spec ty "heading") as [->|_].
  { intros H. destruct (heading_section_blocks _ _ _ _ HB H) as (p & Hp & H1).
    exact (Hone p Hp H1). }
  destruct (String.eqb_spec ty "paragraph") as [->|_].
  { intros H. destruct (paragraph_section_blocks _ _ _ _ HB H) as (p & Hp & H1).
    exact (Hone p Hp H1). }
  destruct (String.eqb_spec ty "bullet_list") as [->|_].
  { intros H. destruct (list_section_blocks _ _ _ _ _ HB H) as (new & Hn & H1).
    exists new. split; [exact H1|]. now rewrite filter_plain. }
  destruct (String.eqb_spec ty "numbered_list") as [->|_].
  { intros H. destruct (list_section_blocks _ _ _ _ _ HB H) as (new & Hn & H1).
    exists new. split; [exact H1|]. now rewrite filter_plain. }
  destruct (String.eqb_spec ty "table") as [->|_].
  { intros H. pose proof (table_section_blocks _ _ _ _ HB H) as H1.
    change (String.eqb "table" "key_value_table") with false.
    cbn [andb]. rewrite Bool.orb_false_r.
    destruct (py_truthy (dict_get_or "headers" (PList []) kv)).
    - destruct H1 as (nr & nc & t & p & _ & Ht & Hp & H1).
      exact (Htab t p Ht Hp H1).
    - subst d'. now apply Hnone. }
  cbn [andb orb].
  destruct (String.eqb_spec ty "key_value_table") as [->|_].
  { intros H. pose proof (key_value_table_section_blocks _ _ _ _ HB H) as H1.
    cbn [andb].
    destruct (py_truthy (dict_get_or "rows" (PList []) kv)).
    - destruct H1 as (t & p & Ht & Hp & H1). exact (Htab t p Ht Hp H1).
    - subst d'. now apply Hnone. }
  cbn [andb].
  destruct (String.eqb_spec ty "page_break") as [->|_].
  { unfold add_page_break.
    set (pb := Elem "w:p" [] "" _).
    destruct (add_block_spec d B pb HB (plain_block_ok pb eq_refl))
      as (d0 & -> & H0).
    cbn [rbind fst]. intros [= <-]. now apply (Hone pb). }
  destruct (String.eqb_spec ty "spacer") as [->|_]; [|exact Hnone].
  destruct (add_paragraph _ _ d) as [[d1 i]|] eqn:E; [|discriminate].
  cbn [rbind fst]. intros [= <-].
  destruct (add_paragraph_spec _ _ _ _ _ _ HB E) as (_ & p & Hp & H1).
  exact (Hone p Hp H1).
Qed.

Lemma process_sections_app (pre post : list pyval) (d : document) :
  process_sections (pre ++ post) d
  = (d1 <- process_sections pre d;; process_sections post d1).
Proof.
  revert d. induction pre as [|s pre IH]; intros d; [reflexivity|].
  cbn [app process_sections]. destruct (process_section s d); [|reflexivity].
  cbn [rbind]. apply IH.
Qed.

Lemma process_sections_blocks (sections : list pyval) :
  forall d d' B,
    body_is d B -> process_sections sections d = Ok d' ->
    exists new,
      body_is d' (B ++ new) /\
      length (List.filter (has_tag "w:tbl") new) = tables_emitted sections.
Proof.
  induction sections as [|s sections IH]; intros d d' B HB;
    cbn [process_sections].
  - intros [= <-]. exists []. rewrite app_nil_r. now split.
  - destruct (process_section s d) as [d1|] eqn:E; [|discriminate].
    cbn [rbind]. intros H.
    destruct (process_section_blocks _ _ _ _ HB E) as (new1 & H1 & C1).
    destruct (IH _ _ _ H1 H) as (new2 & H2 & C2).
    exists (new1 ++ new2)%list. split; [now rewrite app_assoc|].
    rewrite List.filter_app, length_app, C1, C2.
    unfold tables_emitted. cbn [List.filter].
    destruct (emits_table s); reflexivity.
Qed.

(** ** The document before its sections *)

Lemma body_is_root (d d' : document) (B : list xml) :
  doc_root d' = doc_root d -> body_is d B -> body_is d' B.
Proof. intros E (S & H & HS). exists S. rewrite E. now split. Qed.

Lemma margins_document_body :
  body_is (with_root (map_sections set_margins) new_document) [].
Proof.
  eexists. split; [vm_compute; reflexivity|].
  split; [reflexivity|]. split; [reflexivity|constructor].
Qed.

Lemma set_header_footer_root (kind root_tag : string) (text : pyval)
    (alignment : string) (italic : bool) (d d' : document) :
  set_header_footer kind root_tag text alignment italic d = Ok d' ->
  doc_root d' = doc_root d.
Proof.
  unfold set_header_footer. destruct (findall_desc _ _); [discriminate|].
  destruct (seqM _ _); [|discriminate]. cbn [rbind]. now intros [= <-].
Qed.

Lemma when_header_footer_body (b : bool) (kind root_tag : string)
    (text : pyval) (alignment : string) (italic : bool) (d d' : document)
    (B : list xml) :
  body_is d B ->
  when b (set_header_footer kind root_tag text alignment italic) d = Ok d' ->
  body_is d' B.
Proof.
  intros HB. unfold when. destruct b; [|now intros [= <-]].
  intros H. apply set_header_footer_root in H.
  now apply (body_is_root d).
Qed.

Lemma when_paragraph_blocks (b : bool) (text : pyval) (style : option string)
    (f : xml -> result xml) (d d' : document) (B : list xml) :
  body_is d B -> Forall is_plain B -> keeps is_plain f ->
  when b (add_paragraph_then text style f) d = Ok d' ->
  exists B', body_is d' B' /\ Forall is_plain B'.
Proof.
  intros HB HP Hf. unfold when. destruct b.
  - intros H. destruct (add_paragraph_on_block _ _ _ _ _ _ HB Hf H)
      as (p & Hp & H1).
    exists (B ++ [p])%list. split; [exact H1|].
    apply Forall_app. split; [exact HP|now constructor].
  - intros [= <-]. now exists B.
Qed.

(** The document is built in two stages: a body of paragraphs only, then
    the loop over the sections. *)
Lemma build_document_stages (kv : list (string * pyval)) (d : document) :
  build_document (PDict kv) = Ok d ->
  exists d0 B0 sections,
    body_is d0 B0 /\ Forall is_plain B0 /\
    py_iter (dict_get_or "sections" (PList []) kv) = Ok sections /\
    process_sections sections d0 = Ok d.
Proof.
  unfold build_document. cbv zeta.
  destruct (set_normal_font _ _ _) as [d1|] eqn:E1; [|discriminate].
  cbn [rbind py_get py_get_or].
  assert (H1 : body_is d1 []).
  { unfold set_normal_font in E1. destruct (style_check _ _); [|discriminate].
    cbn in E1. injection E1 as <-.
    apply (body_is_root (with_root (map_sections set_margins) new_document));
      [reflexivity|apply margins_document_body]. }
  destruct (when _ _ d1) as [d2|] eqn:E2; [|discriminate]. cbn [rbind].
  apply (when_header_footer_body _ _ _ _ _ _ _ _ _ H1) in E2.
  destruct (when _ _ d2) as [d3|] eqn:E3; [|discriminate]. cbn [rbind].
  apply (when_header_footer_body _ _ _ _ _ _ _ _ _ E2) in E3.
  destruct (when _ _ d3) as [d4|] eqn:E4; [|discriminate]. cbn [rbind].
  apply (when_paragraph_blocks _ _ _ _ _ _ _ E3 (List.Forall_nil _)) in E4
    as (B4 & H4 & P4).
  2:{ apply keeps_seqM. repeat constructor;
        [apply keeps_plain_para_set_alignment|].
      apply keeps_plain_title_run. repeat constructor;
        auto using keeps_plain_run_set_font, keeps_plain_run_set_size,
                   keeps_plain_run_set_rgb;
        now apply keeps_plain_run_set_onoff. }
  destruct (when _ _ d4) as [d5|] eqn:E5; [|discriminate]. cbn [rbind].
  apply (when_paragraph_blocks _ _ _ _ _ _ _ H4 P4) in E5 as (B5 & H5 & P5).
  2:{ apply keeps_seqM. repeat constructor;
        [apply keeps_plain_para_set_alignment| |apply keeps_plain_para_set_space].
      apply keeps_plain_title_run. repeat constructor;
        auto using keeps_plain_run_set_font, keeps_plain_run_set_size,
                   keeps_plain_run_set_rgb;
        now apply keeps_plain_run_set_onoff. }
  destruct (py_iter _) as [sections|] eqn:Es; [|discriminate]. cbn [rbind].
  intros H. now exists d5, B5, sections.
Qed.

(** ** Tables of a body *)

Lemma plain_no_table_inside :
  forall e, plain e = true ->
    List.filter (has_tag "w:tbl") (descendants e) = [].
Proof.
  fix IH 1. intros [t a x cs] H. apply plain_children in H.
  cbn [children_of descendants] in *.
  induction cs as [|c cs IHcs]; [reflexivity|].
  cbn [flat_map forallb] in *. apply andb_prop in H as [Hc Hcs].
  rewrite List.filter_app. cbn [List.filter].
  rewrite (plain_not_table _ Hc), (IH c Hc).
  now apply IHcs.
Qed.

Lemma plain_no_table_below (l : list xml) :
  forallb plain l = true ->
  List.filter (has_tag "w:tbl") (flat_map (fun c => c :: descendants c) l) = [].
Proof.
  induction l as [|c l IH]; [reflexivity|].
  cbn [flat_map forallb]. intros H. apply andb_prop in H as [Hc Hl].
  rewrite List.filter_app. cbn [List.filter].
  now rewrite (plain_not_table _ Hc), (plain_no_table_inside _ Hc), IH.
Qed.

(** The tables the reader finds in a document whose body holds the
    blocks [B] are the tables among [B]. *)
Lemma body_tables (d : document) (B : list xml) :
  body_is d B ->
  findall_desc "w:tbl" (doc_root d) = List.filter (has_tag "w:tbl") B.
Proof.
  intros (S & -> & HS & HSc & HB). unfold findall_desc.
  cbn [descendants flat_map]. rewrite app_nil_r.
  cbn [List.filter]. change (has_tag "w:tbl" (Elem "w:body" _ _ _)) with false.
  cbv iota. rewrite flat_map_app, List.filter_app.
  cbn [flat_map]. rewrite app_nil_r. cbn [List.filter].
  rewrite (has_tag_other "w:sectPr" "w:tbl" S) by (discriminate || exact HS).
  destruct S as [t a x cs]. cbn [descendants children_of] in *.
  rewrite (plain_no_table_below _ HSc), app_nil_r.
  clear HS HSc. induction HB as [|b B Hb _ IH]; [reflexivity|].
  cbn [flat_map List.filter]. rewrite List.filter_app. cbn [List.filter].
  destruct Hb as [_ Hb]. destruct b as [t' a' x' cs']. cbn [descendants children_of] in *.
  rewrite (plain_no_table_below _ Hb), IH.
  destruct (has_tag "w:tbl" _); reflexivity.
Qed.

(** ** Reading a table that carries a grid *)

Lemma scan_tables_nth (tables : list xml) :
  forall i ts n tbl,
    scan_tables i tables = Ok ts -> nth_error tables n = Some tbl ->
    exists t, nth_error ts n = Some t /\ scan_table (i + n) tbl = Ok t.
Proof.
  induction tables as [|x tables IH]; intros i ts n tbl; cbn [scan_tables].
  - destruct n; discriminate.
  - destruct (scan_table i x) as [t|] eqn:Ht; [|discriminate]. cbn [rbind].
    destruct (scan_tables (S i) tables) as [ts'|] eqn:Hts; [|discriminate].
    cbn [rbind]. intros [= <-]. destruct n as [|n]; cbn [nth_error].
    + intros [= <-]. exists t. now rewrite Nat.add_0_r.
    + intros Hn. destruct (IH _ _ _ _ Hts Hn) as (t' & H1 & H2).
      exists t'. split; [exact H1|].
      now replace (i + S n)%nat with (S i + n)%nat by lia.
Qed.

Lemma grid_element_reads (ws : list Z) :
  mapM width_attr (findall "w:gridCol" (grid_element ws)) = Ok ws.
Proof.
  unfold findall, grid_element. cbn [children_of].
  induction ws as [|z ws IH]; [reflexivity|].
  cbn [map List.filter].
  change (has_tag "w:gridCol" (Elem "w:gridCol" _ _ _)) with true. cbv iota.
  cbn [mapM]. rewrite IH.
  unfold width_attr at 1, get_attr. cbn [attrs_of assoc].
  change (String.eqb "w:w" "w:w") with true. cbv iota.
  now rewrite py_int_string_of_Z.
Qed.

Lemma widthless_cells (cells : list xml) (ws : list (option Z)) :
  Forall widthless cells -> mapM cell_width cells = Ok ws ->
  Forall (fun x => x = None) ws.
Proof.
  intros H. revert ws. induction H as [|c cells Hc _ IH]; intros ws;
    cbn [mapM].
  - intros [= <-]. constructor.
  - rewrite Hc. cbn [rbind].
    destruct (mapM cell_width cells) as [ws'|]; [|discriminate].
    cbn [rbind]. intros [= <-]. constructor; [reflexivity|now apply IH].
Qed.

Lemma scan_row_widthless (j : nat) (r : xml)
    (x : row_info * bool * list (option Z)) :
  row_widthless r -> scan_row j r = Ok x -> Forall (fun o => o = None) (snd x).
Proof.
  intros [_ Hr]. unfold scan_row.
  match goal with |- rbind ?hi _ = _ -> _ => destruct hi as [h|] end;
    [|discriminate].
  cbn [rbind].
  destruct (mapM cell_width (findall "w:tc" r)) as [ws|] eqn:E;
    [|discriminate].
  cbn [rbind]. intros [= <-]. cbn [snd]. apply (widthless_cells _ _ Hr E).
Qed.

Lemma widthless_rows (rows : list xml) :
  Forall row_widthless rows ->
  forall j scanned, scan_rows j rows = Ok scanned ->
    Forall (Forall (fun x => x = None)) (map snd scanned).
Proof.
  induction 1 as [|r rows Hr _ IH]; intros j scanned; cbn [scan_rows].
  - intros [= <-]. constructor.
  - destruct (scan_row j r) as [x|] eqn:Ex; [|discriminate]. cbn [rbind].
    destruct (scan_rows (S j) rows) as [xs|] eqn:Exs; [|discriminate].
    cbn [rbind]. intros [= <-]. cbn [map]. constructor.
    + apply (scan_row_widthless _ _ _ Hr Ex).
    + apply (IH _ _ Exs).
Qed.

Lemma scan_table_has_grid (ws : list Z) (i : nat) (tbl : xml) (t : table_info) :
  has_grid ws tbl -> scan_table i tbl = Ok t ->
  column_widths t = ws /\ column_widths_source t = Some "tblGrid" /\
  Forall (Forall (fun x => x = None)) (cell_widths t).
Proof.
  intros [Hg Hr]. unfold scan_table. rewrite Hg, grid_element_reads.
  cbn [rbind].
  destruct (scan_rows 0 (findall "w:tr" tbl)) as [scanned|] eqn:E;
    [|discriminate].
  cbn [rbind]. intros [= <-]. cbn. repeat split.
  apply (widthless_rows _ Hr _ _ E).
Qed.

(** ** The round trip of the grid widths *)

Lemma formatted_success (filepath document_data : string) (data d : pyval)
    (w w' : world) :
  json_loads document_data = Ok data ->
  create_formatted_word_document filepath document_data w = (Ok d, w') ->
  field "success" d = Some (PBool true) ->
  exists doc,
    build_document data = Ok doc /\
    resolve w' filepath = Some (File (package doc)).
Proof.
  intros Hj H Hs. unfold create_formatted_word_document in H.
  apply try_except_inv in H as [(a & H & [= <-])|(e & w1 & _ & H)].
  - unfold create_formatted_word_document_body in H. rewrite Hj in H.
    bind_inv H; [|discriminate].
    apply lift_inv in Hm as [Hb ->]. bind_inv H; [|discriminate].
    bind_inv H; [|discriminate].
    bind_inv H; [|discriminate].
    unfold doc_save in Hm0. destruct a1.
    apply write_file_Ok in Hm0 as (R & _).
    injection Hm1 as _ <-. injection H as _ <-.
    exists a. split; [now symmetry|exact R].
  - unfold create_formatted_word_document_except in H.
    bind_inv H; [|discriminate]. injection H as <- _. discriminate.
Qed.

Lemma table_section_has_grid (section : list (string * pyval)) (ws : list Z)
    (d d' : document) (B : list xml) :
  py_eq_str (dict_get_or "type" PNone section) "table" = true ->
  py_truthy (dict_get_or "headers" (PList []) section) = true ->
  dict_get_or "col_widths" PNone section = PList (map PInt ws) ->
  ws <> [] ->
  body_is d B -> process_section (PDict section) d = Ok d' ->
  exists t p,
    has_grid ws t /\ table_block t /\ is_plain p /\ body_is d' (B ++ [t; p]).
Proof.
  intros Hty Hh Hc Hws HB. apply py_eq_str_true in Hty.
  unfold process_section. cbv zeta. rewrite Hty.
  change (py_eq_str (PStr "table") "heading") with false.
  change (py_eq_str (PStr "table") "paragraph") with false.
  change (py_eq_str (PStr "table") "bullet_list") with false.
  change (py_eq_str (PStr "table") "numbered_list") with false.
  change (py_eq_str (PStr "table") "table") with true.
  cbv iota. intros H.
  pose proof (table_section_blocks _ _ _ _ HB H) as H1.
  rewrite Hh, Hc in H1. destruct H1 as (nr & nc & t & p & Hf & Ht & Hp & H1).
  exists t, p. repeat split; try assumption; try apply Ht.
  - apply (fill_table_has_grid _ _ _ _ _ _ _ _ _ _ Hws Hf).
  - apply (fill_table_has_grid _ _ _ _ _ _ _ _ _ _ Hws Hf).
Qed.


(** * Further properties of the handlers *)

(** ** Inputs that are turned away before anything is done *)

(** X1: [create_formatted_word_document] on a text that [json.loads]
    rejects answers with the "Invalid JSON format" dictionary and leaves
    the world as it was: no file, no directory, no log line.  A text that
    parses to something other than an object is reported as a creation
    error instead, with an error logged and the files as they were. *)
Theorem formatted_rejects_invalid_json (filepath document_data : string)
    (w : world) :
  (forall e,
     json_loads document_data = Raise e -> is_JSONDecodeError e = true ->
     create_formatted_word_document filepath document_data w
     = (Ok (PDict [("success", PBool false);
                   ("message", PStr ("Invalid JSON format: " +:+ exn_str e));
                   ("filepath", PNone)]), w)) /\
  (forall data,
     json_loads document_data = Ok data ->
     (forall kv, data <> PDict kv) ->
     exists e w',
       create_formatted_word_document filepath document_data w
       = (Ok (failure "Error creating formatted Word document" e), w') /\
       exn_cls e = AttributeError /\
       same_files w w' /\
       log w' = (log w ++ ["[ERROR] Error creating formatted Word document: "
                           +:+ exn_str e])%list).
Proof.
  split.
  - intros e Hj He.
    unfold create_formatted_word_document, try_except,
      create_formatted_word_document_body.
    rewrite Hj, He. reflexivity.
  - intros data Hj Hd.
    unfold create_formatted_word_document, try_except,
      create_formatted_word_document_body.
    rewrite Hj.
    assert (Hb : build_document data
                 = Raise (Exn AttributeError "object has no attribute 'get'")).
    { destruct data as [| | | | |kv]; try reflexivity. now destruct (Hd kv). }
    unfold wbind at 1, lift. rewrite Hb.
    eexists _, _. split; [reflexivity|]. repeat split.
Qed.

(** X2: the three tools that work on an existing file look for it first.
    When the path names nothing, [edit_word_document] and
    [edit_excel_file] answer "File not found" and [convert_word_to_pdf]
    answers "Source file not found", whatever the operations or the
    target are, and the world is as it was. *)
Theorem missing_file_is_reported (path : string) (w : world) :
  os_path_exists w path = false ->
  (forall operations,
     edit_word_document path operations w
     = (Ok (PDict [("success", PBool false);
                   ("message", PStr ("File not found: " +:+ path));
                   ("filepath", PNone)]), w)) /\
  (forall operations,
     edit_excel_file path operations w
     = (Ok (PDict [("success", PBool false);
                   ("message", PStr ("File not found: " +:+ path));
                   ("filepath", PNone)]), w)) /\
  (forall target_path,
     convert_word_to_pdf path target_path w
     = (Ok (PDict [("success", PBool false);
                   ("message", PStr ("Source file not found: " +:+ path));
                   ("filepath", PNone)]), w)).
Proof.
  intros H. split; [|split]; intros x.
  - unfold edit_word_document, edit_word_document_body.
    apply try_except_Ok. erewrite wbind_Ok by apply gets_run.
    now rewrite H.
  - unfold edit_excel_file, edit_excel_file_body.
    apply try_except_Ok. erewrite wbind_Ok by apply gets_run.
    now rewrite H.
  - unfold convert_word_to_pdf, convert_word_to_pdf_body.
    apply try_except_Ok. erewrite wbind_Ok by apply gets_run.
    now rewrite H.
Qed.

(** ** Deleting *)

(** X3: the order of the tests of [delete_file].  A [confirm] that is
    not one of the two accepted values is answered with the cancellation
    message before the path is looked at, so even for a path that names
    nothing; with an accepted [confirm], a path that names nothing is
    answered with "File not found" and a directory with "Cannot delete
    directory with this function".  In the three cases [deleted] is false
    and the world is as it was. *)
Theorem delete_file_refusals (filepath confirm : string) (w : world) :
  (confirm_ok confirm = false ->
   delete_file filepath confirm w
   = (Ok (PDict [("success", PBool false);
                 ("message", PStr confirm_message);
                 ("filepath", PStr filepath);
                 ("deleted", PBool false)]), w)) /\
  (confirm_ok confirm = true -> resolve w filepath = None ->
   delete_file filepath confirm w
   = (Ok (PDict [("success", PBool false);
                 ("message", PStr ("File not found: " +:+ filepath));
                 ("filepath", PStr filepath);
                 ("deleted", PBool false)]), w)) /\
  (forall es,
     confirm_ok confirm = true -> resolve w filepath = Some (Dir es) ->
     delete_file filepath confirm w
     = (Ok (PDict [("success", PBool false);
                   ("message",
                    PStr ("Cannot delete directory with this function: "
                          +:+ filepath));
                   ("filepath", PStr filepath);
                   ("deleted", PBool false)]), w)).
Proof.
  split; [|split].
  - apply delete_file_cancelled.
  - intros Hc Hres. unfold delete_file, delete_file_body. rewrite Hc.
    cbn [negb]. apply try_except_Ok.
    erewrite wbind_Ok by apply gets_run.
    unfold os_path_exists. now rewrite Hres.
  - intros es Hc Hres. unfold delete_file, delete_file_body. rewrite Hc.
    cbn [negb]. apply try_except_Ok.
    erewrite wbind_Ok by apply gets_run.
    unfold os_path_exists. rewrite Hres. cbn [negb].
    erewrite wbind_Ok by apply gets_run.
    unfold os_path_isdir. now rewrite Hres.
Qed.

(** X4: with an accepted [confirm], [delete_directory] answers
    "Directory not found" for a path that names nothing and "Not a
    directory" for a regular file, and the world is as it was: a file is
    never removed through this tool. *)
Theorem delete_directory_refusals (dirpath confirm : string) (w : world) :
  confirm_ok confirm = true ->
  (resolve w dirpath = None ->
   delete_directory dirpath confirm w
   = (Ok (PDict [("success", PBool false);
                 ("message", PStr ("Directory not found: " +:+ dirpath));
                 ("dirpath", PStr dirpath);
                 ("deleted", PBool false)]), w)) /\
  (forall c,
     resolve w dirpath = Some (File c) ->
     delete_directory dirpath confirm w
     = (Ok (PDict [("success", PBool false);
                   ("message", PStr ("Not a directory: " +:+ dirpath));
                   ("dirpath", PStr dirpath);
                   ("deleted", PBool false)]), w)).
Proof.
  intros Hc. split.
  - intros Hres. unfold delete_directory, delete_directory_body. rewrite Hc.
    cbn [negb]. apply try_except_Ok.
    erewrite wbind_Ok by apply gets_run.
    unfold os_path_exists. now rewrite Hres.
  - intros c Hres. unfold delete_directory, delete_directory_body. rewrite Hc.
    cbn [negb]. apply try_except_Ok.
    erewrite wbind_Ok by apply gets_run.
    unfold os_path_exists. rewrite Hres. cbn [negb].
    erewrite wbind_Ok by apply gets_run.
    unfold os_path_isdir. now rewrite Hres.
Qed.

Lemma os_rmdir_Ok (w : world) (s : string) (es : list (string * node)) :
  resolve w s = Some (Dir []) ->
  os_refuses CallRmdir (abspath w s) = None ->
  del_node (root w) (abspath w s) = Some (Dir es) ->
  os_rmdir s w = (Ok tt, set_fs w es).
Proof. intros H1 H0 H2. unfold os_rmdir. now rewrite H1, H0, H2. Qed.

(** X5: [delete_directory] on an existing empty directory other than the
    root removes it when the calls it makes are not refused: listing the
    directory, then send2trash or [os.rmdir].  With ["CORBEILLE"] the
    directory enters the trash and [method] is ["trash"]; with
    ["SUPPRESSION DÉFINITIVE"] the trash is as before and [method] is
    ["permanent"].  In both cases [success] and [deleted] are true and
    the path names nothing afterwards. *)
Theorem delete_directory_empty (dirpath confirm : string) (w : world) :
  resolve w dirpath = Some (Dir []) ->
  abspath w dirpath <> [] ->
  confirm_ok confirm = true ->
  os_refuses CallListdir (abspath w dirpath) = None ->
  os_refuses (if String.eqb confirm "CORBEILLE" then CallTrash else CallRmdir)
             (abspath w dirpath) = None ->
  exists d w',
    delete_directory dirpath confirm w = (Ok d, w') /\
    field "success" d = Some (PBool true) /\
    field "deleted" d = Some (PBool true) /\
    field "method" d
    = Some (PStr (if String.eqb confirm "CORBEILLE" then "trash"
                  else "permanent")) /\
    os_path_exists w' dirpath = false /\
    trash w' = (if String.eqb confirm "CORBEILLE"
                then (abspath w dirpath, Dir []) :: trash w
                else trash w).
Proof.
  intros Hres Hp Hc Hl Hr.
  destruct (resolve_some _ _ _ Hres) as [Hne Hlook].
  destruct (del_node_some _ _ _ Hp Hlook) as [n' Hdel].
  destruct (del_node_is_dir _ _ _ Hdel) as [es ->].
  pose proof (lookup_del_node _ _ _ Hdel) as Hgone.
  assert (Hex : os_path_exists w dirpath = true)
    by (unfold os_path_exists; now rewrite Hres).
  assert (Hdir : os_path_isdir w dirpath = true)
    by (unfold os_path_isdir; now rewrite Hres).
  unfold delete_directory, delete_directory_body. rewrite Hc. cbn [negb].
  destruct (String.eqb confirm "CORBEILLE") eqn:E.
  - eexists _, _. split.
    + apply try_except_Ok.
      erewrite wbind_Ok by apply gets_run. rewrite Hex. cbn [negb].
      erewrite wbind_Ok by apply gets_run. rewrite Hdir. cbn [negb].
      erewrite wbind_Ok by (apply os_listdir_dir; [exact Hres|exact Hl]).
      cbn [map].
      erewrite wbind_Ok by (eapply send2trash_Ok; eassumption).
      erewrite wbind_Ok by reflexivity.
      reflexivity.
    + repeat split. now apply (gone_after w).
  - eexists _, _. split.
    + apply try_except_Ok.
      erewrite wbind_Ok by apply gets_run. rewrite Hex. cbn [negb].
      erewrite wbind_Ok by apply gets_run. rewrite Hdir. cbn [negb].
      erewrite wbind_Ok by (apply os_listdir_dir; [exact Hres|exact Hl]).
      cbn [map].
      erewrite wbind_Ok by (eapply os_rmdir_Ok; eassumption).
      erewrite wbind_Ok by reflexivity.
      reflexivity.
    + repeat split. now apply (gone_after w).
Qed.

(** ** Heights and widths written and read back *)

Lemma string_of_Z_nonempty (z : Z) : String.eqb (string_of_Z z) "" = false.
Proof.
  unfold string_of_Z. destruct z as [|p|p]; cbn; try reflexivity;
    unfold NilZero.string_of_uint; destruct (Pos.to_uint p); reflexivity.
Qed.

Lemma find_append_new (t : string) (c pr : xml) :
  find t pr = None -> has_tag t c = true -> find t (append_child c pr) = Some c.
Proof.
  unfold find, append_child. destruct pr as [t0 a x cs].
  cbn [with_children children_of]. intros H Hc.
  induction cs as [|y cs IH]; cbn [app List.find] in *; [now rewrite Hc|].
  destruct (has_tag t y); [discriminate|auto].
Qed.

Lemma find_append_old (t : string) (c pr x : xml) :
  find t pr = Some x -> find t (append_child c pr) = Some x.
Proof.
  unfold find, append_child. destruct pr as [t0 a x0 cs].
  cbn [with_children children_of]. intros H.
  induction cs as [|y cs IH]; cbn [app List.find] in *; [discriminate|].
  destruct (has_tag t y); auto.
Qed.

Lemma find_insert_new (t : string) (i : nat) (c e : xml) :
  find t e = None -> has_tag t c = true -> find t (insert_child i c e) = Some c.
Proof.
  unfold find, insert_child. destruct e as [t0 a x cs].
  cbn [with_children children_of]. intros H Hc. revert i.
  induction cs as [|y cs IH]; intros i.
  - rewrite take_nil, drop_nil. cbn. now rewrite Hc.
  - cbn [List.find] in H. destruct (has_tag t y) eqn:Ey; [discriminate|].
    destruct i as [|i]; cbn [take drop app List.find].
    + now rewrite Hc.
    + rewrite Ey. apply (IH H).
Qed.

Lemma find_alter_found (t : string) (f : xml -> xml) (e : xml) :
  (forall x, tag_of (f x) = tag_of x) ->
  find t (alter_found t f e) = option_map f (find t e).
Proof.
  intros Hf. unfold find, alter_found. destruct e as [t0 a x cs].
  cbn [with_children children_of]. now apply find_alter_first.
Qed.

(** Where the height element goes: under the row properties the row has,
    or under new ones. *)
Lemma set_row_height_trPr (h : Z) (auto_fit : bool) (row : xml) :
  exists row',
    _set_row_height (PInt h) auto_fit row = Ok row' /\
    find "w:trPr" row'
    = Some (append_child
              (Elem "w:trHeight"
                 [("w:val", string_of_Z (h * 20));
                  ("w:hRule", if auto_fit then "auto" else "exact")] "" [])
              (match find "w:trPr" row with
               | Some pr => pr
               | None => OxmlElement "w:trPr"
               end)).
Proof.
  unfold _set_row_height. cbn [andb].
  assert (Hv : (if auto_fit
                then py_int_times 20 (if py_truthy (PInt h) then PInt h
                                      else PInt 0)
                else py_int_times 20 (PInt h)) = Ok (h * 20)).
  { destruct auto_fit; [|reflexivity]. cbn [py_truthy].
    destruct (Z.eqb_spec h 0) as [->|]; reflexivity. }
  rewrite Hv. cbn [rbind]. cbv zeta. eexists. split; [reflexivity|].
  unfold get_or_add.
  destruct (find "w:tblPrEx" row); destruct (find "w:trPr" row) as [pr|] eqn:E.
  - rewrite find_alter_found, E by (intros; apply tag_append_child).
    reflexivity.
  - now apply find_insert_new.
  - rewrite find_alter_found, E by (intros; apply tag_append_child).
    reflexivity.
  - now apply find_insert_new.
Qed.

(** X7: a height written by [_set_row_height] is the height the
    structure reader reports.  On a row whose properties hold no height
    yet, and that the reader can scan, the call with the integer [h]
    succeeds and the reader then reports the height [20 * h] with the
    rule ["auto"] or ["exact"], flags the row as having a height, and
    reports the cell widths as before. *)
Theorem row_height_read_back (h : Z) (auto_fit : bool) (row : xml) (j : nat)
    (x : row_info * bool * list (option Z)) :
  (forall pr, find "w:trPr" row = Some pr -> find "w:trHeight" pr = None) ->
  scan_row j row = Ok x ->
  exists row',
    _set_row_height (PInt h) auto_fit row = Ok row' /\
    scan_row j row'
    = Ok (RowInfo j (Some (20 * h))
                  (Some (if auto_fit then "auto" else "exact")),
          true, snd x).
Proof.
  intros Hno Hscan.
  destruct (set_row_height_trPr h auto_fit row) as (row' & Hset & Hpr).
  exists row'. split; [exact Hset|].
  destruct (set_row_height_cells _ _ _ _ Hset) as [_ Hcells].
  assert (Hws : mapM cell_width (findall "w:tc" row) = Ok (snd x)).
  { unfold scan_row in Hscan.
    match type of Hscan with rbind ?hi _ = _ => destruct hi as [r0|] end;
      [|discriminate].
    cbn [rbind] in Hscan.
    destruct (mapM cell_width (findall "w:tc" row)); [|discriminate].
    cbn [rbind] in Hscan. now injection Hscan as <-. }
  unfold scan_row. rewrite Hpr, Hcells, Hws.
  rewrite find_append_new.
  - cbn [get_attr attrs_of assoc].
    change (String.eqb "w:val" "w:val") with true. cbv iota.
    rewrite string_of_Z_nonempty, py_int_string_of_Z. cbn [rbind fst snd].
    replace (h * 20) with (20 * h) by lia.
    now destruct auto_fit.
  - destruct (find "w:trPr" row) as [pr|]; [now apply Hno|reflexivity].
  - reflexivity.
Qed.

(** X8: [_set_row_height] does not overwrite.  On a row whose properties
    already hold a height element the call appends a second one, and the
    structure reader, which looks at the first, reports what it reported
    before. *)
Theorem row_height_first_wins (h : Z) (auto_fit : bool) (row pr old : xml)
    (j : nat) :
  find "w:trPr" row = Some pr ->
  find "w:trHeight" pr = Some old ->
  exists row',
    _set_row_height (PInt h) auto_fit row = Ok row' /\
    length (findall "w:trHeight"
              (match find "w:trPr" row' with Some pr' => pr' | None => pr end))
    = S (length (findall "w:trHeight" pr)) /\
    scan_row j row' = scan_row j row.
Proof.
  intros Hpr Hold.
  destruct (set_row_height_trPr h auto_fit row) as (row' & Hset & Hpr').
  exists row'. split; [exact Hset|].
  destruct (set_row_height_cells _ _ _ _ Hset) as [_ Hcells].
  rewrite Hpr in Hpr'. split.
  - rewrite Hpr'. unfold findall, append_child. destruct pr as [t a x cs].
    cbn [with_children children_of]. rewrite List.filter_app, length_app.
    cbn. lia.
  - unfold scan_row. rewrite Hpr', Hpr, Hcells.
    now rewrite (find_append_old _ _ _ _ Hold), Hold.
Qed.

(** X9: [_set_cell_width] on a cell without a width makes the structure
    reader report that width; on a cell that has one already it appends
    a second width element and the reader goes on reporting the first. *)
Theorem cell_width_read_back (width_dxa : Z) (cell : xml) :
  exists cell',
    _set_cell_width width_dxa cell = Ok cell' /\
    (widthless cell -> cell_width cell' = Ok (Some width_dxa)) /\
    (~ widthless cell -> cell_width cell' = cell_width cell).
Proof.
  eexists. split; [reflexivity|].
  set (tcW := Elem "w:tcW" _ _ _).
  assert (Hw : width_attr tcW = Ok width_dxa).
  { unfold width_attr, get_attr, tcW. cbn [attrs_of assoc].
    change (String.eqb "w:w" "w:type") with false.
    change (String.eqb "w:w" "w:w") with true. cbv iota.
    apply py_int_string_of_Z. }
  unfold widthless. unfold cell_width, get_or_add.
  destruct (find "w:tcPr" cell) as [pr|] eqn:E.
  - rewrite find_alter_found, E by (intros; apply tag_append_child).
    cbn [option_map]. destruct (find "w:tcW" pr) as [old|] eqn:Eo.
    + rewrite (find_append_old _ _ _ _ Eo). split; [|reflexivity].
      destruct (width_attr old); cbn [rbind]; intros H; discriminate H.
    + rewrite (find_append_new "w:tcW" tcW pr Eo eq_refl), Hw. cbn [rbind].
      split; [reflexivity|]. intros H. now destruct H.
  - rewrite (find_insert_new "w:tcPr" 0 (append_child tcW (OxmlElement "w:tcPr"))
               cell E eq_refl).
    unfold find at 1. cbn [append_child OxmlElement with_children children_of
                           app List.find].
    change (has_tag "w:tcW" tcW) with true. cbv iota. rewrite Hw.
    cbn [rbind]. split; [reflexivity|]. intros H. now destruct H.
Qed.

(** ** Splitting text *)

Lemma append_cons (c : ascii) (a b : string) :
  String c a +:+ b = String c (a +:+ b).
Proof. reflexivity. Qed.

Lemma append_assoc (a b c : string) : (a +:+ b) +:+ c = a +:+ (b +:+ c).
Proof.
  induction a as [|x a IH]; [reflexivity|].
  now rewrite !append_cons, IH.
Qed.

Lemma append_empty_r (a : string) : a +:+ "" = a.
Proof.
  induction a as [|x a IH]; [reflexivity|].
  now rewrite append_cons, IH.
Qed.

Lemma concat_empty_cons (x : string) (l : list string) :
  String.concat "" (x :: l) = x +:+ String.concat "" l.
Proof.
  destruct l as [|y l]; cbn [String.concat]; [|reflexivity].
  now rewrite append_empty_r.
Qed.

Lemma split_bold_joins (s : string) :
  forall inside cur,
    String.concat "" (split_bold s inside cur) = cur +:+ s.
Proof.
  induction s as [|c s IH]; intros inside cur; cbn [split_bold].
  - cbn [String.concat]. now rewrite append_empty_r.
  - assert (Hgo : forall n,
              String.concat "" (split_bold s n (cur +:+ String c ""))
              = cur +:+ String c s).
    { intros n. rewrite IH, append_assoc. reflexivity. }
    assert (Hcut : forall n cur',
              String.concat "" (cur' :: split_bold s n "") = cur' +:+ s).
    { intros n cur'. rewrite concat_empty_cons, IH. reflexivity. }
    destruct inside as [|[|n]].
    + destruct (starts_with "**" (String c s)); [|apply Hgo].
      destruct (find_close _); [|apply Hgo].
      rewrite concat_empty_cons, IH. reflexivity.
    + rewrite Hcut, append_assoc. reflexivity.
    + apply Hgo.
Qed.

Lemma split_bold_plain (s : string) :
  forall cur,
    contains "**" s = false -> split_bold s O cur = [cur +:+ s].
Proof.
  induction s as [|c s IH]; intros cur H; cbn [split_bold].
  - now rewrite append_empty_r.
  - cbn [contains] in H. apply Bool.orb_false_iff in H as [H1 H2].
    rewrite H1, (IH _ H2), append_assoc. reflexivity.
Qed.

(** X10: the pieces [_parse_rich_text] cuts a text into lose nothing:
    joined, they give the text back, so every character goes to a run or
    is one of the stars of a bold piece.  A text without two stars in a
    row is one piece. *)
Theorem rich_text_pieces_lossless (s : string) :
  String.concat "" (split_bold s O "") = s /\
  (contains "**" s = false -> split_bold s O "" = [s]).
Proof.
  split; [apply split_bold_joins|apply split_bold_plain].
Qed.

Lemma split_on_nonempty (sep : ascii) (s : string) : split_on sep s <> [].
Proof.
  induction s as [|c s IH]; cbn [split_on]; [discriminate|].
  destruct (Ascii.eqb c sep); [discriminate|].
  destruct (split_on sep s); discriminate.
Qed.

Lemma concat_split_on (sep : ascii) (s : string) :
  String.concat (String sep "") (split_on sep s) = s.
Proof.
  induction s as [|c s IH]; cbn [split_on]; [reflexivity|].
  destruct (Ascii.eqb_spec c sep) as [->|Hne].
  - pose proof (split_on_nonempty sep s) as Hn.
    destruct (split_on sep s) as [|h t]; [congruence|].
    cbn [String.concat] in *. cbn. now rewrite IH.
  - destruct (split_on sep s) as [|h t] eqn:E;
      [now destruct (split_on_nonempty sep s)|].
    rewrite <- IH. destruct t; reflexivity.
Qed.

(** X11: the comma-separated reading that [create_excel_file] falls back
    to loses nothing of the stripped content: joining the cells of each
    row with commas and the rows with line feeds gives the stripped
    content back.  The grid has at least one row and every row has at
    least one cell, so the empty content is one row holding one empty
    cell. *)
Theorem csv_grid_lossless (content : string) :
  String.concat (String "010" "") (map (String.concat ",") (csv_grid content))
  = py_strip content /\
  csv_grid content <> [] /\
  Forall (fun row => row <> []) (csv_grid content).
Proof.
  unfold csv_grid. split; [|split].
  - rewrite map_map.
    rewrite (map_ext _ (fun x => x)) by (intros; apply (concat_split_on ",")).
    rewrite map_id. apply concat_split_on.
  - pose proof (split_on_nonempty "010" (py_strip content)) as H.
    destruct (split_on "010" (py_strip content)); [congruence|discriminate].
  - apply List.Forall_forall. intros row Hin.
    apply in_map_iff in Hin as (l & <- & _). apply split_on_nonempty.
Qed.

(** ** Pages of a PDF file *)

Lemma drawn_strings_app (p q : list pdf_page) :
  drawn_strings (p ++ q) = (drawn_strings p ++ drawn_strings q)%list.
Proof. apply flat_map_app. Qed.

(** What the loop over the lines keeps: the vertical position follows
    the number of strings on the page being drawn, a page is shown when
    it holds 48 strings, and every string is well placed. *)
Lemma draw_lines_pages (lines : list string) :
  forall y c,
    y = 752 - 15 * Z.of_nat (length (current c)) ->
    (length (current c) <= 48)%nat ->
    Forall (fun pg => length pg = 48%nat) (shown c) ->
    Forall (Forall well_placed) (shown c ++ [current c]) ->
    let c' := draw_lines lines y c in
    (length (current c') <= 48)%nat /\
    Forall (fun pg => length pg = 48%nat) (shown c') /\
    Forall (Forall well_placed) (shown c' ++ [current c']) /\
    drawn_strings (shown c' ++ [current c'])
    = (drawn_strings (shown c ++ [current c]) ++ lines)%list /\
    (lines <> [] -> current c' <> []).
Proof.
  induction lines as [|line lines IH]; intros y c Hy Hn Hfull Hpl.
  - cbn. rewrite app_nil_r. repeat split; auto; congruence.
  - cbn [draw_lines]. cbv zeta. unfold letter_height.
    apply Forall_app in Hpl as [Hpl1 Hpl2].
    apply Forall_cons in Hpl2 as [Hpl2 _].
    destruct (Z.ltb_spec y 40) as [Hlt|Hge].
    + assert (Hn48 : length (current c) = 48%nat) by lia.
      specialize (IH (792 - 40 - 15)
                     (drawString 40 (792 - 40) line (showPage c))).
      cbn [drawString showPage shown current app length] in IH.
      destruct IH as (I1 & I2 & I3 & I4 & I5).
      * reflexivity.
      * lia.
      * apply Forall_app. split; [exact Hfull|]. now repeat constructor.
      * apply Forall_app. split.
        -- apply Forall_app. split; [exact Hpl1|]. now repeat constructor.
        -- repeat constructor; cbn; lia.
      * repeat split; auto.
        -- rewrite I4, !drawn_strings_app. cbn.
           rewrite !app_nil_r, <- !app_assoc. reflexivity.
        -- intros _. destruct lines; [discriminate|]. apply I5. discriminate.
    + specialize (IH (y - 15) (drawString 40 y line c)).
      cbn [drawString shown current] in IH. rewrite length_app in IH.
      cbn [length] in IH.
      destruct IH as (I1 & I2 & I3 & I4 & I5).
      * lia.
      * lia.
      * exact Hfull.
      * apply Forall_app. split; [exact Hpl1|]. repeat constructor.
        apply Forall_app. split; [exact Hpl2|].
        repeat constructor; cbn; lia.
      * repeat split; auto.
        -- rewrite I4, !drawn_strings_app. unfold drawn_strings at 2 4.
           cbn [flat_map]. rewrite !app_nil_r, map_app, <- !app_assoc.
           reflexivity.
        -- intros _. destruct lines.
           ++ cbn. now destruct (current c).
           ++ apply I5. discriminate.
Qed.

Lemma full_pages_strings (full : list pdf_page) :
  Forall (fun pg => length pg = 48%nat) full ->
  length (drawn_strings full) = (48 * length full)%nat.
Proof.
  induction 1 as [|pg full Hpg _ IH]; [reflexivity|].
  unfold drawn_strings in *. cbn [flat_map length].
  rewrite length_app, length_map, IH, Hpg. lia.
Qed.

(** X12: the pages [create_pdf_file] writes.  When the tool answers with
    [success] true the file holds the lines of the content (split on
    line feeds) in order, none dropped and none added; every page before
    the last holds exactly 48 strings and the last between 1 and 48, so
    the number of pages is the number of lines divided by 48, rounded
    up; and every string is drawn at the left margin 40 and at a height
    between 40 and 752. *)
Theorem pdf_pages_hold_the_lines (filepath content : string) (w w' : world)
    (d : pyval) :
  create_pdf_file filepath content w = (Ok d, w') ->
  field "success" d = Some (PBool true) ->
  exists full last,
    resolve w' filepath = Some (File (CPdf (full ++ [last]))) /\
    drawn_strings (full ++ [last]) = split_on "010" content /\
    Forall (fun pg => length pg = 48%nat) full /\
    (1 <= length last <= 48)%nat /\
    length (full ++ [last])
    = ((length (split_on "010" content) + 47) / 48)%nat /\
    Forall (Forall well_placed) (full ++ [last]).
Proof.
  intros H Hs. unfold create_pdf_file in H.
  apply try_except_inv in H as [(a & H & [= <-])|(e & w1 & _ & H)].
  2:{ injection H as <- _. discriminate. }
  unfold create_pdf_file_body in H. cbv zeta in H.
  bind_inv H; [|discriminate]. bind_inv H; [|discriminate].
  injection H as _ <-.
  pose proof (draw_lines_pages (split_on "010" content) (letter_height - 40)
                {| shown := []; current := [] |} eq_refl
                ltac:(cbn; lia) ltac:(constructor)
                ltac:(repeat constructor)) as (I1 & I2 & I3 & I4 & I5).
  cbv zeta in *.
  set (c' := draw_lines _ _ _) in *.
  change (drawn_strings (shown {| shown := []; current := [] |}
                         ++ [current {| shown := []; current := [] |}]))
    with (@nil string) in I4.
  cbn [app] in I4.
  specialize (I5 (split_on_nonempty _ _)).
  unfold canvas_save in Hm0. destruct a0.
  destruct (current c') as [|s0 cur] eqn:Ec; [congruence|].
  apply write_file_Ok in Hm0 as (R & _).
  cbn [showPage shown] in R. rewrite Ec in R.
  exists (shown c'), (s0 :: cur).
  assert (Hlen : (1 <= length (s0 :: cur) <= 48)%nat) by (cbn in *; lia).
  pose proof (f_equal (@length string) I4) as HL.
  rewrite drawn_strings_app, length_app, (full_pages_strings _ I2) in HL.
  unfold drawn_strings in HL at 1. cbn [flat_map] in HL.
  rewrite app_nil_r, length_map in HL.
  repeat split; try assumption; try lia.
  rewrite length_app. cbn [length]. rewrite <- HL.
  apply (Nat.div_unique _ 48 _ (length cur)); cbn [length] in *; lia.
Qed.

(** ** Paragraphs written and counted *)

Lemma index_of_last_sectPr (B : list xml) (S : xml) :
  Forall (fun b => has_tag "w:sectPr" b = false) B ->
  has_tag "w:sectPr" S = true ->
  index_of (has_tag "w:sectPr") (B ++ [S]) = Some (length B).
Proof.
  intros HB HS. induction HB as [|b B Hb _ IH]; simpl.
  - now rewrite HS.
  - now rewrite Hb, IH.
Qed.

Lemma body_ends_body_of (d : document) (B : list xml) (S : xml) :
  body_ends d B S -> body_of d = Ok (B ++ [S])%list.
Proof. intros (Hr & _). unfold body_of. now rewrite Hr. Qed.

(** A new block goes before the section properties; the parts and the
    styles of the document stay. *)
Lemma add_block_ends (d : document) (B : list xml) (S x : xml) :
  body_ends d B S -> has_tag "w:sectPr" x = false ->
  exists d',
    add_block x d = Ok (d', length B) /\ body_ends d' (B ++ [x]) S /\
    doc_parts d' = doc_parts d /\ doc_styles d' = doc_styles d.
Proof.
  intros (Hr & HS & HB) Hx.
  unfold add_block. rewrite (body_ends_body_of d B S) by (repeat split; auto).
  cbn [rbind]. unfold insert_block.
  rewrite (index_of_last_sectPr B S HB HS). cbn [fst snd].
  rewrite take_drop_insert.
  eexists. split; [reflexivity|]. split; [|split; reflexivity].
  split; [|split; [exact HS|]].
  - rewrite (set_body_root _ _ _ Hr). now rewrite <- app_assoc.
  - apply Forall_app. split; [exact HB|]. now constructor.
Qed.

Lemma on_block_ends (d d' : document) (B : list xml) (S x : xml)
    (f : xml -> result xml) :
  body_ends d (B ++ [x]) S ->
  on_block (length B) f d = Ok d' ->
  exists y,
    f x = Ok y /\
    (has_tag "w:sectPr" y = false -> body_ends d' (B ++ [y]) S) /\
    doc_parts d' = doc_parts d /\ doc_styles d' = doc_styles d.
Proof.
  intros (Hr & HS & HB).
  unfold on_block. rewrite (body_ends_body_of d (B ++ [x]) S)
    by (repeat split; auto).
  cbn [rbind]. rewrite <- app_assoc. cbn [app]. rewrite nth_error_middle.
  destruct (f x) as [y|] eqn:E; [|discriminate]. cbn [rbind].
  intros [= <-]. exists y. split; [reflexivity|].
  split; [|split; reflexivity]. intros Hy.
  split; [|split; [exact HS|]].
  - rewrite <- app_assoc in Hr. cbn [app] in Hr.
    rewrite (set_body_root _ _ _ Hr), insert_middle.
    now rewrite <- app_assoc.
  - apply Forall_app in HB. destruct HB as [HB _].
    apply Forall_app. split; [exact HB|]. now constructor.
Qed.

(** [add_paragraph(s)] without a style: the paragraph it adds. *)
Lemma add_paragraph_text (d d' : document) (B : list xml) (S : xml)
    (s : string) (i : nat) :
  body_ends d B S ->
  add_paragraph (PStr s) None d = Ok (d', i) ->
  body_ends d' (B ++ [text_paragraph s]) S /\
  doc_parts d' = doc_parts d /\ doc_styles d' = doc_styles d.
Proof.
  intros Hd. unfold add_paragraph.
  destruct (add_block_ends d B S (OxmlElement "w:p") Hd eq_refl)
    as (d0 & -> & Hd0 & P0 & S0).
  cbn [rbind fst snd py_truthy].
  destruct s as [|c s].
  - cbn. intros [= <- _]. auto.
  - change (negb (String.eqb (String c s) "")) with true. cbv iota.
    destruct (on_block (length B) _ d0) as [d1|] eqn:E; [|discriminate].
    cbn [rbind]. intros [= <- _].
    destruct (on_block_ends _ _ _ _ _ _ Hd0 E) as (y & Hy & Hb & P1 & S1).
    unfold add_run, make_run, run_text in Hy. cbn [py_truthy] in Hy.
    change (negb (String.eqb (String c s) "")) with true in Hy. cbv iota in Hy.
    destruct (xml_compatible (String c s)); [|discriminate].
    cbn [rbind] in Hy. injection Hy as <-.
    split; [now apply Hb|]. split; congruence.
Qed.

Lemma nonblank_nonempty (s : string) : nonblank s = true -> s <> "".
Proof. intros H ->. discriminate. Qed.

Lemma add_text_paragraphs_ends (lines : list string) :
  forall d d' B S,
    body_ends d B S ->
    add_text_paragraphs lines d = Ok d' ->
    body_ends d' (B ++ map text_paragraph (List.filter nonblank lines)) S /\
    doc_parts d' = doc_parts d /\ doc_styles d' = doc_styles d.
Proof.
  induction lines as [|l lines IH]; intros d d' B S Hd;
    cbn [add_text_paragraphs List.filter].
  - intros [= <-]. rewrite app_nil_r. auto.
  - change (negb (String.eqb (py_strip l) "")) with (nonblank l).
    destruct (nonblank l).
    + destruct (add_paragraph (PStr l) None d) as [[d1 i]|] eqn:E;
        [|discriminate].
      cbn [rbind fst]. intros H.
      destruct (add_paragraph_text _ _ _ _ _ _ Hd E) as (H1 & P1 & S1).
      destruct (IH _ _ _ _ H1 H) as (H2 & P2 & S2).
      cbn [map]. rewrite <- app_assoc in H2. cbn [app] in H2.
      split; [exact H2|]. split; congruence.
    + cbn [rbind]. apply IH. exact Hd.
Qed.

Lemma new_document_ends : body_ends new_document [] default_sectPr.
Proof. repeat split. constructor. Qed.

(** The paragraphs the reader counts in a body of text paragraphs. *)
Lemma text_paragraphs_counted (ls : list string) :
  List.filter (has_tag "w:p")
    (flat_map (fun c => c :: descendants c) (map text_paragraph ls))
  = map text_paragraph ls /\
  List.filter (has_tag "w:tbl")
    (flat_map (fun c => c :: descendants c) (map text_paragraph ls))
  = [].
Proof.
  induction ls as [|l ls [IH1 IH2]]; [split; reflexivity|].
  cbn [map flat_map]. rewrite !List.filter_app, IH1, IH2.
  destruct l; split; reflexivity.
Qed.

(** The answer of the reader on a file that holds a written document
    whose tables can be scanned. *)
Lemma read_structure_run (w : world) (filepath : string) (doc : document)
    (ts : list table_info) :
  resolve w filepath = Some (File (package doc)) ->
  scan_tables 0 (findall_desc "w:tbl" (doc_root doc)) = Ok ts ->
  read_word_document_structure filepath w
  = (Ok (structure_dict filepath
           (("word/document.xml", PXml (doc_root doc))
              :: ("word/styles.xml", styles_part doc) :: doc_parts doc)
           (doc_root doc) ts), w).
Proof.
  intros Hres Hscan.
  unfold read_word_document_structure, read_word_document_structure_body.
  apply try_except_Ok.
  erewrite wbind_Ok by (unfold read_file; rewrite Hres; reflexivity).
  erewrite wbind_Ok by reflexivity.
  erewrite wbind_Ok by reflexivity.
  cbv zeta.
  erewrite wbind_Ok by (unfold lift; rewrite Hscan; reflexivity).
  reflexivity.
Qed.

Lemma text_body_counted (doc : document) (ls : list string) :
  body_ends doc (map text_paragraph ls) default_sectPr ->
  findall_desc "w:p" (doc_root doc) = map text_paragraph ls /\
  findall_desc "w:tbl" (doc_root doc) = [].
Proof.
  intros (Hr & _). unfold findall_desc. rewrite Hr.
  cbn [descendants flat_map]. rewrite app_nil_r.
  cbn [List.filter].
  change (has_tag "w:p" (Elem "w:body" _ _ _)) with false.
  change (has_tag "w:tbl" (Elem "w:body" _ _ _)) with false.
  cbv iota. rewrite flat_map_app, !List.filter_app.
  destruct (text_paragraphs_counted ls) as [-> ->].
  split; [apply app_nil_r|reflexivity].
Qed.

(** X13: [convert_txt_to_word] on a source of ASCII text turns every
    line that is not blank into one paragraph, in order, with the line
    as it is (not stripped), and drops the blank lines; the lines are
    those of the text as text mode reads it, every carriage return and
    every carriage return with its line feed being one line end.  When
    the tool answers with [success] true the target holds a document
    whose body is these paragraphs before the section properties, and
    the structure reader then counts as many paragraphs as the source
    has non-blank lines, and no table. *)
Theorem txt_lines_become_paragraphs (source_path target_path text : string)
    (w w' : world) (d : pyval) :
  resolve w source_path = Some (File (CText text)) ->
  ascii_text text = true ->
  convert_txt_to_word source_path target_path w = (Ok d, w') ->
  field "success" d = Some (PBool true) ->
  exists doc r,
    resolve w' target_path = Some (File (package doc)) /\
    body_of doc
    = Ok (map text_paragraph
            (List.filter nonblank
               (split_on "010" (universal_newlines false text)))
            ++ [default_sectPr])%list /\
    read_word_document_structure target_path w' = (Ok r, w') /\
    field "success" r = Some (PBool true) /\
    field "paragraphs_count" r
    = Some (PInt (Z.of_nat
                    (length (List.filter nonblank
                               (split_on "010"
                                  (universal_newlines false text)))))) /\
    field "tables_count" r = Some (PInt 0).
Proof.
  intros Hsrc _ H Hs. unfold convert_txt_to_word in H.
  apply try_except_inv in H as [(a & H & [= <-])|(e & w1 & _ & H)].
  2:{ injection H as <- _. discriminate. }
  unfold convert_txt_to_word_body in H.
  erewrite wbind_Ok in H by apply gets_run.
  unfold os_path_exists in H. rewrite Hsrc in H. cbn [negb] in H.
  erewrite wbind_Ok in H
    by (unfold read_text, read_file; erewrite wbind_Ok
          by (rewrite Hsrc; reflexivity); reflexivity).
  bind_inv H; [|discriminate]. apply lift_inv in Hm as [Hdoc ->].
  bind_inv H; [|discriminate]. bind_inv H; [|discriminate].
  injection H as _ <-. destruct a1.
  unfold doc_save in Hm0. apply write_file_Ok in Hm0 as (R & _).
  destruct (add_text_paragraphs_ends _ _ _ _ _ new_document_ends
              (eq_sym Hdoc)) as (Hb & _).
  cbn [app] in Hb.
  destruct (text_body_counted _ _ Hb) as [Hp Ht].
  eexists a, _. split; [exact R|].
  split; [apply (body_ends_body_of _ _ _ Hb)|].
  split; [apply (read_structure_run _ _ _ [] R); now rewrite Ht|].
  split; [reflexivity|].
  split; [|reflexivity].
  cbn [field structure_dict dict_get assoc]. simpl String.eqb. cbv iota.
  now rewrite Hp, length_map.
Qed.

(** X14: a document made by [create_word_document] read back.  When
    the tool answers with [success] true the file holds a document whose
    body is one paragraph, with one run holding the content or without
    a run for the empty content, and the structure reader then reports
    one paragraph and no table. *)
Theorem created_document_reads_back (filepath content : string) (w w' : world)
    (d : pyval) :
  create_word_document filepath content w = (Ok d, w') ->
  field "success" d = Some (PBool true) ->
  exists doc r,
    resolve w' filepath = Some (File (package doc)) /\
    body_of doc = Ok [text_paragraph content; default_sectPr] /\
    read_word_document_structure filepath w' = (Ok r, w') /\
    field "success" r = Some (PBool true) /\
    field "paragraphs_count" r = Some (PInt 1) /\
    field "tables_count" r = Some (PInt 0) /\
    field "tables" r = Some (PList []).
Proof.
  intros H Hs. unfold create_word_document in H.
  apply try_except_inv in H as [(a & H & [= <-])|(e & w1 & _ & H)].
  2:{ unfold create_word_document_except in H.
      bind_inv H; [|discriminate]. injection H as <- _. discriminate. }
  unfold create_word_document_body in H. cbv zeta in H.
  bind_inv H; [|discriminate]. apply lift_inv in Hm as [Hdoc ->].
  bind_inv H; [|discriminate]. bind_inv H; [|discriminate].
  bind_inv H; [|discriminate].
  injection H as _ <-. injection Hm1 as _ <-. destruct a1.
  unfold doc_save in Hm0. apply write_file_Ok in Hm0 as (R & _).
  destruct a as [doc i]. cbn [fst] in *.
  destruct (add_paragraph_text _ _ _ _ _ _ new_document_ends (eq_sym Hdoc))
    as (Hb & _).
  cbn [app] in Hb.
  destruct (text_body_counted doc [content] Hb) as [Hp Ht].
  eexists doc, _. split; [exact R|].
  split; [apply (body_ends_body_of _ _ _ Hb)|].
  split; [apply read_structure_run with (ts := []);
          [exact R|now rewrite Ht]|].
  split; [reflexivity|].
  split; [|split; reflexivity].
  cbn [field structure_dict dict_get assoc]. simpl String.eqb. cbv iota.
  now rewrite Hp.
Qed.

(** ** Paragraph operations within range *)

Lemma body_of_set_body (d : document) (cs cs' : list xml) :
  body_of d = Ok cs -> body_of (set_body d cs') = Ok cs'.
Proof.
  unfold body_of, set_body. cbn [doc_root].
  destruct (find "w:body" (doc_root d)) as [b|] eqn:E; [|discriminate].
  intros _. rewrite find_alter_found, E by (intros; apply tag_with_children).
  cbn [option_map]. now destruct b.
Qed.

Lemma remove_nth_split (p : xml -> bool) (l : list xml) :
  forall n,
    (n < length (List.filter p l))%nat ->
    exists l1 x l2,
      l = (l1 ++ x :: l2)%list /\ p x = true /\
      length (List.filter p l1) = n /\
      remove_nth p n l = (l1 ++ l2)%list.
Proof.
  induction l as [|a l IH]; intros n Hn; cbn [List.filter length] in Hn;
    [lia|].
  cbn [remove_nth]. destruct (p a) eqn:Ea.
  - destruct n as [|n].
    + exists [], a, l. now repeat split.
    + cbn [length] in Hn.
      destruct (IH n ltac:(lia)) as (l1 & x & l2 & -> & Hx & Hl & Hr).
      exists (a :: l1), x, l2. cbn [app List.filter]. rewrite Ea, Hr.
      cbn [length]. now repeat split; try lia.
  - destruct (IH n Hn) as (l1 & x & l2 & -> & Hx & Hl & Hr).
    exists (a :: l1), x, l2. cbn [app List.filter]. rewrite Ea, Hr.
    now repeat split.
Qed.

Lemma alterM_nth_split (p : xml -> bool) (f : xml -> result xml)
    (l : list xml) :
  forall n l',
    alterM_nth p n f l = Ok l' ->
    exists l1 x l2 y,
      l = (l1 ++ x :: l2)%list /\ p x = true /\
      length (List.filter p l1) = n /\ f x = Ok y /\
      l' = (l1 ++ y :: l2)%list.
Proof.
  induction l as [|a l IH]; intros n l'; cbn [alterM_nth]; [discriminate|].
  destruct (p a) eqn:Ea.
  - destruct n as [|n].
    + destruct (f a) as [y|] eqn:Ey; [|discriminate]. cbn [rbind].
      intros [= <-]. exists [], a, l, y. now repeat split.
    + destruct (alterM_nth p n f l) as [l0|] eqn:E; [|discriminate].
      cbn [rbind]. intros [= <-].
      destruct (IH _ _ E) as (l1 & x & l2 & y & -> & Hx & Hl & Hy & ->).
      exists (a :: l1), x, l2, y. cbn [app List.filter]. rewrite Ea.
      cbn [length]. now repeat split; try lia.
  - destruct (alterM_nth p n f l) as [l0|] eqn:E; [|discriminate].
    cbn [rbind]. intros [= <-].
    destruct (IH _ _ E) as (l1 & x & l2 & y & -> & Hx & Hl & Hy & ->).
    exists (a :: l1), x, l2, y. cbn [app List.filter]. rewrite Ea.
    now repeat split.
Qed.

Lemma index_within_range (z : Z) (n : nat) :
  0 <= z < Z.of_nat n -> index_in_range (PInt z) n = Ok (Some (Z.to_nat z)).
Proof.
  intros H. unfold index_in_range.
  destruct (Z.leb_spec 0 z); [|lia]. destruct (Z.ltb_spec z (Z.of_nat n)); [|lia].
  reflexivity.
Qed.

(** X15: a [delete_paragraph] operation whose index is within range
    removes the paragraph that has exactly that many paragraphs of the
    body before it, and nothing else: the blocks before it and after it,
    tables included, stay in place. *)
Theorem delete_paragraph_in_range (op : list (string * pyval)) (d : document)
    (cs : list xml) (z : Z) :
  body_of d = Ok cs ->
  py_eq_str (dict_get_or "type" PNone op) "delete_paragraph" = true ->
  dict_get_or "index" (PInt 0) op = PInt z ->
  0 <= z < Z.of_nat (count_paragraphs cs) ->
  exists d' l1 x l2,
    apply_word_op op d = Ok d' /\
    cs = (l1 ++ x :: l2)%list /\
    has_tag "w:p" x = true /\
    Z.of_nat (count_paragraphs l1) = z /\
    body_of d' = Ok (l1 ++ l2)%list.
Proof.
  intros Hb Ht Hi Hz. apply py_eq_str_true in Ht.
  unfold apply_word_op. cbv zeta. rewrite Ht, Hi, Hb.
  change (py_eq_str (PStr "delete_paragraph") "add_paragraph") with false.
  change (py_eq_str (PStr "delete_paragraph") "add_heading") with false.
  change (py_eq_str (PStr "delete_paragraph") "edit_paragraph") with false.
  change (py_eq_str (PStr "delete_paragraph") "delete_paragraph") with true.
  cbv iota. cbn [rbind]. rewrite (index_within_range _ _ Hz). cbn [rbind].
  destruct (remove_nth_split (has_tag "w:p") cs (Z.to_nat z))
    as (l1 & x & l2 & Hcs & Hx & Hl & Hr).
  { unfold count_paragraphs in Hz. lia. }
  eexists _, l1, x, l2. split; [reflexivity|].
  repeat split; try assumption.
  - unfold count_paragraphs. lia.
  - rewrite Hr. now apply (body_of_set_body d cs).
Qed.

(** X16: an [edit_paragraph] operation whose index is within range
    rewrites the paragraph that has exactly that many paragraphs before
    it: its properties stay and its runs are replaced by one run made of
    the text of the operation.  Every other block stays as it is. *)
Theorem edit_paragraph_in_range (op : list (string * pyval)) (d d' : document)
    (cs : list xml) (z : Z) :
  body_of d = Ok cs ->
  py_eq_str (dict_get_or "type" PNone op) "edit_paragraph" = true ->
  dict_get_or "index" (PInt 0) op = PInt z ->
  0 <= z < Z.of_nat (count_paragraphs cs) ->
  apply_word_op op d = Ok d' ->
  exists l1 x l2 run,
    cs = (l1 ++ x :: l2)%list /\
    has_tag "w:p" x = true /\
    Z.of_nat (count_paragraphs l1) = z /\
    make_run (dict_get_or "text" (PStr "") op) = Ok run /\
    body_of d'
    = Ok (l1 ++ with_children x
                  (List.filter (has_tag "w:pPr") (children_of x) ++ [run])
             :: l2)%list.
Proof.
  intros Hb Ht Hi Hz. apply py_eq_str_true in Ht.
  unfold apply_word_op. cbv zeta. rewrite Ht, Hi, Hb.
  change (py_eq_str (PStr "edit_paragraph") "add_paragraph") with false.
  change (py_eq_str (PStr "edit_paragraph") "add_heading") with false.
  change (py_eq_str (PStr "edit_paragraph") "edit_paragraph") with true.
  cbv iota. cbn [rbind]. rewrite (index_within_range _ _ Hz). cbn [rbind].
  destruct (alterM_nth _ _ _ cs) as [cs'|] eqn:E; [|discriminate].
  cbn [rbind]. intros [= <-].
  destruct (alterM_nth_split _ _ _ _ _ E)
    as (l1 & x & l2 & y & Hcs & Hx & Hl & Hy & ->).
  unfold para_set_text, add_run in Hy.
  destruct (make_run _) as [run|] eqn:Er; [|discriminate].
  cbn [rbind] in Hy. injection Hy as <-.
  exists l1, x, l2, run. repeat split; try assumption.
  - unfold count_paragraphs. lia.
  - rewrite (body_of_set_body d cs _ Hb). unfold append_child.
    now destruct x.
Qed.

(** ** Sheets of a workbook *)

Lemma sheetnames_set_entry (name : string) (sh sh' : sheet) (wb : workbook) :
  assoc name wb = Some sh ->
  sheetnames (set_entry name sh' wb) = sheetnames wb.
Proof.
  unfold sheetnames. induction wb as [|[k v] wb IH]; cbn [assoc set_entry];
    [discriminate|].
  destruct (String.eqb_spec name k) as [->|Hne]; [reflexivity|].
  intros H. cbn [map fst]. now rewrite IH.
Qed.

Lemma on_sheet_names (name : string) (f : sheet -> result sheet)
    (wb wb' : workbook) :
  on_sheet name f wb = Ok wb' -> sheetnames wb' = sheetnames wb.
Proof.
  unfold on_sheet. destruct (assoc name wb) as [sh|] eqn:E; [|discriminate].
  destruct (f sh) as [sh'|]; [|discriminate]. cbn [rbind].
  intros [= <-]. apply (sheetnames_set_entry _ _ _ _ E).
Qed.

Lemma create_sheet_names (v : pyval) (wb wb' : workbook) :
  create_sheet v wb = Ok wb' ->
  exists s, v = PStr s /\ wb' = (wb ++ [(s, [])])%list.
Proof.
  unfold create_sheet. destruct v; try discriminate.
  destruct (sheet_title_ok s); [|discriminate]. intros [= <-]. eauto.
Qed.

Lemma in_sheetnames_In (s : string) (wb : workbook) :
  in_sheetnames (PStr s) wb = true <-> In s (sheetnames wb).
Proof.
  unfold in_sheetnames. rewrite existsb_exists. split.
  - intros (x & Hx & E). apply String.eqb_eq in E. now subst.
  - intros H. exists s. split; [exact H|apply String.eqb_refl].
Qed.

Lemma for_each_names {A} (f : nat -> A -> workbook -> result workbook)
    (l : list A) :
  (forall i a wb wb', f i a wb = Ok wb' -> sheetnames wb' = sheetnames wb) ->
  forall i wb wb',
    for_each_indexed f l i wb = Ok wb' -> sheetnames wb' = sheetnames wb.
Proof.
  intros Hf. induction l as [|a l IH]; intros i wb wb'; cbn [for_each_indexed].
  - now intros [= <-].
  - destruct (f i a wb) as [wb1|] eqn:E; [|discriminate]. cbn [rbind].
    intros H. rewrite (IH _ _ _ H). apply (Hf _ _ _ _ E).
Qed.

Lemma sheetnames_remove_entry (s : string) (wb : workbook) :
  sheetnames (remove_entry s wb)
  = List.filter (fun n => negb (String.eqb s n)) (sheetnames wb).
Proof.
  unfold sheetnames, remove_entry. induction wb as [|[k v] wb IH];
    cbn [List.filter map fst]; [reflexivity|].
  destruct (String.eqb s k); cbn [negb map fst]; now rewrite IH.
Qed.

Lemma NoDup_filter_length (s : string) (l : list string) :
  NoDup l ->
  (length l <= S (length (List.filter (fun n => negb (String.eqb s n)) l)))%nat.
Proof.
  induction 1 as [|x l Hx Hl IH]; cbn [List.filter length]; [lia|].
  destruct (String.eqb_spec s x) as [<-|Hne]; cbn [negb length]; [|lia].
  assert (E : List.filter (fun n => negb (String.eqb s n)) l = l).
  { clear IH Hl. induction l as [|y l IH]; [reflexivity|].
    cbn [List.filter]. apply not_elem_of_cons in Hx as [Hy Hx].
    destruct (String.eqb_spec s y); [congruence|].
    cbn [negb]. now rewrite IH. }
  rewrite E. lia.
Qed.

Lemma remove_missing_entry (s : string) (sh : sheet) (wb : workbook) :
  ~ In s (sheetnames wb) -> remove_entry s (wb ++ [(s, sh)]) = wb.
Proof.
  unfold remove_entry, sheetnames. intros H.
  rewrite List.filter_app. cbn [List.filter fst].
  rewrite String.eqb_refl. cbn [negb]. rewrite app_nil_r.
  induction wb as [|[k v] wb IH]; [reflexivity|].
  cbn [List.filter fst map] in *.
  destruct (String.eqb_spec s k) as [->|Hne]; [destruct H; now left|].
  cbn [negb]. rewrite IH; [reflexivity|]. intros Hin. apply H. now right.
Qed.

(** What one operation does to the list of sheet names, after the sheet
    it names has been created if missing. *)
Lemma apply_excel_op_sheets (op : list (string * pyval)) (wb wb' : workbook) :
  apply_excel_op op wb = Ok wb' ->
  exists first rest wb1 name,
    sheetnames wb = first :: rest /\
    dict_get_or "sheet" (PStr first) op = PStr name /\
    wb1 = (if in_sheetnames (PStr name) wb then wb
           else (wb ++ [(name, [])])%list) /\
    (if py_eq_str (dict_get_or "type" PNone op) "delete_sheet" then
       wb' = if (1 <? length (sheetnames wb1))%nat
             then remove_entry name wb1 else wb1
     else if py_eq_str (dict_get_or "type" PNone op) "add_sheet" then
       wb' = wb1 \/
       exists new_name, ~ In new_name (sheetnames wb1) /\
                        wb' = (wb1 ++ [(new_name, [])])%list
     else sheetnames wb' = sheetnames wb1).
Proof.
  unfold apply_excel_op. cbv zeta.
  destruct (sheetnames wb) as [|first rest] eqn:En; [discriminate|].
  cbn [rbind].
  destruct (dict_get_or "sheet" (PStr first) op) as [| | |name| |] eqn:Esn;
    try (destruct (if negb _ then _ else _); discriminate).
  destruct (if negb (in_sheetnames (PStr name) wb) then _ else _)
    as [wb1|] eqn:E1; [|discriminate].
  cbn [rbind]. intros H.
  exists first, rest, wb1, name. split; [reflexivity|]. split; [exact Esn|].
  assert (Hwb1 : wb1 = if in_sheetnames (PStr name) wb then wb
                       else (wb ++ [(name, [])])%list).
  { destruct (in_sheetnames (PStr name) wb); cbn [negb] in E1.
    - now injection E1 as <-.
    - apply create_sheet_names in E1 as (s & [= <-] & ->). reflexivity. }
  split; [exact Hwb1|].
  assert (Hin : in_sheetnames (PStr name) wb1 = true).
  { rewrite Hwb1. destruct (in_sheetnames (PStr name) wb) eqn:Ei; [exact Ei|].
    apply in_sheetnames_In. unfold sheetnames. rewrite map_app.
    apply in_or_app. right. now left. }
  set (ty := dict_get_or "type" PNone op) in *.
  destruct (py_eq_str ty "update_cell") eqn:T1.
  { apply py_eq_str_true in T1. rewrite T1. cbn. apply (on_sheet_names _ _ _ _ H). }
  destruct (py_eq_str ty "update_range") eqn:T2.
  { apply py_eq_str_true in T2. rewrite T2. cbn.
    destruct (py_iter _) as [rows|]; [|discriminate]. cbn [rbind] in H.
    revert H. apply for_each_names. intros i a x y.
    destruct (py_iter a) as [values|]; [|discriminate]. cbn [rbind].
    apply for_each_names. intros j v x' y'.
    destruct (py_add_nat _ i); [|discriminate]. cbn [rbind].
    destruct (py_add_nat _ j); [|discriminate]. cbn [rbind].
    apply on_sheet_names. }
  destruct (py_eq_str ty "delete_row") eqn:T3.
  { apply py_eq_str_true in T3. rewrite T3. cbn. apply (on_sheet_names _ _ _ _ H). }
  destruct (py_eq_str ty "delete_column") eqn:T4.
  { apply py_eq_str_true in T4. rewrite T4. cbn. apply (on_sheet_names _ _ _ _ H). }
  destruct (py_eq_str ty "add_sheet") eqn:T5.
  { apply py_eq_str_true in T5. rewrite T5. cbn [py_eq_str].
    change (String.eqb "add_sheet" "delete_sheet") with false.
    change (String.eqb "add_sheet" "add_sheet") with true. cbv iota.
    destruct (in_sheetnames _ wb1) eqn:Ei; cbn [negb] in H.
    - left. now injection H as <-.
    - right. apply create_sheet_names in H as (s & Hs & ->).
      exists s. split; [|reflexivity]. rewrite Hs in Ei.
      intros Hn. apply in_sheetnames_In in Hn. congruence. }
  destruct (py_eq_str ty "delete_sheet") eqn:T6.
  { rewrite Hin in H. cbn [andb] in H.
    destruct (1 <? length (sheetnames wb1))%nat; now injection H as <-. }
  now injection H as <-.
Qed.

(** X17: [edit_excel_file] never leaves a workbook without sheets, and
    never with two sheets of the same name.  On a file that holds a
    workbook with distinct sheet names, when the tool answers with
    [success] true the file holds a workbook that still has at least
    one sheet, with distinct names, whatever the operations were. *)
Theorem excel_edit_keeps_a_sheet (filepath : string)
    (operations : list (list (string * pyval))) (wb : workbook)
    (w w' : world) (d : pyval) :
  resolve w filepath = Some (File (CXlsx wb)) ->
  wb <> [] -> NoDup (sheetnames wb) ->
  edit_excel_file filepath operations w = (Ok d, w') ->
  field "success" d = Some (PBool true) ->
  exists wb',
    resolve w' filepath = Some (File (CXlsx wb')) /\
    wb' <> [] /\ NoDup (sheetnames wb').
Proof.
  intros Hres Hne Hnd H Hs.
  assert (Hop : forall op x y,
            apply_excel_op op x = Ok y -> NoDup (sheetnames x) ->
            y <> [] /\ NoDup (sheetnames y)).
  { intros op x y Hy Hx.
    destruct (apply_excel_op_sheets _ _ _ Hy)
      as (first & rest & wb1 & name & Hn & _ & Hwb1 & Hcase).
    assert (H1 : NoDup (sheetnames wb1) /\ wb1 <> []).
    { rewrite Hwb1. destruct (in_sheetnames (PStr name) x) eqn:Ei.
      - split; [exact Hx|]. intros ->. discriminate.
      - split; [|now destruct x].
        unfold sheetnames. rewrite map_app. apply NoDup_app.
        split; [exact Hx|]. split; [|apply NoDup_singleton].
        intros s Hs1 Hs2. apply list_elem_of_singleton in Hs2. subst s.
        apply list_elem_of_In in Hs1. apply in_sheetnames_In in Hs1.
        change (in_sheetnames (PStr name) x = true) in Hs1. congruence. }
    destruct H1 as [Hd1 Hn1].
    assert (Hnames : forall z, sheetnames z = sheetnames wb1 ->
                               z <> [] /\ NoDup (sheetnames z)).
    { intros z E. rewrite E. split; [|exact Hd1].
      intros ->. destruct wb1; [congruence|discriminate]. }
    destruct (py_eq_str _ "delete_sheet").
    - destruct (Nat.ltb_spec 1 (length (sheetnames wb1))) as [Hl|Hl];
        subst y; [|auto].
      pose proof (NoDup_filter_length name _ Hd1) as HL.
      rewrite <- sheetnames_remove_entry in HL. split.
      + intros E. rewrite E in HL. cbn in HL. lia.
      + rewrite sheetnames_remove_entry.
        now apply NoDup_ListNoDup, List.NoDup_filter, NoDup_ListNoDup.
    - destruct (py_eq_str _ "add_sheet"); [|now apply Hnames].
      destruct Hcase as [->|(nn & Hnn & ->)]; [auto|].
      split; [now destruct wb1|].
      unfold sheetnames. rewrite map_app. apply NoDup_app.
      split; [exact Hd1|]. split; [|apply NoDup_singleton].
      intros s Hs1 Hs2. apply list_elem_of_singleton in Hs2. subst s.
      apply list_elem_of_In in Hs1. exact (Hnn Hs1). }
  assert (Hops : forall ops x y,
            apply_excel_ops ops x = Ok y -> x <> [] -> NoDup (sheetnames x) ->
            y <> [] /\ NoDup (sheetnames y)).
  { induction ops as [|op ops IH]; intros x y; cbn [apply_excel_ops].
    - intros [= <-]. auto.
    - destruct (apply_excel_op op x) as [x1|] eqn:E; [|discriminate].
      cbn [rbind]. intros Hy _ Hx.
      destruct (Hop _ _ _ E Hx) as [N1 D1]. now apply (IH x1). }
  unfold edit_excel_file in H.
  apply try_except_inv in H as [(a & H & [= <-])|(e & w1 & _ & H)].
  2:{ injection H as <- _. discriminate. }
  unfold edit_excel_file_body in H.
  erewrite wbind_Ok in H by apply gets_run.
  unfold os_path_exists in H. rewrite Hres in H. cbn [negb] in H.
  erewrite wbind_Ok in H
    by (unfold load_workbook, read_file; erewrite wbind_Ok
          by (rewrite Hres; reflexivity); reflexivity).
  bind_inv H; [|discriminate]. apply lift_inv in Hm as [Hwb ->].
  symmetry in Hwb.
  bind_inv H; [|discriminate]. injection H as _ <-. destruct a0.
  apply write_file_Ok in Hm as (R & _).
  exists a. split; [exact R|]. now apply (Hops operations wb).
Qed.

(** ** Comparing with a document that cannot be read *)

Lemma read_structure_missing (w : world) (filepath : string) :
  resolve w filepath = None ->
  read_word_document_structure filepath w
  = read_word_document_structure_except filepath
      (if below_file (root w) (abspath w filepath)
       then os_error NotADirectoryError "[Errno 20] Not a directory" filepath
       else os_error FileNotFoundError "[Errno 2] No such file or directory"
                     filepath) w.
Proof.
  intros H. unfold read_word_document_structure.
  apply try_except_Raise.
  unfold read_word_document_structure_body.
  apply wbind_Raise. unfold read_file. rewrite H.
  now destruct (below_file _ _).
Qed.


(** ** The parts and the body of a formatted document *)

(** ** The parts and the body of a formatted document *)

Lemma on_block_parts (i : nat) (f : xml -> result xml) :
  keeps_parts (on_block i f).
Proof.
  intros d d'. unfold on_block.
  destruct (body_of d) as [cs|]; [|discriminate]. cbn [rbind].
  destruct (nth_error cs i) as [b|]; [|discriminate].
  destruct (f b); [|discriminate]. cbn [rbind]. now intros [= <-].
Qed.

Lemma add_block_parts (x : xml) (d : document) (r : document * nat) :
  add_block x d = Ok r -> doc_parts (fst r) = doc_parts d.
Proof.
  unfold add_block. destruct (body_of d); [|discriminate]. cbn [rbind].
  now intros [= <-].
Qed.

Lemma add_paragraph_parts (text : pyval) (style : option string)
    (d : document) (r : document * nat) :
  add_paragraph text style d = Ok r -> doc_parts (fst r) = doc_parts d.
Proof.
  unfold add_paragraph.
  destruct (add_block _ d) as [r0|] eqn:E0; [|discriminate]. cbn [rbind].
  apply add_block_parts in E0.
  destruct (if py_truthy text then _ else _) as [d1|] eqn:E1; [|discriminate].
  cbn [rbind].
  assert (P1 : doc_parts d1 = doc_parts d).
  { rewrite <- E0. destruct (py_truthy text).
    - now apply on_block_parts in E1.
    - now injection E1 as <-. }
  destruct style as [name|].
  - destruct (style_check name d1); [|discriminate]. cbn [rbind].
    destruct (on_block _ _ d1) as [d2|] eqn:E2; [|discriminate]. cbn [rbind].
    apply on_block_parts in E2. intros [= <-]. cbn [fst]. congruence.
  - cbn [rbind]. now intros [= <-].
Qed.

Lemma add_paragraph_then_parts (text : pyval) (style : option string)
    (f : xml -> result xml) :
  keeps_parts (add_paragraph_then text style f).
Proof.
  intros d d'. unfold add_paragraph_then.
  destruct (add_paragraph text style d) as [r|] eqn:E; [|discriminate].
  cbn [rbind]. intros H. apply on_block_parts in H.
  apply add_paragraph_parts in E. congruence.
Qed.

Lemma for_each_parts {A} (f : nat -> A -> document -> result document)
    (l : list A) :
  (forall i a, keeps_parts (f i a)) ->
  forall i, keeps_parts (for_each_indexed f l i).
Proof.
  intros Hf. induction l as [|a l IH]; intros i d d'; cbn [for_each_indexed].
  - now intros [= <-].
  - destruct (f i a d) as [d1|] eqn:E; [|discriminate]. cbn [rbind].
    intros H. rewrite (IH _ _ _ H). apply (Hf _ _ _ _ E).
Qed.

Lemma table_then_paragraph_parts (rows cols : nat) (f : xml -> result xml)
    (d d' : document) :
  (r <- add_table rows cols d;;
   d1 <- on_block (snd r) f (fst r);;
   r2 <- add_paragraph (PStr "") None d1;;
   Ok (fst r2)) = Ok d' ->
  doc_parts d' = doc_parts d.
Proof.
  destruct (add_table rows cols d) as [r|] eqn:E; [|discriminate].
  cbn [rbind]. apply add_block_parts in E.
  destruct (on_block _ f _) as [d1|] eqn:E1; [|discriminate]. cbn [rbind].
  apply on_block_parts in E1.
  destruct (add_paragraph _ _ d1) as [r2|] eqn:E2; [|discriminate].
  cbn [rbind]. apply add_paragraph_parts in E2. intros [= <-]. congruence.
Qed.

Lemma process_section_parts (s : pyval) : keeps_parts (process_section s).
Proof.
  intros d d'. unfold process_section. destruct s as [| | | | |kv];
    try discriminate.
  cbv zeta.
  destruct (py_eq_str _ "heading").
  { unfold heading_section, add_heading. cbv zeta.
    destruct (heading_style _); [|discriminate]. cbn [rbind].
    destruct (add_paragraph _ _ d) as [r|] eqn:E; [|discriminate].
    cbn [rbind]. intros H. apply on_block_parts in H.
    apply add_paragraph_parts in E. congruence. }
  destruct (py_eq_str _ "paragraph").
  { unfold paragraph_section. cbv zeta.
    destruct (add_paragraph _ _ d) as [r|] eqn:E; [|discriminate].
    cbn [rbind]. destruct (py_lower _); [|discriminate]. cbn [rbind].
    destruct (has_bold_marker _); [|discriminate]. cbn [rbind].
    intros H. apply on_block_parts in H.
    apply add_paragraph_parts in E. congruence. }
  destruct (py_eq_str _ "bullet_list").
  { unfold list_section. destruct (py_iter _); [|discriminate]. cbn [rbind].
    apply for_each_parts. intros; apply add_paragraph_then_parts. }
  destruct (py_eq_str _ "numbered_list").
  { unfold list_section. destruct (py_iter _); [|discriminate]. cbn [rbind].
    apply for_each_parts. intros; apply add_paragraph_then_parts. }
  destruct (py_eq_str _ "table").
  { unfold table_section. cbv zeta.
    destruct (py_truthy _); [|now intros [= <-]].
    destruct (py_len _); [|discriminate]. cbn [rbind].
    destruct (py_len _); [|discriminate]. cbn [rbind].
    apply table_then_paragraph_parts. }
  destruct (py_eq_str _ "key_value_table").
  { unfold key_value_table_section. cbv zeta.
    destruct (py_truthy _); [|now intros [= <-]].
    destruct (py_len _); [|discriminate]. cbn [rbind].
    destruct (py_first _); [|discriminate]. cbn [rbind].
    destruct (py_len _); [|discriminate]. cbn [rbind].
    apply table_then_paragraph_parts. }
  destruct (py_eq_str _ "page_break").
  { destruct (add_page_break d) as [r|] eqn:E; [|discriminate].
    cbn [rbind]. intros [= <-]. now apply add_block_parts in E. }
  destruct (py_eq_str _ "spacer").
  { destruct (add_paragraph _ _ d) as [r|] eqn:E; [|discriminate].
    cbn [rbind]. intros [= <-]. now apply add_paragraph_parts in E. }
  now intros [= <-].
Qed.

Lemma process_sections_parts (sections : list pyval) :
  keeps_parts (process_sections sections).
Proof.
  induction sections as [|s sections IH]; intros d d'; cbn [process_sections].
  - now intros [= <-].
  - destruct (process_section s d) as [d1|] eqn:E; [|discriminate].
    cbn [rbind]. intros H. rewrite (IH _ _ H).
    apply (process_section_parts _ _ _ E).
Qed.

Lemma when_parts (b : bool) (f : document -> result document) :
  keeps_parts f -> keeps_parts (when b f).
Proof.
  intros Hf d d'. unfold when. destruct b; [apply Hf|now intros [= <-]].
Qed.

Lemma set_header_footer_parts (kind root_tag : string) (text : pyval)
    (alignment : string) (italic b : bool) (d d' : document) :
  when b (set_header_footer kind root_tag text alignment italic) d = Ok d' ->
  map fst (doc_parts d')
  = (map fst (doc_parts d)
     ++ (if b then ["word/" +:+ kind +:+ "1.xml"] else []))%list.
Proof.
  unfold when. destruct b; [|intros [= <-]; now rewrite app_nil_r].
  unfold set_header_footer. destruct (findall_desc _ _); [discriminate|].
  destruct (seqM _ _); [|discriminate]. cbn [rbind]. intros [= <-].
  cbn [doc_parts]. now rewrite map_app.
Qed.

(** The members of the archive of a formatted document. *)
Lemma build_document_members (kv : list (string * pyval)) (d : document) :
  build_document (PDict kv) = Ok d ->
  "word/document.xml" :: "word/styles.xml" :: map fst (doc_parts d)
  = formatted_members (dict_get_or "header" PNone kv)
                      (dict_get_or "footer" PNone kv).
Proof.
  unfold build_document. cbv zeta.
  destruct (set_normal_font _ _ _) as [d1|] eqn:E1; [|discriminate].
  cbn [rbind py_get py_get_or].
  assert (P1 : doc_parts d1 = doc_parts new_document).
  { unfold set_normal_font in E1. destruct (style_check _ _); [|discriminate].
    cbn in E1. now injection E1 as <-. }
  destruct (when _ _ d1) as [d2|] eqn:E2; [|discriminate]. cbn [rbind].
  apply set_header_footer_parts in E2.
  destruct (when _ _ d2) as [d3|] eqn:E3; [|discriminate]. cbn [rbind].
  apply set_header_footer_parts in E3.
  destruct (when _ _ d3) as [d4|] eqn:E4; [|discriminate]. cbn [rbind].
  apply (when_parts _ _ (add_paragraph_then_parts _ _ _)) in E4.
  destruct (when _ _ d4) as [d5|] eqn:E5; [|discriminate]. cbn [rbind].
  apply (when_parts _ _ (add_paragraph_then_parts _ _ _)) in E5.
  destruct (py_iter _) as [sections|]; [|discriminate]. cbn [rbind].
  intros H. apply process_sections_parts in H.
  unfold formatted_members.
  rewrite H, E5, E4, E3, E2, P1, <- app_assoc. reflexivity.
Qed.

(** X19: the tables of a formatted document are those of its sections.
    Whenever [create_formatted_word_document] answers with [success]
    true for a dictionary and the structure reader then succeeds on the
    file, [tables_count] is the number of ["table"] sections with
    non-empty [headers] plus the number of ["key_value_table"] sections
    with non-empty [rows].  A table section without headers, a title, a
    heading, a list or a paragraph adds no table. *)
Theorem formatted_tables_counted (filepath document_data : string)
    (data : list (string * pyval)) (w w' w'' : world) (d r : pyval) :
  json_loads document_data = Ok (PDict data) ->
  create_formatted_word_document filepath document_data w = (Ok d, w') ->
  field "success" d = Some (PBool true) ->
  read_word_document_structure filepath w' = (Ok r, w'') ->
  field "success" r = Some (PBool true) ->
  exists sections,
    py_iter (dict_get_or "sections" (PList []) data) = Ok sections /\
    field "tables_count" r
    = Some (PInt (Z.of_nat (tables_emitted sections))).
Proof.
  intros Hj Hcreate Hd Hread Hr.
  destruct (formatted_success _ _ _ _ _ _ Hj Hcreate Hd) as (doc & Hb & Hfile).
  destruct (build_document_stages _ _ Hb)
    as (d0 & B0 & sections & H0 & P0 & Hit & Hps).
  destruct (process_sections_blocks _ _ _ _ H0 Hps) as (new & H1 & C1).
  destruct (read_structure_success _ _ _ _ Hread Hr)
    as (c & parts & root_elem & ts & Hres & Hz & Hparse & Hscan & -> & _).
  rewrite Hfile in Hres. injection Hres as <-.
  injection Hz as <-. injection Hparse as <-.
  rewrite (body_tables _ _ H1) in Hscan.
  rewrite List.filter_app, (filter_plain _ P0) in Hscan. cbn [app] in Hscan.
  exists sections. split; [exact Hit|].
  apply scan_tables_reads, Forall2_length in Hscan.
  cbn [structure_dict field dict_get assoc].
  change (String.eqb "tables_count" "success") with false.
  change (String.eqb "tables_count" "filepath") with false.
  change (String.eqb "tables_count" "tables_count") with true.
  cbv iota. now rewrite <- Hscan, C1.
Qed.

(** X20: the reader's [has_header] and [has_footer] on a formatted
    document tell whether a header and a footer were asked for.
    Whenever [create_formatted_word_document] answers with [success]
    true for a dictionary and the structure reader then succeeds on the
    file, [has_header] is the truth value of the [header] entry and
    [has_footer] that of the [footer] entry. *)
Theorem formatted_header_footer_flags (filepath document_data : string)
    (data : list (string * pyval)) (w w' w'' : world) (d r : pyval) :
  json_loads document_data = Ok (PDict data) ->
  create_formatted_word_document filepath document_data w = (Ok d, w') ->
  field "success" d = Some (PBool true) ->
  read_word_document_structure filepath w' = (Ok r, w'') ->
  field "success" r = Some (PBool true) ->
  field "has_header" r
  = Some (PBool (py_truthy (dict_get_or "header" PNone data))) /\
  field "has_footer" r
  = Some (PBool (py_truthy (dict_get_or "footer" PNone data))).
Proof.
  intros Hj Hcreate Hd Hread Hr.
  destruct (formatted_success _ _ _ _ _ _ Hj Hcreate Hd) as (doc & Hb & Hfile).
  destruct (read_structure_success _ _ _ _ Hread Hr)
    as (c & parts & root_elem & ts & Hres & Hz & Hparse & Hscan & -> & _).
  rewrite Hfile in Hres. injection Hres as <-.
  injection Hz as <-.
  apply build_document_members in Hb.
  unfold structure_dict, field.
  cbn [map fst]. rewrite Hb. unfold formatted_members.
  destruct (py_truthy (dict_get_or "header" PNone data));
    destruct (py_truthy (dict_get_or "footer" PNone data));
    split; vm_compute; reflexivity.
Qed.

Lemma build_document_bare (kv : list (string * pyval)) (d : document) :
  py_truthy (dict_get_or "title" PNone kv) = false ->
  py_truthy (dict_get_or "subtitle" PNone kv) = false ->
  dict_get_or "sections" (PList []) kv = PList [] ->
  build_document (PDict kv) = Ok d ->
  doc_root d = doc_root (with_root (map_sections set_margins) new_document).
Proof.
  intros Ht Hs Hc. unfold build_document. cbv zeta.
  destruct (set_normal_font _ _ _) as [d1|] eqn:E1; [|discriminate].
  cbn [rbind py_get py_get_or].
  assert (R1 : doc_root d1
               = doc_root (with_root (map_sections set_margins) new_document)).
  { unfold set_normal_font in E1. destruct (style_check _ _); [|discriminate].
    cbn [rbind] in E1. now injection E1 as <-. }
  destruct (when _ _ d1) as [d2|] eqn:E2; [|discriminate]. cbn [rbind].
  assert (R2 : doc_root d2 = doc_root d1).
  { revert E2. unfold when.
    destruct (py_truthy (dict_get_or "header" PNone kv)); intros E2;
      [now apply set_header_footer_root in E2|now injection E2 as <-]. }
  destruct (when _ _ d2) as [d3|] eqn:E3; [|discriminate]. cbn [rbind].
  assert (R3 : doc_root d3 = doc_root d2).
  { revert E3. unfold when.
    destruct (py_truthy (dict_get_or "footer" PNone kv)); intros E3;
      [now apply set_header_footer_root in E3|now injection E3 as <-]. }
  rewrite Ht, Hs, Hc. cbn [when rbind py_iter process_sections].
  intros [= <-]. congruence.
Qed.

(** X21: a formatted document without content is still a success.  When
    the dictionary has no truthy [title] or [subtitle] and no (or an
    empty) [sections] list, for instance because the content was put
    under another key, a [success] answer leaves a document whose body
    is empty: the structure reader succeeds on the file and counts no
    paragraph and no table. *)
Theorem formatted_without_sections_is_empty (filepath document_data : string)
    (data : list (string * pyval)) (w w' : world) (d : pyval) :
  json_loads document_data = Ok (PDict data) ->
  py_truthy (dict_get_or "title" PNone data) = false ->
  py_truthy (dict_get_or "subtitle" PNone data) = false ->
  dict_get_or "sections" (PList []) data = PList [] ->
  create_formatted_word_document filepath document_data w = (Ok d, w') ->
  field "success" d = Some (PBool true) ->
  exists r,
    read_word_document_structure filepath w' = (Ok r, w') /\
    field "success" r = Some (PBool true) /\
    field "paragraphs_count" r = Some (PInt 0) /\
    field "tables_count" r = Some (PInt 0).
Proof.
  intros Hj Ht Hs Hc Hcreate Hd.
  destruct (formatted_success _ _ _ _ _ _ Hj Hcreate Hd) as (doc & Hb & Hfile).
  pose proof (build_document_bare _ _ Ht Hs Hc Hb) as Hroot.
  eexists. split.
  - apply read_structure_run with (ts := []); [exact Hfile|].
    rewrite Hroot. vm_compute. reflexivity.
  - rewrite Hroot. repeat split; vm_compute; reflexivity.
Qed.

(** ** The rows of a table *)

Lemma keeps_rows_on_row (n r : nat) (f : xml -> result xml) :
  keeps_tag f -> keeps (has_rows n) (on_row r f).
Proof.
  intros Hf x y Hx. unfold on_row, on_children.
  destruct (alterM_nth _ r f (children_of x)) as [cs|] eqn:E; [|discriminate].
  cbn [rbind]. intros [= <-]. apply alterM_nth_altered in E.
  unfold has_rows, findall in *. destruct x as [t a v cs0].
  cbn [with_children children_of] in *.
  apply (altered_filter _ f (fun a b _ H => Hf a b H) "w:tr") in E.
  apply Forall2_length in E. congruence.
Qed.

Lemma filter_rows_without_grid (cs : list xml) :
  List.filter (has_tag "w:tr")
    (List.filter (fun child => negb (ends_with "tblGrid" (tag_of child))) cs)
  = List.filter (has_tag "w:tr") cs.
Proof.
  induction cs as [|c cs IH]; [reflexivity|]. cbn [List.filter].
  destruct (has_tag "w:tr" c) eqn:E.
  - apply has_tag_eq in E. rewrite E.
    change (negb (ends_with "tblGrid" "w:tr")) with true. cbv iota.
    cbn [List.filter]. unfold has_tag at 1. rewrite E.
    change (String.eqb "w:tr" "w:tr") with true. cbv iota. now rewrite IH.
  - destruct (negb _); [|exact IH]. cbn [List.filter]. now rewrite E, IH.
Qed.

Lemma keeps_rows_set_table_grid (n : nat) (col_widths : pyval) :
  keeps (has_rows n) (_set_table_grid col_widths).
Proof.
  intros x y Hx. unfold _set_table_grid. cbv zeta.
  match goal with
  | |- context [alter_found "w:tblPr" ?F x] =>
      set (tbl1 := alter_found "w:tblPr" F x);
      assert (H1 : findall "w:tr" tbl1 = findall "w:tr" x)
  end.
  { apply findall_alter_found_other; [discriminate|].
    intros z.
    assert (T : forall u, tag_of (remove_found "w:tblLook" u) = tag_of u)
      by (now intros [? ? ? ?]).
    destruct (find "w:tblBorders" _);
      [|rewrite tag_append_child]; rewrite T; apply tag_alter_found. }
  match goal with
  | |- context [with_children tbl1 ?cs] => set (tbl2 := with_children tbl1 cs)
  end.
  assert (H2 : findall "w:tr" tbl2 = findall "w:tr" x).
  { rewrite <- H1. unfold tbl2, findall. destruct tbl1 as [t a v cs].
    cbn [with_children children_of]. apply filter_rows_without_grid. }
  destruct (py_iter col_widths) as [widths|]; [|discriminate]. cbn [rbind].
  destruct (mapM _ widths) as [gridCols|]; [|discriminate]. cbn [rbind].
  match goal with
  | |- context [on_children _ ?t] => set (tbl3 := t)
  end.
  assert (H3 : findall "w:tr" tbl3 = findall "w:tr" x).
  { rewrite <- H2. unfold tbl3.
    destruct (index_of _ _); now apply findall_insert_other. }
  clearbody tbl3. clear tbl1 tbl2 H1 H2.
  unfold on_children.
  destruct (alterM_all _ _ (children_of tbl3)) as [cs|] eqn:E; [|discriminate].
  cbn [rbind]. intros [= <-]. apply alterM_all_altered in E.
  unfold has_rows in *. rewrite <- Hx, <- H3. unfold findall.
  destruct tbl3 as [t a v cs0]. cbn [with_children children_of] in *.
  refine (eq_sym (Forall2_length _ _ _
            (altered_filter _ _ _ "w:tr" _ _ E))).
  intros a0 b0 _. apply keeps_tag_on_children.
Qed.

Lemma new_tbl_rows (rows cols : nat) : has_rows rows (new_tbl rows cols).
Proof.
  unfold has_rows, findall, new_tbl. cbv zeta.
  cbn [children_of]. rewrite List.filter_app.
  change (List.filter (has_tag "w:tr") [_; _]) with (@nil xml).
  cbn [app]. rewrite filter_repeat by reflexivity. apply repeat_length.
Qed.

Lemma keeps_rows_fill_table (n : nat) (headers rows header_bg
    header_text_color alt_row row_height col_widths : pyval) :
  keeps (has_rows n)
    (fill_table headers rows header_bg header_text_color alt_row row_height
                col_widths).
Proof.
  intros t t' Ht. rewrite fill_table_split.
  destruct (when _ _ t) as [t1|] eqn:E; [|discriminate]. cbn [rbind].
  pose proof (keeps_when _ _ _ (keeps_rows_set_table_grid n _) _ _ Ht E) as H1.
  revert H1.
  apply (keeps_fill_rows (has_rows n)); intros; apply keeps_rows_on_row;
    try apply keeps_tag_row_height; apply keeps_tag_on_children.
Qed.

Lemma table_section_rows (kv : list (string * pyval)) (rows : list pyval)
    (d d' : document) (B : list xml) :
  py_truthy (dict_get_or "headers" (PList []) kv) = true ->
  dict_get_or "rows" (PList []) kv = PList rows ->
  body_is d B -> table_section kv d = Ok d' ->
  exists t p,
    has_rows (S (length rows)) t /\ table_block t /\ is_plain p /\
    body_is d' (B ++ [t; p]).
Proof.
  intros Hh Hr HB. unfold table_section. cbv zeta. rewrite Hh, Hr.
  cbn [py_len rbind].
  destruct (py_len (dict_get_or "headers" _ kv)) as [ncols|]; [|discriminate].
  cbn [rbind]. unfold add_table.
  destruct (add_block_spec d B (new_tbl (1 + length rows) ncols) HB
              (table_block_ok _ (new_tbl_table_block _ _))) as (d0 & -> & H0).
  cbn [rbind fst snd].
  destruct (on_block _ _ d0) as [d1|] eqn:E1; [|discriminate]. cbn [rbind].
  destruct (on_block_last _ _ _ _ _ H0 E1) as (t & Ht & H1).
  pose proof (keeps_table_block_fill_table _ _ _ _ _ _ _ _ _
                (new_tbl_table_block _ _) Ht) as Tt.
  pose proof (keeps_rows_fill_table _ _ _ _ _ _ _ _ _ _
                (new_tbl_rows _ _) Ht) as Rt.
  specialize (H1 (table_block_ok _ Tt)).
  destruct (add_paragraph _ _ d1) as [[d2 i]|] eqn:E2; [|discriminate].
  cbn [rbind fst]. intros [= <-].
  destruct (add_paragraph_spec _ _ _ _ _ _ H1 E2) as (_ & p & Hp & H2).
  exists t, p. split; [exact Rt|]. split; [exact Tt|]. split; [exact Hp|].
  now rewrite <- app_assoc in H2.
Qed.


(** ** An operation that fails *)

Lemma apply_excel_ops_app (ops1 ops2 : list (list (string * pyval)))
    (wb : workbook) :
  apply_excel_ops (ops1 ++ ops2) wb
  = (wb1 <- apply_excel_ops ops1 wb;; apply_excel_ops ops2 wb1).
Proof.
  revert wb. induction ops1 as [|op ops1 IH]; intros wb; [reflexivity|].
  cbn [app apply_excel_ops]. destruct (apply_excel_op op wb); [|reflexivity].
  cbn [rbind]. apply IH.
Qed.

(** X23: [edit_word_document] saves nothing when an operation fails.  If
    the operations before [op] succeed on the opened document and [op]
    raises, the answer is the failure for that exception and the world
    is as it was: the file keeps its content, without the effect of the
    earlier operations, and the later ones are not looked at. *)
Theorem failing_word_operation_discards_edit (filepath : string)
    (before after : list (list (string * pyval)))
    (op : list (string * pyval)) (doc doc1 : document) (e : exn)
    (w : world) :
  doc_open filepath w = (Ok doc, w) ->
  apply_word_ops before doc = Ok doc1 ->
  apply_word_op op doc1 = Raise e ->
  edit_word_document filepath (before ++ op :: after) w
  = (Ok (failure "Error editing Word document" e), w).
Proof.
  intros Ho Hb He.
  assert (Hex : os_path_exists w filepath = true).
  { unfold doc_open in Ho. unfold os_path_exists.
    destruct (resolve w filepath); [reflexivity|discriminate]. }
  unfold edit_word_document.
  erewrite try_except_Raise; [reflexivity|].
  unfold edit_word_document_body.
  erewrite wbind_Ok by apply gets_run. rewrite Hex. cbn [negb].
  erewrite wbind_Ok by exact Ho.
  apply wbind_Raise. unfold lift.
  rewrite apply_word_ops_app, Hb. cbn [rbind apply_word_ops].
  now rewrite He.
Qed.

(** X24: [edit_excel_file] saves nothing when an operation fails.  If
    the operations before [op] succeed on the loaded workbook and [op]
    raises, the answer is the failure for that exception and the world
    is as it was, sheets created by the earlier operations included. *)
Theorem failing_excel_operation_discards_edit (filepath : string)
    (before after : list (list (string * pyval)))
    (op : list (string * pyval)) (wb wb1 : workbook) (e : exn)
    (w : world) :
  resolve w filepath = Some (File (CXlsx wb)) ->
  apply_excel_ops before wb = Ok wb1 ->
  apply_excel_op op wb1 = Raise e ->
  edit_excel_file filepath (before ++ op :: after) w
  = (Ok (failure "Error editing Excel file" e), w).
Proof.
  intros Hres Hb He.
  unfold edit_excel_file.
  erewrite try_except_Raise; [reflexivity|].
  unfold edit_excel_file_body.
  erewrite wbind_Ok by apply gets_run.
  unfold os_path_exists. rewrite Hres. cbn [negb].
  erewrite wbind_Ok
    by (unfold load_workbook, read_file; erewrite wbind_Ok
          by (rewrite Hres; reflexivity); reflexivity).
  apply wbind_Raise. unfold lift.
  rewrite apply_excel_ops_app, Hb. cbn [rbind apply_excel_ops].
  now rewrite He.
Qed.

(** ** The creation tools on valid inputs *)

(** Below the directories [os.makedirs] made or found, an entry can be
    bound. *)
Lemma mkdirs_put_child (q : list string) (a : string) (x : node) :
  forall n n1, mkdirs n q = Some n1 ->
               exists n2, put_node n1 (q ++ [a]) x = Some n2.
Proof.
  induction q as [|c q IH]; intros n n1; cbn [mkdirs app].
  - destruct n as [?|es]; [discriminate|]. intros [= <-]. cbn. eauto.
  - destruct n as [?|es]; [discriminate|].
    assert (G : forall y n'', mkdirs y q = Some n'' ->
              exists n2, put_node (Dir (set_entry c n'' es)) (c :: q ++ [a]) x
                         = Some n2).
    { intros y n'' Hy. destruct (IH _ _ Hy) as [n2 Hn2]. revert Hn2.
      cbn [put_node]. destruct (q ++ [a])%list as [|b r] eqn:E;
        [now destruct q|].
      intros Hn2. rewrite assoc_set_entry_eq, Hn2. eauto. }
    destruct (assoc c es) as [y|].
    + destruct (mkdirs y q) as [n''|] eqn:Hy; [|discriminate].
      intros [= <-]. apply (G _ _ Hy).
    + destruct (mkdirs (Dir []) q) as [n''|] eqn:Hy; [|discriminate].
      intros [= <-]. apply (G _ _ Hy).
Qed.

(** On a writable target the parent directories are made and any
    content is then written. *)
Lemma writable_run (w : world) (t : string) :
  writable w t = true ->
  exists w1, makedirs_parent t w = (Ok tt, w1) /\
             forall c, exists w2, write_file t c w1 = (Ok tt, w2).
Proof.
  unfold writable. intros H. apply andb_true_iff in H as [Hne H].
  apply negb_true_iff in Hne.
  destruct (abspath w t) as [|a0 p0] eqn:Hp; [discriminate|].
  destruct (mkdirs (root w) (dirname (a0 :: p0))) as [[?|es]|] eqn:Hm;
    try discriminate.
  exists (set_fs w es). split.
  { unfold makedirs_parent. now rewrite Hp, Hm. }
  intros c. unfold write_file. rewrite Hne.
  change (root (set_fs w es)) with (Dir es).
  change (abspath (set_fs w es) t) with (abspath w t). rewrite Hp.
  destruct (@exists_last _ (a0 :: p0) ltac:(discriminate)) as (q & a & E).
  rewrite E in *. unfold dirname in Hm. rewrite removelast_last in Hm.
  destruct (mkdirs_put_child q a (File c) _ _ Hm) as [n2 Hn2].
  destruct (put_node_is_dir _ _ _ _ Hn2) as [es2 ->].
  rewrite Hn2.
  destruct (lookup_node (Dir es) (q ++ [a])) as [[?|?]|];
    try discriminate; eauto.
Qed.

(** [add_paragraph] of a text the document can hold returns. *)
Lemma add_paragraph_runs (d : document) (B : list xml) (S : xml) (s : string) :
  body_ends d B S -> xml_compatible s = true ->
  exists d' i, add_paragraph (PStr s) None d = Ok (d', i) /\
               body_ends d' (B ++ [text_paragraph s]) S.
Proof.
  intros Hd Hx.
  assert (E : exists r, add_paragraph (PStr s) None d = Ok r).
  { unfold add_paragraph.
    destruct (add_block_ends d B S (OxmlElement "w:p") Hd eq_refl)
      as (d0 & -> & Hd0 & _).
    cbn [rbind fst snd py_truthy].
    destruct s as [|c s]; [cbn; eauto|].
    change (negb (String.eqb (String c s) "")) with true. cbv iota.
    unfold on_block. rewrite (body_ends_body_of _ _ _ Hd0). cbn [rbind].
    rewrite <- app_assoc. cbn [app]. rewrite nth_error_middle.
    unfold add_run, make_run, run_text. cbn [py_truthy].
    change (negb (String.eqb (String c s) "")) with true. cbv iota.
    rewrite Hx. cbn [rbind]. eauto. }
  destruct E as [[d' i] E]. exists d', i. split; [exact E|].
  apply (add_paragraph_text _ _ _ _ _ _ Hd E).
Qed.

Lemma add_text_paragraphs_run (lines : list string) :
  forall d B S,
    body_ends d B S -> forallb xml_compatible lines = true ->
    exists d', add_text_paragraphs lines d = Ok d'.
Proof.
  induction lines as [|l lines IH]; intros d B S Hd;
    cbn [add_text_paragraphs forallb]; [eauto|].
  intros H. apply andb_true_iff in H as [Hl Hr].
  destruct (negb (String.eqb (py_strip l) "")).
  - destruct (add_paragraph_runs d B S l Hd Hl) as (d1 & i & -> & Hd1).
    cbn [rbind fst]. apply (IH _ _ _ Hd1 Hr).
  - cbn [rbind]. apply (IH _ _ _ Hd Hr).
Qed.

Lemma xml_compatible_split (sep : ascii) (s : string) :
  xml_compatible s = true -> forallb xml_compatible (split_on sep s) = true.
Proof.
  induction s as [|c s IH]; cbn [xml_compatible split_on]; [reflexivity|].
  intros H. apply andb_true_iff in H as [Hc Hs]. specialize (IH Hs).
  destruct (Ascii.eqb c sep); [exact IH|].
  destruct (split_on sep s) as [|h t]; cbn [forallb xml_compatible] in *.
  - now rewrite Hc.
  - apply andb_true_iff in IH as [Hh Ht]. now rewrite Hc, Hh, Ht.
Qed.

Lemma xml_compatible_newlines (s : string) :
  forall b, xml_compatible s = true ->
            xml_compatible (universal_newlines b s) = true.
Proof.
  induction s as [|c s IH]; intros b; cbn [xml_compatible universal_newlines];
    [reflexivity|].
  intros H. apply andb_true_iff in H as [Hc Hs].
  destruct (Ascii.eqb c "013"); [cbn [xml_compatible]; now rewrite IH|].
  destruct (Ascii.eqb c "010").
  - destruct b; [now apply IH|]. cbn [xml_compatible]. now rewrite IH.
  - cbn [xml_compatible]. now rewrite Hc, IH.
Qed.

(** Every valid input gets the success answer. *)
Lemma creation_ready_succeeds (c : creation_call) (w : world) :
  creation_ready c w ->
  exists msg w',
    tool_body (creation_tool c) w = (Ok (success msg (target_of c)), w').
Proof.
  intros [Hw Hc].
  destruct (writable_run _ _ Hw) as (w1 & Hm & Hwr).
  destruct c as [f x|s t|f x|s t|f x];
    cbn [tool_body creation_tool target_of] in *.
  - destruct (add_paragraph_runs _ _ _ x new_document_ends Hc)
      as (d' & i & E & _).
    destruct (Hwr (package d')) as [w2 Hw2].
    unfold create_word_document_body. cbv zeta.
    erewrite wbind_Ok by (unfold lift; rewrite E; reflexivity).
    erewrite wbind_Ok by exact Hm.
    erewrite wbind_Ok by exact Hw2.
    erewrite wbind_Ok by reflexivity.
    eexists _, _. reflexivity.
  - destruct Hc as (text & Hsrc & Hx).
    destruct (add_text_paragraphs_run
                (split_on "010" (universal_newlines false text))
                _ _ _ new_document_ends
                (xml_compatible_split _ _
                   (xml_compatible_newlines text false Hx)))
      as [d' E].
    destruct (Hwr (package d')) as [w2 Hw2].
    unfold convert_txt_to_word_body.
    erewrite wbind_Ok by apply gets_run.
    unfold os_path_exists. rewrite Hsrc. cbn [negb].
    erewrite wbind_Ok
      by (unfold read_text, read_file; erewrite wbind_Ok
            by (rewrite Hsrc; reflexivity); reflexivity).
    erewrite wbind_Ok by (unfold lift; rewrite E; reflexivity).
    erewrite wbind_Ok by exact Hm.
    erewrite wbind_Ok by exact Hw2.
    eexists _, _. reflexivity.
  - destruct Hc as (data & df & wb & Hin & Hdf & Hwb).
    destruct (Hwr (CXlsx wb)) as [w2 Hw2].
    unfold create_excel_file_body.
    erewrite wbind_Ok with (a := data) (w' := w).
    2:{ destruct Hin as [->|(e & -> & -> & ->)]; reflexivity. }
    unfold excel_from_data.
    erewrite wbind_Ok by (unfold lift; rewrite Hdf; reflexivity).
    erewrite wbind_Ok by exact Hm.
    erewrite wbind_Ok by (unfold df_to_excel; rewrite Hwb; exact Hw2).
    eexists _, _. reflexivity.
  - destruct Hc as (c & df & wb & Hsrc & Hdf & Hwb).
    destruct (Hwr (CXlsx wb)) as [w2 Hw2].
    unfold convert_csv_to_excel_body.
    erewrite wbind_Ok by apply gets_run.
    unfold os_path_exists. rewrite Hsrc. cbn [negb].
    erewrite wbind_Ok by (unfold read_file; rewrite Hsrc; reflexivity).
    erewrite wbind_Ok by (unfold lift; rewrite Hdf; reflexivity).
    erewrite wbind_Ok by exact Hm.
    erewrite wbind_Ok by (unfold df_to_excel; rewrite Hwb; exact Hw2).
    eexists _, _. reflexivity.
  - unfold create_pdf_file_body. cbv zeta.
    erewrite wbind_Ok by exact Hm.
    match goal with
    | |- context [canvas_save f ?cv] =>
        destruct (Hwr (CPdf (shown (match current cv with
                                    | [] => cv
                                    | _ :: _ => showPage cv
                                    end)))) as [w2 Hw2]
    end.
    erewrite wbind_Ok by (unfold canvas_save; exact Hw2).
    eexists _, _. reflexivity.
Qed.

(** A conversion whose source does not exist answers so and changes
    nothing. *)
Lemma creation_source_missing (c : creation_call) (s : string) (w : world) :
  source_of c = Some s -> os_path_exists w s = false ->
  tool_body (creation_tool c) w = (Ok (source_not_found s), w).
Proof.
  intros Hs Hex.
  destruct c; try discriminate; injection Hs as ->;
    cbn [tool_body creation_tool];
    unfold convert_txt_to_word_body, convert_csv_to_excel_body;
    erewrite wbind_Ok by apply gets_run;
    rewrite Hex; reflexivity.
Qed.

End Server.

(** ** The properties at concrete inputs *)

Local Notation sample_run :=
  (run_tool sample_repr_str sample_os_permits sample_content_size
            sample_int_lenient sample_repr_container
            sample_dyn_run_text sample_int_base16 sample_json_loads
            sample_pd_DataFrame_dyn sample_df_to_workbook
            sample_df_written_on_error sample_pd_read_csv
            sample_sheet_title_ok sample_ws_delete sample_ws_delete
            sample_word_render).

Local Notation sample_create_formatted :=
  (create_formatted_word_document sample_repr_str sample_int_lenient
     sample_repr_container sample_dyn_run_text sample_int_base16
     sample_json_loads).

Local Notation sample_read :=
  (read_word_document_structure sample_repr_str sample_int_lenient).

Local Notation sample_create_excel :=
  (create_excel_file sample_repr_str sample_json_loads sample_pd_DataFrame_dyn
                     sample_df_to_workbook sample_df_written_on_error).

Local Notation sample_ready :=
  (creation_ready sample_json_loads sample_pd_DataFrame_dyn
                  sample_df_to_workbook sample_pd_read_csv).

Local Notation sample_edit_word :=
  (edit_word_document sample_repr_str sample_dyn_run_text).

(** C1 as stated fails: [json.loads] raises on ["a,b"], yet
    [create_excel_file] answers with [success] true: the exception is not
    mapped to an answer with [success] false. *)
Lemma create_excel_file_decoding_error_counterexample :
  (exists e, sample_json_loads "a,b" = Raise e /\ exn_cls e = JSONDecodeError) /\
  exists d w',
    sample_run (CreateExcelFile "/docs/t.xlsx" "a,b") sample_world = (Ok d, w') /\
    field "success" d = Some (PBool true).
Proof.
  split.
  - eexists. split; reflexivity.
  - eexists _, _. split; [vm_compute; reflexivity|reflexivity].
Qed.



(** C3 as stated fails on a file the operating system protects:
    [/docs/notes.txt] is an existing regular file and [confirm] is
    ["CORBEILLE"], yet send2trash raises, the answer has [success] false
    and [deleted] false, and the file is where it was. *)
Lemma delete_file_protected_counterexample :
  resolve sample_world "/docs/notes.txt" = Some (File (CText "first line")) /\
  sample_os_protects CallTrash (abspath sample_world "/docs/notes.txt")
  = Some (Exn PermissionError "[Errno 13] Permission denied") /\
  exists d,
    delete_file sample_repr_str sample_os_protects sample_content_size
                "/docs/notes.txt" "CORBEILLE" sample_world
    = (Ok d, sample_world) /\
    field "success" d = Some (PBool false) /\
    field "deleted" d = Some (PBool false) /\
    field "message" d = Some (PStr "Permission denied: /docs/notes.txt").
Proof.
  split; [reflexivity|]. split; [reflexivity|].
  eexists. split; [vm_compute; reflexivity|]. repeat split.
Qed.

Lemma delete_file_trash_aware_witness :
  resolve sample_world "/docs/notes.txt" = Some (File (CText "first line")) /\
  (exists d w',
     delete_file sample_repr_str sample_os_permits sample_content_size
                 "/docs/notes.txt" "CORBEILLE" sample_world
       = (Ok d, w') /\
     field "success" d = Some (PBool true) /\
     field "deleted" d = Some (PBool true) /\
     field "method" d = Some (PStr "trash") /\
     os_path_exists w' "/docs/notes.txt" = false /\
     trash w' = (abspath sample_world "/docs/notes.txt",
                 File (CText "first line")) :: trash sample_world) /\
  (exists d w',
     delete_file sample_repr_str sample_os_protects sample_content_size
                 "/docs/notes.txt" "SUPPRESSION DÉFINITIVE" sample_world
       = (Ok d, w') /\
     field "success" d = Some (PBool false) /\
     field "deleted" d = Some (PBool false) /\
     same_files sample_world w' /\
     (is_PermissionError (Exn PermissionError "[Errno 13] Permission denied")
      = true ->
      w' = sample_world /\
      field "message" d
      = Some (PStr ("Permission denied: " +:+ "/docs/notes.txt")))).
Proof.
  split; [reflexivity|]. split.
  - exact (proj1 (proj1 (delete_file_trash_aware sample_repr_str
                           sample_os_permits sample_content_size sample_world
                           "/docs/notes.txt" "CORBEILLE" (CText "first line")
                           eq_refl)
                        eq_refl) eq_refl).
  - exact (proj2 (proj1 (proj2 (delete_file_trash_aware sample_repr_str
                                  sample_os_protects sample_content_size
                                  sample_world "/docs/notes.txt"
                                  "SUPPRESSION DÉFINITIVE"
                                  (CText "first line") eq_refl))
                        eq_refl) _ eq_refl).
Defined.


Lemma compare_reports_table_geometry_witness :
  document_tables sample_int_lenient sample_office "/docs/a.docx"
  = Ok sample_tables /\
  document_tables sample_int_lenient sample_office "/docs/b.docx"
  = Ok sample_tables /\
  exists d b,
    compare_word_documents sample_repr_str sample_int_lenient
                           "/docs/a.docx" "/docs/b.docx"
                           sample_office = (Ok d, sample_office) /\
    field "success" d = Some (PBool true) /\
    field "is_identical" d = Some (PBool b) /\
    (b = true <-> same_geometry sample_tables sample_tables).
Proof.
  assert (Ha : document_tables sample_int_lenient sample_office "/docs/a.docx"
               = Ok sample_tables) by (vm_compute; reflexivity).
  assert (Hb : document_tables sample_int_lenient sample_office "/docs/b.docx"
               = Ok sample_tables) by (vm_compute; reflexivity).
  split; [exact Ha|]. split; [exact Hb|].
  exact (compare_reports_table_geometry sample_repr_str sample_int_lenient
           sample_office
           "/docs/a.docx" "/docs/b.docx" sample_tables sample_tables Ha Hb).
Defined.



Lemma handlers_are_stateless_witness :
  same_files sample_world sample_world_logged /\
  fst (sample_run (CreateWordDocument "/docs/x.docx" "hello") sample_world)
  = fst (sample_run (CreateWordDocument "/docs/x.docx" "hello")
                    sample_world_logged) /\
  same_files
    (snd (sample_run (CreateWordDocument "/docs/x.docx" "hello") sample_world))
    (snd (sample_run (CreateWordDocument "/docs/x.docx" "hello")
                     sample_world_logged)).
Proof.
  assert (H : same_files sample_world sample_world_logged)
    by (repeat split; reflexivity).
  split; [exact H|].
  exact (handlers_are_stateless
           sample_repr_str sample_os_permits
           sample_content_size sample_int_lenient sample_repr_container
           sample_dyn_run_text sample_int_base16 sample_json_loads
           sample_pd_DataFrame_dyn sample_df_to_workbook
           sample_df_written_on_error sample_pd_read_csv
           sample_sheet_title_ok sample_ws_delete sample_ws_delete
           sample_word_render
           (CreateWordDocument "/docs/x.docx" "hello")
           sample_world sample_world_logged H).
Defined.



(** C9 as stated fails when the spreadsheet cannot be written: ["a,b"] is
    not JSON and the target names a directory, so the answer has [success]
    false. *)
Lemma create_excel_file_unwritable_counterexample :
  (exists e, sample_json_loads "a,b" = Raise e /\ exn_cls e = JSONDecodeError) /\
  resolve sample_world "/reports.xlsx" = Some (Dir []) /\
  exists d w',
    sample_create_excel "/reports.xlsx" "a,b" sample_world = (Ok d, w') /\
    field "success" d = Some (PBool false).
Proof.
  split; [eexists; split; reflexivity|]. split; [reflexivity|].
  eexists _, _. split; [vm_compute; reflexivity|reflexivity].
Qed.

Lemma create_excel_file_csv_fallback_witness :
  sample_json_loads "a,b"
  = Raise (Exn JSONDecodeError "Expecting value: line 1 column 1 (char 0)") /\
  pd_DataFrame sample_pd_DataFrame_dyn (grid_value (csv_grid "a,b"))
  = Ok (frame_of_grid (csv_grid "a,b")) /\
  exists w2,
    sample_create_excel "/docs/t.xlsx" "a,b" sample_world
    = (Ok (success "Successfully created Excel file" "/docs/t.xlsx"), w2) /\
    resolve w2 "/docs/t.xlsx"
    = Some (File (CXlsx [("Sheet1", [(1, 1, PInt 0); (1, 2, PInt 1);
                                     (2, 1, PStr "a"); (2, 2, PStr "b")])])).
Proof.
  split; [reflexivity|].
  pose proof (create_excel_file_csv_fallback sample_repr_str
                sample_json_loads sample_pd_DataFrame_dyn
                sample_df_to_workbook sample_df_written_on_error sample_world
                "/docs/t.xlsx" "a,b"
                (Exn JSONDecodeError "Expecting value: line 1 column 1 (char 0)")
                eq_refl eq_refl) as (H1 & H2 & _).
  split; [exact H1|].
  eexists. apply H2 with (w1 := sample_world).
  - reflexivity.
  - reflexivity.
  - vm_compute. reflexivity.
Defined.

(** C10 as stated fails: [/docs] is a directory with two entries, yet
    with a [confirm] that is neither accepted value the answer carries the
    cancellation message, which is not a "Directory not empty" message, and
    lists no entries. *)
Lemma delete_directory_confirm_counterexample :
  resolve sample_world "/docs"
    = Some (Dir [("notes.txt", File (CText "first line"));
                 ("table.csv", File (CText "a,b"))]) /\
  exists d,
    delete_directory sample_repr_str sample_os_permits "/docs" "oui"
                     sample_world = (Ok d, sample_world) /\
    field "message" d = Some (PStr confirm_message) /\
    starts_with "Directory not empty" confirm_message = false /\
    field "contents" d = None.
Proof.
  split; [reflexivity|].
  eexists. split; [reflexivity|]. repeat split.
Qed.

Lemma delete_directory_nonempty_witness :
  (exists d w',
     delete_directory sample_repr_str sample_os_permits "/docs" "CORBEILLE"
                      sample_world = (Ok d, w') /\
     same_files sample_world w' /\
     field "success" d = Some (PBool false) /\
     field "deleted" d = Some (PBool false) /\
     w' = sample_world /\
     field "message" d =
       Some (PStr ("Directory not empty ("
                   +:+ string_of_Z (Z.of_nat 2)
                   +:+ " items). Delete contents first.")) /\
     field "contents" d
       = Some (PList (map PStr (take 10 ["notes.txt"; "table.csv"]))) /\
     (length (take 10 ["notes.txt"; "table.csv"]) <= 10)%nat) /\
  (exists d w',
     delete_directory sample_repr_str sample_os_protects "/docs" "CORBEILLE"
                      sample_world = (Ok d, w') /\
     same_files sample_world w' /\
     field "success" d = Some (PBool false) /\
     field "deleted" d = Some (PBool false) /\
     field "contents" d = None /\
     w' = sample_world /\
     field "message" d = Some (PStr ("Permission denied: " +:+ "/docs"))).
Proof.
  split.
  - destruct (delete_directory_nonempty sample_repr_str sample_os_permits
                sample_world "/docs" "CORBEILLE"
                [("notes.txt", File (CText "first line"));
                 ("table.csv", File (CText "a,b"))]
                eq_refl ltac:(discriminate))
      as (d & w' & R & S & A & B & L & _).
    exists d, w'. split; [exact R|]. split; [exact S|]. split; [exact A|].
    split; [exact B|]. exact (L eq_refl eq_refl).
  - destruct (delete_directory_nonempty sample_repr_str sample_os_protects
                sample_world "/docs" "CORBEILLE"
                [("notes.txt", File (CText "first line"));
                 ("table.csv", File (CText "a,b"))]
                eq_refl ltac:(discriminate))
      as (d & w' & R & S & A & B & _ & L & _).
    exists d, w'. split; [exact R|]. split; [exact S|]. split; [exact A|].
    split; [exact B|].
    destruct (L eq_refl _ eq_refl) as [C P]. split; [exact C|].
    exact (P eq_refl).
Defined.

(** ** The further properties at concrete inputs *)

Local Notation sample_create_formatted_more :=
  (create_formatted_word_document sample_repr_str sample_int_lenient sample_repr_container
     sample_dyn_run_text sample_int_base16 sample_json_loads_more).

Local Notation sample_edit_excel :=
  (edit_excel_file sample_repr_str sample_sheet_title_ok sample_ws_delete sample_ws_delete).

Local Notation sample_decoding_error :=
  (Exn JSONDecodeError "Expecting value: line 1 column 1 (char 0)").

Lemma formatted_rejects_invalid_json_witness :
  sample_create_formatted_more "/docs/out.docx" "a,b" sample_world
  = (Ok (PDict [("success", PBool false);
                ("message",
                 PStr ("Invalid JSON format: "
                       +:+ exn_str sample_decoding_error));
                ("filepath", PNone)]), sample_world) /\
  exists e w',
    sample_create_formatted_more "/docs/out.docx" "[]" sample_world
    = (Ok (failure "Error creating formatted Word document" e), w') /\
    exn_cls e = AttributeError /\
    same_files sample_world w' /\
    log w' = (log sample_world
              ++ ["[ERROR] Error creating formatted Word document: "
                  +:+ exn_str e])%list.
Proof.
  split.
  - exact (proj1 (formatted_rejects_invalid_json
                    sample_repr_str sample_int_lenient sample_repr_container
                    sample_dyn_run_text sample_int_base16
                    sample_json_loads_more "/docs/out.docx" "a,b"
                    sample_world)
                 sample_decoding_error eq_refl eq_refl).
  - exact (proj2 (formatted_rejects_invalid_json
                    sample_repr_str sample_int_lenient sample_repr_container
                    sample_dyn_run_text sample_int_base16
                    sample_json_loads_more "/docs/out.docx" "[]"
                    sample_world)
                 (PList []) eq_refl
                 (fun kv H => ltac:(discriminate H))).
Defined.

Lemma missing_file_is_reported_witness :
  os_path_exists sample_world "/docs/none.docx" = false /\
  (forall operations,
     edit_word_document sample_repr_str sample_dyn_run_text "/docs/none.docx" operations
                        sample_world
     = (Ok (PDict [("success", PBool false);
                   ("message", PStr ("File not found: " +:+ "/docs/none.docx"));
                   ("filepath", PNone)]), sample_world)) /\
  (forall operations,
     sample_edit_excel "/docs/none.docx" operations sample_world
     = (Ok (PDict [("success", PBool false);
                   ("message", PStr ("File not found: " +:+ "/docs/none.docx"));
                   ("filepath", PNone)]), sample_world)) /\
  (forall target_path,
     convert_word_to_pdf sample_repr_str sample_word_render "/docs/none.docx" target_path
                         sample_world
     = (Ok (PDict [("success", PBool false);
                   ("message",
                    PStr ("Source file not found: " +:+ "/docs/none.docx"));
                   ("filepath", PNone)]), sample_world)).
Proof.
  split; [reflexivity|].
  exact (missing_file_is_reported sample_repr_str sample_dyn_run_text sample_sheet_title_ok
           sample_ws_delete sample_ws_delete sample_word_render
           "/docs/none.docx" sample_world eq_refl).
Defined.

Lemma delete_file_refusals_witness :
  delete_file sample_repr_str sample_os_permits sample_content_size "/docs/notes.txt" "oui" sample_world
  = (Ok (PDict [("success", PBool false);
                ("message", PStr confirm_message);
                ("filepath", PStr "/docs/notes.txt");
                ("deleted", PBool false)]), sample_world) /\
  delete_file sample_repr_str sample_os_permits sample_content_size "/docs/none.txt" "CORBEILLE" sample_world
  = (Ok (PDict [("success", PBool false);
                ("message", PStr ("File not found: " +:+ "/docs/none.txt"));
                ("filepath", PStr "/docs/none.txt");
                ("deleted", PBool false)]), sample_world) /\
  delete_file sample_repr_str sample_os_permits sample_content_size "/empty" "CORBEILLE" sample_world
  = (Ok (PDict [("success", PBool false);
                ("message",
                 PStr ("Cannot delete directory with this function: "
                       +:+ "/empty"));
                ("filepath", PStr "/empty");
                ("deleted", PBool false)]), sample_world).
Proof.
  split; [|split].
  - exact (proj1 (delete_file_refusals sample_repr_str sample_os_permits sample_content_size
                    "/docs/notes.txt" "oui" sample_world) eq_refl).
  - exact (proj1 (proj2 (delete_file_refusals sample_repr_str sample_os_permits sample_content_size
                           "/docs/none.txt" "CORBEILLE" sample_world))
                 eq_refl eq_refl).
  - exact (proj2 (proj2 (delete_file_refusals sample_repr_str sample_os_permits sample_content_size
                           "/empty" "CORBEILLE" sample_world))
                 [] eq_refl eq_refl).
Defined.

Lemma delete_directory_refusals_witness :
  delete_directory sample_repr_str sample_os_permits "/nowhere" "CORBEILLE" sample_world
  = (Ok (PDict [("success", PBool false);
                ("message", PStr ("Directory not found: " +:+ "/nowhere"));
                ("dirpath", PStr "/nowhere");
                ("deleted", PBool false)]), sample_world) /\
  delete_directory sample_repr_str sample_os_permits "/docs/notes.txt" "CORBEILLE" sample_world
  = (Ok (PDict [("success", PBool false);
                ("message", PStr ("Not a directory: " +:+ "/docs/notes.txt"));
                ("dirpath", PStr "/docs/notes.txt");
                ("deleted", PBool false)]), sample_world).
Proof.
  split.
  - exact (proj1 (delete_directory_refusals sample_repr_str sample_os_permits "/nowhere" "CORBEILLE"
                    sample_world eq_refl) eq_refl).
  - exact (proj2 (delete_directory_refusals sample_repr_str sample_os_permits "/docs/notes.txt" "CORBEILLE"
                    sample_world eq_refl)
                 (CText "first line") eq_refl).
Defined.

Lemma delete_directory_empty_witness :
  resolve sample_world "/empty" = Some (Dir []) /\
  exists d w',
    delete_directory sample_repr_str sample_os_permits "/empty" "CORBEILLE" sample_world = (Ok d, w') /\
    field "success" d = Some (PBool true) /\
    field "deleted" d = Some (PBool true) /\
    field "method" d
    = Some (PStr (if String.eqb "CORBEILLE" "CORBEILLE" then "trash"
                  else "permanent")) /\
    os_path_exists w' "/empty" = false /\
    trash w' = (if String.eqb "CORBEILLE" "CORBEILLE"
                then (abspath sample_world "/empty", Dir [])
                       :: trash sample_world
                else trash sample_world).
Proof.
  split; [reflexivity|].
  refine (delete_directory_empty sample_repr_str sample_os_permits
            "/empty" "CORBEILLE" sample_world
            eq_refl _ eq_refl eq_refl eq_refl).
  vm_compute. discriminate.
Defined.

Lemma row_height_read_back_witness :
  exists row',
    _set_row_height sample_int_lenient (PInt 20) true sample_row = Ok row' /\
    scan_row sample_int_lenient 0 row'
    = Ok ({| row_index := 0; height := Some (20 * 20);
             height_rule := Some (if true then "auto" else "exact") |},
          true,
          snd ({| row_index := 0; height := None; height_rule := None |},
               false, [Some 5043; Some 5043])).
Proof.
  refine (row_height_read_back sample_int_lenient 20 true sample_row 0%nat
            ({| row_index := 0; height := None; height_rule := None |},
             false, [Some 5043; Some 5043]) _ _).
  - intros pr H. vm_compute in H. discriminate H.
  - vm_compute. reflexivity.
Defined.

Lemma row_height_first_wins_witness :
  exists row',
    _set_row_height sample_int_lenient (PInt 20) true sample_row_high
    = Ok row' /\
    length (findall "w:trHeight"
              match find "w:trPr" row' with
              | Some pr' => pr'
              | None => sample_trPr
              end)
    = S (length (findall "w:trHeight" sample_trPr)) /\
    scan_row sample_int_lenient 0 row'
    = scan_row sample_int_lenient 0 sample_row_high.
Proof.
  exact (row_height_first_wins sample_int_lenient 20 true sample_row_high
           sample_trPr sample_trHeight 0%nat eq_refl eq_refl).
Defined.

Lemma cell_width_read_back_witness :
  exists cell',
    _set_cell_width 2000 sample_bare_cell = Ok cell' /\
    cell_width sample_int_lenient cell' = Ok (Some 2000).
Proof.
  destruct (cell_width_read_back sample_int_lenient 2000 sample_bare_cell)
    as (cell' & H1 & H2 & _).
  exists cell'. split; [exact H1|]. apply H2. reflexivity.
Defined.

Lemma rich_text_pieces_lossless_witness :
  split_bold "plain text" 0 "" = ["plain text"].
Proof.
  exact (proj2 (rich_text_pieces_lossless "plain text") eq_refl).
Defined.

Lemma pdf_pages_hold_the_lines_witness :
  exists full last,
    resolve (snd (create_pdf_file sample_repr_str "/docs/out.pdf" sample_two_lines
                                  sample_world)) "/docs/out.pdf"
    = Some (File (CPdf (full ++ [last]))) /\
    drawn_strings (full ++ [last]) = split_on "010" sample_two_lines /\
    Forall (fun pg => length pg = 48%nat) full /\
    (1 <= length last <= 48)%nat /\
    length (full ++ [last])
    = ((length (split_on "010" sample_two_lines) + 47) `div` 48)%nat /\
    Forall (Forall well_placed) (full ++ [last]).
Proof.
  refine (pdf_pages_hold_the_lines sample_repr_str "/docs/out.pdf" sample_two_lines
            sample_world _
            (answer_of (create_pdf_file sample_repr_str "/docs/out.pdf" sample_two_lines
                                        sample_world)) _ _).
  - vm_compute. reflexivity.
  - reflexivity.
Defined.

Lemma txt_lines_become_paragraphs_witness :
  exists doc r,
    resolve (snd (convert_txt_to_word sample_repr_str sample_dyn_run_text "/docs/notes.txt"
                    "/docs/notes.docx" sample_world)) "/docs/notes.docx"
    = Some (File (package doc)) /\
    body_of doc
    = Ok (map text_paragraph
            (List.filter nonblank
               (split_on "010" (universal_newlines false "first line")))
          ++ [default_sectPr])%list /\
    sample_read "/docs/notes.docx"
      (snd (convert_txt_to_word sample_repr_str sample_dyn_run_text "/docs/notes.txt"
              "/docs/notes.docx" sample_world))
    = (Ok r, snd (convert_txt_to_word sample_repr_str sample_dyn_run_text "/docs/notes.txt"
                    "/docs/notes.docx" sample_world)) /\
    field "success" r = Some (PBool true) /\
    field "paragraphs_count" r
    = Some (PInt (Z.of_nat
                    (length (List.filter nonblank
                               (split_on "010"
                                  (universal_newlines false
                                     "first line")))))) /\
    field "tables_count" r = Some (PInt 0).
Proof.
  refine (txt_lines_become_paragraphs sample_repr_str sample_int_lenient sample_dyn_run_text
            "/docs/notes.txt" "/docs/notes.docx" "first line" sample_world _
            (answer_of (convert_txt_to_word sample_repr_str sample_dyn_run_text
                          "/docs/notes.txt" "/docs/notes.docx" sample_world))
            eq_refl eq_refl _ _).
  - vm_compute. reflexivity.
  - reflexivity.
Defined.

Lemma created_document_reads_back_witness :
  exists doc r,
    resolve (snd (create_word_document sample_repr_str sample_dyn_run_text "/docs/new.docx"
                    "hello" sample_world)) "/docs/new.docx"
    = Some (File (package doc)) /\
    body_of doc = Ok [text_paragraph "hello"; default_sectPr] /\
    sample_read "/docs/new.docx"
      (snd (create_word_document sample_repr_str sample_dyn_run_text "/docs/new.docx"
              "hello" sample_world))
    = (Ok r, snd (create_word_document sample_repr_str sample_dyn_run_text "/docs/new.docx"
                    "hello" sample_world)) /\
    field "success" r = Some (PBool true) /\
    field "paragraphs_count" r = Some (PInt 1) /\
    field "tables_count" r = Some (PInt 0) /\
    field "tables" r = Some (PList []).
Proof.
  refine (created_document_reads_back sample_repr_str sample_int_lenient sample_dyn_run_text
            "/docs/new.docx" "hello" sample_world _
            (answer_of (create_word_document sample_repr_str sample_dyn_run_text
                          "/docs/new.docx" "hello" sample_world)) _ _).
  - vm_compute. reflexivity.
  - reflexivity.
Defined.

Local Notation sample_delete_op :=
  [("type", PStr "delete_paragraph"); ("index", PInt 1)].

Local Notation sample_edit_op :=
  [("type", PStr "edit_paragraph"); ("index", PInt 1);
   ("text", PStr "changed")].

Local Notation sample_edited :=
  (match apply_word_op sample_dyn_run_text sample_edit_op sample_opened with
   | Ok d => d
   | Raise _ => sample_opened
   end).

Lemma delete_paragraph_in_range_witness :
  exists d' l1 x l2,
    apply_word_op sample_dyn_run_text sample_delete_op sample_opened = Ok d' /\
    sample_blocks = (l1 ++ x :: l2)%list /\
    has_tag "w:p" x = true /\
    Z.of_nat (count_paragraphs l1) = 1 /\
    body_of d' = Ok (l1 ++ l2)%list.
Proof.
  refine (delete_paragraph_in_range sample_dyn_run_text sample_delete_op
            sample_opened sample_blocks 1 _ eq_refl eq_refl _).
  - vm_compute. reflexivity.
  - split; [lia|vm_compute; reflexivity].
Defined.

Lemma edit_paragraph_in_range_witness :
  exists l1 x l2 run,
    sample_blocks = (l1 ++ x :: l2)%list /\
    has_tag "w:p" x = true /\
    Z.of_nat (count_paragraphs l1) = 1 /\
    make_run sample_dyn_run_text (dict_get_or "text" (PStr "") sample_edit_op)
    = Ok run /\
    body_of sample_edited
    = Ok (l1 ++ with_children x
                  (List.filter (has_tag "w:pPr") (children_of x) ++ [run])
             :: l2)%list.
Proof.
  refine (edit_paragraph_in_range sample_dyn_run_text sample_edit_op
            sample_opened sample_edited sample_blocks 1 _ eq_refl eq_refl
            _ _).
  - vm_compute. reflexivity.
  - split; [lia|vm_compute; reflexivity].
  - vm_compute. reflexivity.
Defined.

Local Notation sample_sheet_ops :=
  [[("type", PStr "add_sheet"); ("name", PStr "Extra")];
   [("type", PStr "delete_sheet"); ("sheet", PStr "Sheet1")];
   [("type", PStr "delete_sheet"); ("sheet", PStr "Extra")]].

Lemma excel_edit_keeps_a_sheet_witness :
  exists wb',
    resolve (snd (sample_edit_excel "/docs/book.xlsx" sample_sheet_ops
                                    sample_sheets)) "/docs/book.xlsx"
    = Some (File (CXlsx wb')) /\
    wb' <> [] /\ NoDup (sheetnames wb').
Proof.
  refine (excel_edit_keeps_a_sheet sample_repr_str sample_sheet_title_ok sample_ws_delete
            sample_ws_delete "/docs/book.xlsx" sample_sheet_ops
            [("Sheet1", [(1, 1, PStr "a")])] sample_sheets _
            (answer_of (sample_edit_excel "/docs/book.xlsx" sample_sheet_ops
                                          sample_sheets))
            eq_refl _ _ _ _).
  - discriminate.
  - apply NoDup_singleton.
  - vm_compute. reflexivity.
  - reflexivity.
Defined.


Local Notation sample_formatted_world :=
  (snd (sample_create_formatted "/docs/out.docx"
          (sample_table_text "[3000, 5000]") sample_world)).

Lemma formatted_tables_counted_witness :
  exists sections,
    py_iter (dict_get_or "sections" (PList [])
               (sample_table_data [PInt 3000; PInt 5000]))
    = Ok sections /\
    field "tables_count"
      (answer_of (sample_read "/docs/out.docx" sample_formatted_world))
    = Some (PInt (Z.of_nat (tables_emitted sections))).
Proof.
  refine (formatted_tables_counted sample_repr_str sample_int_lenient sample_repr_container
            sample_dyn_run_text sample_int_base16 sample_json_loads
            "/docs/out.docx" (sample_table_text "[3000, 5000]")
            (sample_table_data [PInt 3000; PInt 5000])
            sample_world sample_formatted_world
            (snd (sample_read "/docs/out.docx" sample_formatted_world))
            (answer_of (sample_create_formatted "/docs/out.docx"
                          (sample_table_text "[3000, 5000]") sample_world))
            _ eq_refl _ _ _ _).
  - vm_compute. reflexivity.
  - reflexivity.
  - vm_compute. reflexivity.
  - reflexivity.
Defined.

Local Notation sample_header_world :=
  (snd (sample_create_formatted_more "/docs/top.docx" sample_header_text
          sample_world)).

Lemma formatted_header_footer_flags_witness :
  field "has_header"
    (answer_of (sample_read "/docs/top.docx" sample_header_world))
  = Some (PBool (py_truthy (dict_get_or "header" PNone sample_header_data))) /\
  field "has_footer"
    (answer_of (sample_read "/docs/top.docx" sample_header_world))
  = Some (PBool (py_truthy (dict_get_or "footer" PNone sample_header_data))).
Proof.
  refine (formatted_header_footer_flags sample_repr_str sample_int_lenient
            sample_repr_container sample_dyn_run_text sample_int_base16
            sample_json_loads_more "/docs/top.docx" sample_header_text
            sample_header_data sample_world sample_header_world
            (snd (sample_read "/docs/top.docx" sample_header_world))
            (answer_of (sample_create_formatted_more "/docs/top.docx"
                          sample_header_text sample_world))
            _ eq_refl _ _ _ _).
  - vm_compute. reflexivity.
  - reflexivity.
  - vm_compute. reflexivity.
  - reflexivity.
Defined.

Lemma formatted_without_sections_is_empty_witness :
  exists r,
    sample_read "/docs/top.docx" sample_header_world
    = (Ok r, sample_header_world) /\
    field "success" r = Some (PBool true) /\
    field "paragraphs_count" r = Some (PInt 0) /\
    field "tables_count" r = Some (PInt 0).
Proof.
  refine (formatted_without_sections_is_empty sample_repr_str sample_int_lenient
            sample_repr_container sample_dyn_run_text sample_int_base16
            sample_json_loads_more "/docs/top.docx" sample_header_text
            sample_header_data sample_world sample_header_world
            (answer_of (sample_create_formatted_more "/docs/top.docx"
                          sample_header_text sample_world))
            eq_refl eq_refl eq_refl eq_refl _ _).
  - vm_compute. reflexivity.
  - reflexivity.
Defined.


Local Notation sample_more_op :=
  [("type", PStr "add_paragraph"); ("text", PStr "more")].

Local Notation sample_level_op :=
  [("type", PStr "add_heading"); ("text", PStr "Deep"); ("level", PInt 10)].

Local Notation sample_level_error :=
  (Exn ValueError ("level must be in range 0-9, got " +:+ string_of_Z 10)).

Lemma failing_word_operation_discards_edit_witness :
  edit_word_document sample_repr_str sample_dyn_run_text "/docs/a.docx"
    ([sample_more_op] ++ sample_level_op :: [sample_more_op]) sample_office
  = (Ok (failure "Error editing Word document" sample_level_error),
     sample_office).
Proof.
  refine (failing_word_operation_discards_edit sample_repr_str sample_dyn_run_text
            "/docs/a.docx" [sample_more_op] [sample_more_op] sample_level_op
            sample_opened
            (match apply_word_ops sample_dyn_run_text [sample_more_op]
                                  sample_opened with
             | Ok d => d
             | Raise _ => sample_opened
             end)
            sample_level_error sample_office _ _ _).
  - vm_compute. reflexivity.
  - vm_compute. reflexivity.
  - vm_compute. reflexivity.
Defined.

Local Notation sample_extra_op :=
  [("type", PStr "add_sheet"); ("name", PStr "Extra")].

Local Notation sample_cell_op :=
  [("type", PStr "update_cell"); ("row", PInt 0); ("value", PStr "x")].

Lemma failing_excel_operation_discards_edit_witness :
  sample_edit_excel "/docs/book.xlsx"
    ([sample_extra_op] ++ sample_cell_op :: []) sample_sheets
  = (Ok (failure "Error editing Excel file"
           (Exn ValueError "Row or column values must be at least 1")),
     sample_sheets).
Proof.
  refine (failing_excel_operation_discards_edit sample_repr_str sample_sheet_title_ok
            sample_ws_delete sample_ws_delete "/docs/book.xlsx"
            [sample_extra_op] [] sample_cell_op
            [("Sheet1", [(1, 1, PStr "a")])]
            [("Sheet1", [(1, 1, PStr "a")]); ("Extra", [])]
            (Exn ValueError "Row or column values must be at least 1")
            sample_sheets eq_refl _ _).
  - vm_compute. reflexivity.
  - vm_compute. reflexivity.
Defined.
